(** * Signal fusion and position risk engine of the Bybit trading robot

    A shallow embedding of the parts of [riskManager], [technicalAnalysis]
    and [tradingBot] that decide the properties proved in the second half of
    this file.

    Conventions of the embedding.
    - A JavaScript number is an exact rational ([Q]).  Rounding of binary
      floating point, [NaN] and the infinities are not represented; where the
      source divides, the places at which the divisor can be zero are guarded
      in the source or pointed out at the definition.  The statements about
      these definitions are comparisons and equalities between one and the
      same computation, which rounding keeps.  Where an answer of the program
      turns on the last bits of a quotient, the operations are those of
      [Double], which round as the program does.
    - [null] is [None]; a numeric field that the source initialises with
      [null] has type [option Q] and is coerced by [Js.num] where the source
      uses it in arithmetic or in a comparison ([Number(null)] is [0]).
    - [a || b] on numbers is [Js.orElse]: [0] and [null] are falsy.
    - A method that mutates [this] takes the object and returns the new
      object together with the method's result.
    - [Date.now()] and [new Date().toDateString()] are read from explicit
      arguments ([now], [today]).
    - [console.log] and the logger calls are dropped. *)

From Stdlib Require Import QArith Qround Qminmax Qabs ZArith List.
From Stdlib Require Import Sorted Permutation.
From Stdlib Require Import Lqa Qpower.
From stdpp Require Import gmap strings pretty.

Local Open Scope Q_scope.

(** ** JavaScript primitives *)

Module Js.

(** [x < y] on numbers. *)
Definition ltb (x y : Q) : bool := negb (Qle_bool y x).

(** [x <= y] on numbers. *)
Definition leb (x y : Q) : bool := Qle_bool x y.

(** Truthiness of a number: every number but [0] (there is no [NaN]). *)
Definition truthy (x : Q) : bool := negb (Qeq_bool x 0).

(** [a || b] where [a] is a number or [null]. *)
Definition orElse (a : option Q) (b : Q) : Q :=
  match a with
  | Some x => if truthy x then x else b
  | None => b
  end.

(** [Number(v)] for a value that is a number or [null]. *)
Definition num (v : option Q) : Q :=
  match v with
  | Some x => x
  | None => 0
  end.

(** [Math.floor]. *)
Definition floor (x : Q) : Q := inject_Z (Qfloor x).

(** [Math.pow(10, d)] for an integer [d]. *)
Definition pow10 (d : Z) : Q := Qpower 10 d.

(** [x.toFixed(1)]: the sign, then the nearest multiple of a tenth, ties
    to the larger one (below [1e21], where the source prints no exponent). *)
Definition toFixed1 (x : Q) : string :=
  let sgn := if ltb x 0 then "-"%string else ""%string in
  let ax := if ltb x 0 then - x else x in
  let n := Qfloor (ax * 10 + 0.5) in
  (sgn +:+ pretty (n / 10)%Z +:+ "." +:+ pretty (n mod 10)%Z)%string.

(** [s.slice(0, -2)], on the bytes of [s]: the same string as the source's
    as long as the two code units cut off are ASCII characters. *)
Definition dropLast2 (s : string) : string :=
  String.substring 0 (String.length s - 2) s.

End Js.

(** ** The risk manager *)

Module RiskManager.

(** The fields of the configuration object that the risk manager reads:
    [config.trading.positionSize], [config.trading.stopLoss],
    [config.trading.riskRewardRatio], [config.trading.maxPositions],
    [config.riskManagement.dailyLossLimit] and
    [config.riskManagement.maxDrawdown].  The configuration module is not
    part of the sources, so its values are a parameter of the state; the two
    fields that the source reads through [||] may be unset. *)
Module Config.
Record t := mk {
  positionSize : Q;
  stopLoss : option Q;
  riskRewardRatio : option Q;
  maxPositions : Q;
  dailyLossLimit : Q;
  maxDrawdown : Q
}.
End Config.

(** The object built by [addPosition]; the last four fields are the ones
    [closePosition] adds. *)
Record Position := mkPosition {
  symbol : string;
  side : string;
  size : Q;
  entryPrice : Q;
  stopLoss : Q;
  takeProfit : Q;
  timestamp : Z;
  status : string;
  isTrailingStop : bool;
  trailingStopDistance : option Q;
  highestPrice : option Q;
  lowestPrice : option Q;
  exitPrice : option Q;
  exitTime : option Z;
  reason : option string;
  pnl : option Q
}.

(** The fields set by the constructor.  [totalDrawdown] is [None] when the
    source's quotient is not a finite number (see [checkMaxDrawdown]). *)
Record t := mkRiskManager {
  config : Config.t;
  dailyLoss : Q;
  dailyProfit : Q;
  totalDrawdown : option Q;
  peakBalance : Q;
  trades : list Position;
  positions : gmap string Position;
  lastResetDate : string
}.

Definition new (cfg : Config.t) (today : string) : t :=
  {| config := cfg; dailyLoss := 0; dailyProfit := 0;
     totalDrawdown := Some 0; peakBalance := 0; trades := [];
     positions := ∅; lastResetDate := today |}.

(** *** Field updates *)

Definition withPositions (rm : t) (m : gmap string Position) : t :=
  {| config := config rm; dailyLoss := dailyLoss rm;
     dailyProfit := dailyProfit rm; totalDrawdown := totalDrawdown rm;
     peakBalance := peakBalance rm; trades := trades rm;
     positions := m; lastResetDate := lastResetDate rm |}.

Definition withTrades (rm : t) (l : list Position) : t :=
  {| config := config rm; dailyLoss := dailyLoss rm;
     dailyProfit := dailyProfit rm; totalDrawdown := totalDrawdown rm;
     peakBalance := peakBalance rm; trades := l;
     positions := positions rm; lastResetDate := lastResetDate rm |}.

Definition withDailyLoss (rm : t) (x : Q) : t :=
  {| config := config rm; dailyLoss := x;
     dailyProfit := dailyProfit rm; totalDrawdown := totalDrawdown rm;
     peakBalance := peakBalance rm; trades := trades rm;
     positions := positions rm; lastResetDate := lastResetDate rm |}.

Definition withDailyProfit (rm : t) (x : Q) : t :=
  {| config := config rm; dailyLoss := dailyLoss rm;
     dailyProfit := x; totalDrawdown := totalDrawdown rm;
     peakBalance := peakBalance rm; trades := trades rm;
     positions := positions rm; lastResetDate := lastResetDate rm |}.

Definition withDrawdown (rm : t) (peak : Q) (dd : option Q) : t :=
  {| config := config rm; dailyLoss := dailyLoss rm;
     dailyProfit := dailyProfit rm; totalDrawdown := dd;
     peakBalance := peak; trades := trades rm;
     positions := positions rm; lastResetDate := lastResetDate rm |}.

Definition resetDay (rm : t) (today : string) : t :=
  {| config := config rm; dailyLoss := 0;
     dailyProfit := 0; totalDrawdown := totalDrawdown rm;
     peakBalance := peakBalance rm; trades := trades rm;
     positions := positions rm; lastResetDate := today |}.

Definition withStopLoss (p : Position) (sl : Q) : Position :=
  {| symbol := symbol p; side := side p; size := size p;
     entryPrice := entryPrice p; stopLoss := sl;
     takeProfit := takeProfit p; timestamp := timestamp p;
     status := status p; isTrailingStop := isTrailingStop p;
     trailingStopDistance := trailingStopDistance p;
     highestPrice := highestPrice p; lowestPrice := lowestPrice p;
     exitPrice := exitPrice p; exitTime := exitTime p;
     reason := reason p; pnl := pnl p |}.

Definition withTakeProfit (p : Position) (tp : Q) : Position :=
  {| symbol := symbol p; side := side p; size := size p;
     entryPrice := entryPrice p; stopLoss := stopLoss p;
     takeProfit := tp; timestamp := timestamp p;
     status := status p; isTrailingStop := isTrailingStop p;
     trailingStopDistance := trailingStopDistance p;
     highestPrice := highestPrice p; lowestPrice := lowestPrice p;
     exitPrice := exitPrice p; exitTime := exitTime p;
     reason := reason p; pnl := pnl p |}.

Definition withIsTrailingStop (p : Position) (b : bool) : Position :=
  {| symbol := symbol p; side := side p; size := size p;
     entryPrice := entryPrice p; stopLoss := stopLoss p;
     takeProfit := takeProfit p; timestamp := timestamp p;
     status := status p; isTrailingStop := b;
     trailingStopDistance := trailingStopDistance p;
     highestPrice := highestPrice p; lowestPrice := lowestPrice p;
     exitPrice := exitPrice p; exitTime := exitTime p;
     reason := reason p; pnl := pnl p |}.

Definition withTrailingStopDistance (p : Position) (d : option Q) : Position :=
  {| symbol := symbol p; side := side p; size := size p;
     entryPrice := entryPrice p; stopLoss := stopLoss p;
     takeProfit := takeProfit p; timestamp := timestamp p;
     status := status p; isTrailingStop := isTrailingStop p;
     trailingStopDistance := d;
     highestPrice := highestPrice p; lowestPrice := lowestPrice p;
     exitPrice := exitPrice p; exitTime := exitTime p;
     reason := reason p; pnl := pnl p |}.

Definition withHighestPrice (p : Position) (h : option Q) : Position :=
  {| symbol := symbol p; side := side p; size := size p;
     entryPrice := entryPrice p; stopLoss := stopLoss p;
     takeProfit := takeProfit p; timestamp := timestamp p;
     status := status p; isTrailingStop := isTrailingStop p;
     trailingStopDistance := trailingStopDistance p;
     highestPrice := h; lowestPrice := lowestPrice p;
     exitPrice := exitPrice p; exitTime := exitTime p;
     reason := reason p; pnl := pnl p |}.

Definition withLowestPrice (p : Position) (l : option Q) : Position :=
  {| symbol := symbol p; side := side p; size := size p;
     entryPrice := entryPrice p; stopLoss := stopLoss p;
     takeProfit := takeProfit p; timestamp := timestamp p;
     status := status p; isTrailingStop := isTrailingStop p;
     trailingStopDistance := trailingStopDistance p;
     highestPrice := highestPrice p; lowestPrice := l;
     exitPrice := exitPrice p; exitTime := exitTime p;
     reason := reason p; pnl := pnl p |}.

(** The five assignments at the head of [closePosition]. *)
Definition closed (p : Position) (exit : Q) (now : Z) (why : string)
    (profit : Q) : Position :=
  {| symbol := symbol p; side := side p; size := size p;
     entryPrice := entryPrice p; stopLoss := stopLoss p;
     takeProfit := takeProfit p; timestamp := timestamp p;
     status := "closed"; isTrailingStop := isTrailingStop p;
     trailingStopDistance := trailingStopDistance p;
     highestPrice := highestPrice p; lowestPrice := lowestPrice p;
     exitPrice := Some exit; exitTime := Some now;
     reason := Some why; pnl := Some profit |}.

(** *** Portfolio gates *)

(** [checkDailyLossLimit()]; [today] is [new Date().toDateString()]. *)
Definition checkDailyLossLimit (rm : t) (today : string) : t * bool :=
  let rm1 :=
    if negb (String.eqb today (lastResetDate rm)) then resetDay rm today
    else rm in
  (rm1, Js.ltb (dailyLoss rm1) (Config.dailyLossLimit (config rm1))).

(** [checkMaxDrawdown(currentBalance)].  With [peakBalance = 0] and
    [currentBalance <= 0] the source's quotient is [NaN] or [Infinity]; the
    comparison with the limit is then false, which is what [None] stands
    for. *)
Definition checkMaxDrawdown (rm : t) (currentBalance : Q) : t * bool :=
  let rm1 :=
    if Js.ltb (peakBalance rm) currentBalance
    then withDrawdown rm currentBalance (Some 0)
    else withDrawdown rm (peakBalance rm)
           (if Qeq_bool (peakBalance rm) 0 then None
            else Some ((peakBalance rm - currentBalance) / peakBalance rm)) in
  (rm1,
   match totalDrawdown rm1 with
   | Some d => Js.ltb d (Config.maxDrawdown (config rm1))
   | None => false
   end).

(** [canOpenNewPosition()]. *)
Definition canOpenNewPosition (rm : t) : bool :=
  Js.ltb (inject_Z (Z.of_nat (base.size (positions rm))))
    (Config.maxPositions (config rm)).

(** *** Position sizing *)

(** [table[key]] on an object literal used as a table: the value of the
    entry, [None] for [undefined].  The keys that every object inherits
    (['constructor'] and the like) are not symbols of instruments and are
    left out. *)
Fixpoint objGet {A : Type} (k : string) (o : list (string * A)) : option A :=
  match o with
  | [] => None
  | (k', v) :: o' => if String.eqb k k' then Some v else objGet k o'
  end.

Definition decimalsMap : list (string * Z) :=
  [ ("BTCUSDT", 3); ("ETHUSDT", 2); ("ETCUSDT", 2); ("XRPUSDT", 0);
    ("ADAUSDT", 1); ("DOTUSDT", 2); ("LINKUSDT", 2); ("LTCUSDT", 3);
    ("BCHUSDT", 3); ("EOSUSDT", 1); ("TRXUSDT", 0); ("SOLUSDT", 2);
    ("AVAXUSDT", 2); ("FARTCOINUSDT", 0); ("BNBUSDT", 3);
    ("TRUMPUSDT", 0); ("TONUSDT", 2) ]%Z.

(** [decimalsMap[symbol] || 2]: an entry [0] is falsy and yields [2]. *)
Definition getSymbolDecimals (sym : string) : Z :=
  match objGet sym decimalsMap with
  | Some d => if (d =? 0)%Z then 2%Z else d
  | None => 2%Z
  end.

Definition minQtyMap : list (string * Q) :=
  [ ("BTCUSDT", 0.001); ("ETHUSDT", 0.01); ("ETCUSDT", 0.02);
    ("XRPUSDT", 5); ("ADAUSDT", 0.1); ("DOTUSDT", 0.01);
    ("LINKUSDT", 0.01); ("LTCUSDT", 0.001); ("BCHUSDT", 0.001);
    ("EOSUSDT", 0.1); ("TRXUSDT", 1); ("SOLUSDT", 0.01);
    ("AVAXUSDT", 0.01); ("FARTCOINUSDT", 1); ("BNBUSDT", 0.001);
    ("TRUMPUSDT", 1); ("TONUSDT", 0.01) ].

(** [minQtyMap[symbol] || 0.01]. *)
Definition getMinQty (sym : string) : Q :=
  Js.orElse (objGet sym minQtyMap) 0.01.

(** The object returned by [calculatePositionSize]. *)
Record PositionSize := mkPositionSize {
  sizeUSD : Q;
  quantity : Q;
  price : Q
}.

(** [calculatePositionSize(balance, symbol, signalStrength, confidence,
    currentPrice)].  A caller that omits [confidence] passes [50], one that
    omits [currentPrice] passes [None]. *)
Definition calculatePositionSize (rm : t) (balance : Q) (sym : string)
    (signalStrength confidence : Q) (currentPrice : option Q) : PositionSize :=
  let baseSizeUSD := balance * Config.positionSize (config rm) in
  let strengthMultiplier := Qmin (signalStrength * 1.5) 1.5 in
  let confidenceMultiplier := confidence / 100 in
  let adjustedSizeUSD := baseSizeUSD * strengthMultiplier * confidenceMultiplier in
  let minSizeUSD := 25 in
  let maxSizeUSD := balance * 0.7 in
  let finalSizeUSD := Qmax (Qmin adjustedSizeUSD maxSizeUSD) minSizeUSD in
  match currentPrice with
  | Some cp =>
      if Js.truthy cp && Js.ltb 0 cp then
        let qty := finalSizeUSD / cp in
        let decimals := getSymbolDecimals sym in
        let roundedQuantity :=
          Js.floor (qty * Js.pow10 decimals) / Js.pow10 decimals in
        let minQty := getMinQty sym in
        let finalQuantity := Qmax roundedQuantity minQty in
        {| sizeUSD := finalSizeUSD; quantity := finalQuantity; price := cp |}
      else {| sizeUSD := finalSizeUSD; quantity := finalSizeUSD; price := 1 |}
  | None => {| sizeUSD := finalSizeUSD; quantity := finalSizeUSD; price := 1 |}
  end.

(** *** Stop-loss and take-profit *)

(** [calculateStopLoss(entryPrice, side, riskPercent)]. *)
Definition calculateStopLoss (rm : t) (entry : Q) (sd : string)
    (riskPercent : option Q) : Q :=
  let defaultRisk := Js.orElse (Config.stopLoss (config rm)) 0.02 in
  let risk := Js.orElse riskPercent defaultRisk in
  if String.eqb sd "Buy" then entry * (1 - risk) else entry * (1 + risk).

(** [calculateTakeProfit(entryPrice, side, stopLoss, riskRewardRatio)]. *)
Definition calculateTakeProfit (rm : t) (entry : Q) (sd : string) (sl : Q)
    (riskRewardRatio : option Q) : Q :=
  let defaultRatio := Js.orElse (Config.riskRewardRatio (config rm)) 2 in
  let ratio := Js.orElse riskRewardRatio defaultRatio in
  let riskDistance := Qabs (entry - sl) in
  if String.eqb sd "Buy" then entry + riskDistance * ratio
  else entry - riskDistance * ratio.

(** [validateStopLoss(position, stopLossPrice)]. *)
Definition validateStopLoss (p : Position) (stopLossPrice : Q) : bool :=
  if String.eqb (side p) "Buy" then Js.ltb stopLossPrice (entryPrice p)
  else Js.ltb (entryPrice p) stopLossPrice.

(** [setStopLoss(symbol, stopLossPrice, isTrailing)]. *)
Definition setStopLoss (rm : t) (sym : string) (stopLossPrice : Q)
    (isTrailing : bool) : t * bool :=
  match positions rm !! sym with
  | None => (rm, false)
  | Some position =>
      if negb (validateStopLoss position stopLossPrice) then (rm, false)
      else
        let p1 := withIsTrailingStop (withStopLoss position stopLossPrice)
                    isTrailing in
        let p2 :=
          if isTrailing then
            let p' := withTrailingStopDistance p1
                        (Some (Qabs (entryPrice p1 - stopLossPrice))) in
            let p'' := withHighestPrice p'
                         (Some (if String.eqb (side p') "Buy"
                                then entryPrice p' else stopLossPrice)) in
            withLowestPrice p''
              (Some (if String.eqb (side p'') "Sell"
                     then entryPrice p'' else stopLossPrice))
          else p1 in
        (withPositions rm (<[sym := p2]> (positions rm)), true)
  end.

(** [updateTrailingStop(symbol, currentPrice)]. *)
Definition updateTrailingStop (rm : t) (sym : string) (currentPrice : Q)
    : t * bool :=
  match positions rm !! sym with
  | None => (rm, false)
  | Some position =>
      if negb (isTrailingStop position) then (rm, false)
      else
        let dist := Js.num (trailingStopDistance position) in
        if String.eqb (side position) "Buy" then
          if Js.ltb (Js.num (highestPrice position)) currentPrice then
            let p1 := withHighestPrice position (Some currentPrice) in
            let newStopLoss := currentPrice - dist in
            if Js.ltb (stopLoss p1) newStopLoss then
              (withPositions rm
                 (<[sym := withStopLoss p1 newStopLoss]> (positions rm)), true)
            else (withPositions rm (<[sym := p1]> (positions rm)), false)
          else (rm, false)
        else
          if Js.ltb currentPrice (Js.num (lowestPrice position)) then
            let p1 := withLowestPrice position (Some currentPrice) in
            let newStopLoss := currentPrice + dist in
            if Js.ltb newStopLoss (stopLoss p1) then
              (withPositions rm
                 (<[sym := withStopLoss p1 newStopLoss]> (positions rm)), true)
            else (withPositions rm (<[sym := p1]> (positions rm)), false)
          else (rm, false)
  end.

(** [modifyTakeProfit(symbol, newTakeProfit)]. *)
Definition modifyTakeProfit (rm : t) (sym : string) (newTakeProfit : Q)
    : t * bool :=
  match positions rm !! sym with
  | None => (rm, false)
  | Some position =>
      (withPositions rm
         (<[sym := withTakeProfit position newTakeProfit]> (positions rm)),
       true)
  end.

(** *** Position lifecycle *)

(** [addPosition(symbol, side, size, entryPrice, customStopLoss,
    customTakeProfit, riskPercent)]; [now] is [Date.now()].  The result is
    the position object that was stored. *)
Definition addPosition (rm : t) (sym sd : string) (sz entry : Q)
    (customStopLoss customTakeProfit riskPercent : option Q) (now : Z)
    : t * Position :=
  let sl := Js.orElse customStopLoss (calculateStopLoss rm entry sd riskPercent) in
  let tp := Js.orElse customTakeProfit (calculateTakeProfit rm entry sd sl None) in
  let position :=
    {| symbol := sym; side := sd; size := sz; entryPrice := entry;
       stopLoss := sl; takeProfit := tp; timestamp := now;
       status := "open"; isTrailingStop := false;
       trailingStopDistance := None;
       highestPrice := if String.eqb sd "Buy" then Some entry else None;
       lowestPrice := if String.eqb sd "Sell" then Some entry else None;
       exitPrice := None; exitTime := None; reason := None; pnl := None |} in
  (withPositions rm (<[sym := position]> (positions rm)), position).

(** [calculatePnL(position, currentPrice)]. *)
Definition calculatePnL (p : Position) (currentPrice : Q) : Q :=
  if String.eqb (side p) "Buy" then (currentPrice - entryPrice p) * size p
  else (entryPrice p - currentPrice) * size p.

(** [closePosition(symbol, exitPrice, reason)]; [now] is [Date.now()]; a
    caller that omits [reason] passes ["manual"]. *)
Definition closePosition (rm : t) (sym : string) (exit : Q) (why : string)
    (now : Z) : t * option Position :=
  match positions rm !! sym with
  | None => (rm, None)
  | Some position =>
      let profit := calculatePnL position exit in
      let position' := closed position exit now why profit in
      let rm1 :=
        if Js.ltb 0 profit then withDailyProfit rm (dailyProfit rm + profit)
        else withDailyLoss rm (dailyLoss rm + Qabs profit) in
      let rm2 := withTrades rm1 (trades rm1 ++ [position']) in
      (withPositions rm2 (delete sym (positions rm2)), Some position')
  end.

(** *** Histories of calls *)

(** The methods that assign to a field of the manager or of a position it
    holds, each with the clock reading it makes.  The other methods that
    change the state do so through these: [modifyStopLoss] is [setStopLoss],
    the two stop-loss and take-profit checks call [updateTrailingStop], and
    [canTrade] calls [checkDailyLossLimit] and [checkMaxDrawdown]. *)
Inductive Call :=
| CheckDailyLossLimit (today : string)
| CheckMaxDrawdown (currentBalance : Q)
| AddPosition (sym sd : string) (sz entry : Q)
    (customStopLoss customTakeProfit riskPercent : option Q) (now : Z)
| ClosePosition (sym : string) (exit : Q) (why : string) (now : Z)
| SetStopLoss (sym : string) (stopLossPrice : Q) (isTrailing : bool)
| UpdateTrailingStop (sym : string) (currentPrice : Q)
| ModifyTakeProfit (sym : string) (newTakeProfit : Q).

Definition call (rm : t) (c : Call) : t :=
  match c with
  | CheckDailyLossLimit today => (checkDailyLossLimit rm today).1
  | CheckMaxDrawdown b => (checkMaxDrawdown rm b).1
  | AddPosition sym sd sz entry csl ctp rp now =>
      (addPosition rm sym sd sz entry csl ctp rp now).1
  | ClosePosition sym exit why now => (closePosition rm sym exit why now).1
  | SetStopLoss sym sl tr => (setStopLoss rm sym sl tr).1
  | UpdateTrailingStop sym cp => (updateTrailingStop rm sym cp).1
  | ModifyTakeProfit sym tp => (modifyTakeProfit rm sym tp).1
  end.

Definition calls (rm : t) (cs : list Call) : t := foldl call rm cs.

(** The day a call reads from the clock is [today], for the calls that read
    one. *)
Definition onDay (today : string) (c : Call) : Prop :=
  match c with
  | CheckDailyLossLimit d => d = today
  | _ => True
  end.

(** The positions of the map are open and filed under their own symbol. *)
Definition openUnderSymbol (rm : t) : Prop :=
  map_Forall (fun k p => symbol p = k /\ status p = "open") (positions rm).

End RiskManager.

(** ** Technical analysis *)

Module TechnicalAnalysis.

(** The strings ['bullish'], ['bearish'] and ['neutral'] of a trend or of an
    indicator vote. *)
Inductive Direction := Bullish | Bearish | Neutral.

(** The strings ['buy'], ['sell'] and ['neutral'] of a trading signal. *)
Inductive TradeSignal := Buy | Sell | NoSignal.

(** The strings returned by [determineTrendRecommendation]. *)
Inductive Recommendation :=
| StrongBuy | ModerateBuy | WeakBuy
| StrongSell | ModerateSell | WeakSell
| WeakTrend | MixedSignals | InsufficientData.

(** The volatility classes ['low'], ['medium'] and ['high']. *)
Inductive VolatilityRank := Low | Medium | High.

(** A stored candle.  [addCandle] applies [parseFloat] to the fields of the
    candle it receives; the embedding starts from the parsed numbers. *)
Module Candle.
Record t := mk {
  timestamp : Z;
  open : Q;
  high : Q;
  low : Q;
  close : Q;
  volume : Q
}.
End Candle.

(** An element of the array returned by [MACD.calculate], and the object
    returned by [calculateMACD]. *)
Module Macd.
Record t := mk {
  macd : Q;
  signal : Q;
  histogram : Q
}.
End Macd.

(** The object returned by [calculateBollingerBands]. *)
Module Bands.
Record t := mk {
  upper : Q;
  middle : Q;
  lower : Q
}.
End Bands.

(** The fields [analyzeSignal] reads of the objects returned by
    [analyzeRSIAdvanced], [analyzeMACDAdvanced] and
    [analyzeBollingerBandsAdvanced]. *)
Module Analysis.
Record t := mk {
  signal : Direction;
  strength : Q;
  confidence : Q
}.
End Analysis.

(** The object returned by [analyzeTrend]. *)
Module Trend.
Record t := mk {
  trend : Direction;
  strength : Q
}.
End Trend.

(** The fields [analyzeSignal] reads of the object returned by
    [analyzeLongTermTrend]. *)
Module LongTermTrend.
Record t := mk {
  direction : Direction;
  strength : Q;
  confidence : Q;
  recommendation : Recommendation
}.
End LongTermTrend.

(** The object returned by [analyzeVolume]. *)
Module Volume.
Record t := mk {
  volumeRatio : Q;
  obvTrend : Direction;
  volumeConfirmation : bool
}.
End Volume.

(** The object returned by [calculateVolatility]. *)
Module Volatility.
Record t := mk {
  volatility : Q;
  atr : option Q;
  volatilityRank : VolatilityRank
}.
End Volatility.

(** The fields [analyzeSignal] reads of the object returned by
    [checkTrendAlignment]. *)
Module Alignment.
Record t := mk {
  aligned : bool;
  direction : Direction;
  score : Q
}.
End Alignment.

(** The object returned by [analyzeSignal].  Of [details] the embedding
    keeps the entries that the bot reads back; they are absent ([None]) in
    the object of the early return. *)
Module Signal.
Record Details := mkDetails {
  rsi_value : option Q;
  macd_value : option Macd.t;
  long_term_trend_direction : option Direction;
  long_term_trend_confidence : option Q
}.
Record t := mk {
  signal : TradeSignal;
  strength : Q;
  confidence : Q;
  details : Details
}.
End Signal.

(** The fields of the object that the embedded methods read. *)
Record t := mkTechnicalAnalysis {
  priceHistory : gmap string (list Candle.t);
  maxHistoryLength : nat
}.

Definition new : t :=
  {| priceHistory := ∅; maxHistoryLength := 500 |}.

(** [addCandle(symbol, candle)]: [push], then [shift] when the history is
    longer than [maxHistoryLength]. *)
Definition addCandle (ta : t) (sym : string) (c : Candle.t) : t :=
  let history := default [] (priceHistory ta !! sym) ++ [c] in
  let history' :=
    if (maxHistoryLength ta <? length history)%nat then tail history
    else history in
  {| priceHistory := <[sym := history']> (priceHistory ta);
     maxHistoryLength := maxHistoryLength ta |}.

(** [getPriceHistory(symbol)]. *)
Definition getPriceHistory (ta : t) (sym : string) : list Candle.t :=
  default [] (priceHistory ta !! sym).

(** [getCurrentPrice(symbol)]. *)
Definition getCurrentPrice (ta : t) (sym : string) : option Q :=
  Candle.close <$> last (getPriceHistory ta sym).

(** [arr.slice(a, b)] for [0 <= a <= b]. *)
Definition slice {A : Type} (a b : nat) (l : list A) : list A :=
  take (b - a) (drop a l).

(** [arr.slice(-n)]: the last [n] elements, and the whole array for
    [n = 0]. *)
Definition sliceLast {A : Type} (n : nat) (l : list A) : list A :=
  if (n =? 0)%nat then l else drop (length l - n) l.

(** [arr.reduce((sum, x) => sum + x, 0)]. *)
Definition sum (l : list Q) : Q := foldl Qplus 0 l.

(** The inner loop of [getVolatilityRank] and of [calculateVolatility]:
    the simple returns of consecutive closes.  A close of [0] makes the
    source's quotient [NaN] or infinite; closes are prices and positive. *)
Fixpoint simpleReturns (cs : list Candle.t) : list Q :=
  match cs with
  | a :: (b :: _) as rest =>
      (Candle.close b - Candle.close a) / Candle.close a :: simpleReturns rest
  | _ => []
  end.

(** [arr.sort((a, b) => a - b)] on numbers. *)
Fixpoint insertAscending (x : Q) (l : list Q) : list Q :=
  match l with
  | [] => [x]
  | y :: l' => if Qle_bool x y then x :: l else y :: insertAscending x l'
  end.

Definition sortAscending (l : list Q) : list Q := foldr insertAscending [] l.

(** [arr.findIndex(f)], counting from [i]; [-1] when no element passes. *)
Fixpoint findIndexFrom (f : Q -> bool) (i : Z) (l : list Q) : Z :=
  match l with
  | [] => (-1)%Z
  | x :: l' => if f x then i else findIndexFrom f (i + 1)%Z l'
  end.

Definition findIndex (f : Q -> bool) (l : list Q) : Z := findIndexFrom f 0%Z l.

(** [getTrendWeight(longTermTrend)]. *)
Definition getTrendWeight (lt : LongTermTrend.t) : Q :=
  Qmin (LongTermTrend.strength lt * (LongTermTrend.confidence lt / 100)) 1.0.

(** [d === d'] on the strings of a direction. *)
Definition directionEqb (d d' : Direction) : bool :=
  match d, d' with
  | Bullish, Bullish | Bearish, Bearish | Neutral, Neutral => true
  | _, _ => false
  end.

(** [s === s'] on the strings of a trading signal. *)
Definition tradeSignalEqb (s s' : TradeSignal) : bool :=
  match s, s' with
  | Buy, Buy | Sell, Sell | NoSignal, NoSignal => true
  | _, _ => false
  end.

(** The condition under which [checkTrendAlignment] counts a vote [s] as
    aligned with the long-term direction [d]. *)
Definition sameDirected (d s : Direction) : bool :=
  (directionEqb d Bullish && directionEqb s Bullish)
  || (directionEqb d Bearish && directionEqb s Bearish).

Definition isNeutral (d : Direction) : bool := directionEqb d Neutral.

(** [checkTrendAlignment(longTermTrend, rsiAnalysis, macdAnalysis)]. *)
Definition checkTrendAlignment (lt : LongTermTrend.t)
    (rsiAnalysis macdAnalysis : Analysis.t) : Alignment.t :=
  if isNeutral (LongTermTrend.direction lt) then
    {| Alignment.aligned := false; Alignment.direction := Neutral;
       Alignment.score := 0 |}
  else
    let '(alignmentScore, totalChecks) :=
      if negb (isNeutral (Analysis.signal rsiAnalysis)) then
        (if sameDirected (LongTermTrend.direction lt)
              (Analysis.signal rsiAnalysis) then 1 else 0, 1)
      else (0, 0) in
    let '(alignmentScore, totalChecks) :=
      if negb (isNeutral (Analysis.signal macdAnalysis)) then
        (if sameDirected (LongTermTrend.direction lt)
              (Analysis.signal macdAnalysis)
         then alignmentScore + 1 else alignmentScore, totalChecks + 1)
      else (alignmentScore, totalChecks) in
    let alignmentRatio :=
      if Js.ltb 0 totalChecks then alignmentScore / totalChecks else 0 in
    {| Alignment.aligned := Js.leb 0.5 alignmentRatio;
       Alignment.direction := LongTermTrend.direction lt;
       Alignment.score := alignmentRatio |}.

(** The four accumulators of [analyzeSignal]. *)
Record Counters := mkCounters {
  bullishSignals : Q;
  bearishSignals : Q;
  totalSignals : Q;
  confidence : Q
}.

(** [bullishSignals += s; confidence += c]. *)
Definition voteBullish (a : Counters) (s c : Q) : Counters :=
  {| bullishSignals := bullishSignals a + s;
     bearishSignals := bearishSignals a;
     totalSignals := totalSignals a;
     confidence := confidence a + c |}.

(** [bearishSignals += s; confidence += c]. *)
Definition voteBearish (a : Counters) (s c : Q) : Counters :=
  {| bullishSignals := bullishSignals a;
     bearishSignals := bearishSignals a + s;
     totalSignals := totalSignals a;
     confidence := confidence a + c |}.

(** [confidence += c]. *)
Definition addConfidence (a : Counters) (c : Q) : Counters :=
  {| bullishSignals := bullishSignals a;
     bearishSignals := bearishSignals a;
     totalSignals := totalSignals a;
     confidence := confidence a + c |}.

(** [confidence *= k]. *)
Definition scaleConfidence (a : Counters) (k : Q) : Counters :=
  {| bullishSignals := bullishSignals a;
     bearishSignals := bearishSignals a;
     totalSignals := totalSignals a;
     confidence := confidence a * k |}.

(** [totalSignals++]. *)
Definition countSignal (a : Counters) : Counters :=
  {| bullishSignals := bullishSignals a;
     bearishSignals := bearishSignals a;
     totalSignals := totalSignals a + 1;
     confidence := confidence a |}.

(** A vote of an indicator analysis, with the base confidence of [5] for a
    neutral one: steps 1, 2 and 5 of [analyzeSignal]. *)
Definition voteAnalysis (a : Counters) (x : Analysis.t) : Counters :=
  match Analysis.signal x with
  | Bullish => voteBullish a (Analysis.strength x) (Analysis.confidence x)
  | Bearish => voteBearish a (Analysis.strength x) (Analysis.confidence x)
  | Neutral => addConfidence a 5
  end.

(** Step 3: the short-term trend. *)
Definition voteTrend (a : Counters) (trend : Trend.t) : Counters :=
  match Trend.trend trend with
  | Bullish =>
      voteBullish a (Trend.strength trend * 1.0) (Trend.strength trend * 15)
  | Bearish =>
      voteBearish a (Trend.strength trend * 1.0) (Trend.strength trend * 15)
  | Neutral => addConfidence a 5
  end.

(** Step 4: the long-term trend. *)
Definition voteLongTermTrend (a : Counters) (lt : LongTermTrend.t) : Counters :=
  match LongTermTrend.direction lt with
  | Bullish =>
      let trendWeight := getTrendWeight lt in
      let a1 := voteBullish a (trendWeight * 2.0)
                  (LongTermTrend.confidence lt * 0.8) in
      match LongTermTrend.recommendation lt with
      | StrongBuy => voteBullish a1 1.0 20
      | ModerateBuy => voteBullish a1 0.5 10
      | _ => a1
      end
  | Bearish =>
      let trendWeight := getTrendWeight lt in
      let a1 := voteBearish a (trendWeight * 2.0)
                  (LongTermTrend.confidence lt * 0.8) in
      match LongTermTrend.recommendation lt with
      | StrongSell => voteBearish a1 1.0 20
      | ModerateSell => voteBearish a1 0.5 10
      | _ => a1
      end
  | Neutral => addConfidence a 5
  end.

(** Step 6: the volume. *)
Definition voteVolume (a : Counters) (volume : Volume.t) : Counters :=
  if Volume.volumeConfirmation volume then
    match Volume.obvTrend volume with
    | Bullish => voteBullish a 0.8 15
    | Bearish => voteBearish a 0.8 15
    | Neutral => addConfidence a 8
    end
  else addConfidence a 3.

(** Step 7: the volatility. *)
Definition voteVolatility (a : Counters) (v : Volatility.t) : Counters :=
  match Volatility.volatilityRank v with
  | Medium => addConfidence a 10
  | Low => addConfidence a 5
  | High => addConfidence a 3
  end.

(** Step 8: the agreement of the short-term votes with the long-term
    trend. *)
Definition voteAlignment (a : Counters) (al : Alignment.t) : Counters :=
  if Alignment.aligned al then
    match Alignment.direction al with
    | Bullish => voteBullish a 0.5 15
    | Bearish => voteBearish a 0.5 15
    | Neutral => a
    end
  else scaleConfidence a 0.7.

(** [signalStrength] of the final computation. *)
Definition signalStrengthOf (a : Counters) : Q :=
  if Js.ltb 0 (totalSignals a)
  then Qabs (bullishSignals a - bearishSignals a) / totalSignals a
  else 0.

(** [finalConfidence] of the final computation. *)
Definition finalConfidenceOf (a : Counters) : Q := Qmin (confidence a) 100.

(** The base signal: the value of the local [signal] after "Определяем
    базовый сигнал". *)
Definition baseSignalOf (a : Counters) : TradeSignal :=
  let signalStrength := signalStrengthOf a in
  let finalConfidence := finalConfidenceOf a in
  if Js.ltb (bearishSignals a) (bullishSignals a)
     && Js.ltb 0.4 signalStrength && Js.ltb 30 finalConfidence then Buy
  else if Js.ltb (bullishSignals a) (bearishSignals a)
     && Js.ltb 0.4 signalStrength && Js.ltb 30 finalConfidence then Sell
  else NoSignal.

(** The final check against the long-term trend: the value of
    [finalSignal]. *)
Definition finalSignalOf (lt : LongTermTrend.t) (sig : TradeSignal)
    : TradeSignal :=
  let direction := LongTermTrend.direction lt in
  if negb (directionEqb direction Neutral)
     && Js.ltb 50 (LongTermTrend.confidence lt) then
    if directionEqb direction Bullish && tradeSignalEqb sig Buy then Buy
    else if directionEqb direction Bearish && tradeSignalEqb sig Sell then Sell
    else if directionEqb direction Bullish && tradeSignalEqb sig Sell
    then NoSignal
    else if directionEqb direction Bearish && tradeSignalEqb sig Buy
    then NoSignal
    else sig
  else sig.

(** [variance] in [getVolatilityRank] and in [calculateVolatility]: the
    mean squared deviation of the simple returns of a run of candles. *)
Definition returnsVariance (cs : list Candle.t) : Q :=
  let returns := simpleReturns cs in
  let n := inject_Z (Z.of_nat (length returns)) in
  let avgReturn := sum returns / n in
  foldl (fun s ret => s + (ret - avgReturn) ^ 2) 0 returns / n.

(** The variances of the windows that the loop of [getVolatilityRank]
    visits from [i] on: the numbers under the square roots of its
    samples. *)
Fixpoint sampleVariances (fuel i : nat) (history : list Candle.t) : list Q :=
  match fuel with
  | O => []
  | S fuel' =>
      if (i <? length history)%nat then
        returnsVariance (slice (i - 20) i history)
          :: sampleVariances fuel' (i + 20) history
      else []
  end.

Section Indicators.

(** The functions of the [technicalindicators] package and [Math.sqrt] are
    outside the repository and are parameters of the embedding:
    [RSI.calculate({values, period})],
    [MACD.calculate({values, fastPeriod, slowPeriod, signalPeriod})],
    [ATR.calculate({high, low, close, period})]. *)
Variable RSI_calculate : list Q -> Z -> list Q.
Variable MACD_calculate : list Q -> Z -> Z -> Z -> list Macd.t.
Variable ATR_calculate : list Q -> list Q -> list Q -> Z -> list Q.
Variable sqrt : Q -> Q.

(** [calculateRSI(symbol, period)]; a caller that omits [period] passes
    [14]. *)
Definition calculateRSI (ta : t) (sym : string) (period : Z) : option Q :=
  let history := getPriceHistory ta sym in
  if (Z.of_nat (length history) <? period + 1)%Z then None
  else
    let closes := map Candle.close history in
    let rsi := RSI_calculate closes period in
    last rsi.

(** [calculateMACD(symbol, fastPeriod, slowPeriod, signalPeriod)]; the
    defaults are [12], [26] and [9]. *)
Definition calculateMACD (ta : t) (sym : string)
    (fastPeriod slowPeriod signalPeriod : Z) : option Macd.t :=
  let history := getPriceHistory ta sym in
  if (Z.of_nat (length history) <? slowPeriod + signalPeriod)%Z then None
  else
    let closes := map Candle.close history in
    let out := MACD_calculate closes fastPeriod slowPeriod signalPeriod in
    match last out with
    | None => None
    | Some lastMACD =>
        Some {| Macd.macd := Macd.macd lastMACD;
                Macd.signal := Macd.signal lastMACD;
                Macd.histogram := Macd.histogram lastMACD |}
    end.

(** [calculateATR(symbol, period)]. *)
Definition calculateATR (ta : t) (sym : string) (period : Z) : option Q :=
  let history := getPriceHistory ta sym in
  if (Z.of_nat (length history) <? period + 1)%Z then None
  else
    last (ATR_calculate (map Candle.high history) (map Candle.low history)
            (map Candle.close history) period).

(** The computation that the loop body of [getVolatilityRank] and
    [calculateVolatility] both spell out: the square root of the variance of
    the simple returns of a run of candles. *)
Definition realizedVolatility (cs : list Candle.t) : Q :=
  sqrt (returnsVariance cs).

(** The loop [for (let i = 20; i < history.length; i += 20)] of
    [getVolatilityRank], started at [i]; [fuel] bounds the number of
    iterations. *)
Fixpoint volatilitySamples (fuel i : nat) (history : list Candle.t) : list Q :=
  match fuel with
  | O => []
  | S fuel' =>
      if (i <? length history)%nat then
        realizedVolatility (slice (i - 20) i history)
          :: volatilitySamples fuel' (i + 20) history
      else []
  end.

(** [getVolatilityRank(symbol, currentVolatility)]. *)
Definition getVolatilityRank (ta : t) (sym : string) (currentVolatility : Q)
    : VolatilityRank :=
  let history := getPriceHistory ta sym in
  if (length history <? 100)%nat then Medium
  else
    let volatilities :=
      sortAscending (volatilitySamples (length history) 20 history) in
    let rank :=
      inject_Z (findIndex (fun v => Js.leb currentVolatility v) volatilities)
      / inject_Z (Z.of_nat (length volatilities)) in
    if Js.ltb rank 0.2 then Low
    else if Js.ltb 0.8 rank then High
    else Medium.

(** [calculateVolatility(symbol, period)]; the default [period] is [20].
    For [period = 1] the source divides [0] by [0]. *)
Definition calculateVolatility (ta : t) (sym : string) (period : nat)
    : option Volatility.t :=
  let history := getPriceHistory ta sym in
  if (length history <? period)%nat then None
  else
    let recentCandles := sliceLast period history in
    let vol := realizedVolatility recentCandles in
    Some {| Volatility.volatility := vol * 100;
            Volatility.atr := calculateATR ta sym (Z.of_nat period);
            Volatility.volatilityRank := getVolatilityRank ta sym vol |}.

(** The analyses whose results [analyzeSignal] only consumes are parameters
    as well: what is proved of [analyzeSignal] holds whatever they return. *)
Variable analyzeTrend : t -> string -> Trend.t.
Variable analyzeLongTermTrend : t -> string -> LongTermTrend.t.
Variable calculateBollingerBands : t -> string -> option Bands.t.
Variable analyzeVolume : t -> string -> option Volume.t.
Variable analyzeRSIAdvanced : t -> string -> Q -> Analysis.t.
Variable analyzeMACDAdvanced : t -> string -> Macd.t -> Analysis.t.
Variable analyzeBollingerBandsAdvanced : Q -> Bands.t -> Analysis.t.

(** Steps 1 to 8 of [analyzeSignal]: the accumulators before the final
    computation. *)
Definition fuse (ta : t) (sym : string) (rsi : Q) (macd : Macd.t)
    (currentPrice : Q) : Counters :=
  let trend := analyzeTrend ta sym in
  let longTermTrend := analyzeLongTermTrend ta sym in
  let bb := calculateBollingerBands ta sym in
  let volume := analyzeVolume ta sym in
  let volatility := calculateVolatility ta sym 20 in
  let a := {| bullishSignals := 0; bearishSignals := 0; totalSignals := 0;
              confidence := 0 |} in
  let rsiAnalysis := analyzeRSIAdvanced ta sym rsi in
  let a := countSignal (voteAnalysis a rsiAnalysis) in
  let macdAnalysis := analyzeMACDAdvanced ta sym macd in
  let a := countSignal (voteAnalysis a macdAnalysis) in
  let a := countSignal (voteTrend a trend) in
  let a := countSignal (voteLongTermTrend a longTermTrend) in
  let a :=
    match bb with
    | Some bands =>
        countSignal
          (voteAnalysis a (analyzeBollingerBandsAdvanced currentPrice bands))
    | None => a
    end in
  let a :=
    match volume with
    | Some v => countSignal (voteVolume a v)
    | None => a
    end in
  let a :=
    match volatility with
    | Some v => voteVolatility a v
    | None => a
    end in
  voteAlignment a (checkTrendAlignment longTermTrend rsiAnalysis macdAnalysis).

(** The values of [rsi], [macd] and [currentPrice] when the guard
    [!rsi || !macd || !currentPrice] lets [analyzeSignal] go on: an RSI or a
    price of [0] is falsy. *)
Definition indicatorsOf (ta : t) (sym : string) : option (Q * Macd.t * Q) :=
  match calculateRSI ta sym 14, calculateMACD ta sym 12 26 9,
        getCurrentPrice ta sym with
  | Some rsi, Some macd, Some currentPrice =>
      if Js.truthy rsi && Js.truthy currentPrice
      then Some (rsi, macd, currentPrice)
      else None
  | _, _, _ => None
  end.

(** [analyzeSignal(symbol)]. *)
Definition analyzeSignal (ta : t) (sym : string) : Signal.t :=
  match indicatorsOf ta sym with
  | None =>
      {| Signal.signal := NoSignal; Signal.strength := 0;
         Signal.details :=
           {| Signal.rsi_value := None; Signal.macd_value := None;
              Signal.long_term_trend_direction := None;
              Signal.long_term_trend_confidence := None |};
         Signal.confidence := 0 |}
  | Some (rsi, macd, currentPrice) =>
      let longTermTrend := analyzeLongTermTrend ta sym in
      let a := fuse ta sym rsi macd currentPrice in
      let signalStrength := signalStrengthOf a in
      let finalConfidence := finalConfidenceOf a in
      let signal := baseSignalOf a in
      let finalSignal := finalSignalOf longTermTrend signal in
      {| Signal.signal := finalSignal;
         Signal.strength := signalStrength;
         Signal.confidence := finalConfidence;
         Signal.details :=
           {| Signal.rsi_value := Some rsi;
              Signal.macd_value := Some macd;
              Signal.long_term_trend_direction :=
                Some (LongTermTrend.direction longTermTrend);
              Signal.long_term_trend_confidence :=
                Some (LongTermTrend.confidence longTermTrend) |} |}
  end.

(** The base signal of a run of [analyzeSignal]: the value its local
    [signal] holds when the final check is reached, and [None] for a run
    that leaves by the early return. *)
Definition baseSignal (ta : t) (sym : string) : option TradeSignal :=
  match indicatorsOf ta sym with
  | None => None
  | Some (rsi, macd, currentPrice) =>
      Some (baseSignalOf (fuse ta sym rsi macd currentPrice))
  end.

End Indicators.

End TechnicalAnalysis.

(** ** The trading bot *)

Module TradingBot.

(** [config.trading.profitProtection].  The configuration module is not part
    of the sources; its values are a parameter of [detectTrendReversal]. *)
Module ProfitProtection.
Record t := mk {
  enabled : bool;
  minProfitPercent : Q;
  trendReversalThreshold : Q;
  criticalReversalThreshold : Q;
  lossMinimizationPercent : Q;
  lossMinimizationThreshold : Q
}.
End ProfitProtection.

(** The fields [detectTrendReversal] reads of the object returned by the
    bot's [analyzeTrend]. *)
Module ShortTermTrend.
Record t := mk {
  direction : TechnicalAnalysis.Direction;
  strength : Q
}.
End ShortTermTrend.

(** The local object [indicators] of [detectTrendReversal]. *)
Module Indicators.
Record t := mk {
  technicalSignal : Q;
  longTermTrend : Q;
  shortTermTrend : Q;
  rsi : Q;
  macd : Q;
  confidence : Q
}.
End Indicators.

(** The object returned by [detectTrendReversal]. *)
Module Reversal.
Record t := mk {
  shouldClose : bool;
  reason : string;
  strength : Q;
  indicators : Indicators.t;
  pnlPercent : Q
}.
End Reversal.

Import TechnicalAnalysis.

Definition isBuy (sd : string) : bool := String.eqb sd "Buy".
Definition isSell (sd : string) : bool := String.eqb sd "Sell".

(** Criterion 1: the technical signal; the weight and the text appended to
    [reason]. *)
Definition technicalSignalVote (sd : string) (sig : Signal.t) : Q * string :=
  if isBuy sd && tradeSignalEqb (Signal.signal sig) Sell
  then (Signal.strength sig * 0.3, "технический сигнал на продажу, ")
  else if isSell sd && tradeSignalEqb (Signal.signal sig) Buy
  then (Signal.strength sig * 0.3, "технический сигнал на покупку, ")
  else (0, "").

(** Criterion 2: the long-term trend. *)
Definition longTermTrendVote (sd : string) (lt : option LongTermTrend.t)
    : Q * string :=
  match lt with
  | Some l =>
      if negb (directionEqb (LongTermTrend.direction l) Neutral) then
        if isBuy sd && directionEqb (LongTermTrend.direction l) Bearish
           && Js.ltb 60 (LongTermTrend.confidence l)
        then (LongTermTrend.confidence l / 100 * 0.35,
              "долгосрочный медвежий тренд, ")
        else if isSell sd && directionEqb (LongTermTrend.direction l) Bullish
           && Js.ltb 60 (LongTermTrend.confidence l)
        then (LongTermTrend.confidence l / 100 * 0.35,
              "долгосрочный бычий тренд, ")
        else (0, "")
      else (0, "")
  | None => (0, "")
  end.

(** Criterion 3: the short-term trend. *)
Definition shortTermTrendVote (sd : string) (st : option ShortTermTrend.t)
    : Q * string :=
  match st with
  | Some s =>
      if negb (directionEqb (ShortTermTrend.direction s) Neutral) then
        if isBuy sd && directionEqb (ShortTermTrend.direction s) Bearish
        then (ShortTermTrend.strength s * 0.2,
              "краткосрочный медвежий тренд, ")
        else if isSell sd && directionEqb (ShortTermTrend.direction s) Bullish
        then (ShortTermTrend.strength s * 0.2,
              "краткосрочный бычий тренд, ")
        else (0, "")
      else (0, "")
  | None => (0, "")
  end.

(** Criterion 4: an extreme RSI; an RSI of [0] is falsy. *)
Definition rsiVote (sd : string) (sig : Signal.t) : Q * string :=
  match Signal.rsi_value (Signal.details sig) with
  | Some r =>
      if Js.truthy r then
        if isBuy sd && Js.ltb 75 r then (0.075, "RSI перекуплен, ")
        else if isSell sd && Js.ltb r 25 then (0.075, "RSI перепродан, ")
        else (0, "")
      else (0, "")
  | None => (0, "")
  end.

(** Criterion 5: the MACD against its signal line. *)
Definition macdVote (sd : string) (sig : Signal.t) : Q * string :=
  match Signal.macd_value (Signal.details sig) with
  | Some m =>
      if isBuy sd && Js.ltb (Macd.macd m) (Macd.signal m)
         && Js.ltb (Macd.histogram m) 0
      then (0.075, "MACD медвежье пересечение, ")
      else if isSell sd && Js.ltb (Macd.signal m) (Macd.macd m)
         && Js.ltb 0 (Macd.histogram m)
      then (0.075, "MACD бычье пересечение, ")
      else (0, "")
  | None => (0, "")
  end.

(** Criterion 6: the confidence of the signal. *)
Definition confidenceVote (sig : Signal.t) : Q :=
  if Js.ltb (Signal.confidence sig) 30 then 0
  else Signal.confidence sig / 100 * 0.025.

(** [Object.values(indicators).reduce((sum, val) => sum + val, 0)]. *)
Definition reversalStrength (i : Indicators.t) : Q :=
  0 + Indicators.technicalSignal i + Indicators.longTermTrend i
  + Indicators.shortTermTrend i + Indicators.rsi i + Indicators.macd i
  + Indicators.confidence i.

(** [detectTrendReversal(position, signal, longTermTrend, shortTermTrend,
    pnlPercent)]; [profitProtection] is the value of
    [config.trading.profitProtection], [None] when it is not set. *)
Definition detectTrendReversal (profitProtection : option ProfitProtection.t)
    (position : RiskManager.Position) (sig : Signal.t)
    (longTermTrend : option LongTermTrend.t)
    (shortTermTrend : option ShortTermTrend.t) (pnlPercent : Q)
    : Reversal.t :=
  let sd := RiskManager.side position in
  let '(i1, r1) := technicalSignalVote sd sig in
  let '(i2, r2) := longTermTrendVote sd longTermTrend in
  let '(i3, r3) := shortTermTrendVote sd shortTermTrend in
  let '(i4, r4) := rsiVote sd sig in
  let '(i5, r5) := macdVote sd sig in
  let i6 := confidenceVote sig in
  let reason := ("" +:+ r1 +:+ r2 +:+ r3 +:+ r4 +:+ r5)%string in
  let indicators :=
    {| Indicators.technicalSignal := i1; Indicators.longTermTrend := i2;
       Indicators.shortTermTrend := i3; Indicators.rsi := i4;
       Indicators.macd := i5; Indicators.confidence := i6 |} in
  let strength := reversalStrength indicators in
  let disabled :=
    {| Reversal.shouldClose := false;
       Reversal.reason := "защита прибыли отключена";
       Reversal.strength := strength; Reversal.indicators := indicators;
       Reversal.pnlPercent := pnlPercent |} in
  match profitProtection with
  | None => disabled
  | Some pp =>
      if negb (ProfitProtection.enabled pp) then disabled
      else
        let '(shouldClose, reason) :=
          if Js.ltb (ProfitProtection.minProfitPercent pp) pnlPercent
             && Js.ltb (ProfitProtection.trendReversalThreshold pp) strength
          then (true,
                ("Защита прибыли: " +:+ reason +:+ "сила разворота "
                 +:+ Js.toFixed1 (strength * 100) +:+ "%")%string)
          else if Js.ltb (ProfitProtection.criticalReversalThreshold pp) strength
          then (true,
                ("Критическая смена тренда: " +:+ reason +:+ "сила "
                 +:+ Js.toFixed1 (strength * 100) +:+ "%")%string)
          else if Js.ltb pnlPercent (ProfitProtection.lossMinimizationPercent pp)
             && Js.ltb (ProfitProtection.lossMinimizationThreshold pp) strength
          then (true,
                ("Минимизация убытка: " +:+ reason +:+ "сила разворота "
                 +:+ Js.toFixed1 (strength * 100) +:+ "%")%string)
          else (false, reason) in
        {| Reversal.shouldClose := shouldClose;
           Reversal.reason := Js.dropLast2 reason;
           Reversal.strength := strength; Reversal.indicators := indicators;
           Reversal.pnlPercent := pnlPercent |}
  end.

End TradingBot.

(** ** Sample states *)

Module Samples.

Import RiskManager.

Definition cfg : Config.t :=
  {| Config.positionSize := 0.05; Config.stopLoss := Some 0.02;
     Config.riskRewardRatio := Some 2; Config.maxPositions := 5;
     Config.dailyLossLimit := 500; Config.maxDrawdown := 0.2 |}.

Definition monday : string := "Mon Jan 01 2024".
Definition tuesday : string := "Tue Jan 02 2024".

(** A fresh manager after [addPosition('BTCUSDT', 'Buy', 1, 100, 98, 104)]. *)
Definition btcLong : RiskManager.t :=
  (addPosition (RiskManager.new cfg monday) "BTCUSDT" "Buy" 1 100
     (Some 98) (Some 104) None 0).1.

(** The same manager after [setStopLoss('BTCUSDT', 95, true)]. *)
Definition btcTrailing : RiskManager.t :=
  (setStopLoss btcLong "BTCUSDT" 95 true).1.

(** The position that [btcTrailing] holds. *)
Definition btcTrailingPosition : Position :=
  {| symbol := "BTCUSDT"; side := "Buy"; size := 1; entryPrice := 100;
     stopLoss := 95; takeProfit := 104; timestamp := 0; status := "open";
     isTrailingStop := true; trailingStopDistance := Some (Qabs (100 - 95));
     highestPrice := Some 100; lowestPrice := Some 95;
     exitPrice := None; exitTime := None; reason := None; pnl := None |}.

(** A manager on Monday with a limit of 500, a recorded daily loss of 450
    and a long ETHUSDT position of size 6 entered at 100. *)
Definition nearLimit : RiskManager.t :=
  withDailyLoss
    (addPosition (RiskManager.new cfg monday) "ETHUSDT" "Buy" 6 100
       (Some 98) (Some 104) None 0).1
    450.

Import TechnicalAnalysis.

(** A candle whose four prices are [c]. *)
Definition flat (c : Q) : Candle.t :=
  {| Candle.timestamp := 0; Candle.open := c; Candle.high := c;
     Candle.low := c; Candle.close := c; Candle.volume := 1 |}.

(** Ten candles at a constant close of 100. *)
Definition tenCandles : TechnicalAnalysis.t :=
  {| priceHistory := {[ "BTCUSDT" := repeat (flat 100) 10 ]};
     maxHistoryLength := 500 |}.

(** A hundred candles: eighty at a constant close of 100, then twenty that
    alternate between 101 and 100. *)
Definition calmThenMoving : list Candle.t :=
  repeat (flat 100) 80 ++ concat (repeat [flat 101; flat 100] 10).

Definition calmThenMovingTA : TechnicalAnalysis.t :=
  {| priceHistory := {[ "BTCUSDT" := calmThenMoving ]};
     maxHistoryLength := 500 |}.

(** Stand-ins for the functions of the indicator package and for the
    analyses that [analyzeSignal] consumes. *)
Definition constRSI (values : list Q) (period : Z) : list Q := [50].

Definition constMACD (values : list Q) (fast slow sig : Z) : list Macd.t :=
  [ {| Macd.macd := 1; Macd.signal := 1; Macd.histogram := 0 |} ].

Definition constATR (highs lows closes : list Q) (period : Z) : list Q := [1].

Definition idSqrt (x : Q) : Q := x.

Definition neutralTrend (ta : TechnicalAnalysis.t) (sym : string) : Trend.t :=
  {| Trend.trend := Neutral; Trend.strength := 0 |}.

(** A bullish long-term trend with a confidence of 80. *)
Definition bullishLongTerm (ta : TechnicalAnalysis.t) (sym : string)
    : LongTermTrend.t :=
  {| LongTermTrend.direction := Bullish; LongTermTrend.strength := 0;
     LongTermTrend.confidence := 80;
     LongTermTrend.recommendation := WeakBuy |}.

Definition noBands (ta : TechnicalAnalysis.t) (sym : string)
    : option Bands.t := None.

Definition noVolume (ta : TechnicalAnalysis.t) (sym : string)
    : option Volume.t := None.

(** Bearish votes of the RSI and of the MACD. *)
Definition bearishRSI (ta : TechnicalAnalysis.t) (sym : string) (rsi : Q)
    : Analysis.t :=
  {| Analysis.signal := Bearish; Analysis.strength := 2;
     Analysis.confidence := 20 |}.

Definition bearishMACD (ta : TechnicalAnalysis.t) (sym : string)
    (macd : Macd.t) : Analysis.t :=
  {| Analysis.signal := Bearish; Analysis.strength := 2;
     Analysis.confidence := 20 |}.

Definition neutralBands (currentPrice : Q) (bb : Bands.t) : Analysis.t :=
  {| Analysis.signal := Neutral; Analysis.strength := 0;
     Analysis.confidence := 0 |}.

(** A short position, entered at 100 with a size of 1. *)
Definition ethShort : Position :=
  {| symbol := "ETHUSDT"; side := "Sell"; size := 1; entryPrice := 100;
     stopLoss := 102; takeProfit := 96; timestamp := 0; status := "open";
     isTrailingStop := false; trailingStopDistance := None;
     highestPrice := None; lowestPrice := Some 100;
     exitPrice := None; exitTime := None; reason := None; pnl := None |}.

(** A neutral signal of confidence 0, as [analyzeSignal] returns it early. *)
Definition quietSignal : Signal.t :=
  {| Signal.signal := NoSignal; Signal.strength := 0;
     Signal.confidence := 0;
     Signal.details :=
       {| Signal.rsi_value := None; Signal.macd_value := None;
          Signal.long_term_trend_direction := None;
          Signal.long_term_trend_confidence := None |} |}.

(** A bullish long-term trend of confidence 100 and a bullish short-term
    trend of strength 1: against a short position they weigh 0.35 and
    0.2. *)
Definition surelyBullish : LongTermTrend.t :=
  {| LongTermTrend.direction := Bullish; LongTermTrend.strength := 1;
     LongTermTrend.confidence := 100;
     LongTermTrend.recommendation := StrongBuy |}.

Definition shortTermBullish : TradingBot.ShortTermTrend.t :=
  {| TradingBot.ShortTermTrend.direction := Bullish;
     TradingBot.ShortTermTrend.strength := 1 |}.

(** Profit protection with a profit threshold of 2 percent and a reversal
    threshold of 0.4. *)
Definition protection : TradingBot.ProfitProtection.t :=
  {| TradingBot.ProfitProtection.enabled := true;
     TradingBot.ProfitProtection.minProfitPercent := 2;
     TradingBot.ProfitProtection.trendReversalThreshold := 0.4;
     TradingBot.ProfitProtection.criticalReversalThreshold := 0.7;
     TradingBot.ProfitProtection.lossMinimizationPercent := -1;
     TradingBot.ProfitProtection.lossMinimizationThreshold := 0.5 |}.

(** Forty candles at a constant close of 100. *)
Definition fortyCandles : TechnicalAnalysis.t :=
  {| priceHistory := {[ "BTCUSDT" := repeat (flat 100) 40 ]};
     maxHistoryLength := 500 |}.

End Samples.

(** ** The risk manager: triggers, gates and statistics *)

Module RiskChecks.

Import RiskManager.

(** [checkStopLossHit(position, currentPrice)]; a stop of [0] is falsy. *)
Definition checkStopLossHit (p : Position) (currentPrice : Q) : bool :=
  if negb (Js.truthy (stopLoss p)) then false
  else if String.eqb (side p) "Buy" then Js.leb currentPrice (stopLoss p)
  else Js.leb (stopLoss p) currentPrice.

(** [checkTakeProfitHit(position, currentPrice)]. *)
Definition checkTakeProfitHit (p : Position) (currentPrice : Q) : bool :=
  if negb (Js.truthy (takeProfit p)) then false
  else if String.eqb (side p) "Buy" then Js.leb (takeProfit p) currentPrice
  else Js.leb currentPrice (takeProfit p).

(** The two objects that [checkStopLossAndTakeProfit] returns, both with
    [action: 'close']: the one with [reason: 'stop_loss'], [price],
    [stopLossPrice] and [isTrailing], and the one with
    [reason: 'take_profit'], [price] and [takeProfitPrice]. *)
Inductive CloseInstruction :=
| StopLossHit (price stopLossPrice : Q) (isTrailing : bool)
| TakeProfitHit (price takeProfitPrice : Q).

(** [checkStopLossAndTakeProfit(symbol, currentPrice)].  The source holds
    the position object across the call of [updateTrailingStop], which
    assigns to that same object: the checks read the position as the call
    left it. *)
Definition checkStopLossAndTakeProfit (rm : t) (sym : string)
    (currentPrice : Q) : t * option CloseInstruction :=
  match positions rm !! sym with
  | None => (rm, None)
  | Some _ =>
      let rm1 := (updateTrailingStop rm sym currentPrice).1 in
      match positions rm1 !! sym with
      | None => (rm1, None)
      | Some position =>
          if checkStopLossHit position currentPrice then
            (rm1, Some (StopLossHit currentPrice (stopLoss position)
                          (isTrailingStop position)))
          else if checkTakeProfitHit position currentPrice then
            (rm1, Some (TakeProfitHit currentPrice (takeProfit position)))
          else (rm1, None)
      end
  end.

(** [config.trading.minSignalStrength], [config.trading.minConfidence] and
    [config.riskManagement.tradingHours], which [canTrade] and
    [checkTradingHours] read besides the fields of [Config.t]. *)
Module Limits.
Record t := mk {
  minSignalStrength : Q;
  minConfidence : Q;
  tradingHoursStart : Q;
  tradingHoursEnd : Q
}.
End Limits.

(** [checkTradingHours()]; [hour] is [new Date().getUTCHours()]. *)
Definition checkTradingHours (lim : Limits.t) (hour : Z) : bool :=
  Js.leb (Limits.tradingHoursStart lim) (inject_Z hour)
  && Js.leb (inject_Z hour) (Limits.tradingHoursEnd lim).

(** The object [checks] of [canTrade]. *)
Module Checks.
Record t := mk {
  dailyLossLimit : bool;
  maxDrawdown : bool;
  tradingHours : bool;
  maxPositions : bool;
  signalStrength : bool;
  confidence : bool
}.
End Checks.

(** [Object.values(checks).every(check => check === true)]. *)
Definition allChecks (c : Checks.t) : bool :=
  forallb (fun b => b)
    [ Checks.dailyLossLimit c; Checks.maxDrawdown c; Checks.tradingHours c;
      Checks.maxPositions c; Checks.signalStrength c; Checks.confidence c ].

(** The object returned by [canTrade]. *)
Module Permit.
Record t := mk {
  canTrade : bool;
  checks : Checks.t;
  positionSize : option PositionSize
}.
End Permit.

(** [canTrade(symbol, signalStrength, currentBalance, confidence,
    currentPrice)]; [today] and [hour] are the readings of the clock that
    [checkDailyLossLimit] and [checkTradingHours] make. *)
Definition canTrade (lim : Limits.t) (rm : RiskManager.t) (sym : string)
    (signalStrength currentBalance confidence : Q) (currentPrice : option Q)
    (today : string) (hour : Z) : RiskManager.t * Permit.t :=
  let '(rm1, c1) := checkDailyLossLimit rm today in
  let '(rm2, c2) := checkMaxDrawdown rm1 currentBalance in
  let checks :=
    {| Checks.dailyLossLimit := c1;
       Checks.maxDrawdown := c2;
       Checks.tradingHours := checkTradingHours lim hour;
       Checks.maxPositions := canOpenNewPosition rm2;
       Checks.signalStrength := Js.leb (Limits.minSignalStrength lim) signalStrength;
       Checks.confidence := Js.leb (Limits.minConfidence lim) confidence |} in
  let ok := allChecks checks in
  (rm2,
   {| Permit.canTrade := ok;
      Permit.checks := checks;
      Permit.positionSize :=
        if ok then Some (calculatePositionSize rm2 currentBalance sym
                           signalStrength confidence currentPrice)
        else None |}).

(** [trade.pnl > 0] and [trade.pnl < 0]; a trade without [pnl] passes
    neither. *)
Definition isWin (p : Position) : bool :=
  match pnl p with
  | Some x => Js.ltb 0 x
  | None => false
  end.

Definition isLoss (p : Position) : bool :=
  match pnl p with
  | Some x => Js.ltb x 0
  | None => false
  end.

(** [trades.reduce((sum, trade) => sum + trade.pnl, 0)]: [None] is the
    [NaN] that a trade without [pnl] makes of the sum. *)
Definition sumPnl (l : list Position) : option Q :=
  foldl (fun acc p =>
           match acc, pnl p with
           | Some s, Some x => Some (s + x)
           | _, _ => None
           end) (Some 0) l.

(** The same [reduce] over the trades that passed [isWin] or [isLoss], all
    of which have a [pnl]. *)
Definition sumFiltered (l : list Position) : Q :=
  foldl (fun s p => s + Js.num (pnl p)) 0 l.

(** The object returned by [getTradingStats]. *)
Module Stats.
Record t := mk {
  totalTrades : nat;
  winningTrades : nat;
  losingTrades : nat;
  winRate : Q;
  totalPnL : option Q;
  dailyLoss : Q;
  dailyProfit : Q;
  totalDrawdown : option Q;
  avgWin : Q;
  avgLoss : Q;
  profitFactor : Q;
  openPositions : nat
}.
End Stats.

Definition count (n : nat) : Q := inject_Z (Z.of_nat n).

(** [getTradingStats()]. *)
Definition getTradingStats (rm : RiskManager.t) : Stats.t :=
  let totalTrades := length (trades rm) in
  let winningTrades := length (List.filter isWin (trades rm)) in
  let losingTrades := length (List.filter isLoss (trades rm)) in
  let winRate :=
    if (0 <? totalTrades)%nat then count winningTrades / count totalTrades
    else 0 in
  let totalPnL := sumPnl (trades rm) in
  let avgWin :=
    if (0 <? winningTrades)%nat
    then sumFiltered (List.filter isWin (trades rm))
         / count winningTrades
    else 0 in
  let avgLoss :=
    if (0 <? losingTrades)%nat
    then sumFiltered (List.filter isLoss (trades rm))
         / count losingTrades
    else 0 in
  {| Stats.totalTrades := totalTrades;
     Stats.winningTrades := winningTrades;
     Stats.losingTrades := losingTrades;
     Stats.winRate := winRate * 100;
     Stats.totalPnL := totalPnL;
     Stats.dailyLoss := RiskManager.dailyLoss rm;
     Stats.dailyProfit := RiskManager.dailyProfit rm;
     Stats.totalDrawdown := (fun d => d * 100) <$> RiskManager.totalDrawdown rm;
     Stats.avgWin := avgWin;
     Stats.avgLoss := avgLoss;
     Stats.profitFactor :=
       if negb (Qeq_bool avgLoss 0) then Qabs (avgWin / avgLoss) else 0;
     Stats.openPositions := base.size (positions rm) |}.

(** A recorded trade: closed, with the exit data that [closePosition]
    assigns, its [pnl] being the one of its exit price. *)
Definition recorded (p : Position) : Prop :=
  status p = "closed"
  /\ exists exit, exitPrice p = Some exit
                  /\ pnl p = Some (calculatePnL p exit)
  /\ is_Some (exitTime p) /\ is_Some (reason p).

(** [updateTrailingStop(symbol, price)] for each price of a list, in
    turn. *)
Definition updateTrailingStops (rm : t) (sym : string) (prices : list Q)
    : t :=
  foldl (fun r price => (updateTrailingStop r sym price).1) rm prices.

(** The highest and the lowest of [start] and the prices. *)
Definition highest (start : Q) (prices : list Q) : Q := foldl Qmax start prices.
Definition lowest (start : Q) (prices : list Q) : Q := foldl Qmin start prices.

(** The trailing state of a Buy position whose stop was set to [stop] at the
    distance [d] from the entry price [entry], once the highest price seen
    is [h]. *)
Definition trailsBuy (entry stop d h : Q) (q : Position) : Prop :=
  isTrailingStop q = true /\ side q = "Buy"
  /\ trailingStopDistance q = Some d
  /\ entry <= h /\ Js.num (highestPrice q) == h
  /\ (entry < h -> stopLoss q == Qmax stop (h - d))
  /\ (h == entry -> stopLoss q == stop).

(** The same for a position of another side, with the lowest price [l]. *)
Definition trailsSell (entry stop d l : Q) (q : Position) : Prop :=
  isTrailingStop q = true /\ side q <> "Buy"
  /\ trailingStopDistance q = Some d
  /\ l <= entry /\ Js.num (lowestPrice q) == l
  /\ (l < entry -> stopLoss q == Qmin stop (l + d))
  /\ (l == entry -> stopLoss q == stop).

(** A trade is covered by the daily counters: it carries a [pnl], at most
    [dailyProfit] when it is positive and with a negation of at most
    [dailyLoss] otherwise. *)
Definition covered (rm : t) (p : Position) : Prop :=
  exists x, pnl p = Some x
            /\ (0 < x -> x <= dailyProfit rm)
            /\ (x <= 0 -> - x <= dailyLoss rm).


End RiskChecks.

(** ** More sample states *)

Module MoreSamples.

Import RiskManager RiskChecks.

(** A long position is opened at 100 with a target of 200, given a trailing
    stop at 95, and the price rises to 110. *)
Definition trailingHistory : list Call :=
  [ AddPosition "BTCUSDT" "Buy" 1 100 None (Some 200) None 0;
    SetStopLoss "BTCUSDT" 95 true;
    UpdateTrailingStop "BTCUSDT" 110 ].

Definition trailingManager : RiskManager.t :=
  calls (RiskManager.new Samples.cfg Samples.monday) trailingHistory.

(** The position that [trailingManager] holds. *)
Definition trailingPosition : Position :=
  default Samples.btcTrailingPosition
    (positions trailingManager !! "BTCUSDT").

(** Limits that admit a signal of strength 0.5 and confidence 60 at any
    hour of the day. *)
Definition limits : Limits.t :=
  {| Limits.minSignalStrength := 0.5; Limits.minConfidence := 60;
     Limits.tradingHoursStart := 0; Limits.tradingHoursEnd := 23 |}.

End MoreSamples.

(** ** Trend analysis *)

Module TrendAnalysis.

Import TechnicalAnalysis.

(** [addCandle(symbol, c)] for each candle [c] of [cs] in turn. *)
Definition addCandles (ta : t) (sym : string) (cs : list Candle.t) : t :=
  foldl (fun ta c => addCandle ta sym c) ta cs.

(** The body of the loop of [confirmSignal] at index [i].  The two candles
    exist at every index that the loop visits. *)
Definition confirmStep (history : list Candle.t) (signal : TradeSignal)
    (confirmCount i : nat) : nat :=
  match history !! (length history - 1 - i)%nat,
        history !! (length history - i)%nat with
  | Some prevCandle, Some currentCandle =>
      if tradeSignalEqb signal Buy
         && Js.ltb (Candle.close prevCandle) (Candle.close currentCandle)
      then S confirmCount
      else if tradeSignalEqb signal Sell
         && Js.ltb (Candle.close currentCandle) (Candle.close prevCandle)
      then S confirmCount
      else confirmCount
  | _, _ => confirmCount
  end.

(** [confirmSignal(symbol, signal, confirmations)]; the default of
    [confirmations] is [2]. *)
Definition confirmSignal (ta : t) (sym : string) (signal : TradeSignal)
    (confirmations : nat) : bool :=
  let history := getPriceHistory ta sym in
  if (length history <? confirmations + 1)%nat then false
  else
    let confirmCount :=
      foldl (confirmStep history signal) 0%nat (seq 1 confirmations) in
    (confirmations <=? confirmCount)%nat.

(** The closes of the candles [i + 1] from the end and [i] from the end:
    the pair that [confirmSignal] compares at index [i]. *)
Definition closesAt (history : list Candle.t) (i : nat) : option (Q * Q) :=
  match history !! (length history - 1 - i)%nat,
        history !! (length history - i)%nat with
  | Some prevCandle, Some currentCandle =>
      Some (Candle.close prevCandle, Candle.close currentCandle)
  | _, _ => None
  end.

(** The object returned by [analyzeTrendStructure]. *)
Module Structure.
Record t := mk {
  bullishSignals : nat;
  bearishSignals : nat
}.
End Structure.

Definition bumpBullish (s : Structure.t) : Structure.t :=
  {| Structure.bullishSignals := S (Structure.bullishSignals s);
     Structure.bearishSignals := Structure.bearishSignals s |}.

Definition bumpBearish (s : Structure.t) : Structure.t :=
  {| Structure.bullishSignals := Structure.bullishSignals s;
     Structure.bearishSignals := S (Structure.bearishSignals s) |}.

(** The body of the loop of [analyzeTrendStructure] at index [i]: a local
    maximum, then a local minimum, each compared with the candle two
    places back.  The four candles exist at every index that the loop
    visits. *)
Definition structureStep (history : list Candle.t) (acc : Structure.t)
    (i : nat) : Structure.t :=
  match history !! i, history !! (i - 1)%nat, history !! (i + 1)%nat,
        history !! (i - 2)%nat with
  | Some current, Some prev, Some next, Some before =>
      let acc1 :=
        if Js.ltb (Candle.high prev) (Candle.high current)
           && Js.ltb (Candle.high next) (Candle.high current) then
          if (2 <? i)%nat
             && Js.ltb (Candle.high before) (Candle.high current)
          then bumpBullish acc
          else if (2 <? i)%nat then bumpBearish acc
          else acc
        else acc in
      if Js.ltb (Candle.low current) (Candle.low prev)
         && Js.ltb (Candle.low current) (Candle.low next) then
        if (2 <? i)%nat
           && Js.ltb (Candle.low before) (Candle.low current)
        then bumpBullish acc1
        else if (2 <? i)%nat then bumpBearish acc1
        else acc1
      else acc1
  | _, _, _, _ => acc
  end.

(** [analyzeTrendStructure(history)]: the loop
    [for (let i = 2; i < history.length - 2; i++)]. *)
Definition analyzeTrendStructure (history : list Candle.t) : Structure.t :=
  foldl (structureStep history)
    {| Structure.bullishSignals := 0; Structure.bearishSignals := 0 |}
    (seq 2 (length history - 4)).

(** [calculatePeriodVolatility(history)]: the mean absolute simple return.
    A close of [0] makes the source's quotient [NaN] or infinite. *)
Definition calculatePeriodVolatility (history : list Candle.t) : Q :=
  if (length history <? 2)%nat then 0
  else
    let returns := map Qabs (simpleReturns history) in
    sum returns / inject_Z (Z.of_nat (length returns)).

(** [haystack.includes(needle)]. *)
Fixpoint includes (needle haystack : string) : bool :=
  String.prefix needle haystack
  || match haystack with
     | EmptyString => false
     | String _ rest => includes needle rest
     end.

(** The object returned by [analyzeTimeFrameTrend]; the last three fields
    are absent from the object of the early return. *)
Module TimeFrame.
Record t := mk {
  direction : Direction;
  strength : Q;
  confidence : Q;
  priceChange : option Q;
  trendStructure : option Structure.t;
  volatility : option Q
}.
End TimeFrame.

(** [analyzeTimeFrameTrend(history, period, currentPrice, ema, symbol)].
    The result is [None] where the source throws a [TypeError]: it reads
    [recentHistory[0].close] of an empty array, which takes a [period] of
    [0] and an empty history.  A first close of [0] makes the source's
    [priceChange] [NaN] or infinite.  The source reads neither
    [currentPrice] nor [ema]. *)
Definition analyzeTimeFrameTrend (history : list Candle.t) (period : nat)
    (currentPrice : option Q) (ema : Q) (symbol : string)
    : option TimeFrame.t :=
  if (length history <? period)%nat then
    Some {| TimeFrame.direction := Neutral; TimeFrame.strength := 0;
            TimeFrame.confidence := 0; TimeFrame.priceChange := None;
            TimeFrame.trendStructure := None; TimeFrame.volatility := None |}
  else
    let recentHistory := sliceLast period history in
    match head recentHistory, last recentHistory with
    | Some firstCandle, Some lastCandle =>
        let firstPrice := Candle.close firstCandle in
        let lastPrice := Candle.close lastCandle in
        let priceChange := (lastPrice - firstPrice) / firstPrice in
        let trendStructure := analyzeTrendStructure recentHistory in
        let volatility := calculatePeriodVolatility recentHistory in
        let isDailyData := includes "_DAILY" symbol in
        let minChangeThreshold := if isDailyData then 0.05 else 0.02 in
        let strongChangeThreshold := if isDailyData then 0.15 else 0.05 in
        let strength := Qabs priceChange in
        let '(direction, confidence) :=
          if Js.ltb minChangeThreshold priceChange
             && (Structure.bearishSignals trendStructure
                 <? Structure.bullishSignals trendStructure)%nat
          then
            let baseConfidence := if isDailyData then 60 else 50 in
            (Bullish, Qmin (baseConfidence + priceChange * 500) 95)
          else if Js.ltb priceChange (- minChangeThreshold)
             && (Structure.bullishSignals trendStructure
                 <? Structure.bearishSignals trendStructure)%nat
          then
            let baseConfidence := if isDailyData then 60 else 50 in
            (Bearish, Qmin (baseConfidence + Qabs priceChange * 500) 95)
          else (Neutral, 0) in
        let volatilityThreshold := if isDailyData then 0.05 else 0.03 in
        let confidence :=
          if Js.ltb volatilityThreshold volatility then confidence * 0.8
          else confidence in
        let confidence :=
          if isDailyData && Js.ltb strongChangeThreshold (Qabs priceChange)
          then confidence + 10
          else confidence in
        Some {| TimeFrame.direction := direction;
                TimeFrame.strength := strength;
                TimeFrame.confidence := confidence;
                TimeFrame.priceChange := Some priceChange;
                TimeFrame.trendStructure := Some trendStructure;
                TimeFrame.volatility := Some volatility |}
    | _, _ => None
    end.

(** The object returned by [analyzeEMAPosition]. *)
Module EmaPosition.
Record t := mk {
  direction : Direction;
  bullishSignals : nat;
  bearishSignals : nat;
  confidence : Q
}.
End EmaPosition.

(** [if (c) bullishSignals++; else bearishSignals++;] on the pair of the
    two counters. *)
Definition tally (c : bool) (acc : nat * nat) : nat * nat :=
  if c then (S acc.1, acc.2) else (acc.1, S acc.2).

(** [analyzeEMAPosition(currentPrice, ema50, ema100, ema200)]; a
    [currentPrice] of [null] compares as [0].  An [ema100] or [ema200] of
    [0] makes the source's distances [NaN] or infinite. *)
Definition analyzeEMAPosition (currentPrice : option Q)
    (ema50 ema100 ema200 : Q) : EmaPosition.t :=
  let price := Js.num currentPrice in
  let acc := (0%nat, 0%nat) in
  let acc := tally (Js.ltb ema100 ema50) acc in
  let acc := tally (Js.ltb ema200 ema100) acc in
  let acc := tally (Js.ltb ema50 price) acc in
  let acc := tally (Js.ltb ema100 price) acc in
  let acc := tally (Js.ltb ema200 price) acc in
  let ema50_100_distance := Qabs (ema50 - ema100) / ema100 in
  let ema100_200_distance := Qabs (ema100 - ema200) / ema200 in
  let confidence :=
    Qmin ((ema50_100_distance + ema100_200_distance) * 1000) 50 in
  let direction :=
    if (acc.2 <? acc.1)%nat then Bullish
    else if (acc.1 <? acc.2)%nat then Bearish
    else Neutral in
  {| EmaPosition.direction := direction;
     EmaPosition.bullishSignals := acc.1;
     EmaPosition.bearishSignals := acc.2;
     EmaPosition.confidence := confidence |}.

(** The object [timeFrames] of [analyzeLongTermTrend], with its three keys
    in the order in which they are written. *)
Module Frames.
Record t := mk {
  short : TimeFrame.t;
  medium : TimeFrame.t;
  long : TimeFrame.t
}.
End Frames.

(** [config.technicalAnalysis.trendAnalysis], of a configuration module
    that is not part of the sources: [dailyAnalysis] (which may be unset),
    [longTermEMA], [trendPeriods] and [timeFrameWeights]. *)
Module DailyAnalysis.
Record t := mk {
  enabled : bool;
  minDays : nat
}.
End DailyAnalysis.

Module LongTermEMA.
Record t := mk {
  fast : nat;
  medium : nat;
  slow : nat
}.
End LongTermEMA.

Module TrendPeriods.
Record t := mk {
  short : nat;
  medium : nat;
  long : nat
}.
End TrendPeriods.

Module TimeFrameWeights.
Record t := mk {
  short : Q;
  medium : Q;
  long : Q
}.
End TimeFrameWeights.

Module TrendConfig.
Record t := mk {
  dailyAnalysis : option DailyAnalysis.t;
  longTermEMA : LongTermEMA.t;
  trendPeriods : TrendPeriods.t;
  timeFrameWeights : TimeFrameWeights.t
}.
End TrendConfig.

(** The three accumulators of [calculateOverallTrend]. *)
Record Scores := mkScores {
  bullishScore : Q;
  bearishScore : Q;
  totalConfidence : Q
}.

(** The callback of [Object.keys(timeFrames).forEach] for a frame and its
    weight. *)
Definition scoreFrame (acc : Scores) (fw : TimeFrame.t * Q) : Scores :=
  let '(frame, weight) := fw in
  match TimeFrame.direction frame with
  | Bullish =>
      {| bullishScore := bullishScore acc + TimeFrame.strength frame * weight;
         bearishScore := bearishScore acc;
         totalConfidence :=
           totalConfidence acc + TimeFrame.confidence frame * weight |}
  | Bearish =>
      {| bullishScore := bullishScore acc;
         bearishScore := bearishScore acc + TimeFrame.strength frame * weight;
         totalConfidence :=
           totalConfidence acc + TimeFrame.confidence frame * weight |}
  | Neutral => acc
  end.

(** The step "Добавляем анализ EMA" of [calculateOverallTrend]. *)
Definition scoreEMA (acc : Scores) (emaAnalysis : EmaPosition.t) : Scores :=
  match EmaPosition.direction emaAnalysis with
  | Bullish =>
      {| bullishScore := bullishScore acc + 0.2;
         bearishScore := bearishScore acc;
         totalConfidence :=
           totalConfidence acc + EmaPosition.confidence emaAnalysis * 0.2 |}
  | Bearish =>
      {| bullishScore := bullishScore acc;
         bearishScore := bearishScore acc + 0.2;
         totalConfidence :=
           totalConfidence acc + EmaPosition.confidence emaAnalysis * 0.2 |}
  | Neutral => acc
  end.

(** The object returned by [calculateOverallTrend]. *)
Module Overall.
Record t := mk {
  direction : Direction;
  strength : Q;
  confidence : Q
}.
End Overall.

(** The frames of [timeFrames] with their weights, in the order of
    [Object.keys]. *)
Definition weighted (timeFrames : Frames.t) (trendConfig : TrendConfig.t)
    : list (TimeFrame.t * Q) :=
  let w := TrendConfig.timeFrameWeights trendConfig in
  [ (Frames.short timeFrames, TimeFrameWeights.short w);
    (Frames.medium timeFrames, TimeFrameWeights.medium w);
    (Frames.long timeFrames, TimeFrameWeights.long w) ].

(** [calculateOverallTrend(timeFrames, emaAnalysis, trendConfig)]. *)
Definition calculateOverallTrend (timeFrames : Frames.t)
    (emaAnalysis : EmaPosition.t) (trendConfig : TrendConfig.t) : Overall.t :=
  let acc :=
    foldl scoreFrame
      {| bullishScore := 0; bearishScore := 0; totalConfidence := 0 |}
      (weighted timeFrames trendConfig) in
  let acc := scoreEMA acc emaAnalysis in
  let strength := Qabs (bullishScore acc - bearishScore acc) in
  let confidence := Qmin (totalConfidence acc) 100 in
  let direction :=
    if Js.ltb (bearishScore acc) (bullishScore acc) && Js.ltb 0.3 strength
    then Bullish
    else if Js.ltb (bullishScore acc) (bearishScore acc)
            && Js.ltb 0.3 strength
    then Bearish
    else Neutral in
  {| Overall.direction := direction; Overall.strength := strength;
     Overall.confidence := confidence |}.

(** [Object.values(timeFrames).map(tf => tf.direction)]. *)
Definition timeFrameDirections (timeFrames : Frames.t) : list Direction :=
  map TimeFrame.direction
    [Frames.short timeFrames; Frames.medium timeFrames;
     Frames.long timeFrames].

(** [timeFrameDirections.filter(dir => dir === direction).length]. *)
Definition consistentDirections (timeFrames : Frames.t)
    (direction : Direction) : nat :=
  length (List.filter (fun dir => directionEqb dir direction)
            (timeFrameDirections timeFrames)).

(** [determineTrendRecommendation(overallTrend, timeFrames, emaAnalysis)];
    the source does not read [emaAnalysis]. *)
Definition determineTrendRecommendation (overallTrend : Overall.t)
    (timeFrames : Frames.t) (emaAnalysis : EmaPosition.t) : Recommendation :=
  let direction := Overall.direction overallTrend in
  let strength := Overall.strength overallTrend in
  let confidence := Overall.confidence overallTrend in
  if Js.ltb confidence 30 then InsufficientData
  else if Js.ltb strength 0.3 then WeakTrend
  else
    let consistency :=
      inject_Z (Z.of_nat (consistentDirections timeFrames direction))
      / inject_Z (Z.of_nat (length (timeFrameDirections timeFrames))) in
    if Js.leb 0.7 consistency && Js.leb 60 confidence then
      if directionEqb direction Bullish then StrongBuy else StrongSell
    else if Js.leb 0.5 consistency && Js.leb 40 confidence then
      if directionEqb direction Bullish then ModerateBuy else ModerateSell
    else if Js.leb 0.3 consistency && Js.leb 30 confidence then
      if directionEqb direction Bullish then WeakBuy else WeakSell
    else MixedSignals.

(** The object returned by [analyzeLongTermTrend], without the counts and
    the formatted percentages that it carries for the log; [timeFrames] is
    the empty object, and [emaAnalysis] absent, in the objects of the early
    returns. *)
Module LongTerm.
Record t := mk {
  direction : Direction;
  strength : Q;
  confidence : Q;
  timeFrames : option Frames.t;
  emaAnalysis : option EmaPosition.t;
  recommendation : Recommendation
}.
End LongTerm.

(** The four fields that [analyzeSignal] reads. *)
Definition summary (r : LongTerm.t) : LongTermTrend.t :=
  {| LongTermTrend.direction := LongTerm.direction r;
     LongTermTrend.strength := LongTerm.strength r;
     LongTermTrend.confidence := LongTerm.confidence r;
     LongTermTrend.recommendation := LongTerm.recommendation r |}.

Definition insufficientData : LongTerm.t :=
  {| LongTerm.direction := Neutral; LongTerm.strength := 0;
     LongTerm.confidence := 0; LongTerm.timeFrames := None;
     LongTerm.emaAnalysis := None;
     LongTerm.recommendation := InsufficientData |}.

(** [minRequiredData] of [analyzeLongTermTrend]. *)
Definition minRequiredData (trendConfig : TrendConfig.t) : nat :=
  match TrendConfig.dailyAnalysis trendConfig with
  | Some d =>
      if DailyAnalysis.enabled d then DailyAnalysis.minDays d
      else LongTermEMA.slow (TrendConfig.longTermEMA trendConfig)
  | None => LongTermEMA.slow (TrendConfig.longTermEMA trendConfig)
  end.

Section Averages.

(** [EMA.calculate({values, period})] and [SMA.calculate({values, period})]
    of the [technicalindicators] package. *)
Variable EMA_calculate : list Q -> nat -> list Q.
Variable SMA_calculate : list Q -> nat -> list Q.

(** [analyzeLongTermTrend(symbol)] under the configuration [trendConfig];
    [None] where [analyzeTimeFrameTrend] throws. *)
Definition analyzeLongTermTrend (trendConfig : TrendConfig.t) (ta : t)
    (symbol : string) : option LongTerm.t :=
  let history := getPriceHistory ta symbol in
  if (length history <? minRequiredData trendConfig)%nat
  then Some insufficientData
  else
    let currentPrice := getCurrentPrice ta symbol in
    let closes := map Candle.close history in
    let emaPeriods := TrendConfig.longTermEMA trendConfig in
    let periods := TrendConfig.trendPeriods trendConfig in
    let ema50 := EMA_calculate closes (LongTermEMA.fast emaPeriods) in
    let ema100 := EMA_calculate closes (LongTermEMA.medium emaPeriods) in
    let ema200 := EMA_calculate closes (LongTermEMA.slow emaPeriods) in
    match last ema50, last ema100, last ema200 with
    | Some currentEMA50, Some currentEMA100, Some currentEMA200 =>
        short ← analyzeTimeFrameTrend history (TrendPeriods.short periods)
                  currentPrice currentEMA50 symbol;
        medium ← analyzeTimeFrameTrend history (TrendPeriods.medium periods)
                   currentPrice currentEMA100 symbol;
        long ← analyzeTimeFrameTrend history (TrendPeriods.long periods)
                 currentPrice currentEMA200 symbol;
        let timeFrames :=
          {| Frames.short := short; Frames.medium := medium;
             Frames.long := long |} in
        let emaAnalysis :=
          analyzeEMAPosition currentPrice currentEMA50 currentEMA100
            currentEMA200 in
        let overallTrend :=
          calculateOverallTrend timeFrames emaAnalysis trendConfig in
        let recommendation :=
          determineTrendRecommendation overallTrend timeFrames emaAnalysis in
        Some {| LongTerm.direction := Overall.direction overallTrend;
                LongTerm.strength := Overall.strength overallTrend;
                LongTerm.confidence := Overall.confidence overallTrend;
                LongTerm.timeFrames := Some timeFrames;
                LongTerm.emaAnalysis := Some emaAnalysis;
                LongTerm.recommendation := recommendation |}
    | _, _, _ => Some insufficientData
    end.

(** The callback of [periods.forEach] in [calculateMovingAverages], for one
    [period]: the values stored under [sma_<period>] and [ema_<period>],
    [None] for a key that is not set. *)
Definition movingAverages (ta : t) (symbol : string) (period : nat)
    : option Q * option Q :=
  let history := getPriceHistory ta symbol in
  let closes := map Candle.close history in
  if (period <=? length history)%nat then
    (last (SMA_calculate closes period), last (EMA_calculate closes period))
  else (None, None).

(** [!x] is false: [x] is set and is not [0]. *)
Definition present (x : option Q) : bool :=
  match x with
  | Some v => Js.truthy v
  | None => false
  end.

(** [analyzeTrend(symbol)], which reads the three simple averages of
    [calculateMovingAverages(symbol, [9, 21, 50])]. *)
Definition analyzeTrend (ta : t) (symbol : string) : Trend.t :=
  let sma_9 := (movingAverages ta symbol 9).1 in
  let sma_21 := (movingAverages ta symbol 21).1 in
  let sma_50 := (movingAverages ta symbol 50).1 in
  let currentPrice := getCurrentPrice ta symbol in
  if negb (present currentPrice) || negb (present sma_9)
     || negb (present sma_21) || negb (present sma_50)
  then {| Trend.trend := Neutral; Trend.strength := 0 |}
  else
    let acc := (0%nat, 0%nat) in
    let acc := tally (Js.ltb (Js.num sma_21) (Js.num sma_9)) acc in
    let acc := tally (Js.ltb (Js.num sma_50) (Js.num sma_21)) acc in
    let acc := tally (Js.ltb (Js.num sma_9) (Js.num currentPrice)) acc in
    let acc := tally (Js.ltb (Js.num sma_21) (Js.num currentPrice)) acc in
    let bullishSignals := inject_Z (Z.of_nat acc.1) in
    let bearishSignals := inject_Z (Z.of_nat acc.2) in
    let totalSignals := bullishSignals + bearishSignals in
    let strength := Qabs (bullishSignals - bearishSignals) / totalSignals in
    let trend :=
      if Js.ltb bearishSignals bullishSignals then Bullish
      else if Js.ltb bullishSignals bearishSignals then Bearish
      else Neutral in
    {| Trend.trend := trend; Trend.strength := strength |}.

End Averages.

(** The pairs of a previous and a current close that [confirmSignal]
    counts for [signal]. *)
Definition moves (signal : TradeSignal) (pc : Q * Q) : Prop :=
  match signal with
  | Buy => pc.1 < pc.2
  | Sell => pc.2 < pc.1
  | NoSignal => False
  end.

End TrendAnalysis.

(** ** The advanced indicator analyses *)

Module IndicatorAnalysis.

Import TechnicalAnalysis.

(** [calculateTrend(values)].  A first value of [0] makes the source's
    quotient [NaN] or infinite. *)
Definition calculateTrend (values : list Q) : Q :=
  if (length values <? 2)%nat then 0
  else
    match head values, last values with
    | Some first, Some lastValue => (lastValue - first) / first
    | _, _ => 0
    end.

(** What reading a property of an object gives: a number, or [undefined]
    when the object has no such property.  Arithmetic on [undefined] gives
    [NaN], and no comparison with [undefined] or with [NaN] holds;
    [Undefined] stands for both. *)
Inductive Read := Number (q : Q) | Undefined.

(** [x < y] on values read. *)
Definition readLtb (x y : Read) : bool :=
  match x, y with
  | Number a, Number b => Js.ltb a b
  | _, _ => false
  end.

(** [calculateTrend(values)] on values read: with an [undefined] first or
    last value the quotient is [NaN]. *)
Definition calculateTrendRead (values : list Read) : Read :=
  if (length values <? 2)%nat then Number 0
  else
    match head values, last values with
    | Some (Number first), Some (Number lastValue) =>
        Number ((lastValue - first) / first)
    | _, _ => Undefined
    end.

(** [{ signal: 'neutral', strength: 0, confidence: 0 }]. *)
Definition neutral : Analysis.t :=
  {| Analysis.signal := Neutral; Analysis.strength := 0;
     Analysis.confidence := 0 |}.

(** An element of the array returned by [MACD.calculate], under the keys
    that the package gives it: [calculateMACD] reads [lastMACD.MACD],
    [lastMACD.signal] and [lastMACD.histogram]. *)
Module MacdEntry.
Record t := mk {
  MACD : Q;
  signal : Q;
  histogram : Q
}.

(** [m.macd]: an element has no property of that name. *)
Definition macd (m : t) : Read := Undefined.
End MacdEntry.

Section Oscillators.

Variable RSI_calculate : list Q -> Z -> list Q.
Variable MACD_calculate : list Q -> Z -> Z -> Z -> list MacdEntry.t.

(** [calculateRSIHistory(symbol, period)]. *)
Definition calculateRSIHistory (ta : t) (sym : string) (period : nat)
    : option (list Q) :=
  let history := getPriceHistory ta sym in
  if (length history <? period + 14)%nat then None
  else
    let closes := map Candle.close history in
    Some (sliceLast period (RSI_calculate closes 14)).

(** [calculateMACDHistory(symbol, period)]: the last elements of the
    package's array, as the package returns them. *)
Definition calculateMACDHistory (ta : t) (sym : string) (period : nat)
    : option (list MacdEntry.t) :=
  let history := getPriceHistory ta sym in
  if (length history <? period + 26)%nat then None
  else
    let closes := map Candle.close history in
    Some (sliceLast period (MACD_calculate closes 12 26 9)).

(** [analyzeRSIAdvanced(symbol, rsi)]. *)
Definition analyzeRSIAdvanced (ta : t) (sym : string) (rsi : Q)
    : Analysis.t :=
  let history := getPriceHistory ta sym in
  if (length history <? 30)%nat then neutral
  else
    let recentPrices := map Candle.close (sliceLast 20 history) in
    match calculateRSIHistory ta sym 20 with
    | None => neutral
    | Some recentRSI =>
        if (length recentRSI <? 10)%nat then neutral
        else
          let '(signal, strength, confidence) :=
            if Js.ltb rsi 25 then (Bullish, 1.2, 25)
            else if Js.ltb 75 rsi then (Bearish, 1.2, 25)
            else if Js.ltb rsi 35 && Js.ltb 30 rsi then (Bullish, 0.8, 15)
            else if Js.ltb 65 rsi && Js.ltb rsi 70 then (Bearish, 0.8, 15)
            else (Neutral, 0, 0) in
          let priceTrend := calculateTrend recentPrices in
          let rsiTrend := calculateTrend recentRSI in
          if Js.ltb priceTrend 0 && Js.ltb 0 rsiTrend && Js.ltb rsi 50 then
            {| Analysis.signal := Bullish;
               Analysis.strength := Qmax strength 1.5;
               Analysis.confidence := confidence + 20 |}
          else if Js.ltb 0 priceTrend && Js.ltb rsiTrend 0 && Js.ltb 50 rsi
          then
            {| Analysis.signal := Bearish;
               Analysis.strength := Qmax strength 1.5;
               Analysis.confidence := confidence + 20 |}
          else
            {| Analysis.signal := signal; Analysis.strength := strength;
               Analysis.confidence := confidence |}
    end.

(** [analyzeMACDAdvanced(symbol, macd)].  [macd] is the object of
    [calculateMACD]; the trend of the MACD is taken over
    [recentMACD.map(m => m.macd)]. *)
Definition analyzeMACDAdvanced (ta : t) (sym : string) (macd : Macd.t)
    : Analysis.t :=
  let history := getPriceHistory ta sym in
  if (length history <? 30)%nat then neutral
  else
    let '(signal, strength, confidence) :=
      if Js.ltb (Macd.signal macd) (Macd.macd macd)
         && Js.ltb 0 (Macd.histogram macd) then
        if Js.ltb 0.001 (Macd.histogram macd) then (Bullish, 1.3, 20 + 10)
        else (Bullish, 1.0, 20)
      else if Js.ltb (Macd.macd macd) (Macd.signal macd)
              && Js.ltb (Macd.histogram macd) 0 then
        if Js.ltb (Macd.histogram macd) (- 0.001) then (Bearish, 1.3, 20 + 10)
        else (Bearish, 1.0, 20)
      else (Neutral, 0, 0) in
    let unchanged :=
      {| Analysis.signal := signal; Analysis.strength := strength;
         Analysis.confidence := confidence |} in
    let recentPrices := map Candle.close (sliceLast 20 history) in
    match calculateMACDHistory ta sym 20 with
    | Some recentMACD =>
        if (10 <=? length recentMACD)%nat then
          let priceTrend := calculateTrend recentPrices in
          let macdTrend :=
            calculateTrendRead (map MacdEntry.macd recentMACD) in
          if Js.ltb priceTrend 0 && readLtb (Number 0) macdTrend then
            {| Analysis.signal := Bullish;
               Analysis.strength := Qmax strength 1.4;
               Analysis.confidence := confidence + 25 |}
          else if Js.ltb 0 priceTrend && readLtb macdTrend (Number 0) then
            {| Analysis.signal := Bearish;
               Analysis.strength := Qmax strength 1.4;
               Analysis.confidence := confidence + 25 |}
          else unchanged
        else unchanged
    | None => unchanged
    end.

End Oscillators.

(** The object returned by [analyzeBollingerBandsAdvanced]. *)
Module BandsAnalysis.
Record t := mk {
  analysis : Analysis.t;
  bbWidth : Q;
  pricePosition : Q
}.
End BandsAnalysis.

(** [analyzeBollingerBandsAdvanced(currentPrice, bb)].  A middle band of
    [0], or equal upper and lower bands, make the source's quotients [NaN]
    or infinite. *)
Definition analyzeBollingerBandsAdvanced (currentPrice : Q) (bb : Bands.t)
    : BandsAnalysis.t :=
  let bbWidth := (Bands.upper bb - Bands.lower bb) / Bands.middle bb in
  let pricePosition :=
    (currentPrice - Bands.lower bb) / (Bands.upper bb - Bands.lower bb) in
  let '(signal, strength, confidence) :=
    if Js.leb currentPrice (Bands.lower bb * 1.001) && Js.ltb 0.02 bbWidth
    then (Bullish, 1.1, 20)
    else if Js.leb (Bands.upper bb * 0.999) currentPrice
            && Js.ltb 0.02 bbWidth
    then (Bearish, 1.1, 20)
    else if Js.ltb (Bands.upper bb) currentPrice && Js.ltb bbWidth 0.015
    then (Bullish, 1.3, 25)
    else if Js.ltb currentPrice (Bands.lower bb) && Js.ltb bbWidth 0.015
    then (Bearish, 1.3, 25)
    else (Neutral, 0, 0) in
  {| BandsAnalysis.analysis :=
       {| Analysis.signal := signal; Analysis.strength := strength;
          Analysis.confidence := confidence |};
     BandsAnalysis.bbWidth := bbWidth;
     BandsAnalysis.pricePosition := pricePosition |}.

(** A vote that [analyzeSignal] can count: no direction with no weight, or
    a direction with a strength between 0.8 and 1.5 and a confidence
    between 15 and 55. *)
Definition boundedVote (a : Analysis.t) : Prop :=
  match Analysis.signal a with
  | Neutral => Analysis.strength a == 0 /\ Analysis.confidence a == 0
  | _ => 0.8 <= Analysis.strength a <= 1.5
         /\ 15 <= Analysis.confidence a <= 55
  end.

End IndicatorAnalysis.

(** ** Double-precision arithmetic

    The numbers of the program are IEEE 754 doubles.  A finite double is a
    rational, and an operation on doubles gives the double nearest to the
    exact result, the one with the even significand when the result lies
    half way between two.  Results beyond the largest double, which the
    program rounds to [Infinity], and quotients by zero are not
    represented. *)

Module Double.

(** [floor(log2 a)] for a positive [a]. *)
Definition exponent (a : Q) : Z :=
  let e := (Z.log2 (Qnum a) - Z.log2 (Zpos (Qden a)))%Z in
  if Qle_bool (2 ^ e) a then e else (e - 1)%Z.

(** The integer nearest to [x], the even one of the two when [x] lies half
    way. *)
Definition nearestEven (x : Q) : Z :=
  let f := Qfloor x in
  match Qcompare (x - inject_Z f) (1 # 2) with
  | Lt => f
  | Gt => (f + 1)%Z
  | Eq => if Z.even f then f else (f + 1)%Z
  end.

(** The double nearest to a positive [a]: a significand of 53 bits, or a
    multiple of [2 ^ -1074] below the normal range. *)
Definition magnitude (a : Q) : Q :=
  let shift := Z.max (exponent a - 52) (-1074) in
  Qred (inject_Z (nearestEven (a / 2 ^ shift)) * 2 ^ shift).

(** The double nearest to [q]. *)
Definition round (q : Q) : Q :=
  if Qeq_bool q 0 then 0
  else if Qle_bool 0 q then magnitude (Qabs q)
  else - magnitude (Qabs q).

(** [x + y], [x - y], [x * y] and [x / y] on doubles. *)
Definition add (x y : Q) : Q := round (x + y).
Definition sub (x y : Q) : Q := round (x - y).
Definition mul (x y : Q) : Q := round (x * y).
Definition div (x y : Q) : Q := round (x / y).

End Double.

(** ** The decisions of the trading bot *)

Module Decisions.

Import TechnicalAnalysis.

(** The strings ['high'], ['medium'] and ['low'] of the quality of a
    trend. *)
Module Quality.
Inductive t := high | medium | low.
End Quality.

(** The values of [recommendation] in the object returned by the bot's
    [analyzeTrend]: ['hold'], or a string of
    [determineTrendRecommendation]. *)
Inductive Advice := Hold | Advised (r : Recommendation).

Definition adviceIs (a : Advice) (r : Recommendation) : bool :=
  match a, r with
  | Advised StrongBuy, StrongBuy | Advised ModerateBuy, ModerateBuy
  | Advised StrongSell, StrongSell | Advised ModerateSell, ModerateSell
  | Advised WeakBuy, WeakBuy | Advised WeakSell, WeakSell
  | Advised WeakTrend, WeakTrend | Advised MixedSignals, MixedSignals
  | Advised InsufficientData, InsufficientData => true
  | _, _ => false
  end.

(** The object returned by the bot's [analyzeTrend], without
    [trendAlignment], which repeats three of its values for the log;
    [change] and [shortTermDirection] are absent from the object of the
    early return. *)
Module BotTrend.
Record t := mk {
  strength : Q;
  direction : Direction;
  quality : Quality.t;
  change : option Q;
  shortTermDirection : option Direction;
  longTermTrend : LongTermTrend.t;
  recommendation : Advice
}.
End BotTrend.

(** The loop [for (let i = 1; i < recent.length - 1; i++)] of the bot's
    [analyzeTrend]: the counters [higherHighs] and [lowerLows]. *)
Definition highsAndLows (recent : list Candle.t) : nat * nat :=
  foldl
    (fun acc i =>
       match recent !! i, recent !! (i - 1)%nat with
       | Some current, Some prev =>
           let acc1 :=
             if Js.ltb (Candle.high prev) (Candle.high current)
             then (S acc.1, acc.2) else acc in
           if Js.ltb (Candle.low current) (Candle.low prev)
           then (acc1.1, S acc1.2) else acc1
       | _, _ => acc
       end)
    (0%nat, 0%nat) (seq 1 (length recent - 2)).

Section Bot.

(** [this.technicalAnalysis.analyzeLongTermTrend], of which the bot reads
    the direction, the strength, the confidence and the recommendation. *)
Variable analyzeLongTermTrend : TechnicalAnalysis.t -> string -> LongTermTrend.t.

(** The bot's [analyzeTrend(symbol)].  The twenty most recent candles
    exist where the source reads the first and the last of them. *)
Definition analyzeTrend (ta : TechnicalAnalysis.t) (symbol : string)
    : BotTrend.t :=
  let dailySymbol := (symbol +:+ "_DAILY")%string in
  let longTermTrend := analyzeLongTermTrend ta dailySymbol in
  let history := getPriceHistory ta symbol in
  let insufficient :=
    {| BotTrend.strength := 0; BotTrend.direction := Neutral;
       BotTrend.quality := Quality.low; BotTrend.change := None;
       BotTrend.shortTermDirection := None;
       BotTrend.longTermTrend := longTermTrend;
       BotTrend.recommendation := Advised InsufficientData |} in
  if (length history <? 50)%nat then insufficient
  else
    let recent := sliceLast 20 history in
    let prices := map Candle.close recent in
    match head prices, last prices with
    | Some firstPrice, Some lastPrice =>
        let change := (lastPrice - firstPrice) / firstPrice in
        let '(higherHighs, lowerLows) := highsAndLows recent in
        let shortTermDirection :=
          if Js.ltb 0.02 change && (lowerLows <? higherHighs)%nat
          then Bullish
          else if Js.ltb change (- 0.02) && (higherHighs <? lowerLows)%nat
          then Bearish
          else Neutral in
        let strength := Qabs change in
        let quality :=
          if Js.ltb 0.05 strength then Quality.high
          else if Js.ltb 0.02 strength then Quality.medium
          else Quality.low in
        let '(finalDirection, finalQuality, recommendation) :=
          if negb (directionEqb (LongTermTrend.direction longTermTrend)
                     Neutral)
             && Js.ltb 50 (LongTermTrend.confidence longTermTrend) then
            if directionEqb (LongTermTrend.direction longTermTrend)
                 shortTermDirection
            then (LongTermTrend.direction longTermTrend, Quality.high,
                  Advised (LongTermTrend.recommendation longTermTrend))
            else if negb (directionEqb
                            (LongTermTrend.direction longTermTrend)
                            shortTermDirection)
                    && negb (directionEqb shortTermDirection Neutral)
            then (Neutral, Quality.low, Advised MixedSignals)
            else (LongTermTrend.direction longTermTrend,
                  if Js.ltb 70 (LongTermTrend.confidence longTermTrend)
                  then Quality.high else Quality.medium,
                  Advised (LongTermTrend.recommendation longTermTrend))
          else (shortTermDirection, quality, Hold) in
        {| BotTrend.strength := strength;
           BotTrend.direction := finalDirection;
           BotTrend.quality := finalQuality;
           BotTrend.change := Some (change * 100);
           BotTrend.shortTermDirection := Some shortTermDirection;
           BotTrend.longTermTrend := longTermTrend;
           BotTrend.recommendation := recommendation |}
    | _, _ => insufficient
    end.

End Bot.

(** The values of [config.trading] that the decisions read: [stopLoss] and
    [takeProfit] (a value that is not set compares as [NaN], so no
    comparison with it holds), [minConfidence], and of [testMode] the flags
    [enabled], [forceSignals] and [overrideFilters]. *)
Module BotConfig.
Record t := mk {
  stopLoss : option Q;
  takeProfit : option Q;
  minConfidence : Q;
  testModeEnabled : bool;
  forceSignals : bool;
  overrideFilters : bool
}.
End BotConfig.

(** The object returned by [analyzeExistingPositions]; the fields after
    [action] are absent from the objects of the early returns. *)
Module PositionAnalysis.
Inductive Action := none | hold | close.
Record t := mk {
  exists_ : bool;
  action : Action;
  reason : option string;
  pnl : option Q;
  pnlPercent : option Q;
  holdTime : option Q;
  entryPrice : option Q;
  currentPrice : option Q
}.
End PositionAnalysis.

(** [24 * 60 * 60 * 1000]. *)
Definition maxHoldTime : Q := 24 * 60 * 60 * 1000.

(** [riskManager.calculatePnL(position, currentPrice)] in doubles: the
    difference is rounded, then its product with the size. *)
Definition calculatePnL (position : RiskManager.Position) (currentPrice : Q)
    : Q :=
  if String.eqb (RiskManager.side position) "Buy"
  then Double.mul (Double.sub currentPrice (RiskManager.entryPrice position))
         (RiskManager.size position)
  else Double.mul (Double.sub (RiskManager.entryPrice position) currentPrice)
         (RiskManager.size position).

(** [pnl / (position.entryPrice * position.size)] in doubles. *)
Definition pnlFraction (position : RiskManager.Position) (currentPrice : Q)
    : Q :=
  Double.div (calculatePnL position currentPrice)
    (Double.mul (RiskManager.entryPrice position)
       (RiskManager.size position)).

(** [analyzeExistingPositions(symbol)]; [now] is [Date.now()], and the
    difference of two times is an integer, which no rounding changes.  The
    profit and its fraction of the value of the position are computed in
    doubles: the comparisons with the two thresholds turn on the last bits
    of the quotient.  An entry price or a size of [0] makes the source's
    [pnlPercent] [NaN] or infinite. *)
Definition analyzeExistingPositions (cfg : BotConfig.t) (rm : RiskManager.t)
    (ta : TechnicalAnalysis.t) (symbol : string) (now : Z)
    : PositionAnalysis.t :=
  match RiskManager.positions rm !! symbol with
  | None =>
      {| PositionAnalysis.exists_ := false;
         PositionAnalysis.action := PositionAnalysis.none;
         PositionAnalysis.reason := None; PositionAnalysis.pnl := None;
         PositionAnalysis.pnlPercent := None;
         PositionAnalysis.holdTime := None;
         PositionAnalysis.entryPrice := None;
         PositionAnalysis.currentPrice := None |}
  | Some position =>
      let noPrice :=
        {| PositionAnalysis.exists_ := true;
           PositionAnalysis.action := PositionAnalysis.hold;
           PositionAnalysis.reason := Some "no_price_data"%string;
           PositionAnalysis.pnl := None;
           PositionAnalysis.pnlPercent := None;
           PositionAnalysis.holdTime := None;
           PositionAnalysis.entryPrice := None;
           PositionAnalysis.currentPrice := None |} in
      match getCurrentPrice ta symbol with
      | None => noPrice
      | Some currentPrice =>
          if negb (Js.truthy currentPrice) then noPrice
          else
            let pnl := calculatePnL position currentPrice in
            let pnlPercent := pnlFraction position currentPrice in
            let holdTime :=
              inject_Z (now - RiskManager.timestamp position) in
            let '(action, reason) :=
              if match BotConfig.stopLoss cfg with
                 | Some sl => Js.leb pnlPercent (- sl)
                 | None => false
                 end
              then (PositionAnalysis.close, "stop_loss"%string)
              else if match BotConfig.takeProfit cfg with
                      | Some tp => Js.leb tp pnlPercent
                      | None => false
                      end
              then (PositionAnalysis.close, "take_profit"%string)
              else if Js.ltb maxHoldTime holdTime
              then (PositionAnalysis.close, "time_limit"%string)
              else (PositionAnalysis.hold, "normal"%string) in
            {| PositionAnalysis.exists_ := true;
               PositionAnalysis.action := action;
               PositionAnalysis.reason := Some reason;
               PositionAnalysis.pnl := Some pnl;
               PositionAnalysis.pnlPercent := Some (Double.mul pnlPercent 100);
               PositionAnalysis.holdTime :=
                 Some (Double.div (Double.div holdTime 1000) 60);
               PositionAnalysis.entryPrice :=
                 Some (RiskManager.entryPrice position);
               PositionAnalysis.currentPrice := Some currentPrice |}
      end
  end.

(** The strings of [analysis.volatility.recommendation],
    [analysis.volume.trend] and [analysis.marketStructure.pattern]. *)
Inductive VolatilityAdvice := avoid | good | caution.
Inductive VolumeTrend := increasing | decreasing | steady | unknownVolume.
Inductive Pattern := uptrend | downtrend | sideways | unknownPattern.

(** The object [analysis] that [performComprehensiveAnalysis] builds, with
    the fields that [calculateOverallScore] and [determineRecommendation]
    read. *)
Module Report.
Record t := mk {
  technical : Signal.t;
  trend : BotTrend.t;
  volatilityRecommendation : VolatilityAdvice;
  volumeTrend : VolumeTrend;
  volumeStrength : Q;
  pattern : Pattern;
  patternStrength : Q;
  position : PositionAnalysis.t;
  overallScore : Q
}.
End Report.

(** The five contributions to [score] in [calculateOverallScore]. *)
Definition technicalPart (a : Report.t) : Q :=
  if negb (tradeSignalEqb (Signal.signal (Report.technical a)) NoSignal) then
    let techScore :=
      Signal.strength (Report.technical a)
      * Signal.confidence (Report.technical a) / 100 in
    techScore * 0.4
  else 0.

Definition trendPart (a : Report.t) : Q :=
  if negb (directionEqb (BotTrend.direction (Report.trend a)) Neutral) then
    let trendScore :=
      BotTrend.strength (Report.trend a)
      * match BotTrend.quality (Report.trend a) with
        | Quality.high => 1
        | _ => 0.5
        end in
    trendScore * 0.25
  else 0.

Definition volatilityPart (a : Report.t) : Q :=
  match Report.volatilityRecommendation a with
  | good => 0.15
  | caution => 0.1
  | avoid => 0
  end.

Definition volumePart (a : Report.t) : Q :=
  if match Report.volumeTrend a with increasing => true | _ => false end
     && Js.ltb 1.2 (Report.volumeStrength a)
  then 0.1
  else if Js.ltb 1.5 (Report.volumeStrength a) then 0.05
  else 0.

Definition structurePart (a : Report.t) : Q :=
  match Report.pattern a with
  | sideways => 0
  | _ => Report.patternStrength a * 0.1
  end.

(** [calculateOverallScore(analysis)]. *)
Definition calculateOverallScore (a : Report.t) : Q :=
  let score := 0 + technicalPart a in
  let maxScore := 0 + 0.4 in
  let score := score + trendPart a in
  let maxScore := maxScore + 0.25 in
  let score := score + volatilityPart a in
  let maxScore := maxScore + 0.15 in
  let score := score + volumePart a in
  let maxScore := maxScore + 0.1 in
  let score := score + structurePart a in
  let maxScore := maxScore + 0.1 in
  if Js.ltb 0 maxScore then score / maxScore * 100 else 0.

(** The strings that [determineRecommendation] returns. *)
Inductive Action := buy | sell | hold | close_position | hold_position.

(** The outcome of a call that can throw: [generateTestRecommendation]
    reads [testSignal], a name that no scope declares, which raises a
    [ReferenceError]. *)
Inductive Outcome := Returned (a : Action) | ReferenceError.

(** [generateTestRecommendation(analysis)]: [lastTestSignalTime] is set,
    then the read of [testSignal] throws.  The result is the new value of
    [this.lastTestSignalTime] and the outcome. *)
Definition generateTestRecommendation (lastTestSignalTime : option Z)
    (now : Z) (analysis : Report.t) : option Z * Outcome :=
  let currentTime := now in
  let lastTestSignalTime :=
    match lastTestSignalTime with
    | Some v => if (v =? 0)%Z then Some currentTime else Some v
    | None => Some currentTime
    end in
  let lastTestSignalTime := Some currentTime in
  (lastTestSignalTime, ReferenceError).

(** The part of [determineRecommendation] after the test mode: the
    priority of the long-term trend, then the score. *)
Definition recommendByTrend (analysis : Report.t) : Action :=
  let score := Report.overallScore analysis in
  let technical := Report.technical analysis in
  let trend := Report.trend analysis in
  let longTermTrend := BotTrend.longTermTrend trend in
  let trendRecommendation := BotTrend.recommendation trend in
  let isSignal s := tradeSignalEqb (Signal.signal technical) s in
  if Js.ltb 60 (LongTermTrend.confidence longTermTrend)
     && directionEqb (LongTermTrend.direction longTermTrend) Bullish
     && (adviceIs trendRecommendation StrongBuy
         || adviceIs trendRecommendation ModerateBuy)
     && (isSignal Buy || isSignal NoSignal)
  then buy
  else if Js.ltb 60 (LongTermTrend.confidence longTermTrend)
     && directionEqb (LongTermTrend.direction longTermTrend) Bearish
     && (adviceIs trendRecommendation StrongSell
         || adviceIs trendRecommendation ModerateSell)
     && (isSignal Sell || isSignal NoSignal)
  then sell
  else if Js.ltb 50 (LongTermTrend.confidence longTermTrend)
     && ((directionEqb (LongTermTrend.direction longTermTrend) Bullish
          && isSignal Sell)
         || (directionEqb (LongTermTrend.direction longTermTrend) Bearish
             && isSignal Buy))
  then hold
  else if Js.ltb score 40 then hold
  else if isSignal Buy && Js.leb 45 score then buy
  else if isSignal Sell && Js.leb 45 score then sell
  else hold.

(** [determineRecommendation(analysis)]; the state threaded is
    [this.lastTestSignalTime], and [now] is [Date.now()]. *)
Definition determineRecommendation (cfg : BotConfig.t)
    (lastTestSignalTime : option Z) (now : Z) (analysis : Report.t)
    : option Z * Outcome :=
  let position := Report.position analysis in
  if PositionAnalysis.exists_ position then
    match PositionAnalysis.action position with
    | PositionAnalysis.close => (lastTestSignalTime, Returned close_position)
    | _ => (lastTestSignalTime, Returned hold_position)
    end
  else if BotConfig.testModeEnabled cfg && BotConfig.forceSignals cfg then
    generateTestRecommendation lastTestSignalTime now analysis
  else (lastTestSignalTime, Returned (recommendByTrend analysis)).

(** [config.trading.filters]; [minConfirmingIndicators] may be unset, and
    is skipped when it is [0]. *)
Module Filters.
Record t := mk {
  requireVolumeConfirmation : bool;
  requireMediumVolatility : bool;
  minConfirmingIndicators : option Q;
  avoidExtremeRSI : bool;
  preferDivergence : bool
}.
End Filters.

(** The entries of [details] in the object returned by [analyzeSignal]
    that the filters read; each is absent from the object of the early
    return, and [bb] and [volume] when the bands or the volume are not
    available. *)
Module SignalDetails.
Record t := mk {
  rsi : option Analysis.t;
  macd : option Analysis.t;
  trend : option Trend.t;
  bb : option IndicatorAnalysis.BandsAnalysis.t;
  volume : option Volume.t;
  volatility : option Volatility.t;
  rsi_value : option Q
}.
End SignalDetails.

(** The signal object as the filters read it. *)
Module Technical.
Record t := mk {
  signal : TradeSignal;
  strength : Q;
  confidence : Q;
  details : SignalDetails.t
}.
End Technical.

(** [vote === signal.signal] for the vote of an indicator analysis: the
    votes are ['bullish'], ['bearish'] and ['neutral'] and the signals
    ['buy'], ['sell'] and ['neutral'], so the two strings are equal only
    when both are ['neutral']. *)
Definition sameString (vote : Direction) (signal : TradeSignal) : bool :=
  match vote, signal with
  | Neutral, NoSignal => true
  | _, _ => false
  end.

(** [signal.signal === 'buy' ? 'bullish' : 'bearish']. *)
Definition expected (signal : TradeSignal) : Direction :=
  match signal with
  | Buy => Bullish
  | _ => Bearish
  end.

Definition bump (c : bool) (count : nat) : nat :=
  if c then S count else count.

(** [countConfirmingIndicators(signal)], which is also the count of step 4
    of [applyAdvancedFilters]. *)
Definition countConfirmingIndicators (signal : Technical.t) : nat :=
  let details := Technical.details signal in
  let s := Technical.signal signal in
  let count := 0%nat in
  let count :=
    bump (match SignalDetails.rsi details with
          | Some a => sameString (Analysis.signal a) s
          | None => false
          end) count in
  let count :=
    bump (match SignalDetails.macd details with
          | Some a => sameString (Analysis.signal a) s
          | None => false
          end) count in
  let count :=
    bump (match SignalDetails.trend details with
          | Some t => directionEqb (Trend.trend t) (expected s)
          | None => false
          end) count in
  let count :=
    bump (match SignalDetails.bb details with
          | Some b =>
              sameString
                (Analysis.signal (IndicatorAnalysis.BandsAnalysis.analysis b))
                s
          | None => false
          end) count in
  bump (match SignalDetails.volume details with
        | Some v => directionEqb (Volume.obvTrend v) (expected s)
        | None => false
        end) count.

(** The grounds on which [applyAdvancedFilters] rejects a signal; the
    source pushes a message for each. *)
Inductive Rejection :=
| LowConfidence | NoVolumeConfirmation | UnsuitableVolatility
| TooFewConfirmations | ExtremeRSI | NoDivergence | WeakTrendStrength
| NarrowBands.

(** The object returned by [applyAdvancedFilters]: [passed], the grounds
    in place of the messages joined into [reason], and of [details] the
    count of confirming indicators. *)
Module Filtered.
Record t := mk {
  passed : bool;
  reasons : list Rejection;
  confirmingIndicators : nat
}.
End Filtered.

(** [if (c) { passed = false; reasons.push(r); }]. *)
Definition reject (c : bool) (r : Rejection) (acc : bool * list Rejection)
    : bool * list Rejection :=
  if c then (false, acc.2 ++ [r]) else acc.

(** [applyAdvancedFilters(symbol, signal)]; the source does not read
    [symbol]. *)
Definition applyAdvancedFilters (cfg : BotConfig.t) (filters : Filters.t)
    (symbol : string) (signal : Technical.t) : Filtered.t :=
  let details := Technical.details signal in
  let acc := (true, []) in
  let acc :=
    reject (Js.ltb (Technical.confidence signal) (BotConfig.minConfidence cfg))
      LowConfidence acc in
  let acc :=
    reject (Filters.requireVolumeConfirmation filters
            && match SignalDetails.volume details with
               | Some v => negb (Volume.volumeConfirmation v)
               | None => false
               end)
      NoVolumeConfirmation acc in
  let acc :=
    reject (Filters.requireMediumVolatility filters
            && match SignalDetails.volatility details with
               | Some v =>
                   match Volatility.volatilityRank v with
                   | Medium => false
                   | _ => true
                   end
               | None => false
               end)
      UnsuitableVolatility acc in
  let acc :=
    reject (match Filters.minConfirmingIndicators filters with
            | Some m =>
                Js.truthy m
                && Js.ltb (inject_Z (Z.of_nat
                                       (countConfirmingIndicators signal))) m
            | None => false
            end)
      TooFewConfirmations acc in
  let acc :=
    reject (Filters.avoidExtremeRSI filters
            && match SignalDetails.rsi_value details with
               | Some r => Js.truthy r && (Js.ltb r 20 || Js.ltb 80 r)
               | None => false
               end)
      ExtremeRSI acc in
  let acc :=
    reject (Filters.preferDivergence filters
            && Js.ltb 0.8 (Technical.strength signal)
            && negb (match SignalDetails.rsi details with
                     | Some a => Js.ltb 30 (Analysis.confidence a)
                     | None => false
                     end
                     || match SignalDetails.macd details with
                        | Some a => Js.ltb 30 (Analysis.confidence a)
                        | None => false
                        end))
      NoDivergence acc in
  let acc :=
    reject (match SignalDetails.trend details with
            | Some t => Js.ltb (Trend.strength t) 0.15
            | None => false
            end)
      WeakTrendStrength acc in
  let acc :=
    reject (match SignalDetails.bb details with
            | Some b => Js.ltb (IndicatorAnalysis.BandsAnalysis.bbWidth b) 0.005
            | None => false
            end)
      NarrowBands acc in
  {| Filtered.passed := acc.1; Filtered.reasons := acc.2;
     Filtered.confirmingIndicators := countConfirmingIndicators signal |}.

(** The [action] of the decision of [makeTradingDecision(symbol,
    analysis)], for the recommendation and the technical signal of the
    analysis. *)
Definition makeTradingDecision (cfg : BotConfig.t) (filters : Filters.t)
    (symbol : string) (recommendation : Action) (technical : Technical.t)
    : Action :=
  match recommendation with
  | buy | sell =>
      if BotConfig.testModeEnabled cfg && BotConfig.overrideFilters cfg
      then recommendation
      else if negb (Filtered.passed
                      (applyAdvancedFilters cfg filters symbol technical))
      then hold
      else recommendation
  | _ => recommendation
  end.

(** The stop and the target that [executeTrade] computes for an order on
    [side] at [currentPrice], from [config.trading.stopLoss] and
    [config.trading.takeProfit], in doubles. *)
Definition tradeStopLoss (side : string) (currentPrice stopLoss : Q) : Q :=
  if String.eqb side "Buy"
  then Double.mul currentPrice (Double.sub 1 stopLoss)
  else Double.mul currentPrice (Double.add 1 stopLoss).

Definition tradeTakeProfit (side : string) (currentPrice takeProfit : Q) : Q :=
  if String.eqb side "Buy"
  then Double.mul currentPrice (Double.add 1 takeProfit)
  else Double.mul currentPrice (Double.sub 1 takeProfit).

(** [signal.signal === 'buy' ? 'Buy' : 'Sell']. *)
Definition tradeSide (signal : TradeSignal) : string :=
  match signal with
  | Buy => "Buy"%string
  | _ => "Sell"%string
  end.

(** What [executeTrade] stores after the order was accepted:
    [riskManager.addPosition(symbol, side, positionSize, currentPrice,
    stopLoss, takeProfit)]. *)
Definition recordTrade (rm : RiskManager.t) (symbol : string)
    (signal : TradeSignal) (positionSize currentPrice stopLoss takeProfit : Q)
    (now : Z) : RiskManager.t * RiskManager.Position :=
  let side := tradeSide signal in
  RiskManager.addPosition rm symbol side positionSize currentPrice
    (Some (tradeStopLoss side currentPrice stopLoss))
    (Some (tradeTakeProfit side currentPrice takeProfit)) None now.

(** The four counters of [analyzeMarketStructure]. *)
Module Swings.
Record t := mk {
  higherHighs : nat;
  lowerHighs : nat;
  higherLows : nat;
  lowerLows : nat
}.
End Swings.

(** The body of the loop of [analyzeMarketStructure] at index [i]; the four
    candles exist at every index that the loop visits. *)
Definition swingStep (recent : list Candle.t) (acc : Swings.t) (i : nat)
    : Swings.t :=
  match recent !! i, recent !! (i - 1)%nat, recent !! (i + 1)%nat,
        recent !! (i - 2)%nat with
  | Some current, Some prev, Some next, Some before =>
      let acc1 :=
        if Js.ltb (Candle.high prev) (Candle.high current)
           && Js.ltb (Candle.high next) (Candle.high current) then
          if (2 <? i)%nat
             && Js.ltb (Candle.high before) (Candle.high current)
          then {| Swings.higherHighs := S (Swings.higherHighs acc);
                  Swings.lowerHighs := Swings.lowerHighs acc;
                  Swings.higherLows := Swings.higherLows acc;
                  Swings.lowerLows := Swings.lowerLows acc |}
          else if (2 <? i)%nat
          then {| Swings.higherHighs := Swings.higherHighs acc;
                  Swings.lowerHighs := S (Swings.lowerHighs acc);
                  Swings.higherLows := Swings.higherLows acc;
                  Swings.lowerLows := Swings.lowerLows acc |}
          else acc
        else acc in
      if Js.ltb (Candle.low current) (Candle.low prev)
         && Js.ltb (Candle.low current) (Candle.low next) then
        if (2 <? i)%nat
           && Js.ltb (Candle.low before) (Candle.low current)
        then {| Swings.higherHighs := Swings.higherHighs acc1;
                Swings.lowerHighs := Swings.lowerHighs acc1;
                Swings.higherLows := S (Swings.higherLows acc1);
                Swings.lowerLows := Swings.lowerLows acc1 |}
        else if (2 <? i)%nat
        then {| Swings.higherHighs := Swings.higherHighs acc1;
                Swings.lowerHighs := Swings.lowerHighs acc1;
                Swings.higherLows := Swings.higherLows acc1;
                Swings.lowerLows := S (Swings.lowerLows acc1) |}
        else acc1
      else acc1
  | _, _, _, _ => acc
  end.

(** The loop [for (let i = 2; i < recent.length - 2; i++)] of
    [analyzeMarketStructure]. *)
Definition swings (recent : list Candle.t) : Swings.t :=
  foldl (swingStep recent)
    {| Swings.higherHighs := 0; Swings.lowerHighs := 0;
       Swings.higherLows := 0; Swings.lowerLows := 0 |}
    (seq 2 (length recent - 4)).

(** The object returned by [analyzeMarketStructure]; the counters are
    absent from the object of the early return. *)
Module MarketStructure.
Record t := mk {
  pattern : Pattern;
  strength : Q;
  counters : option Swings.t
}.
End MarketStructure.

(** A count as a number. *)
Definition number (n : nat) : Q := inject_Z (Z.of_nat n).

(** [analyzeMarketStructure(symbol)]. *)
Definition analyzeMarketStructure (ta : TechnicalAnalysis.t)
    (symbol : string) : MarketStructure.t :=
  let history := getPriceHistory ta symbol in
  if (length history <? 30)%nat then
    {| MarketStructure.pattern := unknownPattern;
       MarketStructure.strength := 0; MarketStructure.counters := None |}
  else
    let recent := sliceLast 30 history in
    let c := swings recent in
    let higherHighs := Swings.higherHighs c in
    let lowerHighs := Swings.lowerHighs c in
    let higherLows := Swings.higherLows c in
    let lowerLows := Swings.lowerLows c in
    let '(pattern, strength) :=
      if (lowerHighs <? higherHighs)%nat && (lowerLows <? higherLows)%nat
      then (uptrend,
            number (higherHighs + higherLows)
            / number (higherHighs + lowerHighs + higherLows + lowerLows))
      else if (higherHighs <? lowerHighs)%nat
              && (higherLows <? lowerLows)%nat
      then (downtrend,
            number (lowerHighs + lowerLows)
            / number (higherHighs + lowerHighs + higherLows + lowerLows))
      else (sideways, 0) in
    {| MarketStructure.pattern := pattern;
       MarketStructure.strength := strength;
       MarketStructure.counters := Some c |}.

End Decisions.

(** ** Evidence against a position *)

Module Evidence.

Import TechnicalAnalysis TradingBot.

(** No criterion of [detectTrendReversal] speaks against a position of
    side [sd]: for a long position the signal is not a sell, the
    long-term trend is not a bearish one of confidence above 60, the
    short-term trend is not bearish, the RSI is at most 75 and the MACD is
    not below its signal line with a negative histogram; for a short
    position the mirror image. *)
Definition aligned (sd : string) (sig : Signal.t)
    (lt : option LongTermTrend.t) (st : option ShortTermTrend.t) : Prop :=
  (sd = "Buy"%string
   /\ Signal.signal sig <> Sell
   /\ (forall l, lt = Some l -> LongTermTrend.direction l = Bearish ->
         LongTermTrend.confidence l <= 60)
   /\ (forall s, st = Some s -> ShortTermTrend.direction s <> Bearish)
   /\ (forall r, Signal.rsi_value (Signal.details sig) = Some r -> r <= 75)
   /\ (forall m, Signal.macd_value (Signal.details sig) = Some m ->
         Macd.signal m <= Macd.macd m \/ 0 <= Macd.histogram m))
  \/ (sd = "Sell"%string
      /\ Signal.signal sig <> Buy
      /\ (forall l, lt = Some l -> LongTermTrend.direction l = Bullish ->
            LongTermTrend.confidence l <= 60)
      /\ (forall s, st = Some s -> ShortTermTrend.direction s <> Bullish)
      /\ (forall r, Signal.rsi_value (Signal.details sig) = Some r ->
            25 <= r)
      /\ (forall m, Signal.macd_value (Signal.details sig) = Some m ->
            Macd.macd m <= Macd.signal m \/ Macd.histogram m <= 0)).

(** The three reversal thresholds of a configuration are at least [x]. *)
Definition thresholdsAtLeast (x : Q) (pp : ProfitProtection.t) : Prop :=
  x <= ProfitProtection.trendReversalThreshold pp
  /\ x <= ProfitProtection.criticalReversalThreshold pp
  /\ x <= ProfitProtection.lossMinimizationThreshold pp.

End Evidence.

(** ** The minimum quantity of the REST client *)

Module BybitRestApi.

(** [minQtyMap] of the REST client's [getMinQty]. *)
Definition minQtyMap : list (string * Q) :=
  [ ("BTCUSDT", 0.001); ("ETHUSDT", 0.01); ("ETCUSDT", 0.02);
    ("XRPUSDT", 5); ("ADAUSDT", 0.1); ("DOTUSDT", 0.01);
    ("LINKUSDT", 0.01); ("LTCUSDT", 0.001); ("BCHUSDT", 0.001);
    ("EOSUSDT", 0.1); ("TRXUSDT", 1) ].

(** [minQtyMap[symbol] || 0.01]. *)
Definition getMinQty (symbol : string) : Q :=
  Js.orElse (RiskManager.objGet symbol minQtyMap) 0.01.

(** The check with which [placeMarketOrder(symbol, side, qty)] starts:
    [parseFloat(qty) < minQty], on which it throws before any request is
    made. *)
Definition rejectsQuantity (symbol : string) (qty : Q) : bool :=
  Js.ltb qty (getMinQty symbol).

(** [closeSide] of [closePosition(symbol, side, qty)], which passes the
    quantity on to [placeMarketOrder]. *)
Definition closeSide (side : string) : string :=
  if String.eqb side "Buy" then "Sell"%string else "Buy"%string.

End BybitRestApi.

(** ** The performance monitor *)

Module PerformanceMonitor.

(** [this.metrics]. *)
Module Metrics.
Record t := mk {
  signalsAnalyzed : nat;
  signalsFiltered : nat;
  tradesExecuted : nat;
  tradesSuccessful : nat;
  totalProfit : Q;
  totalLoss : Q;
  startTime : Z
}.
End Metrics.

(** An element of [this.signalHistory], without the formatted time and the
    details of the signal, which the monitor stores and does not read. *)
Module SignalRecord.
Record t := mk {
  timestamp : Z;
  symbol : string;
  signal : TechnicalAnalysis.TradeSignal;
  strength : Q;
  confidence : Q;
  filtered : bool
}.
End SignalRecord.

(** An element of [this.tradeHistory], without the formatted times; the
    last four fields are the ones that [recordTradeClose] sets. *)
Module TradeRecord.
Record t := mk {
  timestamp : Z;
  symbol : string;
  side : string;
  size : Q;
  entryPrice : Q;
  stopLoss : Q;
  takeProfit : Q;
  signalStrength : Q;
  signalConfidence : Q;
  status : string;
  exitPrice : option Q;
  pnl : option Q;
  exitTime : option Z;
  closeReason : option string
}.
End TradeRecord.

Record t := mkMonitor {
  metrics : Metrics.t;
  signalHistory : list SignalRecord.t;
  tradeHistory : list TradeRecord.t
}.

(** The state after the constructor; [now] is [Date.now()]. *)
Definition new (now : Z) : t :=
  {| metrics :=
       {| Metrics.signalsAnalyzed := 0; Metrics.signalsFiltered := 0;
          Metrics.tradesExecuted := 0; Metrics.tradesSuccessful := 0;
          Metrics.totalProfit := 0; Metrics.totalLoss := 0;
          Metrics.startTime := now |};
     signalHistory := []; tradeHistory := [] |}.

(** [recordSignalAnalysis(symbol, signal, filtered)]. *)
Definition recordSignalAnalysis (pm : t) (symbol : string)
    (signal : TechnicalAnalysis.TradeSignal) (strength confidence : Q)
    (filtered : bool) (now : Z) : t :=
  let m := metrics pm in
  {| metrics :=
       {| Metrics.signalsAnalyzed := S (Metrics.signalsAnalyzed m);
          Metrics.signalsFiltered :=
            if filtered then S (Metrics.signalsFiltered m)
            else Metrics.signalsFiltered m;
          Metrics.tradesExecuted := Metrics.tradesExecuted m;
          Metrics.tradesSuccessful := Metrics.tradesSuccessful m;
          Metrics.totalProfit := Metrics.totalProfit m;
          Metrics.totalLoss := Metrics.totalLoss m;
          Metrics.startTime := Metrics.startTime m |};
     signalHistory :=
       signalHistory pm
       ++ [ {| SignalRecord.timestamp := now;
               SignalRecord.symbol := symbol;
               SignalRecord.signal := signal;
               SignalRecord.strength := strength;
               SignalRecord.confidence := confidence;
               SignalRecord.filtered := filtered |} ];
     tradeHistory := tradeHistory pm |}.

(** [recordTrade(symbol, side, size, price, stopLoss, takeProfit,
    signal)]. *)
Definition recordTrade (pm : t) (symbol side : string)
    (size price stopLoss takeProfit signalStrength signalConfidence : Q)
    (now : Z) : t :=
  let m := metrics pm in
  {| metrics :=
       {| Metrics.signalsAnalyzed := Metrics.signalsAnalyzed m;
          Metrics.signalsFiltered := Metrics.signalsFiltered m;
          Metrics.tradesExecuted := S (Metrics.tradesExecuted m);
          Metrics.tradesSuccessful := Metrics.tradesSuccessful m;
          Metrics.totalProfit := Metrics.totalProfit m;
          Metrics.totalLoss := Metrics.totalLoss m;
          Metrics.startTime := Metrics.startTime m |};
     signalHistory := signalHistory pm;
     tradeHistory :=
       tradeHistory pm
       ++ [ {| TradeRecord.timestamp := now; TradeRecord.symbol := symbol;
               TradeRecord.side := side; TradeRecord.size := size;
               TradeRecord.entryPrice := price;
               TradeRecord.stopLoss := stopLoss;
               TradeRecord.takeProfit := takeProfit;
               TradeRecord.signalStrength := signalStrength;
               TradeRecord.signalConfidence := signalConfidence;
               TradeRecord.status := "open";
               TradeRecord.exitPrice := None; TradeRecord.pnl := None;
               TradeRecord.exitTime := None;
               TradeRecord.closeReason := None |} ] |}.

(** [t.symbol === symbol && t.status === 'open']. *)
Definition isOpenFor (symbol : string) (t : TradeRecord.t) : bool :=
  String.eqb (TradeRecord.symbol t) symbol
  && String.eqb (TradeRecord.status t) "open".

(** The assignments of [recordTradeClose] to the record found. *)
Definition closeRecord (t : TradeRecord.t) (exitPrice pnl : Q)
    (reason : string) (now : Z) : TradeRecord.t :=
  {| TradeRecord.timestamp := TradeRecord.timestamp t;
     TradeRecord.symbol := TradeRecord.symbol t;
     TradeRecord.side := TradeRecord.side t;
     TradeRecord.size := TradeRecord.size t;
     TradeRecord.entryPrice := TradeRecord.entryPrice t;
     TradeRecord.stopLoss := TradeRecord.stopLoss t;
     TradeRecord.takeProfit := TradeRecord.takeProfit t;
     TradeRecord.signalStrength := TradeRecord.signalStrength t;
     TradeRecord.signalConfidence := TradeRecord.signalConfidence t;
     TradeRecord.status := "closed";
     TradeRecord.exitPrice := Some exitPrice;
     TradeRecord.pnl := Some pnl;
     TradeRecord.exitTime := Some now;
     TradeRecord.closeReason := Some reason |}.

(** [tradeHistory.find(...)] followed by the assignments to the record
    found, which the array shares: the history with its first open record
    of the symbol closed, [None] when there is none. *)
Fixpoint closeFirst (symbol : string) (exitPrice pnl : Q) (reason : string)
    (now : Z) (history : list TradeRecord.t) : option (list TradeRecord.t) :=
  match history with
  | [] => None
  | t :: rest =>
      if isOpenFor symbol t
      then Some (closeRecord t exitPrice pnl reason now :: rest)
      else (fun rest' => t :: rest')
             <$> closeFirst symbol exitPrice pnl reason now rest
  end.

(** [recordTradeClose(symbol, exitPrice, pnl, reason)]. *)
Definition recordTradeClose (pm : t) (symbol : string) (exitPrice pnl : Q)
    (reason : string) (now : Z) : t :=
  match closeFirst symbol exitPrice pnl reason now (tradeHistory pm) with
  | None => pm
  | Some history =>
      let m := metrics pm in
      {| metrics :=
           if Js.ltb 0 pnl then
             {| Metrics.signalsAnalyzed := Metrics.signalsAnalyzed m;
                Metrics.signalsFiltered := Metrics.signalsFiltered m;
                Metrics.tradesExecuted := Metrics.tradesExecuted m;
                Metrics.tradesSuccessful := S (Metrics.tradesSuccessful m);
                Metrics.totalProfit := Metrics.totalProfit m + pnl;
                Metrics.totalLoss := Metrics.totalLoss m;
                Metrics.startTime := Metrics.startTime m |}
           else
             {| Metrics.signalsAnalyzed := Metrics.signalsAnalyzed m;
                Metrics.signalsFiltered := Metrics.signalsFiltered m;
                Metrics.tradesExecuted := Metrics.tradesExecuted m;
                Metrics.tradesSuccessful := Metrics.tradesSuccessful m;
                Metrics.totalProfit := Metrics.totalProfit m;
                Metrics.totalLoss := Metrics.totalLoss m + Qabs pnl;
                Metrics.startTime := Metrics.startTime m |};
         signalHistory := signalHistory pm;
         tradeHistory := history |}
  end.

(** The calls that change the monitor. *)
Inductive Call :=
| RecordSignalAnalysis (symbol : string)
    (signal : TechnicalAnalysis.TradeSignal) (strength confidence : Q)
    (filtered : bool) (now : Z)
| RecordTrade (symbol side : string)
    (size price stopLoss takeProfit signalStrength signalConfidence : Q)
    (now : Z)
| RecordTradeClose (symbol : string) (exitPrice pnl : Q) (reason : string)
    (now : Z).

Definition call (pm : t) (c : Call) : t :=
  match c with
  | RecordSignalAnalysis symbol signal strength confidence filtered now =>
      recordSignalAnalysis pm symbol signal strength confidence filtered now
  | RecordTrade symbol side size price stopLoss takeProfit strength
      confidence now =>
      recordTrade pm symbol side size price stopLoss takeProfit strength
        confidence now
  | RecordTradeClose symbol exitPrice pnl reason now =>
      recordTradeClose pm symbol exitPrice pnl reason now
  end.

Definition calls (pm : t) (cs : list Call) : t := foldl call pm cs.

(** The records of the history that are closed, and those closed with a
    profit. *)
Definition isClosed (t : TradeRecord.t) : bool :=
  String.eqb (TradeRecord.status t) "closed".

Definition closedCount (history : list TradeRecord.t) : nat :=
  length (List.filter isClosed history).

Definition isWinner (t : TradeRecord.t) : bool :=
  isClosed t && Js.ltb 0 (Js.num (TradeRecord.pnl t)).

(** The number that [getPerformanceStats] formats as [winRate]. *)
Definition winRate (pm : t) : Q :=
  let m := metrics pm in
  if (0 <? Metrics.tradesExecuted m)%nat
  then inject_Z (Z.of_nat (Metrics.tradesSuccessful m))
       / inject_Z (Z.of_nat (Metrics.tradesExecuted m)) * 100
  else 0.

(** A closed record is covered by the totals: it carries a [pnl], at most
    [totalProfit] when it is positive and with a negation of at most
    [totalLoss] otherwise. *)
Definition covered (pm : t) (t : TradeRecord.t) : Prop :=
  isClosed t = true ->
  exists x, TradeRecord.pnl t = Some x
            /\ (0 < x -> x <= Metrics.totalProfit (metrics pm))
            /\ (x <= 0 -> - x <= Metrics.totalLoss (metrics pm)).

(** The bookkeeping that the calls maintain. *)
Definition consistent (pm : t) : Prop :=
  let m := metrics pm in
  Metrics.tradesExecuted m = length (tradeHistory pm)
  /\ Metrics.signalsAnalyzed m = length (signalHistory pm)
  /\ Metrics.signalsFiltered m
     = length (List.filter SignalRecord.filtered (signalHistory pm))
  /\ Metrics.tradesSuccessful m
     = length (List.filter isWinner (tradeHistory pm))
  /\ 0 <= Metrics.totalProfit m
  /\ 0 <= Metrics.totalLoss m
  /\ Forall (covered pm) (tradeHistory pm).

End PerformanceMonitor.

(** ** Sample histories and configurations *)

Module TrendSamples.

Import TechnicalAnalysis TrendAnalysis.

(** A candle with the given high and close, and a low of [1]. *)
Definition candle (h c : Q) : Candle.t :=
  {| Candle.timestamp := 0; Candle.open := c; Candle.high := h;
     Candle.low := 1; Candle.close := c; Candle.volume := 1 |}.

(** Seven candles: a peak at the fourth, above the candle two places
    back, and a last close of 150 after closes of 100. *)
Definition rising : list Candle.t :=
  [ candle 101 100; candle 101 100; candle 101 100; candle 105 100;
    candle 101 100; candle 101 100; candle 160 150 ].

Definition risingTA : TechnicalAnalysis.t :=
  {| priceHistory := {[ "BTCUSDT" := rising ]}; maxHistoryLength := 500 |}.

(** A configuration whose three frames look at the last seven candles. *)
Definition trendConfig : TrendConfig.t :=
  {| TrendConfig.dailyAnalysis := None;
     TrendConfig.longTermEMA :=
       {| LongTermEMA.fast := 2; LongTermEMA.medium := 4;
          LongTermEMA.slow := 6 |};
     TrendConfig.trendPeriods :=
       {| TrendPeriods.short := 7; TrendPeriods.medium := 7;
          TrendPeriods.long := 7 |};
     TrendConfig.timeFrameWeights :=
       {| TimeFrameWeights.short := 0.2; TimeFrameWeights.medium := 0.3;
          TimeFrameWeights.long := 0.5 |} |}.

(** A stand-in for the averages of the package: the mean of the last
    [period] values. *)
Definition meanOfLast (values : list Q) (period : nat) : list Q :=
  [ sum (sliceLast period values) / inject_Z (Z.of_nat period) ].

(** Bands of 90, 100 and 110. *)
Definition wideBands : Bands.t :=
  {| Bands.upper := 110; Bands.middle := 100; Bands.lower := 90 |}.

(** Fifty candles whose closes fall from 150 to 101. *)
Definition falling : list Candle.t :=
  map (fun i => candle 200 (150 - inject_Z (Z.of_nat i))) (seq 0 50).

Definition fallingTA : TechnicalAnalysis.t :=
  {| priceHistory := {[ "BTCUSDT" := falling ]}; maxHistoryLength := 500 |}.

(** A stand-in for the MACD of the package: thirty elements whose [MACD]
    rises from 1 to 30. *)
Definition risingMACD (values : list Q) (fast slow sig : Z)
    : list IndicatorAnalysis.MacdEntry.t :=
  map (fun i => {| IndicatorAnalysis.MacdEntry.MACD :=
                     inject_Z (Z.of_nat i);
                   IndicatorAnalysis.MacdEntry.signal := 0;
                   IndicatorAnalysis.MacdEntry.histogram := 0 |})
    (seq 1 30).

End TrendSamples.

(** ** Sample states of the bot *)

Module DecisionSamples.

Import TechnicalAnalysis Decisions.

(** Fifty candles at a constant close of 100. *)
Definition fiftyCandles : TechnicalAnalysis.t :=
  {| priceHistory := {[ "BTCUSDT" := repeat (Samples.flat 100) 50 ]};
     maxHistoryLength := 500 |}.

(** One candle at a close of 97. *)
Definition fallen : TechnicalAnalysis.t :=
  {| priceHistory := {[ "BTCUSDT" := [Samples.flat 97] ]};
     maxHistoryLength := 500 |}.

(** A stop at 2%, a target at 4%, a minimum confidence of 60 and no test
    mode. *)
Definition botConfig : BotConfig.t :=
  {| BotConfig.stopLoss := Some 0.02; BotConfig.takeProfit := Some 0.04;
     BotConfig.minConfidence := 60; BotConfig.testModeEnabled := false;
     BotConfig.forceSignals := false; BotConfig.overrideFilters := false |}.

(** Filters that ask for three confirming indicators. *)
Definition threeConfirmations : Filters.t :=
  {| Filters.requireVolumeConfirmation := false;
     Filters.requireMediumVolatility := false;
     Filters.minConfirmingIndicators := Some 3;
     Filters.avoidExtremeRSI := false;
     Filters.preferDivergence := false |}.

(** A buy signal of confidence 90 whose RSI, MACD and trend are all
    bullish. *)
Definition confirmedBuy : Technical.t :=
  {| Technical.signal := Buy; Technical.strength := 0.7;
     Technical.confidence := 90;
     Technical.details :=
       {| SignalDetails.rsi :=
            Some {| Analysis.signal := Bullish; Analysis.strength := 1.2;
                    Analysis.confidence := 25 |};
          SignalDetails.macd :=
            Some {| Analysis.signal := Bullish; Analysis.strength := 1.3;
                    Analysis.confidence := 30 |};
          SignalDetails.trend :=
            Some {| Trend.trend := Bullish; Trend.strength := 1 |};
          SignalDetails.bb := None;
          SignalDetails.volume := None;
          SignalDetails.volatility := None;
          SignalDetails.rsi_value := Some 24 |} |}.

(** A report without a position: a buy signal of strength 0.7 and
    confidence 90, a bullish trend of strength 0.1 behind a bullish
    long-term trend of confidence 80 with the recommendation
    [strong_buy]. *)
Definition strongBuyTrend : LongTermTrend.t :=
  {| LongTermTrend.direction := Bullish; LongTermTrend.strength := 0.7;
     LongTermTrend.confidence := 80;
     LongTermTrend.recommendation := StrongBuy |}.

Definition report : Report.t :=
  {| Report.technical :=
       {| Signal.signal := Buy; Signal.strength := 0.7;
          Signal.confidence := 90;
          Signal.details :=
            {| Signal.rsi_value := Some 24; Signal.macd_value := None;
               Signal.long_term_trend_direction := Some Bullish;
               Signal.long_term_trend_confidence := Some 80 |} |};
     Report.trend :=
       {| BotTrend.strength := 0.1; BotTrend.direction := Bullish;
          BotTrend.quality := Quality.high; BotTrend.change := Some 10;
          BotTrend.shortTermDirection := Some Bullish;
          BotTrend.longTermTrend := strongBuyTrend;
          BotTrend.recommendation := Advised StrongBuy |};
     Report.volatilityRecommendation := good;
     Report.volumeTrend := steady;
     Report.volumeStrength := 1;
     Report.pattern := sideways;
     Report.patternStrength := 0;
     Report.position :=
       {| PositionAnalysis.exists_ := false;
          PositionAnalysis.action := PositionAnalysis.none;
          PositionAnalysis.reason := None; PositionAnalysis.pnl := None;
          PositionAnalysis.pnlPercent := None;
          PositionAnalysis.holdTime := None;
          PositionAnalysis.entryPrice := None;
          PositionAnalysis.currentPrice := None |};
     Report.overallScore := 0 |}.

(** The same report when the symbol has a position that is to be held. *)
Definition reportWithPosition : Report.t :=
  {| Report.technical := Report.technical report;
     Report.trend := Report.trend report;
     Report.volatilityRecommendation := good;
     Report.volumeTrend := steady;
     Report.volumeStrength := 1;
     Report.pattern := sideways;
     Report.patternStrength := 0;
     Report.position :=
       {| PositionAnalysis.exists_ := true;
          PositionAnalysis.action := PositionAnalysis.hold;
          PositionAnalysis.reason := Some "normal"%string;
          PositionAnalysis.pnl := Some 0;
          PositionAnalysis.pnlPercent := Some 0;
          PositionAnalysis.holdTime := Some 0;
          PositionAnalysis.entryPrice := Some 100;
          PositionAnalysis.currentPrice := Some 100 |};
     Report.overallScore := 0 |}.

(** The configuration with the test mode forcing signals. *)
Definition testConfig : BotConfig.t :=
  {| BotConfig.stopLoss := Some 0.02; BotConfig.takeProfit := Some 0.04;
     BotConfig.minConfidence := 60; BotConfig.testModeEnabled := true;
     BotConfig.forceSignals := true; BotConfig.overrideFilters := false |}.

(** The configuration whose stop and target are the doubles that the
    literals [0.02] and [0.04] denote. *)
Definition doubleConfig : BotConfig.t :=
  {| BotConfig.stopLoss := Some (Double.round 0.02);
     BotConfig.takeProfit := Some (Double.round 0.04);
     BotConfig.minConfidence := 60; BotConfig.testModeEnabled := false;
     BotConfig.forceSignals := false; BotConfig.overrideFilters := false |}.

(** One candle at a close of [x]. *)
Definition priced (x : Q) : TechnicalAnalysis.t :=
  {| priceHistory := {[ "BTCUSDT" := [Samples.flat x] ]};
     maxHistoryLength := 500 |}.

End DecisionSamples.

(** ** Comparisons *)

Module JsProps.

Lemma ltb_lt (x y : Q) : Js.ltb x y = true <-> x < y.
Proof.
  unfold Js.ltb. rewrite negb_true_iff.
  split.
  - intros H. apply Qnot_le_lt. intros Hle.
    apply Qle_bool_iff in Hle. congruence.
  - intros H. destruct (Qle_bool y x) eqn:E; [|reflexivity].
    apply Qle_bool_iff in E. exfalso. exact (Qlt_not_le _ _ H E).
Qed.

Lemma ltb_ge (x y : Q) : Js.ltb x y = false <-> y <= x.
Proof.
  unfold Js.ltb. rewrite negb_false_iff. apply Qle_bool_iff.
Qed.

Lemma leb_le (x y : Q) : Js.leb x y = true <-> x <= y.
Proof. apply Qle_bool_iff. Qed.

End JsProps.

(** ** Properties of the risk manager *)

Module RiskManagerProps.

Import RiskManager.

(** C1, as stated, fails: on a manager that holds a long BTCUSDT position, a
    second [addPosition] for BTCUSDT is not rejected.  It returns an open
    position, stores it, and the position held before is gone. *)
Lemma addPosition_again_not_rejected :
  let rm := Samples.btcLong in
  let r := addPosition rm "BTCUSDT" "Sell" 2 200 None None None 1 in
  is_Some (positions rm !! "BTCUSDT")
  /\ status r.2 = "open"
  /\ positions r.1 !! "BTCUSDT" = Some r.2
  /\ positions r.1 !! "BTCUSDT" <> positions rm !! "BTCUSDT"
  /\ r.1 <> rm.
Proof.
  cbv zeta.
  assert (Hold : positions Samples.btcLong !! "BTCUSDT"
                 = Some (addPosition (RiskManager.new Samples.cfg Samples.monday)
                           "BTCUSDT" "Buy" 1 100 (Some 98) (Some 104) None 0).2).
  { apply lookup_insert_eq. }
  assert (Hnew : forall rm, positions
            (addPosition rm "BTCUSDT" "Sell" 2 200 None None None 1).1
            !! "BTCUSDT"
          = Some (addPosition rm "BTCUSDT" "Sell" 2 200 None None None 1).2).
  { intros rm. apply lookup_insert_eq. }
  assert (Hne : positions
            (addPosition Samples.btcLong "BTCUSDT" "Sell" 2 200 None None None 1).1
            !! "BTCUSDT" <> positions Samples.btcLong !! "BTCUSDT").
  { rewrite Hnew, Hold. intros E. apply (f_equal (fmap side)) in E.
    simpl in E. discriminate E. }
  split; [rewrite Hold; eexists; reflexivity|].
  split; [reflexivity|].
  split; [apply Hnew|].
  split; [exact Hne|].
  intros E. apply Hne. rewrite E. reflexivity.
Qed.

(** C1, amended: for a symbol that already has an open position,
    [addPosition] is not rejected.  It returns the position it builds, which
    is open and takes the place of the one held for the symbol; the positions
    of the other symbols, the set of symbols that have a position, the trade
    history, the daily counters and the rest of the state (the drawdown, the
    peak balance, the day of the last reset and the configuration) are as
    before, so the map still holds one position for the symbol. *)
Theorem addPosition_existing_replaced (rm : t) (sym sd : string) (sz entry : Q)
    (customStopLoss customTakeProfit riskPercent : option Q) (now : Z)
    (old : Position) :
  positions rm !! sym = Some old ->
  let r := addPosition rm sym sd sz entry customStopLoss customTakeProfit
             riskPercent now in
  positions r.1 !! sym = Some r.2
  /\ symbol r.2 = sym /\ side r.2 = sd /\ size r.2 = sz
  /\ entryPrice r.2 = entry /\ status r.2 = "open"
  /\ (forall s, s <> sym -> positions r.1 !! s = positions rm !! s)
  /\ dom (positions r.1) = dom (positions rm)
  /\ trades r.1 = trades rm
  /\ dailyLoss r.1 = dailyLoss rm /\ dailyProfit r.1 = dailyProfit rm
  /\ totalDrawdown r.1 = totalDrawdown rm
  /\ peakBalance r.1 = peakBalance rm
  /\ lastResetDate r.1 = lastResetDate rm /\ config r.1 = config rm.
Proof.
  intros Hold. cbv zeta. unfold addPosition. simpl.
  split; [apply lookup_insert_eq|].
  do 5 (split; [reflexivity|]).
  split; [intros s Hs; apply lookup_insert_ne; congruence|].
  split.
  { rewrite dom_insert_L. apply subseteq_union_1_L, singleton_subseteq_l.
    eapply elem_of_dom_2, Hold. }
  repeat split.
Qed.

(** The amended C1 at the sample manager. *)
Lemma addPosition_existing_replaced_witness :
  positions Samples.btcLong !! "BTCUSDT"
  = Some (addPosition (RiskManager.new Samples.cfg Samples.monday)
            "BTCUSDT" "Buy" 1 100 (Some 98) (Some 104) None 0).2
  /\ side (addPosition Samples.btcLong "BTCUSDT" "Sell" 2 200
             None None None 1).2 = "Sell".
Proof.
  assert (H : positions Samples.btcLong !! "BTCUSDT"
              = Some (addPosition (RiskManager.new Samples.cfg Samples.monday)
                        "BTCUSDT" "Buy" 1 100 (Some 98) (Some 104) None 0).2)
    by apply lookup_insert_eq.
  split; [exact H|].
  exact (proj1 (proj2 (proj2
    (addPosition_existing_replaced Samples.btcLong "BTCUSDT" "Sell" 2 200
       None None None 1 _ H)))).
Defined.

(** C10: for a symbol without an open position, [closePosition] returns
    [null] and the manager, with its position map, its trade history and its
    [dailyLoss] and [dailyProfit], is the one it was called on. *)
Theorem closePosition_absent (rm : t) (sym : string) (exit : Q) (why : string)
    (now : Z) :
  positions rm !! sym = None ->
  closePosition rm sym exit why now = (rm, None).
Proof.
  intros H. unfold closePosition. rewrite H. reflexivity.
Qed.

(** C10 at the sample manager, which has no ETHUSDT position. *)
Lemma closePosition_absent_witness :
  closePosition Samples.btcLong "ETHUSDT" 10 "manual" 5
  = (Samples.btcLong, None).
Proof.
  apply closePosition_absent.
  apply lookup_insert_None. split; [apply lookup_empty|discriminate].
Defined.

(** What the sample managers hold. *)
Lemma btcLong_lookup :
  positions Samples.btcLong !! "BTCUSDT"
  = Some (addPosition (RiskManager.new Samples.cfg Samples.monday)
            "BTCUSDT" "Buy" 1 100 (Some 98) (Some 104) None 0).2.
Proof. apply lookup_insert_eq. Qed.

Lemma btcTrailing_lookup :
  positions Samples.btcTrailing !! "BTCUSDT" = Some Samples.btcTrailingPosition.
Proof.
  unfold Samples.btcTrailing, setStopLoss. rewrite btcLong_lookup.
  simpl. apply lookup_insert_eq.
Qed.

(** C5: for an open position, [setStopLoss] accepts a stop-loss price
    exactly when it is on the loss side of the entry price, strictly below
    it for a Buy position and strictly above it for a Sell position; when it
    rejects, it returns [false] and the manager, hence the position's
    [stopLoss], is unchanged; when it accepts, the position's [stopLoss] is
    the proposed price. *)
Theorem setStopLoss_accepts_loss_side (rm : t) (sym : string) (stop : Q)
    (isTrailing : bool) (p : Position) :
  positions rm !! sym = Some p ->
  let r := setStopLoss rm sym stop isTrailing in
  (side p = "Buy" -> (r.2 = true <-> stop < entryPrice p))
  /\ (side p = "Sell" -> (r.2 = true <-> entryPrice p < stop))
  /\ (r.2 = false -> r.1 = rm)
  /\ (r.2 = true -> stopLoss <$> positions r.1 !! sym = Some stop).
Proof.
  intros Hp. cbv zeta. unfold setStopLoss. rewrite Hp.
  unfold validateStopLoss.
  assert (Hstored : forall q : Position,
            stopLoss <$> positions (withPositions rm (<[sym := q]> (positions rm)))
                           !! sym = Some (stopLoss q)).
  { intros q. simpl. rewrite lookup_insert_eq. reflexivity. }
  split; [|split; [|split]].
  - intros Hside. rewrite Hside. simpl. split.
    + intros Hr. apply JsProps.ltb_lt.
      destruct (Js.ltb stop (entryPrice p)); [reflexivity|discriminate Hr].
    + intros Hlt. apply JsProps.ltb_lt in Hlt. rewrite Hlt. reflexivity.
  - intros Hside. rewrite Hside. simpl. split.
    + intros Hr. apply JsProps.ltb_lt.
      destruct (Js.ltb (entryPrice p) stop); [reflexivity|discriminate Hr].
    + intros Hlt. apply JsProps.ltb_lt in Hlt. rewrite Hlt. reflexivity.
  - destruct (String.eqb (side p) "Buy");
      [destruct (Js.ltb stop (entryPrice p))
      |destruct (Js.ltb (entryPrice p) stop)];
      simpl; intros Hr; try reflexivity; discriminate Hr.
  - destruct (String.eqb (side p) "Buy");
      [destruct (Js.ltb stop (entryPrice p))
      |destruct (Js.ltb (entryPrice p) stop)];
      simpl negb; cbv iota; cbn [fst snd]; intros Hr; try discriminate Hr;
      rewrite Hstored; destruct isTrailing; reflexivity.
Qed.

(** C5 at the sample manager: a stop of 95 is below the entry of 100 and is
    accepted, and a stop of 105 is rejected. *)
Lemma setStopLoss_accepts_loss_side_witness :
  (setStopLoss Samples.btcLong "BTCUSDT" 95 false).2 = true
  /\ (setStopLoss Samples.btcLong "BTCUSDT" 105 false).2 = false.
Proof.
  split.
  - apply (proj1 (setStopLoss_accepts_loss_side Samples.btcLong "BTCUSDT" 95
                    false _ btcLong_lookup) eq_refl).
    reflexivity.
  - destruct (setStopLoss Samples.btcLong "BTCUSDT" 105 false).2 eqn:E;
      [|reflexivity].
    apply (proj1 (setStopLoss_accepts_loss_side Samples.btcLong "BTCUSDT" 105
                    false _ btcLong_lookup) eq_refl) in E.
    exfalso. revert E. apply Qle_not_lt. discriminate.
Defined.

(** C4: for an open position with the trailing stop enabled and any current
    price, [updateTrailingStop] keeps the position in the map and does not
    move its stop against it: for a Buy position the [stopLoss] after the
    call is at least the one before, for a Sell position at most. *)
Theorem updateTrailingStop_never_loosens (rm : t) (sym : string)
    (currentPrice : Q) (p : Position) :
  positions rm !! sym = Some p ->
  isTrailingStop p = true ->
  exists p',
    positions (updateTrailingStop rm sym currentPrice).1 !! sym = Some p'
    /\ (side p = "Buy" -> stopLoss p <= stopLoss p')
    /\ (side p = "Sell" -> stopLoss p' <= stopLoss p).
Proof.
  intros Hp Htr. unfold updateTrailingStop. rewrite Hp, Htr. simpl negb.
  cbv iota.
  destruct (String.eqb (side p) "Buy") eqn:Hside.
  - destruct (Js.ltb (Js.num (highestPrice p)) currentPrice).
    + simpl stopLoss.
      destruct (Js.ltb (stopLoss p)
                  (currentPrice - Js.num (trailingStopDistance p))) eqn:Hup.
      * eexists. split; [apply lookup_insert_eq|]. simpl.
        apply JsProps.ltb_lt in Hup. split.
        -- intros _. apply Qlt_le_weak, Hup.
        -- intros Hs. rewrite Hs in Hside. discriminate Hside.
      * eexists. split; [apply lookup_insert_eq|]. simpl.
        split; intros _; apply Qle_refl.
    + exists p. split; [exact Hp|]. split; intros _; apply Qle_refl.
  - destruct (Js.ltb currentPrice (Js.num (lowestPrice p))).
    + simpl stopLoss.
      destruct (Js.ltb (currentPrice + Js.num (trailingStopDistance p))
                  (stopLoss p)) eqn:Hup.
      * eexists. split; [apply lookup_insert_eq|]. simpl.
        apply JsProps.ltb_lt in Hup. split.
        -- intros Hs. rewrite Hs in Hside. discriminate Hside.
        -- intros _. apply Qlt_le_weak, Hup.
      * eexists. split; [apply lookup_insert_eq|]. simpl.
        split; intros _; apply Qle_refl.
    + exists p. split; [exact Hp|]. split; intros _; apply Qle_refl.
Qed.

(** C4 at the sample manager with a trailing stop of 95: a price of 110
    leaves a stop that is not below 95. *)
Lemma updateTrailingStop_never_loosens_witness :
  exists p',
    positions (updateTrailingStop Samples.btcTrailing "BTCUSDT" 110).1
      !! "BTCUSDT" = Some p'
    /\ 95 <= stopLoss p'.
Proof.
  destruct (updateTrailingStop_never_loosens Samples.btcTrailing "BTCUSDT" 110
              Samples.btcTrailingPosition btcTrailing_lookup eq_refl)
    as [p' [Hl [Hbuy _]]].
  exists p'. split; [exact Hl|]. exact (Hbuy eq_refl).
Defined.

(** C2, as stated, fails: with a balance of 10 the size is the floor of
    25 dollars, which is above 0.7 times the balance. *)
Lemma calculatePositionSize_small_balance :
  let r := calculatePositionSize (RiskManager.new Samples.cfg Samples.monday)
             10 "BTCUSDT" 1 50 (Some 100) in
  0 < 10 /\ 0 <= 50 <= 100 /\ 0 < 100
  /\ sizeUSD r == 25 /\ ~ sizeUSD r <= 0.7 * 10.
Proof.
  cbv zeta. split; [reflexivity|]. split; [split; discriminate|].
  split; [reflexivity|]. split; [vm_compute; reflexivity|].
  apply Qlt_not_le. vm_compute. reflexivity.
Qed.

(** The sizing example of the specification: a balance of 10000, a position
    size of 0.05, a strength of 0.9 and a confidence of 80 give 540
    dollars. *)
Example calculatePositionSize_540 :
  sizeUSD (calculatePositionSize (RiskManager.new Samples.cfg Samples.monday)
             10000 "BTCUSDT" 0.9 80 None) == 540.
Proof. vm_compute. reflexivity. Qed.

(** The stop-loss example of the specification: a long entry at 100 with a
    risk of 0.02 has its stop at 98 and, with a ratio of 2, its target at
    104. *)
Example calculateStopLoss_98_104 :
  let rm := RiskManager.new Samples.cfg Samples.monday in
  calculateStopLoss rm 100 "Buy" None == 98
  /\ calculateTakeProfit rm 100 "Buy" 98 None == 104.
Proof. split; vm_compute; reflexivity. Qed.

(** The dollar size does not depend on the price. *)
Lemma sizeUSD_calculatePositionSize (rm : t) (balance : Q) (sym : string)
    (signalStrength confidence : Q) (currentPrice : option Q) :
  sizeUSD (calculatePositionSize rm balance sym signalStrength confidence
             currentPrice)
  = Qmax (Qmin (balance * Config.positionSize (config rm)
                * Qmin (signalStrength * 1.5) 1.5 * (confidence / 100))
            (balance * 0.7)) 25.
Proof.
  unfold calculatePositionSize.
  destruct currentPrice as [cp|]; [|reflexivity].
  destruct (Js.truthy cp && Js.ltb 0 cp); reflexivity.
Qed.

(** C2, amended: for every balance, signal strength, confidence and
    positive current price, the dollar size is at least 25; it is at most
    0.7 times the balance whenever 0.7 times the balance is at least 25, and
    it is 25 otherwise; the quantity is never below the minimum order
    quantity of the instrument. *)
Theorem calculatePositionSize_bounds (rm : t) (balance : Q) (sym : string)
    (signalStrength confidence currentPrice : Q) :
  0 < currentPrice ->
  let r := calculatePositionSize rm balance sym signalStrength confidence
             (Some currentPrice) in
  25 <= sizeUSD r
  /\ (25 <= balance * 0.7 -> sizeUSD r <= balance * 0.7)
  /\ (balance * 0.7 <= 25 -> sizeUSD r == 25)
  /\ getMinQty sym <= quantity r.
Proof.
  intros Hcp. cbv zeta. rewrite sizeUSD_calculatePositionSize.
  split; [apply Q.le_max_r|].
  split.
  { intros H. apply Q.max_lub; [apply Q.le_min_r|exact H]. }
  split.
  { intros H. apply Q.max_r.
    eapply Qle_trans; [apply Q.le_min_r|exact H]. }
  unfold calculatePositionSize.
  assert (Ht : Js.truthy currentPrice && Js.ltb 0 currentPrice = true).
  { apply andb_true_intro. split.
    - unfold Js.truthy. apply negb_true_iff.
      destruct (Qeq_bool currentPrice 0) eqn:E; [|reflexivity].
      apply Qeq_bool_iff in E. rewrite E in Hcp.
      exfalso. exact (Qlt_irrefl _ Hcp).
    - apply JsProps.ltb_lt, Hcp. }
  rewrite Ht. simpl quantity. apply Q.le_max_r.
Qed.

(** The amended C2 on a balance of 10000 and a price of 50000. *)
Lemma calculatePositionSize_bounds_witness :
  let r := calculatePositionSize (RiskManager.new Samples.cfg Samples.monday)
             10000 "BTCUSDT" 0.9 80 (Some 50000) in
  25 <= sizeUSD r /\ sizeUSD r <= 10000 * 0.7 /\ 0.001 <= quantity r.
Proof.
  cbv zeta.
  destruct (calculatePositionSize_bounds
              (RiskManager.new Samples.cfg Samples.monday) 10000 "BTCUSDT"
              0.9 80 50000 eq_refl) as [Hlo [Hhi [_ Hq]]].
  split; [exact Hlo|]. split; [apply Hhi; discriminate|exact Hq].
Defined.

(** Every manager reached from a new one holds, for each symbol, at most the
    one position of the map entry, and that position is open and carries the
    symbol. *)
Lemma call_openUnderSymbol (rm : t) (c : Call) :
  openUnderSymbol rm -> openUnderSymbol (call rm c).
Proof.
  unfold openUnderSymbol. intros H. destruct c; simpl.
  - destruct (negb (String.eqb today (lastResetDate rm))); exact H.
  - destruct (Js.ltb (peakBalance rm) currentBalance); exact H.
  - apply map_Forall_insert_2; [split; reflexivity|exact H].
  - unfold closePosition. destruct (positions rm !! sym); [|exact H].
    destruct (Js.ltb 0 (calculatePnL p exit)); simpl;
      apply map_Forall_delete, H.
  - unfold setStopLoss. destruct (positions rm !! sym) eqn:E; [|exact H].
    destruct (validateStopLoss p stopLossPrice); [|exact H]. simpl.
    apply map_Forall_insert_2; [|exact H].
    specialize (H sym p E). destruct isTrailing; exact H.
  - unfold updateTrailingStop. destruct (positions rm !! sym) eqn:E; [|exact H].
    specialize (H sym p E) as Hp.
    destruct (isTrailingStop p); [|exact H]. simpl.
    destruct (String.eqb (side p) "Buy").
    + destruct (Js.ltb (Js.num (highestPrice p)) currentPrice); [|exact H].
      destruct (Js.ltb (stopLoss p)
                  (currentPrice - Js.num (trailingStopDistance p)));
        simpl; apply map_Forall_insert_2; try exact H; exact Hp.
    + destruct (Js.ltb currentPrice (Js.num (lowestPrice p))); [|exact H].
      destruct (Js.ltb (currentPrice + Js.num (trailingStopDistance p))
                  (stopLoss p));
        simpl; apply map_Forall_insert_2; try exact H; exact Hp.
  - unfold modifyTakeProfit. destruct (positions rm !! sym) eqn:E; [|exact H].
    simpl. apply map_Forall_insert_2; [|exact H]. exact (H sym p E).
Qed.

Lemma calls_openUnderSymbol (cs : list Call) (cfg : Config.t) (today : string) :
  openUnderSymbol (calls (RiskManager.new cfg today) cs).
Proof.
  assert (H : forall rm, openUnderSymbol rm -> openUnderSymbol (calls rm cs)).
  { induction cs as [|c cs IH]; intros rm Hrm; [exact Hrm|].
    apply (IH (call rm c)), call_openUnderSymbol, Hrm. }
  apply H. unfold openUnderSymbol. simpl. apply map_Forall_empty.
Qed.

(** A call made on the day of the last reset leaves the configuration and
    the reset date alone and does not lower the recorded daily loss. *)
Lemma call_same_day (rm : t) (today : string) (c : Call) :
  lastResetDate rm = today ->
  onDay today c ->
  config (call rm c) = config rm
  /\ lastResetDate (call rm c) = today
  /\ dailyLoss rm <= dailyLoss (call rm c).
Proof.
  intros Hd Hc. destruct c; simpl in *.
  - subst today0. rewrite <- Hd. rewrite String.eqb_refl. simpl.
    repeat split. apply Qle_refl.
  - destruct (Js.ltb (peakBalance rm) currentBalance); simpl;
      repeat split; try assumption; apply Qle_refl.
  - repeat split; try assumption. apply Qle_refl.
  - unfold closePosition. destruct (positions rm !! sym); simpl.
    + destruct (Js.ltb 0 (calculatePnL p exit)); simpl.
      * repeat split; try assumption. apply Qle_refl.
      * repeat split; try assumption.
        rewrite <- (Qplus_0_r (dailyLoss rm)) at 1.
        apply Qplus_le_r, Qabs_nonneg.
    + repeat split; try assumption. apply Qle_refl.
  - unfold setStopLoss. destruct (positions rm !! sym); simpl.
    + destruct (validateStopLoss p stopLossPrice); simpl;
        repeat split; try assumption; apply Qle_refl.
    + repeat split; try assumption. apply Qle_refl.
  - unfold updateTrailingStop. destruct (positions rm !! sym); simpl.
    + destruct (isTrailingStop p); simpl.
      * destruct (String.eqb (side p) "Buy").
        -- destruct (Js.ltb (Js.num (highestPrice p)) currentPrice).
           ++ destruct (Js.ltb (stopLoss p)
                          (currentPrice - Js.num (trailingStopDistance p)));
                simpl; repeat split; try assumption; apply Qle_refl.
           ++ simpl; repeat split; try assumption; apply Qle_refl.
        -- destruct (Js.ltb currentPrice (Js.num (lowestPrice p))).
           ++ destruct (Js.ltb
                          (currentPrice + Js.num (trailingStopDistance p))
                          (stopLoss p));
                simpl; repeat split; try assumption; apply Qle_refl.
           ++ simpl; repeat split; try assumption; apply Qle_refl.
      * repeat split; try assumption. apply Qle_refl.
    + repeat split; try assumption. apply Qle_refl.
  - unfold modifyTakeProfit. destruct (positions rm !! sym); simpl;
      repeat split; try assumption; apply Qle_refl.
Qed.

(** The same for a history of calls. *)
Lemma calls_same_day (cs : list Call) (rm : t) (today : string) :
  lastResetDate rm = today ->
  Forall (onDay today) cs ->
  config (calls rm cs) = config rm
  /\ lastResetDate (calls rm cs) = today
  /\ dailyLoss rm <= dailyLoss (calls rm cs).
Proof.
  revert rm. induction cs as [|c cs IH]; intros rm Hd Hcs.
  - simpl. repeat split; [assumption|apply Qle_refl].
  - apply Forall_cons in Hcs. destruct Hcs as [Hc Hcs].
    destruct (call_same_day rm today c Hd Hc) as [Hcfg [Hd' Hle]].
    destruct (IH (call rm c) Hd' Hcs) as [Hcfg' [Hd'' Hle']].
    unfold calls in *. simpl.
    split; [congruence|]. split; [assumption|].
    eapply Qle_trans; eassumption.
Qed.

(** C7: a manager whose limit is 500 and whose recorded daily loss is 450 on
    the day of its last reset passes [checkDailyLossLimit].  Closing a
    position with a profit of -60 brings the recorded loss to 510; from then
    on, after any history of calls made on that day, [checkDailyLossLimit]
    on that day returns [false]; called on another day it sets both daily
    counters to 0, records that day, and returns [true]. *)
Theorem daily_loss_limit_until_rollover (rm : t) (today sym : string)
    (p : Position) (exit : Q) (why : string) (now : Z) :
  Config.dailyLossLimit (config rm) == 500 ->
  dailyLoss rm == 450 ->
  lastResetDate rm = today ->
  positions rm !! sym = Some p ->
  calculatePnL p exit == -60 ->
  let rm1 := (closePosition rm sym exit why now).1 in
  checkDailyLossLimit rm today = (rm, true)
  /\ dailyLoss rm1 == 510
  /\ (forall cs, Forall (onDay today) cs ->
        (checkDailyLossLimit (calls rm1 cs) today).2 = false)
  /\ (forall cs day, Forall (onDay today) cs -> day <> today ->
        let r := checkDailyLossLimit (calls rm1 cs) day in
        dailyLoss r.1 = 0 /\ dailyProfit r.1 = 0
        /\ lastResetDate r.1 = day /\ r.2 = true).
Proof.
  intros Hlim Hloss Hd Hp Hpnl. cbv zeta.
  assert (Hneg : Js.ltb 0 (calculatePnL p exit) = false).
  { apply JsProps.ltb_ge. rewrite Hpnl. discriminate. }
  assert (Hrm1 : (closePosition rm sym exit why now).1
                 = withPositions
                     (withTrades
                        (withDailyLoss rm
                           (dailyLoss rm + Qabs (calculatePnL p exit)))
                        (trades rm ++ [closed p exit now why
                                         (calculatePnL p exit)]))
                     (delete sym (positions rm))).
  { unfold closePosition. rewrite Hp. simpl. rewrite Hneg. reflexivity. }
  assert (H510 : dailyLoss (closePosition rm sym exit why now).1 == 510).
  { rewrite Hrm1. simpl. rewrite Hloss, Hpnl. reflexivity. }
  assert (Hd1 : lastResetDate (closePosition rm sym exit why now).1 = today).
  { rewrite Hrm1. exact Hd. }
  assert (Hc1 : config (closePosition rm sym exit why now).1 = config rm).
  { rewrite Hrm1. reflexivity. }
  split.
  { unfold checkDailyLossLimit. rewrite Hd, String.eqb_refl. simpl.
    f_equal. apply JsProps.ltb_lt. rewrite Hloss, Hlim. reflexivity. }
  split; [exact H510|].
  split.
  - intros cs Hcs.
    destruct (calls_same_day cs _ today Hd1 Hcs) as [Hcfg [Hday Hle]].
    unfold checkDailyLossLimit. rewrite Hday, String.eqb_refl. simpl.
    apply JsProps.ltb_ge. rewrite Hcfg, Hc1, Hlim.
    eapply Qle_trans; [|exact Hle]. rewrite H510. discriminate.
  - intros cs day Hcs Hne.
    destruct (calls_same_day cs _ today Hd1 Hcs) as [Hcfg [Hday Hle]].
    unfold checkDailyLossLimit. rewrite Hday.
    assert (E : String.eqb day today = false)
      by (apply String.eqb_neq; exact Hne).
    rewrite E. simpl. repeat split.
    apply JsProps.ltb_lt. rewrite Hcfg, Hc1, Hlim. reflexivity.
Qed.

(** What [Samples.nearLimit] holds. *)
Lemma nearLimit_lookup :
  positions Samples.nearLimit !! "ETHUSDT"
  = Some (addPosition (RiskManager.new Samples.cfg Samples.monday)
            "ETHUSDT" "Buy" 6 100 (Some 98) (Some 104) None 0).2.
Proof. apply lookup_insert_eq. Qed.

(** C7 at the sample manager: the long position of size 6 entered at 100 is
    closed at 90; a later check on Monday fails, one on Tuesday resets. *)
Lemma daily_loss_limit_until_rollover_witness :
  let rm1 := (closePosition Samples.nearLimit "ETHUSDT" 90 "stop_loss" 7).1 in
  checkDailyLossLimit Samples.nearLimit Samples.monday
  = (Samples.nearLimit, true)
  /\ dailyLoss rm1 == 510
  /\ (checkDailyLossLimit rm1 Samples.monday).2 = false
  /\ dailyLoss (checkDailyLossLimit rm1 Samples.tuesday).1 = 0.
Proof.
  cbv zeta.
  destruct (daily_loss_limit_until_rollover Samples.nearLimit Samples.monday
              "ETHUSDT" _ 90 "stop_loss" 7
              (Qeq_refl 500) (Qeq_refl 450) eq_refl nearLimit_lookup eq_refl)
    as [H1 [H2 [H3 H4]]].
  split; [exact H1|]. split; [exact H2|]. split.
  - exact (H3 [] (Forall_nil_2 _)).
  - refine (proj1 (H4 [] Samples.tuesday (Forall_nil_2 _) _)). discriminate.
Defined.

End RiskManagerProps.

(** ** Properties of the technical analysis *)

Module TechnicalAnalysisProps.

Import TechnicalAnalysis.

(** C8: whatever the indicator package computes, for a symbol whose stored
    history has fewer than [period + 1] candles [calculateRSI] returns
    [null], and for one whose history has fewer than
    [slowPeriod + signalPeriod] candles [calculateMACD] returns [null]; the
    package is not consulted and no value is made up. *)
Theorem indicators_unavailable_below_minimum :
  (forall RSI_calculate ta sym period,
     (Z.of_nat (length (getPriceHistory ta sym)) < period + 1)%Z ->
     calculateRSI RSI_calculate ta sym period = None)
  /\ (forall MACD_calculate ta sym fastPeriod slowPeriod signalPeriod,
        (Z.of_nat (length (getPriceHistory ta sym))
         < slowPeriod + signalPeriod)%Z ->
        calculateMACD MACD_calculate ta sym fastPeriod slowPeriod signalPeriod
        = None).
Proof.
  split.
  - intros RSI_calculate ta sym period H. unfold calculateRSI.
    apply Z.ltb_lt in H. rewrite H. reflexivity.
  - intros MACD_calculate ta sym fastPeriod slowPeriod signalPeriod H.
    unfold calculateMACD. apply Z.ltb_lt in H. rewrite H. reflexivity.
Qed.

(** C8 on a history of ten candles and on a symbol without a history, with
    the default periods and a package that would return a value. *)
Lemma indicators_unavailable_below_minimum_witness :
  calculateRSI Samples.constRSI Samples.tenCandles "BTCUSDT" 14 = None
  /\ calculateMACD Samples.constMACD Samples.tenCandles "BTCUSDT" 12 26 9 = None
  /\ calculateRSI Samples.constRSI Samples.tenCandles "ETHUSDT" 14 = None.
Proof.
  destruct indicators_unavailable_below_minimum as [Hrsi Hmacd].
  split; [|split].
  - apply Hrsi. vm_compute. reflexivity.
  - apply Hmacd. vm_compute. reflexivity.
  - apply Hrsi. vm_compute. reflexivity.
Defined.

(** Sorting keeps the elements and the length. *)
Lemma In_insertAscending (v x : Q) (l : list Q) :
  In v (insertAscending x l) <-> v = x \/ In v l.
Proof.
  induction l as [|y l IH]; simpl.
  - intuition.
  - destruct (Qle_bool x y); simpl; [intuition|].
    rewrite IH. intuition.
Qed.

Lemma In_sortAscending (v : Q) (l : list Q) :
  In v (sortAscending l) <-> In v l.
Proof.
  induction l as [|x l IH]; simpl; [reflexivity|].
  rewrite In_insertAscending, IH. intuition.
Qed.

Lemma length_insertAscending (x : Q) (l : list Q) :
  length (insertAscending x l) = S (length l).
Proof.
  induction l as [|y l IH]; simpl; [reflexivity|].
  destruct (Qle_bool x y); simpl; [reflexivity|]. rewrite IH. reflexivity.
Qed.

Lemma length_sortAscending (l : list Q) :
  length (sortAscending l) = length l.
Proof.
  induction l as [|x l IH]; simpl; [reflexivity|].
  rewrite length_insertAscending, IH. reflexivity.
Qed.

(** [sortAscending] returns its argument rearranged in ascending order. *)
Lemma insertAscending_perm (x : Q) (l : list Q) :
  Permutation (insertAscending x l) (x :: l).
Proof.
  induction l as [|y l IH]; simpl; [reflexivity|].
  destruct (Qle_bool x y); [reflexivity|].
  rewrite IH. apply perm_swap.
Qed.

Lemma sortAscending_perm (l : list Q) : Permutation (sortAscending l) l.
Proof.
  induction l as [|x l IH]; simpl; [reflexivity|].
  rewrite insertAscending_perm, IH. reflexivity.
Qed.

Lemma insertAscending_sorted (x : Q) (l : list Q) :
  StronglySorted Qle l -> StronglySorted Qle (insertAscending x l).
Proof.
  induction l as [|y l IH]; intros Hs; simpl.
  - constructor; constructor.
  - apply StronglySorted_inv in Hs. destruct Hs as [Hs Hy].
    destruct (Qle_bool x y) eqn:E.
    + apply Qle_bool_iff in E. constructor.
      * constructor; assumption.
      * constructor; [exact E|].
        apply List.Forall_forall. intros z Hz.
        apply Qle_trans with y; [exact E|].
        exact (proj1 (List.Forall_forall _ _) Hy z Hz).
    + constructor; [apply IH, Hs|].
      apply List.Forall_forall. intros z Hz.
      apply In_insertAscending in Hz. destruct Hz as [Hz|Hz].
      * subst z. apply Qlt_le_weak, Qnot_le_lt. intros Hle.
        apply Qle_bool_iff in Hle. congruence.
      * exact (proj1 (List.Forall_forall _ _) Hy z Hz).
Qed.

Lemma sortAscending_sorted (l : list Q) : StronglySorted Qle (sortAscending l).
Proof.
  induction l as [|x l IH]; simpl; [constructor|].
  apply insertAscending_sorted, IH.
Qed.

(** [findIndex] answers [-1] when no element passes the test. *)
Lemma findIndexFrom_none (f : Q -> bool) (l : list Q) (i : Z) :
  (forall v, In v l -> f v = false) -> findIndexFrom f i l = (-1)%Z.
Proof.
  revert i. induction l as [|x l IH]; intros i H; simpl; [reflexivity|].
  rewrite (H x) by (left; reflexivity).
  apply IH. intros v Hv. apply H. right. exact Hv.
Qed.

(** More fuel than candles does not change the samples: the loop of
    [getVolatilityRank] ends on its own condition. *)
Lemma volatilitySamples_fuel (sqrt : Q -> Q) (history : list Candle.t)
    (fuel fuel' i : nat) :
  (length history <= i + 20 * fuel)%nat ->
  (length history <= i + 20 * fuel')%nat ->
  volatilitySamples sqrt fuel i history
  = volatilitySamples sqrt fuel' i history.
Proof.
  revert fuel' i. induction fuel as [|fuel IH]; intros fuel' i H H'.
  - simpl. destruct fuel' as [|fuel']; [reflexivity|]. simpl.
    destruct (Nat.ltb_spec i (length history)); [lia|reflexivity].
  - simpl. destruct (Nat.ltb_spec i (length history)) as [Hlt|Hge].
    + destruct fuel' as [|fuel']; [lia|]. simpl.
      destruct (Nat.ltb_spec i (length history)); [|lia].
      f_equal. apply IH; lia.
    + destruct fuel' as [|fuel']; [reflexivity|]. simpl.
      destruct (Nat.ltb_spec i (length history)); [lia|reflexivity].
Qed.

(** The fuel that [getVolatilityRank] passes is enough. *)
Lemma volatilitySamples_enough (sqrt : Q -> Q) (history : list Candle.t)
    (k : nat) :
  volatilitySamples sqrt (length history + k) 20 history
  = volatilitySamples sqrt (length history) 20 history.
Proof. apply volatilitySamples_fuel; lia. Qed.

(** The samples are the square roots of the variances of the windows. *)
Lemma volatilitySamples_map (sqrt : Q -> Q) (history : list Candle.t)
    (fuel i : nat) :
  volatilitySamples sqrt fuel i history
  = map sqrt (sampleVariances fuel i history).
Proof.
  revert i. induction fuel as [|fuel IH]; intros i; simpl; [reflexivity|].
  destruct (i <? length history)%nat; [|reflexivity].
  simpl. rewrite IH. reflexivity.
Qed.

(** A current volatility above every sample is ranked [Low]. *)
Lemma getVolatilityRank_above_every_sample (sqrt : Q -> Q) (ta : t)
    (sym : string) (currentVolatility : Q) :
  let history := getPriceHistory ta sym in
  (100 <= length history)%nat ->
  (forall v, In v (volatilitySamples sqrt (length history) 20 history) ->
             v < currentVolatility) ->
  getVolatilityRank sqrt ta sym currentVolatility = Low.
Proof.
  cbv zeta. intros Hlen Hall. unfold getVolatilityRank.
  destruct (Nat.ltb_spec (length (getPriceHistory ta sym)) 100) as [|_];
    [lia|].
  set (vs := volatilitySamples sqrt (length (getPriceHistory ta sym)) 20
               (getPriceHistory ta sym)) in *.
  unfold findIndex. rewrite findIndexFrom_none.
  2:{ intros v Hv. apply (proj1 (In_sortAscending v vs)) in Hv.
      apply Hall in Hv.
      unfold Js.leb. destruct (Qle_bool currentVolatility v) eqn:E;
        [|reflexivity].
      apply Qle_bool_iff in E. exfalso. exact (Qlt_not_le _ _ Hv E). }
  rewrite length_sortAscending.
  assert (Hpos : 0 < inject_Z (Z.of_nat (length vs))).
  { assert (Hn : (0 < length vs)%nat).
    { subst vs. destruct (length (getPriceHistory ta sym)) as [|n] eqn:E;
        [lia|].
      simpl. rewrite E.
      destruct (Nat.ltb_spec 20 (S n)); [simpl; lia|lia]. }
    unfold Qlt. simpl. lia. }
  assert (Hrank : Js.ltb (inject_Z (-1) / inject_Z (Z.of_nat (length vs))) 0.2
                  = true).
  { apply JsProps.ltb_lt. apply Qlt_shift_div_r; [exact Hpos|].
    apply Qlt_trans with 0; [reflexivity|].
    apply Qmult_lt_0_compat; [reflexivity|exact Hpos]. }
  rewrite Hrank. reflexivity.
Qed.

Lemma calmThenMoving_history :
  getPriceHistory Samples.calmThenMovingTA "BTCUSDT" = Samples.calmThenMoving.
Proof.
  unfold getPriceHistory, Samples.calmThenMovingTA. simpl.
  rewrite lookup_singleton_eq. reflexivity.
Qed.

(** C9 fails on the code at a history of a hundred candles, eighty calm ones
    followed by twenty moving ones: the volatility of the current window is
    above all four samples, and [getVolatilityRank], hence
    [calculateVolatility], ranks it [Low] where the claim asks for [High].
    The square root is any function that maps zero to zero and positive
    numbers to positive numbers. *)
Theorem calculateVolatility_highest_ranked_low
    (ATR_calculate : list Q -> list Q -> list Q -> Z -> list Q)
    (sqrt : Q -> Q) :
  (forall x, x == 0 -> sqrt x == 0) ->
  (forall x, 0 < x -> 0 < sqrt x) ->
  let history := Samples.calmThenMoving in
  let current := realizedVolatility sqrt (sliceLast 20 history) in
  length history = 100%nat
  /\ (forall v, In v (volatilitySamples sqrt (length history) 20 history) ->
                v < current)
  /\ getVolatilityRank sqrt Samples.calmThenMovingTA "BTCUSDT" current = Low
  /\ Volatility.volatilityRank
       <$> calculateVolatility ATR_calculate sqrt Samples.calmThenMovingTA
             "BTCUSDT" 20
     = Some Low.
Proof.
  intros Hzero Hpos. cbv zeta.
  assert (Hcur : 0 < realizedVolatility sqrt
                       (sliceLast 20 Samples.calmThenMoving)).
  { unfold realizedVolatility. apply Hpos. vm_compute. reflexivity. }
  assert (Hall : forall v,
            In v (volatilitySamples sqrt (length Samples.calmThenMoving) 20
                    Samples.calmThenMoving) ->
            v < realizedVolatility sqrt (sliceLast 20 Samples.calmThenMoving)).
  { intros v Hv. apply Qle_lt_trans with 0; [|exact Hcur].
    rewrite volatilitySamples_map in Hv. apply in_map_iff in Hv.
    destruct Hv as [x [Hx Hin]]. subst v.
    apply Qle_lteq. right. apply Hzero. apply Qeq_bool_iff.
    assert (Hcalm : forallb (fun y => Qeq_bool y 0)
                      (sampleVariances (length Samples.calmThenMoving) 20
                         Samples.calmThenMoving) = true)
      by (vm_compute; reflexivity).
    rewrite forallb_forall in Hcalm. apply Hcalm, Hin. }
  assert (Hrank : getVolatilityRank sqrt Samples.calmThenMovingTA "BTCUSDT"
                    (realizedVolatility sqrt
                       (sliceLast 20 Samples.calmThenMoving)) = Low).
  { apply getVolatilityRank_above_every_sample;
      rewrite calmThenMoving_history; [vm_compute; lia|exact Hall]. }
  split; [reflexivity|]. split; [exact Hall|]. split; [exact Hrank|].
  unfold calculateVolatility. rewrite calmThenMoving_history.
  change (length Samples.calmThenMoving <? 20)%nat with false.
  cbv iota. simpl fmap. rewrite Hrank. reflexivity.
Qed.

(** The hypotheses of the evaluation above can be met. *)
Lemma calculateVolatility_highest_ranked_low_witness :
  Volatility.volatilityRank
    <$> calculateVolatility Samples.constATR Samples.idSqrt
          Samples.calmThenMovingTA "BTCUSDT" 20
  = Some Low.
Proof.
  refine (proj2 (proj2 (proj2
    (calculateVolatility_highest_ranked_low Samples.constATR Samples.idSqrt
       _ _)))).
  - intros x Hx. exact Hx.
  - intros x Hx. exact Hx.
Defined.

Section Veto.

Variable RSI_calculate : list Q -> Z -> list Q.
Variable MACD_calculate : list Q -> Z -> Z -> Z -> list Macd.t.
Variable ATR_calculate : list Q -> list Q -> list Q -> Z -> list Q.
Variable sqrt : Q -> Q.
Variable analyzeTrend : t -> string -> Trend.t.
Variable analyzeLongTermTrend : t -> string -> LongTermTrend.t.
Variable calculateBollingerBands : t -> string -> option Bands.t.
Variable analyzeVolume : t -> string -> option Volume.t.
Variable analyzeRSIAdvanced : t -> string -> Q -> Analysis.t.
Variable analyzeMACDAdvanced : t -> string -> Macd.t -> Analysis.t.
Variable analyzeBollingerBandsAdvanced : Q -> Bands.t -> Analysis.t.

Local Abbreviation analyze :=
  (analyzeSignal RSI_calculate MACD_calculate ATR_calculate sqrt analyzeTrend
     analyzeLongTermTrend calculateBollingerBands analyzeVolume
     analyzeRSIAdvanced analyzeMACDAdvanced analyzeBollingerBandsAdvanced).

Local Abbreviation base :=
  (baseSignal RSI_calculate MACD_calculate ATR_calculate sqrt analyzeTrend
     analyzeLongTermTrend calculateBollingerBands analyzeVolume
     analyzeRSIAdvanced analyzeMACDAdvanced analyzeBollingerBandsAdvanced).

(** The signal returned is the final check applied to the base signal. *)
Lemma analyzeSignal_final (ta : t) (sym : string) (sig : TradeSignal) :
  base ta sym = Some sig ->
  Signal.signal (analyze ta sym)
  = finalSignalOf (analyzeLongTermTrend ta sym) sig.
Proof.
  unfold baseSignal, analyzeSignal.
  destruct (indicatorsOf RSI_calculate MACD_calculate ta sym)
    as [[[rsi macd] currentPrice]|]; [|discriminate].
  intros E. injection E as E. rewrite E. reflexivity.
Qed.

(** C3: in every run of [analyzeSignal] in which the long-term trend is not
    neutral and its confidence is above 50, a base signal that contradicts
    the trend (sell under a bullish trend, buy under a bearish one) yields
    the final signal neutral, and a base signal that agrees with the trend
    is returned as the final signal. *)
Theorem analyzeSignal_long_term_veto (ta : t) (sym : string) :
  let longTermTrend := analyzeLongTermTrend ta sym in
  let final := Signal.signal (analyze ta sym) in
  LongTermTrend.direction longTermTrend <> Neutral ->
  50 < LongTermTrend.confidence longTermTrend ->
  (LongTermTrend.direction longTermTrend = Bullish ->
   base ta sym = Some Sell -> final = NoSignal)
  /\ (LongTermTrend.direction longTermTrend = Bearish ->
      base ta sym = Some Buy -> final = NoSignal)
  /\ (LongTermTrend.direction longTermTrend = Bullish ->
      base ta sym = Some Buy -> final = Buy)
  /\ (LongTermTrend.direction longTermTrend = Bearish ->
      base ta sym = Some Sell -> final = Sell).
Proof.
  cbv zeta. intros Hdir Hconf.
  apply JsProps.ltb_lt in Hconf.
  repeat split; intros Hd Hb; rewrite (analyzeSignal_final _ _ _ Hb);
    unfold finalSignalOf; rewrite Hd, Hconf; reflexivity.
Qed.

End Veto.

(** C3 on forty candles with a bullish long-term trend of confidence 80 and
    bearish RSI and MACD votes: the base signal is sell and the signal
    returned is neutral. *)
Lemma analyzeSignal_long_term_veto_witness :
  baseSignal Samples.constRSI Samples.constMACD Samples.constATR
    Samples.idSqrt Samples.neutralTrend Samples.bullishLongTerm
    Samples.noBands Samples.noVolume Samples.bearishRSI Samples.bearishMACD
    Samples.neutralBands Samples.fortyCandles "BTCUSDT" = Some Sell
  /\ Signal.signal
       (analyzeSignal Samples.constRSI Samples.constMACD Samples.constATR
          Samples.idSqrt Samples.neutralTrend Samples.bullishLongTerm
          Samples.noBands Samples.noVolume Samples.bearishRSI
          Samples.bearishMACD Samples.neutralBands Samples.fortyCandles
          "BTCUSDT") = NoSignal.
Proof.
  assert (Hb : baseSignal Samples.constRSI Samples.constMACD Samples.constATR
                 Samples.idSqrt Samples.neutralTrend Samples.bullishLongTerm
                 Samples.noBands Samples.noVolume Samples.bearishRSI
                 Samples.bearishMACD Samples.neutralBands Samples.fortyCandles
                 "BTCUSDT" = Some Sell)
    by (vm_compute; reflexivity).
  split; [exact Hb|].
  refine (proj1 (analyzeSignal_long_term_veto Samples.constRSI
                   Samples.constMACD Samples.constATR Samples.idSqrt
                   Samples.neutralTrend Samples.bullishLongTerm
                   Samples.noBands Samples.noVolume Samples.bearishRSI
                   Samples.bearishMACD Samples.neutralBands
                   Samples.fortyCandles "BTCUSDT" _ _) eq_refl Hb).
  - discriminate.
  - reflexivity.
Defined.

End TechnicalAnalysisProps.

(** ** Properties of the trading bot *)

Module TradingBotProps.

Import TechnicalAnalysis TradingBot.

Local Open Scope string_scope.

Lemma length_append (a b : string) :
  String.length (a +:+ b) = (String.length a + String.length b)%nat.
Proof.
  induction a as [|c a IH]; simpl; [reflexivity|]. rewrite IH. reflexivity.
Qed.

(** Cutting two characters off the end leaves a prefix in place when at
    least two characters follow it. *)
Lemma dropLast2_append (a b : string) :
  (2 <= String.length b)%nat ->
  Js.dropLast2 (a +:+ b) = a +:+ Js.dropLast2 b.
Proof.
  intros Hb. unfold Js.dropLast2. induction a as [|c a IH]; [reflexivity|].
  simpl String.append. simpl String.length.
  assert (Hlen : (2 <= String.length (a +:+ b))%nat).
  { rewrite length_append. lia. }
  replace (S (String.length (a +:+ b)) - 2)%nat
    with (S (String.length (a +:+ b) - 2)) by lia.
  simpl. rewrite IH. reflexivity.
Qed.

(** The reversal strength reported does not depend on the configuration. *)
Lemma strength_detectTrendReversal (pp : option ProfitProtection.t)
    (position : RiskManager.Position) (sig : Signal.t)
    (lt : option LongTermTrend.t) (st : option ShortTermTrend.t)
    (pnlPercent : Q) :
  Reversal.strength (detectTrendReversal pp position sig lt st pnlPercent)
  = reversalStrength
      {| Indicators.technicalSignal :=
           (technicalSignalVote (RiskManager.side position) sig).1;
         Indicators.longTermTrend :=
           (longTermTrendVote (RiskManager.side position) lt).1;
         Indicators.shortTermTrend :=
           (shortTermTrendVote (RiskManager.side position) st).1;
         Indicators.rsi := (rsiVote (RiskManager.side position) sig).1;
         Indicators.macd := (macdVote (RiskManager.side position) sig).1;
         Indicators.confidence := confidenceVote sig |}.
Proof.
  unfold detectTrendReversal.
  destruct (technicalSignalVote _ sig) as [i1 r1].
  destruct (longTermTrendVote _ lt) as [i2 r2].
  destruct (shortTermTrendVote _ st) as [i3 r3].
  destruct (rsiVote _ sig) as [i4 r4].
  destruct (macdVote _ sig) as [i5 r5].
  destruct pp as [pp|]; [|reflexivity].
  destruct (ProfitProtection.enabled pp); [|reflexivity].
  simpl negb. cbv iota.
  repeat match goal with
         | |- context [if ?c then _ else _] => destruct c
         end; reflexivity.
Qed.

(** C6: with profit protection enabled, whenever the reversal strength that
    [detectTrendReversal] computes is above the configured reversal
    threshold and the unrealized profit in percent is above the configured
    profit threshold, the detector answers to close the position and its
    reason starts with the profit-protection label. *)
Theorem detectTrendReversal_profit_protection (pp : ProfitProtection.t)
    (position : RiskManager.Position) (sig : Signal.t)
    (lt : option LongTermTrend.t) (st : option ShortTermTrend.t)
    (pnlPercent : Q) :
  let r := detectTrendReversal (Some pp) position sig lt st pnlPercent in
  ProfitProtection.enabled pp = true ->
  ProfitProtection.trendReversalThreshold pp < Reversal.strength r ->
  ProfitProtection.minProfitPercent pp < pnlPercent ->
  Reversal.shouldClose r = true
  /\ exists rest, Reversal.reason r = "Защита прибыли: " +:+ rest.
Proof.
  cbv zeta. intros Hen Hstr Hpnl.
  rewrite strength_detectTrendReversal in Hstr.
  apply JsProps.ltb_lt in Hstr. apply JsProps.ltb_lt in Hpnl.
  unfold detectTrendReversal.
  destruct (technicalSignalVote _ sig) as [i1 r1].
  destruct (longTermTrendVote _ lt) as [i2 r2].
  destruct (shortTermTrendVote _ st) as [i3 r3].
  destruct (rsiVote _ sig) as [i4 r4].
  destruct (macdVote _ sig) as [i5 r5].
  cbn [fst] in Hstr.
  rewrite Hen. simpl negb. cbv iota. rewrite Hpnl, Hstr. simpl andb.
  cbv iota. cbn [Reversal.shouldClose Reversal.reason].
  split; [reflexivity|].
  rewrite dropLast2_append.
  - eexists. reflexivity.
  - rewrite !length_append. simpl. lia.
Qed.

(** C6 on the short position of the samples: the contributions of the
    long-term and of the short-term trend sum to 0.55, the profit is 3
    percent, the thresholds are 2 percent and 0.4. *)
Lemma detectTrendReversal_profit_protection_witness :
  let r := detectTrendReversal (Some Samples.protection) Samples.ethShort
             Samples.quietSignal (Some Samples.surelyBullish)
             (Some Samples.shortTermBullish) 3 in
  Reversal.strength r == 0.55
  /\ Reversal.shouldClose r = true
  /\ exists rest, Reversal.reason r = "Защита прибыли: " +:+ rest.
Proof.
  cbv zeta. split; [vm_compute; reflexivity|].
  apply (detectTrendReversal_profit_protection Samples.protection
           Samples.ethShort Samples.quietSignal (Some Samples.surelyBullish)
           (Some Samples.shortTermBullish) 3); reflexivity.
Defined.

End TradingBotProps.

(** ** Properties of the position lifecycle and of the gates *)

Module RiskChecksProps.

Import RiskManager RiskChecks.

(** X1: opening a position for a symbol that has none and closing it again
    gives back the position map; the trade history gains the closed
    position, whose [pnl] is the one of the exit price, and the amount goes
    to [dailyProfit] when it is positive and to [dailyLoss] otherwise. *)
Theorem addPosition_closePosition_roundtrip (rm : t) (sym sd : string)
    (sz entry : Q) (customStopLoss customTakeProfit riskPercent : option Q)
    (now : Z) (exit : Q) (why : string) (now' : Z) :
  positions rm !! sym = None ->
  let opened := addPosition rm sym sd sz entry customStopLoss
                  customTakeProfit riskPercent now in
  let r := closePosition opened.1 sym exit why now' in
  let profit := calculatePnL opened.2 exit in
  r.2 = Some (closed opened.2 exit now' why profit)
  /\ positions r.1 = positions rm
  /\ trades r.1 = trades rm ++ [closed opened.2 exit now' why profit]
  /\ (0 < profit ->
      dailyProfit r.1 = dailyProfit rm + profit
      /\ dailyLoss r.1 = dailyLoss rm)
  /\ (profit <= 0 ->
      dailyLoss r.1 = dailyLoss rm + Qabs profit
      /\ dailyProfit r.1 = dailyProfit rm).
Proof.
  intros Hnone. cbv zeta.
  unfold closePosition.
  assert (Hl : positions (addPosition rm sym sd sz entry customStopLoss
                            customTakeProfit riskPercent now).1 !! sym
               = Some (addPosition rm sym sd sz entry customStopLoss
                         customTakeProfit riskPercent now).2)
    by apply lookup_insert_eq.
  rewrite Hl.
  set (p := (addPosition rm sym sd sz entry customStopLoss customTakeProfit
               riskPercent now).2).
  assert (Hdel : delete sym (<[sym := p]> (positions rm)) = positions rm).
  { rewrite delete_insert_eq. apply delete_id, Hnone. }
  destruct (Js.ltb 0 (calculatePnL p exit)) eqn:E; simpl.
  - split; [reflexivity|]. split; [exact Hdel|]. split; [reflexivity|].
    split; [intros _; split; reflexivity|].
    intros Hle. apply JsProps.ltb_lt in E.
    exfalso. exact (Qlt_not_le _ _ E Hle).
  - split; [reflexivity|]. split; [exact Hdel|]. split; [reflexivity|].
    split; [|intros _; split; reflexivity].
    intros Hlt. apply JsProps.ltb_lt in Hlt. congruence.
Qed.

(** The round trip on a fresh manager: a long position of size 2 entered at
    100 and closed at 110 leaves no position and a daily profit of 20. *)
Lemma addPosition_closePosition_roundtrip_witness :
  let rm := RiskManager.new Samples.cfg Samples.monday in
  let opened := addPosition rm "BTCUSDT" "Buy" 2 100 None None None 0 in
  let r := closePosition opened.1 "BTCUSDT" 110 "manual" 9 in
  positions r.1 = positions rm /\ dailyProfit r.1 == 20.
Proof.
  cbv zeta.
  destruct (addPosition_closePosition_roundtrip
              (RiskManager.new Samples.cfg Samples.monday) "BTCUSDT" "Buy"
              2 100 None None None 0 110 "manual" 9 (lookup_empty _))
    as [_ [Hpos [_ [Hwin _]]]].
  split; [exact Hpos|].
  destruct (Hwin eq_refl) as [Hp _]. rewrite Hp. reflexivity.
Defined.

(** Case analysis on the tests of a method body. *)
Ltac branches :=
  repeat match goal with
         | |- context [match ?x with _ => _ end] => destruct x eqn:?
         end.

(** What the calls other than [closePosition] and [checkDailyLossLimit]
    leave alone. *)
Lemma call_keeps_counters (rm : t) (c : Call) :
  match c with
  | ClosePosition _ _ _ _ | CheckDailyLossLimit _ => True
  | _ =>
      trades (call rm c) = trades rm
      /\ dailyLoss (call rm c) = dailyLoss rm
      /\ dailyProfit (call rm c) = dailyProfit rm
      /\ lastResetDate (call rm c) = lastResetDate rm
  end.
Proof.
  destruct c; simpl; try exact I;
    unfold setStopLoss, updateTrailingStop, modifyTakeProfit;
    branches; simpl; repeat split.
Qed.

(** What [closePosition] does to a manager that holds the position. *)
Lemma closePosition_held (rm : t) (sym : string) (exit : Q) (why : string)
    (now : Z) (p : Position) :
  positions rm !! sym = Some p ->
  let profit := calculatePnL p exit in
  let rm' := (closePosition rm sym exit why now).1 in
  trades rm' = trades rm ++ [closed p exit now why profit]
  /\ positions rm' = delete sym (positions rm)
  /\ lastResetDate rm' = lastResetDate rm
  /\ peakBalance rm' = peakBalance rm
  /\ (if Js.ltb 0 profit
      then dailyProfit rm' = dailyProfit rm + profit
           /\ dailyLoss rm' = dailyLoss rm
      else dailyLoss rm' = dailyLoss rm + Qabs profit
           /\ dailyProfit rm' = dailyProfit rm).
Proof.
  intros Hp. cbv zeta. unfold closePosition. rewrite Hp.
  destruct (Js.ltb 0 (calculatePnL p exit)); simpl; repeat split.
Qed.

(** The invariant behind the daily accounting. *)
Lemma call_covers (rm : t) (today : string) (c : Call) :
  onDay today c ->
  (lastResetDate rm = today
   /\ 0 <= dailyLoss rm /\ 0 <= dailyProfit rm
   /\ Forall (covered rm) (trades rm)
   /\ (0 < dailyProfit rm -> Exists (fun t => isWin t = true) (trades rm))
   /\ (0 < dailyLoss rm -> Exists (fun t => isLoss t = true) (trades rm))) ->
  lastResetDate (call rm c) = today
  /\ 0 <= dailyLoss (call rm c) /\ 0 <= dailyProfit (call rm c)
  /\ Forall (covered (call rm c)) (trades (call rm c))
  /\ (0 < dailyProfit (call rm c) ->
      Exists (fun t => isWin t = true) (trades (call rm c)))
  /\ (0 < dailyLoss (call rm c) ->
      Exists (fun t => isLoss t = true) (trades (call rm c))).
Proof.
  intros Hc [Hd [Hl [Hp [Hcov [Hwin Hloss]]]]].
  assert (Hsame : trades (call rm c) = trades rm ->
                  dailyLoss (call rm c) = dailyLoss rm ->
                  dailyProfit (call rm c) = dailyProfit rm ->
                  lastResetDate (call rm c) = lastResetDate rm ->
                  lastResetDate (call rm c) = today
                  /\ 0 <= dailyLoss (call rm c)
                  /\ 0 <= dailyProfit (call rm c)
                  /\ Forall (covered (call rm c)) (trades (call rm c))
                  /\ (0 < dailyProfit (call rm c) ->
                      Exists (fun t => isWin t = true) (trades (call rm c)))
                  /\ (0 < dailyLoss (call rm c) ->
                      Exists (fun t => isLoss t = true)
                        (trades (call rm c)))).
  { intros Ht Hdl Hdp Hdate. unfold covered in *.
    rewrite Ht, Hdl, Hdp, Hdate. auto 10. }
  destruct c.
  - simpl in Hc. subst today0.
    assert (Hcall : call rm (CheckDailyLossLimit today) = rm).
    { simpl. unfold checkDailyLossLimit. rewrite Hd, String.eqb_refl.
      reflexivity. }
    apply Hsame; rewrite Hcall; reflexivity.
  - destruct (call_keeps_counters rm (CheckMaxDrawdown currentBalance))
      as [Ht [Hdl [Hdp Hdate]]]. apply Hsame; assumption.
  - destruct (call_keeps_counters rm
                (AddPosition sym sd sz entry customStopLoss customTakeProfit
                   riskPercent now)) as [Ht [Hdl [Hdp Hdate]]].
    apply Hsame; assumption.
  - simpl. destruct (positions rm !! sym) as [p|] eqn:E.
    + destruct (closePosition_held rm sym exit why now p E)
        as [Ht [_ [Hdate [_ Hcnt]]]].
      rewrite Ht, Hdate. split; [exact Hd|].
      set (x := calculatePnL p exit) in *.
      destruct (Js.ltb 0 x) eqn:Hpos;
        destruct Hcnt as [H1 H2]; rewrite H1, H2.
      * apply JsProps.ltb_lt in Hpos.
        split; [exact Hl|]. split; [lra|].
        split; [|split].
        -- apply Forall_app. split.
           ++ eapply Forall_impl; [exact Hcov|].
              intros t [y [Hy [Hy1 Hy2]]]. exists y. unfold covered.
              rewrite H1, H2. split; [exact Hy|].
              split; [intros H; specialize (Hy1 H); lra|exact Hy2].
           ++ apply Forall_cons. split; [|apply Forall_nil_2].
              exists x. rewrite H1, H2.
              split; [reflexivity|]. split; [intros _; lra|intros H; lra].
        -- intros _. apply Exists_app. right. apply Exists_cons_hd.
           unfold isWin. cbn [pnl closed]. apply JsProps.ltb_lt, Hpos.
        -- intros H. apply Exists_app. left. apply Hloss, H.
      * apply JsProps.ltb_ge in Hpos.
        assert (Habs : Qabs x == - x) by (apply Qabs_neg; exact Hpos).
        split; [rewrite Habs; lra|]. split; [exact Hp|].
        split; [|split].
        -- apply Forall_app. split.
           ++ eapply Forall_impl; [exact Hcov|].
              intros t [y [Hy [Hy1 Hy2]]]. exists y.
              rewrite H1, H2. split; [exact Hy|].
              split; [exact Hy1|].
              intros H; specialize (Hy2 H). rewrite Habs. lra.
           ++ apply Forall_cons. split; [|apply Forall_nil_2].
              exists x. rewrite H1, H2.
              split; [reflexivity|].
              split; [intros H; lra|intros _; rewrite Habs; lra].
        -- intros H. apply Exists_app. left. apply Hwin, H.
        -- intros H. rewrite Habs in H.
           destruct (Qlt_le_dec 0 (dailyLoss rm)) as [Hold|Hold].
           ++ apply Exists_app. left. apply Hloss, Hold.
           ++ apply Exists_app. right. apply Exists_cons_hd.
              unfold isLoss. cbn [pnl closed]. apply JsProps.ltb_lt.
              fold x. lra.
    + apply Hsame; cbn [call]; unfold closePosition; rewrite E; reflexivity.
  - destruct (call_keeps_counters rm (SetStopLoss sym stopLossPrice isTrailing))
      as [Ht [Hdl [Hdp Hdate]]]. apply Hsame; assumption.
  - destruct (call_keeps_counters rm (UpdateTrailingStop sym currentPrice))
      as [Ht [Hdl [Hdp Hdate]]]. apply Hsame; assumption.
  - destruct (call_keeps_counters rm (ModifyTakeProfit sym newTakeProfit))
      as [Ht [Hdl [Hdp Hdate]]]. apply Hsame; assumption.
Qed.

(** The sum of the trades is a number when each of them carries one. *)
Lemma sumPnl_is_Some (l : list Position) :
  Forall (fun t => is_Some (pnl t)) l -> is_Some (sumPnl l).
Proof.
  unfold sumPnl.
  assert (H : forall acc : option Q, is_Some acc ->
            Forall (fun t => is_Some (pnl t)) l ->
            is_Some (foldl (fun acc p =>
                              match acc, pnl p with
                              | Some s, Some x => Some (s + x)
                              | _, _ => None
                              end) acc l)).
  { induction l as [|t l IH]; intros acc Hacc Hl; [exact Hacc|].
    apply Forall_cons in Hl. destruct Hl as [[x Hx] Hl].
    simpl. apply IH; [|exact Hl].
    destruct Hacc as [s ->]. rewrite Hx. eexists. reflexivity. }
  apply H. eexists. reflexivity.
Qed.

Lemma filter_positive_iff (f : Position -> bool) (l : list Position) :
  (0 < length (List.filter f l))%nat <-> Exists (fun t => f t = true) l.
Proof.
  induction l as [|t l IH]; simpl.
  - split; [lia|intros H; inversion H].
  - destruct (f t) eqn:E; simpl.
    + split; [intros _; apply Exists_cons_hd; exact E|lia].
    + rewrite IH. split; [intros H; apply Exists_cons_tl; exact H|].
      intros H. inversion H; subst; [congruence|assumption].
Qed.

(** X2: within a day the two daily counters cover the trade history.  In
    every manager reached from a new one by calls made on the day it was
    created, neither counter is negative, [getTradingStats().totalPnL] is a
    number, the statistics count a winning trade exactly when [dailyProfit]
    is positive and a losing trade exactly when [dailyLoss] is positive,
    and every trade of the history carries a [pnl] that is at most
    [dailyProfit] when it is positive and whose negation is at most
    [dailyLoss] otherwise. *)
Theorem daily_counters_cover_trades (cfg : Config.t) (today : string)
    (cs : list Call) :
  Forall (onDay today) cs ->
  let rm := calls (RiskManager.new cfg today) cs in
  let stats := getTradingStats rm in
  0 <= dailyLoss rm /\ 0 <= dailyProfit rm
  /\ is_Some (Stats.totalPnL stats)
  /\ ((0 < Stats.winningTrades stats)%nat <-> 0 < dailyProfit rm)
  /\ ((0 < Stats.losingTrades stats)%nat <-> 0 < dailyLoss rm)
  /\ (forall t, In t (trades rm) ->
      exists x, pnl t = Some x
                /\ (0 < x -> x <= dailyProfit rm)
                /\ (x <= 0 -> - x <= dailyLoss rm)).
Proof.
  intros Hcs. cbv zeta.
  assert (H : forall rm,
            (lastResetDate rm = today
             /\ 0 <= dailyLoss rm /\ 0 <= dailyProfit rm
             /\ Forall (covered rm) (trades rm)
             /\ (0 < dailyProfit rm ->
                 Exists (fun t => isWin t = true) (trades rm))
             /\ (0 < dailyLoss rm ->
                 Exists (fun t => isLoss t = true) (trades rm))) ->
            lastResetDate (calls rm cs) = today
            /\ 0 <= dailyLoss (calls rm cs) /\ 0 <= dailyProfit (calls rm cs)
            /\ Forall (covered (calls rm cs)) (trades (calls rm cs))
            /\ (0 < dailyProfit (calls rm cs) ->
                Exists (fun t => isWin t = true) (trades (calls rm cs)))
            /\ (0 < dailyLoss (calls rm cs) ->
                Exists (fun t => isLoss t = true) (trades (calls rm cs)))).
  { induction cs as [|c cs IH]; intros rm Hrm; [exact Hrm|].
    apply Forall_cons in Hcs. destruct Hcs as [Hc Hcs].
    apply (IH Hcs (call rm c)). apply (call_covers rm today c Hc Hrm). }
  destruct (H (RiskManager.new cfg today)) as [_ [Hl [Hp [Hcov [Hwin Hloss]]]]].
  { simpl. split; [reflexivity|]. split; [discriminate|].
    split; [discriminate|]. split; [apply Forall_nil_2|].
    split; intros Hlt; discriminate Hlt. }
  set (rm := calls (RiskManager.new cfg today) cs) in *.
  split; [exact Hl|]. split; [exact Hp|].
  split; [|split; [|split]].
  - cbn [Stats.totalPnL getTradingStats]. apply sumPnl_is_Some.
    eapply Forall_impl; [exact Hcov|].
    intros t [x [Hx _]]. rewrite Hx. eexists. reflexivity.
  - cbn [Stats.winningTrades getTradingStats]. rewrite filter_positive_iff.
    split; [|exact Hwin].
    intros Hex. apply Exists_exists in Hex. destruct Hex as [t [Hin Hw]].
    rewrite Forall_forall in Hcov.
    destruct (Hcov t Hin) as [x [Hx [Hup _]]].
    unfold isWin in Hw. rewrite Hx in Hw. apply JsProps.ltb_lt in Hw.
    specialize (Hup Hw). lra.
  - cbn [Stats.losingTrades getTradingStats]. rewrite filter_positive_iff.
    split; [|exact Hloss].
    intros Hex. apply Exists_exists in Hex. destruct Hex as [t [Hin Hw]].
    rewrite Forall_forall in Hcov.
    destruct (Hcov t Hin) as [x [Hx [_ Hdown]]].
    unfold isLoss in Hw. rewrite Hx in Hw. apply JsProps.ltb_lt in Hw.
    assert (Hle : x <= 0) by lra. specialize (Hdown Hle). lra.
  - intros t Hin. rewrite Forall_forall in Hcov.
    apply list_elem_of_In in Hin. exact (Hcov t Hin).
Qed.

(** After a winning and a losing trade on Monday both counters are
    positive. *)
Lemma daily_counters_cover_trades_witness :
  let rm := calls (RiskManager.new Samples.cfg Samples.monday)
              [ AddPosition "BTCUSDT" "Buy" 2 100 None None None 0;
                ClosePosition "BTCUSDT" 110 "take_profit" 5;
                CheckDailyLossLimit Samples.monday;
                AddPosition "ETHUSDT" "Sell" 1 50 None None None 6;
                ClosePosition "ETHUSDT" 55 "stop_loss" 9 ] in
  0 < dailyProfit rm /\ 0 < dailyLoss rm.
Proof.
  cbv zeta.
  assert (Hday : Forall (onDay Samples.monday)
                   [ AddPosition "BTCUSDT" "Buy" 2 100 None None None 0;
                     ClosePosition "BTCUSDT" 110 "take_profit" 5;
                     CheckDailyLossLimit Samples.monday;
                     AddPosition "ETHUSDT" "Sell" 1 50 None None None 6;
                     ClosePosition "ETHUSDT" 55 "stop_loss" 9 ])
    by (repeat constructor).
  pose proof (daily_counters_cover_trades Samples.cfg Samples.monday _ Hday)
    as H.
  cbv zeta in H. destruct H as [_ [_ [_ [Hw [Hl _]]]]].
  split; [apply Hw|apply Hl]; vm_compute; lia.
Defined.

(** A generic induction over a history of calls. *)
Lemma calls_invariant (P : t -> Prop) (rm : t) (cs : list Call) :
  P rm -> (forall rm' c, P rm' -> P (call rm' c)) -> P (calls rm cs).
Proof.
  intros H0 Hstep. revert rm H0.
  induction cs as [|c cs IH]; intros rm H0; [exact H0|].
  apply (IH (call rm c)), Hstep, H0.
Qed.

Lemma call_extends_trades (rm : t) (c : Call) :
  trades rm `prefix_of` trades (call rm c).
Proof.
  destruct c.
  - simpl. unfold checkDailyLossLimit.
    destruct (negb (String.eqb today (lastResetDate rm))); reflexivity.
  - destruct (call_keeps_counters rm (CheckMaxDrawdown currentBalance))
      as [Ht _]. rewrite Ht. reflexivity.
  - destruct (call_keeps_counters rm
                (AddPosition sym sd sz entry customStopLoss customTakeProfit
                   riskPercent now)) as [Ht _]. rewrite Ht. reflexivity.
  - simpl. destruct (positions rm !! sym) as [p|] eqn:E.
    + destruct (closePosition_held rm sym exit why now p E) as [Ht _].
      rewrite Ht. apply prefix_app_r. reflexivity.
    + unfold closePosition. rewrite E. reflexivity.
  - destruct (call_keeps_counters rm (SetStopLoss sym stopLossPrice isTrailing))
      as [Ht _]. rewrite Ht. reflexivity.
  - destruct (call_keeps_counters rm (UpdateTrailingStop sym currentPrice))
      as [Ht _]. rewrite Ht. reflexivity.
  - destruct (call_keeps_counters rm (ModifyTakeProfit sym newTakeProfit))
      as [Ht _]. rewrite Ht. reflexivity.
Qed.

Lemma call_records (rm : t) (c : Call) :
  Forall recorded (trades rm) -> Forall recorded (trades (call rm c)).
Proof.
  intros H. destruct c.
  - simpl. unfold checkDailyLossLimit.
    destruct (negb (String.eqb today (lastResetDate rm))); exact H.
  - destruct (call_keeps_counters rm (CheckMaxDrawdown currentBalance))
      as [Ht _]. rewrite Ht. exact H.
  - destruct (call_keeps_counters rm
                (AddPosition sym sd sz entry customStopLoss customTakeProfit
                   riskPercent now)) as [Ht _]. rewrite Ht. exact H.
  - simpl. destruct (positions rm !! sym) as [p|] eqn:E.
    + destruct (closePosition_held rm sym exit why now p E) as [Ht _].
      rewrite Ht. apply Forall_app. split; [exact H|].
      apply Forall_singleton. split; [reflexivity|].
      exists exit. repeat split; eexists; reflexivity.
    + unfold closePosition. rewrite E. exact H.
  - destruct (call_keeps_counters rm (SetStopLoss sym stopLossPrice isTrailing))
      as [Ht _]. rewrite Ht. exact H.
  - destruct (call_keeps_counters rm (UpdateTrailingStop sym currentPrice))
      as [Ht _]. rewrite Ht. exact H.
  - destruct (call_keeps_counters rm (ModifyTakeProfit sym newTakeProfit))
      as [Ht _]. rewrite Ht. exact H.
Qed.

(** X3: the trade history is append-only and holds closed positions only: no
    history of calls removes or changes an entry, and in a manager reached
    from a new one every entry is closed, has its exit price, exit time and
    reason, and carries the [pnl] of its exit price. *)
Theorem trades_append_only_and_recorded :
  (forall rm cs, trades rm `prefix_of` trades (calls rm cs))
  /\ (forall cfg today cs,
        Forall recorded (trades (calls (RiskManager.new cfg today) cs))).
Proof.
  split.
  - intros rm cs.
    apply (calls_invariant (fun rm' => trades rm `prefix_of` trades rm')).
    + reflexivity.
    + intros rm' c H. etransitivity; [exact H|apply call_extends_trades].
  - intros cfg today cs.
    apply (calls_invariant (fun rm' => Forall recorded (trades rm'))).
    + constructor.
    + intros rm' c H. apply call_records, H.
Qed.

(** Reduction of the field reads of an updated position. *)
Ltac fields :=
  cbn [symbol side size entryPrice stopLoss takeProfit timestamp status
       isTrailingStop trailingStopDistance highestPrice lowestPrice
       exitPrice exitTime reason pnl
       withStopLoss withTakeProfit withIsTrailingStop
       withTrailingStopDistance withHighestPrice withLowestPrice closed
       Js.num fst snd] in *.

(** One [updateTrailingStop] on a trailing Buy position. *)
Lemma updateTrailingStop_buy (rm : t) (sym : string) (cp entry stop d h : Q)
    (q : Position) :
  positions rm !! sym = Some q -> trailsBuy entry stop d h q ->
  exists q', positions (updateTrailingStop rm sym cp).1 !! sym = Some q'
             /\ trailsBuy entry stop d (Qmax h cp) q'.
Proof.
  intros Hq [Htr [Hside [Hd [Heh [Hh [Hup Hflat]]]]]].
  unfold updateTrailingStop. rewrite Hq, Htr, Hside, Hd.
  change (String.eqb "Buy" "Buy") with true. cbn [negb Js.num]. cbv zeta.
  destruct (Q.max_spec h cp) as [[Hlt Hmax]|[Hle Hmax]].
  - assert (E : Js.ltb (Js.num (highestPrice q)) cp = true)
      by (apply JsProps.ltb_lt; rewrite Hh; exact Hlt).
    rewrite E.
    assert (Hstop : stop <= stopLoss q).
    { destruct (Qlt_le_dec entry h) as [H|H].
      - rewrite (Hup H). apply Q.le_max_l.
      - rewrite Hflat by lra. apply Qle_refl. }
    assert (Hold : stopLoss q <= Qmax stop (h - d)).
    { destruct (Qlt_le_dec entry h) as [H|H].
      - rewrite (Hup H). apply Qle_refl.
      - rewrite Hflat by lra. apply Q.le_max_l. }
    destruct (Js.ltb (stopLoss (withHighestPrice q (Some cp))) (cp - d))
      eqn:E2; fields.
    + apply JsProps.ltb_lt in E2.
      eexists. split; [apply lookup_insert_eq|].
      unfold trailsBuy. fields.
      split; [exact Htr|]. split; [exact Hside|]. split; [exact Hd|].
      split; [rewrite Hmax; lra|]. split; [rewrite Hmax; reflexivity|].
      split.
      * intros _. rewrite Hmax. symmetry. apply Q.max_r. lra.
      * intros H. rewrite Hmax in H. exfalso. lra.
    + apply JsProps.ltb_ge in E2.
      eexists. split; [apply lookup_insert_eq|].
      unfold trailsBuy. fields.
      split; [exact Htr|]. split; [exact Hside|]. split; [exact Hd|].
      split; [rewrite Hmax; lra|]. split; [rewrite Hmax; reflexivity|].
      split.
      * intros _. rewrite Hmax.
        destruct (Q.max_spec stop (h - d)) as [[H1 H2]|[H1 H2]];
          rewrite H2 in Hold;
          destruct (Q.max_spec stop (cp - d)) as [[H3 H4]|[H3 H4]];
          rewrite H4; lra.
      * intros H. rewrite Hmax in H. exfalso. lra.
  - assert (E : Js.ltb (Js.num (highestPrice q)) cp = false)
      by (apply JsProps.ltb_ge; rewrite Hh; exact Hle).
    rewrite E. cbn [fst]. exists q. split; [exact Hq|].
    unfold trailsBuy.
    split; [exact Htr|]. split; [exact Hside|]. split; [exact Hd|].
    split; [rewrite Hmax; exact Heh|]. split; [rewrite Hmax; exact Hh|].
    split.
    + intros H. rewrite Hmax in H |- *. apply Hup, H.
    + intros H. rewrite Hmax in H. apply Hflat, H.
Qed.

(** One [updateTrailingStop] on a trailing position of another side. *)
Lemma updateTrailingStop_sell (rm : t) (sym : string) (cp entry stop d l : Q)
    (q : Position) :
  positions rm !! sym = Some q -> trailsSell entry stop d l q ->
  exists q', positions (updateTrailingStop rm sym cp).1 !! sym = Some q'
             /\ trailsSell entry stop d (Qmin l cp) q'.
Proof.
  intros Hq [Htr [Hside [Hd [Hel [Hl [Hdown Hflat]]]]]].
  unfold updateTrailingStop. rewrite Hq, Htr, Hd.
  assert (Hs : String.eqb (side q) "Buy" = false)
    by (apply String.eqb_neq; exact Hside).
  rewrite Hs. cbn [negb Js.num]. cbv zeta.
  destruct (Q.min_spec l cp) as [[Hlt Hmin]|[Hle Hmin]].
  - assert (E : Js.ltb cp (Js.num (lowestPrice q)) = false)
      by (apply JsProps.ltb_ge; rewrite Hl; lra).
    rewrite E. cbn [fst]. exists q. split; [exact Hq|].
    unfold trailsSell.
    split; [exact Htr|]. split; [exact Hside|]. split; [exact Hd|].
    split; [rewrite Hmin; exact Hel|]. split; [rewrite Hmin; exact Hl|].
    split.
    + intros H. rewrite Hmin in H |- *. apply Hdown, H.
    + intros H. rewrite Hmin in H. apply Hflat, H.
  - destruct (Qeq_dec cp l) as [Heq|Hne].
    + assert (E : Js.ltb cp (Js.num (lowestPrice q)) = false)
        by (apply JsProps.ltb_ge; rewrite Hl; lra).
      rewrite E. cbn [fst]. exists q. split; [exact Hq|].
      unfold trailsSell.
      split; [exact Htr|]. split; [exact Hside|]. split; [exact Hd|].
      split; [rewrite Hmin; lra|]. split; [rewrite Hmin, Heq; exact Hl|].
      split.
      * intros H. rewrite Hmin, Heq in H |- *. apply Hdown, H.
      * intros H. rewrite Hmin, Heq in H. apply Hflat, H.
    + assert (Hlt : cp < l).
      { destruct (Qlt_le_dec cp l) as [H|H]; [exact H|].
        exfalso. apply Hne. apply Qle_antisym; assumption. }
      assert (E : Js.ltb cp (Js.num (lowestPrice q)) = true)
        by (apply JsProps.ltb_lt; rewrite Hl; exact Hlt).
      rewrite E.
      assert (Hstop : stopLoss q <= stop).
      { destruct (Qlt_le_dec l entry) as [H|H].
        - rewrite (Hdown H). apply Q.le_min_l.
        - rewrite Hflat by lra. apply Qle_refl. }
      assert (Hold : Qmin stop (l + d) <= stopLoss q).
      { destruct (Qlt_le_dec l entry) as [H|H].
        - rewrite (Hdown H). apply Qle_refl.
        - rewrite Hflat by lra. apply Q.le_min_l. }
      destruct (Js.ltb (cp + d) (stopLoss (withLowestPrice q (Some cp))))
        eqn:E2; fields.
      * apply JsProps.ltb_lt in E2.
        eexists. split; [apply lookup_insert_eq|].
        unfold trailsSell. fields.
        split; [exact Htr|]. split; [exact Hside|]. split; [exact Hd|].
        split; [rewrite Hmin; lra|]. split; [rewrite Hmin; reflexivity|].
        split.
        -- intros _. rewrite Hmin. symmetry. apply Q.min_r. lra.
        -- intros H. rewrite Hmin in H. exfalso. lra.
      * apply JsProps.ltb_ge in E2.
        eexists. split; [apply lookup_insert_eq|].
        unfold trailsSell. fields.
        split; [exact Htr|]. split; [exact Hside|]. split; [exact Hd|].
        split; [rewrite Hmin; lra|]. split; [rewrite Hmin; reflexivity|].
        split.
        -- intros _. rewrite Hmin.
           destruct (Q.min_spec stop (l + d)) as [[H1 H2]|[H1 H2]];
             rewrite H2 in Hold;
             destruct (Q.min_spec stop (cp + d)) as [[H3 H4]|[H3 H4]];
             rewrite H4; lra.
        -- intros H. rewrite Hmin in H. exfalso. lra.
Qed.

Lemma updateTrailingStops_buy (prices : list Q) (rm : t) (sym : string)
    (entry stop d h : Q) (q : Position) :
  positions rm !! sym = Some q -> trailsBuy entry stop d h q ->
  exists q', positions (updateTrailingStops rm sym prices) !! sym = Some q'
             /\ trailsBuy entry stop d (highest h prices) q'.
Proof.
  revert rm h q. induction prices as [|cp prices IH]; intros rm h q Hq Hinv.
  - exists q. split; [exact Hq|exact Hinv].
  - destruct (updateTrailingStop_buy rm sym cp entry stop d h q Hq Hinv)
      as [q1 [Hq1 Hinv1]].
    exact (IH _ _ _ Hq1 Hinv1).
Qed.

Lemma updateTrailingStops_sell (prices : list Q) (rm : t) (sym : string)
    (entry stop d l : Q) (q : Position) :
  positions rm !! sym = Some q -> trailsSell entry stop d l q ->
  exists q', positions (updateTrailingStops rm sym prices) !! sym = Some q'
             /\ trailsSell entry stop d (lowest l prices) q'.
Proof.
  revert rm l q. induction prices as [|cp prices IH]; intros rm l q Hq Hinv.
  - exists q. split; [exact Hq|exact Hinv].
  - destruct (updateTrailingStop_sell rm sym cp entry stop d l q Hq Hinv)
      as [q1 [Hq1 Hinv1]].
    exact (IH _ _ _ Hq1 Hinv1).
Qed.

(** X4: the trailing stop follows the extreme.  After [setStopLoss] has put a
    trailing stop on a position, at a level that [validateStopLoss]
    accepts, and [updateTrailingStop] has seen a list of prices, the
    distance is the one between the entry price and that level; a Buy
    position has as its [highestPrice] the highest of the entry price and
    the prices seen and, when that is above the entry price, as its stop
    the larger of the level set and that highest price less the distance;
    a Sell position has as its [lowestPrice] the lowest of them and, when
    that is below the entry price, as its stop the smaller of the level set
    and that lowest price plus the distance.  Until the price has passed
    the entry price the stop is the level set. *)
Theorem trailing_stop_follows_extreme (rm : t) (sym : string) (stop : Q)
    (prices : list Q) (p : Position) :
  positions rm !! sym = Some p ->
  validateStopLoss p stop = true ->
  let rm' := updateTrailingStops (setStopLoss rm sym stop true).1 sym
               prices in
  let entry := entryPrice p in
  let d := Qabs (entry - stop) in
  exists q,
    positions rm' !! sym = Some q
    /\ isTrailingStop q = true /\ trailingStopDistance q = Some d
    /\ (side p = "Buy" ->
        let m := highest entry prices in
        entry <= m /\ Js.num (highestPrice q) == m
        /\ (entry < m -> stopLoss q == Qmax stop (m - d))
        /\ (m == entry -> stopLoss q == stop))
    /\ (side p = "Sell" ->
        let m := lowest entry prices in
        m <= entry /\ Js.num (lowestPrice q) == m
        /\ (m < entry -> stopLoss q == Qmin stop (m + d))
        /\ (m == entry -> stopLoss q == stop)).
Proof.
  intros Hp Hv. cbv zeta.
  set (q0 := withLowestPrice
               (withHighestPrice
                  (withTrailingStopDistance
                     (withIsTrailingStop (withStopLoss p stop) true)
                     (Some (Qabs (entryPrice p - stop))))
                  (Some (if String.eqb (side p) "Buy"
                         then entryPrice p else stop)))
               (Some (if String.eqb (side p) "Sell"
                      then entryPrice p else stop))).
  assert (Hset : positions (setStopLoss rm sym stop true).1 !! sym = Some q0).
  { unfold setStopLoss. rewrite Hp, Hv. cbn [negb fst]. cbv zeta.
    cbn [positions withPositions]. apply lookup_insert_eq. }
  destruct (String.eqb (side p) "Buy") eqn:Hside.
  - apply String.eqb_eq in Hside.
    assert (Hinv : trailsBuy (entryPrice p) stop
                     (Qabs (entryPrice p - stop)) (entryPrice p) q0).
    { unfold trailsBuy, q0. fields. rewrite Hside.
      change (String.eqb "Buy" "Buy") with true. cbv iota.
      split; [reflexivity|]. split; [reflexivity|]. split; [reflexivity|].
      split; [apply Qle_refl|]. split; [reflexivity|].
      split; [intros H; exfalso; lra|intros _; reflexivity]. }
    destruct (updateTrailingStops_buy prices _ sym _ _ _ _ q0 Hset Hinv)
      as [q [Hq [H1 [H2 [H3 [H4 [H5 [H6 H7]]]]]]]].
    exists q. split; [exact Hq|]. split; [exact H1|]. split; [exact H3|].
    split.
    + intros _. split; [exact H4|]. split; [exact H5|].
      split; [exact H6|exact H7].
    + intros Hs. rewrite Hs in Hside. discriminate Hside.
  - assert (Hne : side p <> "Buy") by (apply String.eqb_neq; exact Hside).
    destruct (String.eqb (side p) "Sell") eqn:Hsell.
    + assert (Hinv : trailsSell (entryPrice p) stop
                       (Qabs (entryPrice p - stop)) (entryPrice p) q0).
      { unfold trailsSell, q0. fields.
        split; [reflexivity|]. split; [exact Hne|]. split; [reflexivity|].
        split; [apply Qle_refl|]. split; [reflexivity|].
        split; [intros H; exfalso; lra|intros _; reflexivity]. }
      destruct (updateTrailingStops_sell prices _ sym _ _ _ _ q0 Hset Hinv)
        as [q [Hq [H1 [H2 [H3 [H4 [H5 [H6 H7]]]]]]]].
      exists q. split; [exact Hq|]. split; [exact H1|]. split; [exact H3|].
      split.
      * intros Hs. contradiction.
      * intros _. split; [exact H4|]. split; [exact H5|].
        split; [exact H6|exact H7].
    + (* neither side: the position still carries the trailing state *)
      assert (Hkeep : forall prices' rm1 q1,
                positions rm1 !! sym = Some q1 ->
                isTrailingStop q1 = true ->
                trailingStopDistance q1
                = Some (Qabs (entryPrice p - stop)) ->
                exists q, positions (updateTrailingStops rm1 sym prices')
                          !! sym = Some q
                          /\ isTrailingStop q = true
                          /\ trailingStopDistance q
                             = Some (Qabs (entryPrice p - stop))).
      { induction prices' as [|cp prices' IH]; intros rm1 q1 Hq1 Ht Hd.
        - exists q1. split; [exact Hq1|]. split; [exact Ht|exact Hd].
        - change (updateTrailingStops rm1 sym (cp :: prices'))
            with (updateTrailingStops (updateTrailingStop rm1 sym cp).1 sym
                    prices').
          assert (Hstep : exists q2,
                    positions (updateTrailingStop rm1 sym cp).1 !! sym
                    = Some q2
                    /\ isTrailingStop q2 = true
                    /\ trailingStopDistance q2 = trailingStopDistance q1).
          { unfold updateTrailingStop. rewrite Hq1, Ht. cbn [negb].
            cbv zeta.
            repeat match goal with
                   | |- context [if ?c then _ else _] => destruct c
                   end; cbn [fst positions withPositions];
              first [ exists q1; split; [exact Hq1|];
                      split; [exact Ht|reflexivity]
                    | eexists; split; [apply lookup_insert_eq|];
                      split; [exact Ht|reflexivity] ]. }
          destruct Hstep as [q2 [Hq2 [Ht2 Hd2]]].
          apply (IH _ q2 Hq2 Ht2). rewrite Hd2. exact Hd. }
      destruct (Hkeep prices _ q0 Hset eq_refl eq_refl) as [q [Hq [H1 H2]]].
      exists q. split; [exact Hq|]. split; [exact H1|]. split; [exact H2|].
      split.
      * intros Hs. contradiction.
      * intros Hs. rewrite Hs in Hsell. discriminate Hsell.
Qed.

(** The long position entered at 100 with a trailing stop set at 95, after
    prices of 110, 105 and 120: the stop is at 115. *)
Lemma trailing_stop_follows_extreme_witness :
  exists q,
    positions (updateTrailingStops
                 (setStopLoss Samples.btcLong "BTCUSDT" 95 true).1 "BTCUSDT"
                 [110; 105; 120]) !! "BTCUSDT" = Some q
    /\ stopLoss q == 115.
Proof.
  set (p := (addPosition (RiskManager.new Samples.cfg Samples.monday)
               "BTCUSDT" "Buy" 1 100 (Some 98) (Some 104) None 0).2).
  assert (Hp : positions Samples.btcLong !! "BTCUSDT" = Some p)
    by apply RiskManagerProps.btcLong_lookup.
  assert (Hv : validateStopLoss p 95 = true) by (vm_compute; reflexivity).
  assert (Hside : side p = "Buy") by reflexivity.
  assert (Hm : entryPrice p < highest (entryPrice p) [110; 105; 120])
    by (vm_compute; reflexivity).
  destruct (trailing_stop_follows_extreme Samples.btcLong "BTCUSDT" 95
              [110; 105; 120] p Hp Hv) as [q [Hq [_ [_ [Hbuy _]]]]].
  exists q. split; [exact Hq|].
  destruct (Hbuy Hside) as [_ [_ [Hstop _]]].
  rewrite (Hstop Hm). vm_compute. reflexivity.
Defined.



(** X6: without a custom stop and target, [addPosition] places the stop on the
    loss side of a positive entry price and the target on the profit side:
    the stop it stores is one that [validateStopLoss] accepts, and the
    target is the entry price plus, for a Buy position, or minus, for any
    other side, the distance between the entry and the stop stored times
    the reward ratio.  [risk] and [ratio] are the values that [riskPercent
    || config.trading.stopLoss || 0.02] and [config.trading.riskRewardRatio
    || 2] resolve to. *)
Theorem addPosition_default_levels (rm : t) (sym sd : string) (sz entry : Q)
    (riskPercent : option Q) (now : Z) :
  let risk := Js.orElse riskPercent
                (Js.orElse (Config.stopLoss (config rm)) 0.02) in
  let ratio := Js.orElse (Config.riskRewardRatio (config rm)) 2 in
  let p := (addPosition rm sym sd sz entry None None riskPercent now).2 in
  0 < entry -> 0 < risk -> 0 < ratio ->
  validateStopLoss p (stopLoss p) = true
  /\ (sd = "Buy" ->
      stopLoss p < entry < takeProfit p
      /\ takeProfit p = entry + Qabs (entry - stopLoss p) * ratio)
  /\ (sd <> "Buy" ->
      takeProfit p < entry < stopLoss p
      /\ takeProfit p = entry - Qabs (entry - stopLoss p) * ratio).
Proof.
  cbv zeta. intros He Hr Hk.
  unfold addPosition. fields. unfold Js.orElse at 1 2.
  unfold validateStopLoss. fields.
  unfold calculateTakeProfit, calculateStopLoss.
  set (risk := Js.orElse riskPercent
                 (Js.orElse (Config.stopLoss (config rm)) 0.02)) in *.
  set (ratio := Js.orElse None
                  (Js.orElse (Config.riskRewardRatio (config rm)) 2)).
  assert (Hratio : ratio = Js.orElse (Config.riskRewardRatio (config rm)) 2)
    by reflexivity.
  rewrite <- Hratio in Hk |- *. clearbody ratio risk.
  cbn [Js.orElse].
  assert (Hprod : 0 < entry * risk) by (apply Qmult_lt_0_compat; assumption).
  destruct (String.eqb sd "Buy") eqn:Hsd; cbv iota.
  - assert (Hd : Qabs (entry - entry * (1 - risk)) == entry * risk).
    { rewrite Qabs_pos by lra. lra. }
    assert (Hkd : 0 < entry * risk * ratio)
      by (apply Qmult_lt_0_compat; assumption).
    split; [apply JsProps.ltb_lt; lra|].
    split; [intros _; split; [rewrite Hd; split; lra|reflexivity]|].
    intros Hne. apply String.eqb_eq in Hsd. contradiction.
  - assert (Hd : Qabs (entry - entry * (1 + risk)) == entry * risk).
    { rewrite Qabs_neg by lra. lra. }
    assert (Hkd : 0 < entry * risk * ratio)
      by (apply Qmult_lt_0_compat; assumption).
    split; [apply JsProps.ltb_lt; lra|].
    split; [intros Heq; subst sd; discriminate Hsd|].
    intros _. split; [rewrite Hd; split; lra|reflexivity].
Qed.

(** The default levels of the sample configuration: a long entry at 100
    gets its stop below and its target above. *)
Lemma addPosition_default_levels_witness :
  let p := (addPosition (RiskManager.new Samples.cfg Samples.monday)
              "BTCUSDT" "Buy" 1 100 None None None 0).2 in
  stopLoss p < 100 < takeProfit p.
Proof.
  cbv zeta.
  refine (proj1 (proj1 (proj2 (addPosition_default_levels
                                 (RiskManager.new Samples.cfg Samples.monday)
                                 "BTCUSDT" "Buy" 1 100 None 0 _ _ _))
                   eq_refl));
    reflexivity.
Defined.

(** X7: for a position without a trailing stop whose stop and target are set,
    [checkStopLossAndTakeProfit] changes nothing and answers by where the
    price is: for a Buy position with the stop below the target, stop-loss
    at or below the stop, take-profit at or above the target, nothing in
    between; for a Sell position with the target below the stop, the
    mirror image. *)
Theorem checkStopLossAndTakeProfit_partition (rm : t) (sym : string)
    (currentPrice : Q) (p : Position) :
  positions rm !! sym = Some p ->
  isTrailingStop p = false ->
  ~ stopLoss p == 0 -> ~ takeProfit p == 0 ->
  let r := checkStopLossAndTakeProfit rm sym currentPrice in
  r.1 = rm
  /\ (side p = "Buy" -> stopLoss p < takeProfit p ->
      (currentPrice <= stopLoss p ->
       r.2 = Some (StopLossHit currentPrice (stopLoss p) false))
      /\ (takeProfit p <= currentPrice ->
          r.2 = Some (TakeProfitHit currentPrice (takeProfit p)))
      /\ (stopLoss p < currentPrice < takeProfit p -> r.2 = None))
  /\ (side p = "Sell" -> takeProfit p < stopLoss p ->
      (stopLoss p <= currentPrice ->
       r.2 = Some (StopLossHit currentPrice (stopLoss p) false))
      /\ (currentPrice <= takeProfit p ->
          r.2 = Some (TakeProfitHit currentPrice (takeProfit p)))
      /\ (takeProfit p < currentPrice < stopLoss p -> r.2 = None)).
Proof.
  intros Hp Htr Hsl Htp. cbv zeta.
  assert (Hup : updateTrailingStop rm sym currentPrice = (rm, false)).
  { unfold updateTrailingStop. rewrite Hp, Htr. reflexivity. }
  unfold checkStopLossAndTakeProfit. rewrite Hp, Hup. cbn [fst]. rewrite Hp.
  assert (Hts : Js.truthy (stopLoss p) = true).
  { unfold Js.truthy. destruct (Qeq_bool (stopLoss p) 0) eqn:E;
      [|reflexivity].
    apply Qeq_bool_iff in E. contradiction. }
  assert (Htt : Js.truthy (takeProfit p) = true).
  { unfold Js.truthy. destruct (Qeq_bool (takeProfit p) 0) eqn:E;
      [|reflexivity].
    apply Qeq_bool_iff in E. contradiction. }
  unfold checkStopLossHit, checkTakeProfitHit. rewrite Hts, Htt, Htr.
  cbn [negb].
  split.
  { destruct (String.eqb (side p) "Buy"); branches; reflexivity. }
  split.
  - intros Hside Hlt. rewrite Hside. cbn [String.eqb Ascii.eqb Bool.eqb].
    cbv iota.
    split; [|split].
    + intros H. apply JsProps.leb_le in H. rewrite H. reflexivity.
    + intros H.
      assert (E : Js.leb currentPrice (stopLoss p) = false).
      { destruct (Js.leb currentPrice (stopLoss p)) eqn:E; [|reflexivity].
        apply JsProps.leb_le in E. exfalso. lra. }
      rewrite E. apply JsProps.leb_le in H. rewrite H. reflexivity.
    + intros [H1 H2].
      assert (E : Js.leb currentPrice (stopLoss p) = false).
      { destruct (Js.leb currentPrice (stopLoss p)) eqn:E; [|reflexivity].
        apply JsProps.leb_le in E. exfalso. lra. }
      assert (E' : Js.leb (takeProfit p) currentPrice = false).
      { destruct (Js.leb (takeProfit p) currentPrice) eqn:E'; [|reflexivity].
        apply JsProps.leb_le in E'. exfalso. lra. }
      rewrite E, E'. reflexivity.
  - intros Hside Hlt. rewrite Hside. cbn [String.eqb Ascii.eqb Bool.eqb].
    cbv iota.
    split; [|split].
    + intros H. apply JsProps.leb_le in H. rewrite H. reflexivity.
    + intros H.
      assert (E : Js.leb (stopLoss p) currentPrice = false).
      { destruct (Js.leb (stopLoss p) currentPrice) eqn:E; [|reflexivity].
        apply JsProps.leb_le in E. exfalso. lra. }
      rewrite E. apply JsProps.leb_le in H. rewrite H. reflexivity.
    + intros [H1 H2].
      assert (E : Js.leb (stopLoss p) currentPrice = false).
      { destruct (Js.leb (stopLoss p) currentPrice) eqn:E; [|reflexivity].
        apply JsProps.leb_le in E. exfalso. lra. }
      assert (E' : Js.leb currentPrice (takeProfit p) = false).
      { destruct (Js.leb currentPrice (takeProfit p)) eqn:E'; [|reflexivity].
        apply JsProps.leb_le in E'. exfalso. lra. }
      rewrite E, E'. reflexivity.
Qed.

(** The partition on the sample long position (stop 98, target 104): a
    price of 97 hits the stop, 105 the target, 100 neither. *)
Lemma checkStopLossAndTakeProfit_partition_witness :
  (checkStopLossAndTakeProfit Samples.btcLong "BTCUSDT" 97).2
  = Some (StopLossHit 97 98 false)
  /\ (checkStopLossAndTakeProfit Samples.btcLong "BTCUSDT" 105).2
     = Some (TakeProfitHit 105 104)
  /\ (checkStopLossAndTakeProfit Samples.btcLong "BTCUSDT" 100).2 = None.
Proof.
  assert (H : forall cp,
            let r := checkStopLossAndTakeProfit Samples.btcLong "BTCUSDT" cp in
            (cp <= 98 -> r.2 = Some (StopLossHit cp 98 false))
            /\ (104 <= cp -> r.2 = Some (TakeProfitHit cp 104))
            /\ (98 < cp < 104 -> r.2 = None)).
  { intros cp.
    refine (proj1 (proj2 (checkStopLossAndTakeProfit_partition
                            Samples.btcLong "BTCUSDT" cp _
                            RiskManagerProps.btcLong_lookup eq_refl _ _))
              eq_refl eq_refl); discriminate. }
  split; [|split].
  - apply (proj1 (H 97)). discriminate.
  - apply (proj1 (proj2 (H 105))). discriminate.
  - apply (proj2 (proj2 (H 100))). split; reflexivity.
Defined.

(** X8: a new high does not trigger a trailing stop: for a Buy position whose
    trailing stop sits a positive distance below the highest price, a price
    above that highest price moves the stop to the price minus the distance
    and the answer of [checkStopLossAndTakeProfit] is not a stop-loss. *)
Theorem trailing_stop_survives_new_high (rm : t) (sym : string)
    (currentPrice : Q) (p : Position) :
  positions rm !! sym = Some p ->
  isTrailingStop p = true ->
  side p = "Buy" ->
  stopLoss p == Js.num (highestPrice p) - Js.num (trailingStopDistance p) ->
  0 < Js.num (trailingStopDistance p) ->
  Js.num (highestPrice p) < currentPrice ->
  let r := checkStopLossAndTakeProfit rm sym currentPrice in
  (exists q, positions r.1 !! sym = Some q
             /\ highestPrice q = Some currentPrice
             /\ stopLoss q = currentPrice - Js.num (trailingStopDistance p))
  /\ match r.2 with
     | Some (StopLossHit _ _ _) => False
     | _ => True
     end.
Proof.
  intros Hp Htr Hside Hinv Hd Hhigh. cbv zeta.
  assert (Hup : (updateTrailingStop rm sym currentPrice).1
                = withPositions rm
                    (<[sym := withStopLoss
                                (withHighestPrice p (Some currentPrice))
                                (currentPrice
                                 - Js.num (trailingStopDistance p))]>
                       (positions rm))).
  { unfold updateTrailingStop. rewrite Hp, Htr, Hside.
    cbn [negb String.eqb Ascii.eqb Bool.eqb]. cbv iota.
    apply JsProps.ltb_lt in Hhigh. rewrite Hhigh. fields.
    assert (E : Js.ltb (stopLoss p)
                  (currentPrice - Js.num (trailingStopDistance p)) = true)
      by (apply JsProps.ltb_lt; apply JsProps.ltb_lt in Hhigh; lra).
    rewrite E. reflexivity. }
  unfold checkStopLossAndTakeProfit. rewrite Hp, Hup.
  cbn [fst positions withPositions]. rewrite lookup_insert_eq.
  split.
  - assert (Hq : forall o : option CloseInstruction,
              positions
                (withPositions rm
                   (<[sym := withStopLoss
                               (withHighestPrice p (Some currentPrice))
                               (currentPrice
                                - Js.num (trailingStopDistance p))]>
                      (positions rm)), o).1 !! sym
              = Some (withStopLoss (withHighestPrice p (Some currentPrice))
                        (currentPrice - Js.num (trailingStopDistance p))))
      by (intros o; apply lookup_insert_eq).
    exists (withStopLoss (withHighestPrice p (Some currentPrice))
              (currentPrice - Js.num (trailingStopDistance p))).
    split; [|split; reflexivity].
    branches; apply Hq.
  - unfold checkStopLossHit. fields. rewrite Hside.
    cbn [String.eqb Ascii.eqb Bool.eqb]. cbv iota.
    assert (E : Js.leb currentPrice
                  (currentPrice - Js.num (trailingStopDistance p)) = false).
    { destruct (Js.leb currentPrice
                  (currentPrice - Js.num (trailingStopDistance p))) eqn:E;
        [|reflexivity].
      apply JsProps.leb_le in E. exfalso. lra. }
    rewrite E.
    destruct (negb (Js.truthy
                      (currentPrice - Js.num (trailingStopDistance p))));
      cbv iota;
      destruct (checkTakeProfitHit
                  (withStopLoss (withHighestPrice p (Some currentPrice))
                     (currentPrice - Js.num (trailingStopDistance p)))
                  currentPrice);
      exact I.
Qed.

(** The sample trailing position (highest price 110, distance 5) at a price
    of 120: the stop moves to 115 and is not hit. *)
Lemma trailing_stop_survives_new_high_witness :
  let r := checkStopLossAndTakeProfit MoreSamples.trailingManager "BTCUSDT"
             120 in
  (exists q, positions r.1 !! "BTCUSDT" = Some q
             /\ highestPrice q = Some 120
             /\ stopLoss q
                = 120 - Js.num (trailingStopDistance
                                  MoreSamples.trailingPosition))
  /\ r.2 = None.
Proof.
  cbv zeta.
  assert (Hl : positions MoreSamples.trailingManager !! "BTCUSDT"
               = Some MoreSamples.trailingPosition)
    by (vm_compute; reflexivity).
  assert (Htr : isTrailingStop MoreSamples.trailingPosition = true)
    by (vm_compute; reflexivity).
  assert (Hside : side MoreSamples.trailingPosition = "Buy")
    by (vm_compute; reflexivity).
  assert (Hinv : stopLoss MoreSamples.trailingPosition
                 == Js.num (highestPrice MoreSamples.trailingPosition)
                    - Js.num (trailingStopDistance
                                MoreSamples.trailingPosition))
    by (vm_compute; reflexivity).
  assert (Hd : 0 < Js.num (trailingStopDistance MoreSamples.trailingPosition))
    by (vm_compute; reflexivity).
  assert (Hhigh : Js.num (highestPrice MoreSamples.trailingPosition) < 120)
    by (vm_compute; reflexivity).
  pose proof (trailing_stop_survives_new_high MoreSamples.trailingManager
                "BTCUSDT" 120 MoreSamples.trailingPosition Hl Htr Hside Hinv
                Hd Hhigh) as H.
  cbv zeta in H. destruct H as [H _].
  split; [exact H|]. vm_compute. reflexivity.
Defined.

(** X9: [canTrade] leaves the manager as [checkDailyLossLimit] followed by
    [checkMaxDrawdown] leave it.  It grants only when, in that manager, the
    recorded daily loss is below the limit, the drawdown is a number below
    its limit and fewer positions are open than the maximum, the hour is
    within the trading hours, and the signal strength and the confidence
    reach their minimums; it then returns the size computed by
    [calculatePositionSize].  When it refuses, it returns no size. *)
Theorem canTrade_requires_every_gate (lim : Limits.t) (rm : t) (sym : string)
    (signalStrength currentBalance confidence : Q) (currentPrice : option Q)
    (today : string) (hour : Z) :
  let r := canTrade lim rm sym signalStrength currentBalance confidence
             currentPrice today hour in
  r.1 = (checkMaxDrawdown (checkDailyLossLimit rm today).1 currentBalance).1
  /\ (Permit.canTrade r.2 = true ->
      dailyLoss r.1 < Config.dailyLossLimit (config r.1)
      /\ (exists d, totalDrawdown r.1 = Some d
                    /\ d < Config.maxDrawdown (config r.1))
      /\ inject_Z (Z.of_nat (base.size (positions r.1)))
         < Config.maxPositions (config r.1)
      /\ Limits.tradingHoursStart lim <= inject_Z hour
         <= Limits.tradingHoursEnd lim
      /\ Limits.minSignalStrength lim <= signalStrength
      /\ Limits.minConfidence lim <= confidence
      /\ Permit.positionSize r.2
         = Some (calculatePositionSize r.1 currentBalance sym signalStrength
                   confidence currentPrice))
  /\ (Permit.canTrade r.2 = false -> Permit.positionSize r.2 = None).
Proof.
  cbv zeta. unfold canTrade.
  destruct (checkDailyLossLimit rm today) as [rm1 c1] eqn:E1.
  destruct (checkMaxDrawdown rm1 currentBalance) as [rm2 c2] eqn:E2.
  cbn [fst snd Permit.canTrade Permit.positionSize].
  split; [rewrite E2; reflexivity|].
  split.
  - intros Hok. rewrite Hok.
    unfold allChecks in Hok. cbn [forallb Checks.dailyLossLimit
      Checks.maxDrawdown Checks.tradingHours Checks.maxPositions
      Checks.signalStrength Checks.confidence] in Hok.
    repeat (apply andb_prop in Hok; destruct Hok as [? Hok]).
    subst c1 c2.
    assert (Hcfg : config rm2 = config rm1 /\ dailyLoss rm2 = dailyLoss rm1).
    { unfold checkMaxDrawdown in E2. injection E2 as <- _.
      destruct (Js.ltb (peakBalance rm1) currentBalance); split; reflexivity. }
    destruct Hcfg as [Hcfg Hdl].
    split.
    { unfold checkDailyLossLimit in E1. injection E1 as Hrm1 Hc1.
      rewrite Hdl, Hcfg. apply JsProps.ltb_lt. rewrite <- Hrm1. exact Hc1. }
    split.
    { unfold checkMaxDrawdown in E2. injection E2 as Hrm2 Hc2.
      rewrite Hrm2 in Hc2.
      destruct (totalDrawdown rm2) as [d|]; [|discriminate Hc2].
      exists d. split; [reflexivity|]. apply JsProps.ltb_lt, Hc2. }
    split; [apply JsProps.ltb_lt; assumption|].
    unfold checkTradingHours in *.
    match goal with
    | H : _ && _ = true |- _ => apply andb_prop in H; destruct H as [Hs He]
    end.
    split; [split; apply JsProps.leb_le; assumption|].
    split; [apply JsProps.leb_le; assumption|].
    split; [apply JsProps.leb_le; assumption|reflexivity].
  - intros Hno. rewrite Hno. reflexivity.
Qed.

(** [canTrade] on the sample manager whose daily loss is 450 of 500: it
    grants on Monday at noon, and the size is returned. *)
Lemma canTrade_requires_every_gate_witness :
  let r := canTrade MoreSamples.limits Samples.nearLimit "BTCUSDT" 0.9 10000
             80 (Some 50000) Samples.monday 12 in
  Permit.canTrade r.2 = true
  /\ dailyLoss r.1 < Config.dailyLossLimit (config r.1)
  /\ is_Some (Permit.positionSize r.2).
Proof.
  cbv zeta.
  assert (Hok : Permit.canTrade
                  (canTrade MoreSamples.limits Samples.nearLimit "BTCUSDT"
                     0.9 10000 80 (Some 50000) Samples.monday 12).2 = true)
    by (vm_compute; reflexivity).
  pose proof (canTrade_requires_every_gate MoreSamples.limits
                Samples.nearLimit "BTCUSDT" 0.9 10000 80 (Some 50000)
                Samples.monday 12) as H.
  cbv zeta in H. destruct H as [_ [H _]].
  destruct (H Hok) as [Hloss [_ [_ [_ [_ [_ Hsize]]]]]].
  split; [exact Hok|]. split; [exact Hloss|].
  rewrite Hsize. eexists. reflexivity.
Defined.

(** Counting with two tests that never hold together. *)
Lemma filter_lengths (l : list Position) :
  (length (List.filter isWin l) + length (List.filter isLoss l)
   <= length l)%nat.
Proof.
  induction l as [|p l IH]; simpl; [lia|].
  unfold isWin at 1, isLoss at 1.
  destruct (pnl p) as [x|]; [|lia].
  destruct (Js.ltb 0 x) eqn:E1, (Js.ltb x 0) eqn:E2; simpl; try lia.
  apply JsProps.ltb_lt in E1. apply JsProps.ltb_lt in E2.
  exfalso. lra.
Qed.

Lemma sumFiltered_sign (f : Position -> bool) (P : Q -> Prop) (l : list Position) :
  (forall p, f p = true -> P (Js.num (pnl p))) ->
  P 0 -> (forall a b, P a -> P b -> P (a + b)) ->
  P (sumFiltered (List.filter f l)).
Proof.
  intros Hf H0 Hadd. unfold sumFiltered.
  assert (H : forall acc, P acc ->
            P (foldl (fun s p => s + Js.num (pnl p)) acc (List.filter f l))).
  { induction l as [|p l IH]; intros acc Hacc; simpl; [exact Hacc|].
    destruct (f p) eqn:E; [|apply IH, Hacc].
    simpl. apply IH, Hadd; [exact Hacc|apply Hf, E]. }
  apply H, H0.
Qed.

Lemma count_pos (n : nat) : (0 < n)%nat -> 0 < count n.
Proof. intros H. unfold count, Qlt. simpl. lia. Qed.

Lemma count_le (n m : nat) : (n <= m)%nat -> count n <= count m.
Proof. intros H. unfold count, Qle. simpl. lia. Qed.

(** X10: the statistics are consistent on every trade history: winners and
    losers together are at most the trades, the win rate is a percentage
    between 0 and 100, the average win is not negative, the average loss is
    not positive, and the profit factor is not negative. *)
Theorem getTradingStats_consistent (rm : t) :
  let st := getTradingStats rm in
  (Stats.winningTrades st + Stats.losingTrades st <= Stats.totalTrades st)%nat
  /\ 0 <= Stats.winRate st <= 100
  /\ 0 <= Stats.avgWin st
  /\ Stats.avgLoss st <= 0
  /\ 0 <= Stats.profitFactor st.
Proof.
  cbv zeta. unfold getTradingStats.
  cbn [Stats.winningTrades Stats.losingTrades Stats.totalTrades
       Stats.winRate Stats.avgWin Stats.avgLoss Stats.profitFactor].
  pose proof (filter_lengths (trades rm)) as Hlen.
  set (w := length (List.filter isWin (trades rm))) in *.
  set (lo := length (List.filter isLoss (trades rm))) in *.
  set (n := length (trades rm)) in *.
  split; [exact Hlen|].
  split.
  { destruct (Nat.ltb_spec 0 n) as [Hn|Hn].
    - assert (Hc : 0 < count n) by (apply count_pos, Hn).
      assert (Hw : 0 <= count w) by (unfold count, Qle; simpl; lia).
      assert (Hwn : count w <= count n) by (apply count_le; lia).
      assert (H0 : 0 <= count w / count n).
      { apply Qle_shift_div_l; [exact Hc|]. lra. }
      assert (H1 : count w / count n <= 1).
      { apply Qle_shift_div_r; [exact Hc|]. lra. }
      split; lra.
    - split; [lra|]. lra. }
  assert (Hwin : 0 <= sumFiltered (List.filter isWin (trades rm))).
  { apply (sumFiltered_sign isWin (fun x => 0 <= x)).
    - intros p Hp. unfold isWin in Hp. destruct (pnl p) as [x|];
        [|discriminate Hp].
      apply JsProps.ltb_lt in Hp. simpl. lra.
    - lra.
    - intros a b Ha Hb. lra. }
  assert (Hloss : sumFiltered (List.filter isLoss (trades rm)) <= 0).
  { apply (sumFiltered_sign isLoss (fun x => x <= 0)).
    - intros p Hp. unfold isLoss in Hp. destruct (pnl p) as [x|];
        [|discriminate Hp].
      apply JsProps.ltb_lt in Hp. simpl. lra.
    - lra.
    - intros a b Ha Hb. lra. }
  split.
  { destruct (Nat.ltb_spec 0 w) as [Hw|Hw]; [|lra].
    apply Qle_shift_div_l; [apply count_pos, Hw|]. lra. }
  split.
  { destruct (Nat.ltb_spec 0 lo) as [Hl|Hl]; [|lra].
    apply Qle_shift_div_r; [apply count_pos, Hl|]. lra. }
  destruct (negb (Qeq_bool _ 0)); [apply Qabs_nonneg|lra].
Qed.

End RiskChecksProps.

(** ** The price history and the trend analysis *)

Module TrendAnalysisProps.

Import TechnicalAnalysis TrendAnalysis.

Lemma drop_excess {A : Type} (m : nat) (X cs : list A) :
  drop (length (drop (length X - m) X ++ cs) - m)
    (drop (length X - m) X ++ cs)
  = drop (length (X ++ cs) - m) (X ++ cs).
Proof.
  rewrite <- (drop_app_le X cs (length X - m)) by lia.
  rewrite drop_drop. f_equal.
  rewrite length_drop, !length_app. lia.
Qed.

Lemma getPriceHistory_addCandle (ta : t) (sym : string) (c : Candle.t) :
  (0 < maxHistoryLength ta)%nat ->
  (length (getPriceHistory ta sym) <= maxHistoryLength ta)%nat ->
  getPriceHistory (addCandle ta sym c) sym
  = drop (length (getPriceHistory ta sym ++ [c]) - maxHistoryLength ta)
      (getPriceHistory ta sym ++ [c]).
Proof.
  intros Hmax Hlen. unfold getPriceHistory in *. unfold addCandle. simpl.
  rewrite lookup_insert_eq. simpl.
  set (h := default [] (priceHistory ta !! sym)) in *.
  rewrite length_app. simpl.
  destruct (Nat.ltb_spec (maxHistoryLength ta) (length h + 1)) as [Hfull|Hroom].
  - replace (length h + 1 - maxHistoryLength ta)%nat with 1%nat by lia.
    destruct h; reflexivity.
  - replace (length h + 1 - maxHistoryLength ta)%nat with 0%nat by lia.
    reflexivity.
Qed.

(** X11: the history of a symbol is a window over the candles received: after
    any number of [addCandle] calls for the symbol it holds the candles it
    held and the new ones, in the order of arrival, cut from the front to
    the last [maxHistoryLength], so the newest candle is last and the
    oldest ones are the ones dropped.  The histories of the other symbols
    and the bound itself do not change. *)
Theorem addCandle_keeps_latest (ta : t) (sym : string) (cs : list Candle.t) :
  (0 < maxHistoryLength ta)%nat ->
  (length (getPriceHistory ta sym) <= maxHistoryLength ta)%nat ->
  let ta' := addCandles ta sym cs in
  let received := getPriceHistory ta sym ++ cs in
  getPriceHistory ta' sym
  = drop (length received - maxHistoryLength ta) received
  /\ (length (getPriceHistory ta' sym) <= maxHistoryLength ta)%nat
  /\ maxHistoryLength ta' = maxHistoryLength ta
  /\ forall other, other <> sym ->
       getPriceHistory ta' other = getPriceHistory ta other.
Proof.
  cbv zeta. revert ta.
  induction cs as [|c cs IH]; intros ta Hmax Hlen.
  - simpl. rewrite app_nil_r.
    replace (length (getPriceHistory ta sym) - maxHistoryLength ta)%nat
      with 0%nat by lia.
    simpl. split; [reflexivity|]. split; [exact Hlen|].
    split; [reflexivity|]. intros other _. reflexivity.
  - unfold addCandles. simpl.
    fold (addCandles (addCandle ta sym c) sym cs).
    assert (Hm : maxHistoryLength (addCandle ta sym c) = maxHistoryLength ta)
      by reflexivity.
    pose proof (getPriceHistory_addCandle ta sym c Hmax Hlen) as Hh.
    assert (Hlen' : (length (getPriceHistory (addCandle ta sym c) sym)
                     <= maxHistoryLength (addCandle ta sym c))%nat).
    { rewrite Hh, Hm, length_drop. lia. }
    destruct (IH (addCandle ta sym c)) as [H1 [H2 [H3 H4]]];
      [rewrite Hm; exact Hmax|exact Hlen'|].
    rewrite Hm in *.
    split; [|split; [exact H2|split; [exact H3|]]].
    + rewrite H1, Hh.
      rewrite (drop_excess (maxHistoryLength ta)
                 (getPriceHistory ta sym ++ [c]) cs).
      rewrite <- app_assoc. reflexivity.
    + intros other Hne. rewrite (H4 other Hne).
      unfold getPriceHistory, addCandle. simpl.
      rewrite lookup_insert_ne by congruence. reflexivity.
Qed.

(** Three candles into a history that keeps two: the last two remain. *)
Lemma addCandle_keeps_latest_witness :
  getPriceHistory
    (addCandles {| priceHistory := ∅; maxHistoryLength := 2 |} "BTCUSDT"
       [Samples.flat 1; Samples.flat 2; Samples.flat 3]) "BTCUSDT"
  = [Samples.flat 2; Samples.flat 3].
Proof.
  assert (Hmax : (0 < maxHistoryLength
                        {| priceHistory := ∅; maxHistoryLength := 2 |})%nat)
    by (simpl; lia).
  assert (Hlen : (length (getPriceHistory
                            {| priceHistory := ∅; maxHistoryLength := 2 |}
                            "BTCUSDT")
                  <= maxHistoryLength
                       {| priceHistory := ∅; maxHistoryLength := 2 |})%nat)
    by (vm_compute; lia).
  pose proof (addCandle_keeps_latest
                {| priceHistory := ∅; maxHistoryLength := 2 |} "BTCUSDT"
                [Samples.flat 1; Samples.flat 2; Samples.flat 3] Hmax Hlen)
    as H.
  cbv zeta in H. destruct H as [H _].
  rewrite H. reflexivity.
Defined.

Lemma confirmStep_closesAt (history : list Candle.t) (signal : TradeSignal)
    (count i : nat) :
  confirmStep history signal count i
  = match closesAt history i with
    | Some (prev, current) =>
        if (tradeSignalEqb signal Buy && Js.ltb prev current)
           || (tradeSignalEqb signal Sell && Js.ltb current prev)
        then S count else count
    | None => count
    end.
Proof.
  unfold confirmStep, closesAt.
  destruct (history !! (length history - 1 - i)%nat) as [p|]; [|reflexivity].
  destruct (history !! (length history - i)%nat) as [c|]; [|reflexivity].
  destruct (tradeSignalEqb signal Buy && Js.ltb (Candle.close p) (Candle.close c));
    [reflexivity|].
  destruct (tradeSignalEqb signal Sell && Js.ltb (Candle.close c) (Candle.close p));
    reflexivity.
Qed.

Lemma confirmStep_moves (history : list Candle.t) (signal : TradeSignal)
    (count i : nat) :
  (confirmStep history signal count i = count
   \/ confirmStep history signal count i = S count)
  /\ (confirmStep history signal count i = S count
      <-> exists pc, closesAt history i = Some pc /\ moves signal pc).
Proof.
  rewrite confirmStep_closesAt.
  destruct (closesAt history i) as [[p c]|].
  - destruct signal; simpl.
    + destruct (Js.ltb p c) eqn:E; simpl.
      * split; [right; reflexivity|]. split; [|reflexivity].
        intros _. exists (p, c). split; [reflexivity|].
        apply JsProps.ltb_lt, E.
      * split; [left; reflexivity|]. split; [intros Hx; exfalso; lia|].
        intros [pc [Hpc Hm]]. apply (inj Some) in Hpc. subst pc.
        apply JsProps.ltb_lt in Hm. simpl in Hm. congruence.
    + destruct (Js.ltb c p) eqn:E; simpl.
      * split; [right; reflexivity|]. split; [|reflexivity].
        intros _. exists (p, c). split; [reflexivity|].
        apply JsProps.ltb_lt, E.
      * split; [left; reflexivity|]. split; [intros Hx; exfalso; lia|].
        intros [pc [Hpc Hm]]. apply (inj Some) in Hpc. subst pc.
        apply JsProps.ltb_lt in Hm. simpl in Hm. congruence.
    + split; [left; reflexivity|]. split; [intros Hx; exfalso; lia|].
      intros [pc [_ []]].
  - split; [left; reflexivity|]. split; [intros Hx; exfalso; lia|].
    intros [pc [Hpc _]]. discriminate Hpc.
Qed.

Lemma confirmCount_all (history : list Candle.t) (signal : TradeSignal)
    (l : list nat) (count : nat) :
  (foldl (confirmStep history signal) count l <= count + length l)%nat
  /\ (foldl (confirmStep history signal) count l = (count + length l)%nat
      <-> forall i, In i l ->
            exists pc, closesAt history i = Some pc /\ moves signal pc).
Proof.
  revert count. induction l as [|i l IH]; intros count; simpl.
  - split; [lia|]. split; [intros _ j []|intros _; lia].
  - destruct (confirmStep_moves history signal count i) as [Hor Hiff].
    destruct (IH (confirmStep history signal count i)) as [Hle Hall].
    split; [destruct Hor as [Hc|Hc]; rewrite Hc in Hle |- *; lia|].
    split.
    + intros Heq.
      assert (Hs : confirmStep history signal count i = S count).
      { destruct Hor as [Hc|Hc]; [|exact Hc]. rewrite Hc in Hle, Heq. lia. }
      intros j [<-|Hj]; [apply Hiff, Hs|].
      apply (proj1 Hall); [|exact Hj]. rewrite Heq, Hs. lia.
    + intros Hin.
      assert (Hs : confirmStep history signal count i = S count)
        by (apply Hiff, Hin; left; reflexivity).
      rewrite (proj2 Hall); [rewrite Hs; lia|].
      intros j Hj. apply Hin. right. exact Hj.
Qed.

(** X12: [confirmSignal] answers yes exactly when the history holds at least
    [confirmations + 1] candles and each of the last [confirmations] closes
    moved the way of the signal: above the close before it for a buy, below
    it for a sell.  For a signal that is neither, it answers yes only when
    no confirmation is asked for. *)
Theorem confirmSignal_consecutive_moves (ta : t) (sym : string)
    (signal : TradeSignal) (confirmations : nat) :
  confirmSignal ta sym signal confirmations = true
  <-> (confirmations + 1 <= length (getPriceHistory ta sym))%nat
      /\ forall i, (1 <= i <= confirmations)%nat ->
           exists pc, closesAt (getPriceHistory ta sym) i = Some pc
                      /\ moves signal pc.
Proof.
  unfold confirmSignal.
  set (history := getPriceHistory ta sym).
  destruct (confirmCount_all history signal (seq 1 confirmations) 0)
    as [Hle Hall].
  rewrite length_seq in Hle, Hall. simpl in Hle, Hall.
  destruct (Nat.ltb_spec (length history) (confirmations + 1)) as [Hshort|Hlong].
  - split; [discriminate|]. intros [H _]. lia.
  - rewrite Nat.leb_le. split.
    + intros Hc. split; [exact Hlong|].
      intros i Hi. apply (proj1 Hall); [lia|].
      apply in_seq. lia.
    + intros [_ Hin]. rewrite (proj2 Hall); [lia|].
      intros i Hi. apply in_seq in Hi. apply Hin. lia.
Qed.

(** Closes of 1, 2, 3: two confirmations of a buy. *)
Lemma confirmSignal_consecutive_moves_witness :
  confirmSignal
    (addCandles new "BTCUSDT"
       [Samples.flat 1; Samples.flat 2; Samples.flat 3]) "BTCUSDT" Buy 2
  = true.
Proof.
  apply confirmSignal_consecutive_moves.
  split; [vm_compute; lia|].
  intros i Hi.
  assert (Hcase : i = 1%nat \/ i = 2%nat) by lia.
  destruct Hcase as [-> | ->].
  - exists (2, 3). split; [vm_compute; reflexivity|]. simpl. lra.
  - exists (1, 2). split; [vm_compute; reflexivity|]. simpl. lra.
Defined.

Ltac conditions :=
  repeat match goal with
         | |- context [if ?c then _ else _] => destruct c eqn:?
         end.

Lemma structureStep_bound (history : list Candle.t) (acc : Structure.t)
    (i : nat) :
  (Structure.bullishSignals (structureStep history acc i)
   + Structure.bearishSignals (structureStep history acc i)
   <= Structure.bullishSignals acc + Structure.bearishSignals acc
      + (if (2 <? i)%nat then 2 else 0))%nat.
Proof.
  unfold structureStep.
  destruct (history !! i) as [current|]; [|destruct (2 <? i)%nat; lia].
  destruct (history !! (i - 1)%nat) as [prev|]; [|destruct (2 <? i)%nat; lia].
  destruct (history !! (i + 1)%nat) as [next|]; [|destruct (2 <? i)%nat; lia].
  destruct (history !! (i - 2)%nat) as [before|]; [|destruct (2 <? i)%nat; lia].
  destruct (2 <? i)%nat; cbv zeta; rewrite ?andb_false_l;
    conditions; simpl; lia.
Qed.

Lemma foldl_structureStep_bound (history : list Candle.t) (l : list nat)
    (acc : Structure.t) :
  (Structure.bullishSignals (foldl (structureStep history) acc l)
   + Structure.bearishSignals (foldl (structureStep history) acc l)
   <= Structure.bullishSignals acc + Structure.bearishSignals acc
      + 2 * length l)%nat.
Proof.
  revert acc. induction l as [|i l IH]; intros acc; simpl; [lia|].
  specialize (IH (structureStep history acc i)).
  pose proof (structureStep_bound history acc i) as Hs.
  destruct (2 <? i)%nat; lia.
Qed.

(** The candle at index 2 never counts, and every later index counts at
    most twice. *)
Lemma analyzeTrendStructure_bound (history : list Candle.t) :
  (Structure.bullishSignals (analyzeTrendStructure history)
   + Structure.bearishSignals (analyzeTrendStructure history)
   <= 2 * (length history - 5))%nat.
Proof.
  unfold analyzeTrendStructure.
  destruct (length history - 4)%nat as [|k] eqn:Ek; simpl; [lia|].
  set (acc0 := {| Structure.bullishSignals := 0;
                  Structure.bearishSignals := 0 |}).
  pose proof (structureStep_bound history acc0 2) as H2.
  pose proof (foldl_structureStep_bound history (seq 3 k)
                (structureStep history acc0 2)) as Hk.
  rewrite length_seq in Hk. simpl in H2. lia.
Qed.

Lemma length_sliceLast {A : Type} (n : nat) (l : list A) :
  (0 < n <= length l)%nat -> length (sliceLast n l) = n.
Proof.
  intros Hn. unfold sliceLast.
  destruct (Nat.eqb_spec n 0) as [->|_]; [lia|].
  rewrite length_drop. lia.
Qed.

Lemma head_last_nonempty {A : Type} (l : list A) :
  (0 < length l)%nat -> exists f x, head l = Some f /\ last l = Some x.
Proof.
  intros Hl. destruct l as [|a l]; [simpl in Hl; lia|].
  exists a. destruct (last (a :: l)) as [x|] eqn:E.
  - exists x. split; reflexivity.
  - apply last_None in E. discriminate E.
Qed.

Ltac facts :=
  repeat match goal with
         | H : _ && _ = true |- _ => apply andb_prop in H; destruct H
         | H : Js.ltb _ _ = true |- _ => apply JsProps.ltb_lt in H
         | H : Js.leb _ _ = true |- _ => apply JsProps.leb_le in H
         | H : (_ <? _)%nat = true |- _ => apply Nat.ltb_lt in H
         end.

Ltac minima :=
  repeat match goal with
         | |- context [Qmin ?a ?b] =>
             let m := fresh "m" in
             let Hm := fresh "Hm" in
             destruct (Q.min_spec a b) as [[? Hm]|[? Hm]];
             remember (Qmin a b) as m
         end.

(** X13: for a positive period [analyzeTimeFrameTrend] returns a frame.  Its
    strength is not negative and its confidence is at most 95, or 105 for
    a symbol of daily data.  A bullish frame takes a window of at least six
    candles whose last close is above the first by more than the minimum
    change (2%, or 5% for daily data), and it has a confidence of at least
    48; a bearish frame is the mirror image.  A neutral frame has
    confidence 0, or 10 for daily data. *)
Theorem analyzeTimeFrameTrend_directional (history : list Candle.t)
    (period : nat) (currentPrice : option Q) (ema : Q) (symbol : string) :
  (0 < period)%nat ->
  exists r,
    analyzeTimeFrameTrend history period currentPrice ema symbol = Some r
    /\ 0 <= TimeFrame.strength r
    /\ TimeFrame.confidence r
       <= (if includes "_DAILY" symbol then 105 else 95)
    /\ (TimeFrame.direction r = Bullish ->
        (6 <= period <= length history)%nat
        /\ 48 <= TimeFrame.confidence r
        /\ exists f x,
             head (sliceLast period history) = Some f
             /\ last (sliceLast period history) = Some x
             /\ (if includes "_DAILY" symbol then 0.05 else 0.02)
                < (Candle.close x - Candle.close f) / Candle.close f)
    /\ (TimeFrame.direction r = Bearish ->
        (6 <= period <= length history)%nat
        /\ 48 <= TimeFrame.confidence r
        /\ exists f x,
             head (sliceLast period history) = Some f
             /\ last (sliceLast period history) = Some x
             /\ (Candle.close x - Candle.close f) / Candle.close f
                < - (if includes "_DAILY" symbol then 0.05 else 0.02))
    /\ (TimeFrame.direction r = Neutral ->
        TimeFrame.confidence r == 0
        \/ (includes "_DAILY" symbol = true /\ TimeFrame.confidence r == 10)).
Proof.
  intros Hperiod. unfold analyzeTimeFrameTrend.
  destruct (Nat.ltb_spec (length history) period) as [Hshort|Hlong].
  - eexists. split; [reflexivity|]. simpl.
    split; [lra|]. split; [destruct (includes _ _); lra|].
    split; [discriminate|]. split; [discriminate|].
    intros _. left. reflexivity.
  - pose proof (length_sliceLast period history (conj Hperiod Hlong)) as Hlen.
    destruct (head_last_nonempty (sliceLast period history)) as [f [x [Hf Hx]]];
      [lia|].
    rewrite Hf, Hx.
    pose proof (analyzeTrendStructure_bound (sliceLast period history)) as Hst.
    rewrite Hlen in Hst.
    set (pc := (Candle.close x - Candle.close f) / Candle.close f) in *.
    set (st := analyzeTrendStructure (sliceLast period history)) in *.
    set (vol := calculatePeriodVolatility (sliceLast period history)) in *.
    pose proof (Qabs_nonneg pc) as Habs.
    assert (Hneg : pc <= 0 -> Qabs pc == - pc) by apply Qabs_neg.
    cbv zeta.
    destruct (includes "_DAILY" symbol) eqn:Edaily; cbv iota.
    all: destruct (Js.ltb _ pc && _) eqn:Eup; cbv iota beta.
    all: try destruct (Js.ltb pc _ && _) eqn:Edown; cbv iota beta.
    all: destruct (Js.ltb _ vol) eqn:Evol; cbv iota beta.
    all: try destruct (_ && Js.ltb _ (Qabs pc)) eqn:Estrong; cbv iota beta.
    all: eexists; (split; [reflexivity|]).
    all: cbn [TimeFrame.strength TimeFrame.confidence TimeFrame.direction].
    all: facts.
    all: split; [exact Habs|].
    all: minima.
    all: split; [lra|].
    all: split; [first [discriminate | intros _; split; [lia|];
                   split; [lra|];
                   exists f, x; split; [reflexivity|];
                   split; [reflexivity|assumption]]|].
    all: split; [first [discriminate | intros _; split; [lia|];
                   split; [lra|];
                   exists f, x; split; [reflexivity|];
                   split; [reflexivity|assumption]]|].
    all: first [discriminate | intros _].
    all: first [left; lra | right; split; [reflexivity|lra]].
Qed.

(** The rising sample over its seven candles is a bullish frame. *)
Lemma analyzeTimeFrameTrend_directional_witness :
  exists r,
    analyzeTimeFrameTrend TrendSamples.rising 7 None 0 "BTCUSDT" = Some r
    /\ TimeFrame.direction r = Bullish
    /\ 48 <= TimeFrame.confidence r.
Proof.
  assert (Hperiod : (0 < 7)%nat) by lia.
  destruct (analyzeTimeFrameTrend_directional TrendSamples.rising 7 None 0
              "BTCUSDT" Hperiod) as [r [Hr [_ [_ [Hbull _]]]]].
  assert (Hd : TimeFrame.direction
                 <$> analyzeTimeFrameTrend TrendSamples.rising 7 None 0
                       "BTCUSDT" = Some Bullish)
    by (vm_compute; reflexivity).
  rewrite Hr in Hd. apply (inj Some) in Hd.
  exists r. split; [exact Hr|]. split; [exact Hd|].
  exact (proj1 (proj2 (Hbull Hd))).
Defined.

(** X14: [analyzeEMAPosition] casts five votes, so its direction is never
    neutral: it is bullish exactly when at least three of the votes are.
    Its confidence is at most 50.  A price above the three averages stacked
    in rising order of their periods takes all five votes to the bullish
    side, and a price at or below them stacked the other way takes all five
    to the bearish side. *)
Theorem analyzeEMAPosition_five_votes (currentPrice : option Q)
    (ema50 ema100 ema200 : Q) :
  let r := analyzeEMAPosition currentPrice ema50 ema100 ema200 in
  (EmaPosition.bullishSignals r + EmaPosition.bearishSignals r = 5)%nat
  /\ EmaPosition.direction r <> Neutral
  /\ (EmaPosition.direction r = Bullish
      <-> (3 <= EmaPosition.bullishSignals r)%nat)
  /\ EmaPosition.confidence r <= 50
  /\ (ema200 < ema100 -> ema100 < ema50 -> ema50 < Js.num currentPrice ->
      EmaPosition.bullishSignals r = 5%nat)
  /\ (ema50 <= ema100 -> ema100 <= ema200 -> Js.num currentPrice <= ema50 ->
      EmaPosition.bearishSignals r = 5%nat).
Proof.
  cbv zeta. unfold analyzeEMAPosition. cbv zeta.
  cbn [EmaPosition.bullishSignals EmaPosition.bearishSignals
       EmaPosition.direction EmaPosition.confidence].
  assert (Hv : forall c1 c2 c3 c4 c5 : bool,
            let acc := tally c5 (tally c4 (tally c3 (tally c2
                         (tally c1 (0%nat, 0%nat))))) in
            let d := if (acc.2 <? acc.1)%nat then Bullish
                     else if (acc.1 <? acc.2)%nat then Bearish
                     else Neutral in
            (acc.1 + acc.2 = 5)%nat /\ d <> Neutral
            /\ (d = Bullish <-> (3 <= acc.1)%nat)).
  { intros [] [] [] [] []; vm_compute;
      (split; [reflexivity|]); (split; [discriminate|]);
      split; intros H; first [reflexivity | discriminate H | lia]. }
  specialize (Hv (Js.ltb ema100 ema50) (Js.ltb ema200 ema100)
                (Js.ltb ema50 (Js.num currentPrice))
                (Js.ltb ema100 (Js.num currentPrice))
                (Js.ltb ema200 (Js.num currentPrice))).
  cbv zeta in Hv. destruct Hv as [Hv1 [Hv2 Hv3]].
  split; [exact Hv1|]. split; [exact Hv2|]. split; [exact Hv3|].
  split; [apply Q.le_min_r|]. split.
  - intros H1 H2 H3.
    assert (E1 : Js.ltb ema100 ema50 = true) by (apply JsProps.ltb_lt; lra).
    assert (E2 : Js.ltb ema200 ema100 = true) by (apply JsProps.ltb_lt; lra).
    assert (E3 : Js.ltb ema50 (Js.num currentPrice) = true)
      by (apply JsProps.ltb_lt; lra).
    assert (E4 : Js.ltb ema100 (Js.num currentPrice) = true)
      by (apply JsProps.ltb_lt; lra).
    assert (E5 : Js.ltb ema200 (Js.num currentPrice) = true)
      by (apply JsProps.ltb_lt; lra).
    rewrite E1, E2, E3, E4, E5. reflexivity.
  - intros H1 H2 H3.
    assert (E1 : Js.ltb ema100 ema50 = false) by (apply JsProps.ltb_ge; lra).
    assert (E2 : Js.ltb ema200 ema100 = false) by (apply JsProps.ltb_ge; lra).
    assert (E3 : Js.ltb ema50 (Js.num currentPrice) = false)
      by (apply JsProps.ltb_ge; lra).
    assert (E4 : Js.ltb ema100 (Js.num currentPrice) = false)
      by (apply JsProps.ltb_ge; lra).
    assert (E5 : Js.ltb ema200 (Js.num currentPrice) = false)
      by (apply JsProps.ltb_ge; lra).
    rewrite E1, E2, E3, E4, E5. reflexivity.
Qed.

(** With the averages at 3, 2 and 1 and a price of 150, all five votes are
    bullish. *)
Lemma analyzeEMAPosition_five_votes_witness :
  EmaPosition.bullishSignals (analyzeEMAPosition (Some 150) 3 2 1) = 5%nat.
Proof.
  assert (H1 : 1 < 2) by lra.
  assert (H2 : 2 < 3) by lra.
  assert (H3 : 3 < Js.num (Some 150)) by (simpl; lra).
  pose proof (analyzeEMAPosition_five_votes (Some 150) 3 2 1) as H.
  cbv zeta in H. destruct H as [_ [_ [_ [_ [H _]]]]].
  exact (H H1 H2 H3).
Defined.

Lemma analyzeTimeFrameTrend_returns (history : list Candle.t) (period : nat)
    (currentPrice : option Q) (ema : Q) (symbol : string) :
  (0 < period)%nat ->
  is_Some (analyzeTimeFrameTrend history period currentPrice ema symbol).
Proof.
  intros Hperiod. unfold analyzeTimeFrameTrend.
  destruct (Nat.ltb_spec (length history) period) as [Hshort|Hlong];
    [eexists; reflexivity|].
  destruct (head_last_nonempty (sliceLast period history)) as [f [x [Hf Hx]]].
  { rewrite length_sliceLast; lia. }
  rewrite Hf, Hx. cbv zeta.
  destruct (if Js.ltb _ _ && _ then _ else _) as [d c].
  eexists; reflexivity.
Qed.

Lemma consistentDirections_le (timeFrames : Frames.t) (d : Direction) :
  (consistentDirections timeFrames d <= 3)%nat.
Proof.
  unfold consistentDirections, timeFrameDirections. simpl.
  destruct (directionEqb _ d), (directionEqb _ d), (directionEqb _ d);
    simpl; lia.
Qed.

Lemma consistentDirections_all (timeFrames : Frames.t) (d : Direction) :
  consistentDirections timeFrames d = 3%nat ->
  timeFrameDirections timeFrames = [d; d; d].
Proof.
  unfold consistentDirections, timeFrameDirections. simpl.
  destruct (TimeFrame.direction (Frames.short timeFrames)),
    (TimeFrame.direction (Frames.medium timeFrames)),
    (TimeFrame.direction (Frames.long timeFrames)), d; simpl;
    intros H; first [reflexivity | discriminate H].
Qed.

Lemma consistentDirections_some (timeFrames : Frames.t) (d : Direction) :
  (1 <= consistentDirections timeFrames d)%nat ->
  In d (timeFrameDirections timeFrames).
Proof.
  unfold consistentDirections, timeFrameDirections. simpl.
  destruct (TimeFrame.direction (Frames.short timeFrames)),
    (TimeFrame.direction (Frames.medium timeFrames)),
    (TimeFrame.direction (Frames.long timeFrames)), d; simpl;
    intros H; first [lia | tauto].
Qed.

Lemma scoreFrame_neutral (acc : Scores) (frame : TimeFrame.t) (w : Q) :
  TimeFrame.direction frame = Neutral -> scoreFrame acc (frame, w) = acc.
Proof. intros H. unfold scoreFrame. rewrite H. reflexivity. Qed.

(** The scores before the direction is read off them. *)
Lemma calculateOverallTrend_facts (timeFrames : Frames.t)
    (emaAnalysis : EmaPosition.t) (trendConfig : TrendConfig.t) :
  let o := calculateOverallTrend timeFrames emaAnalysis trendConfig in
  0 <= Overall.strength o
  /\ Overall.confidence o <= 100
  /\ (Overall.direction o <> Neutral -> 0.3 < Overall.strength o)
  /\ (timeFrameDirections timeFrames = [Neutral; Neutral; Neutral] ->
      EmaPosition.confidence emaAnalysis <= 50 ->
      Overall.confidence o <= 10).
Proof.
  cbv zeta. unfold calculateOverallTrend. cbv zeta.
  cbn [Overall.strength Overall.confidence Overall.direction].
  split; [apply Qabs_nonneg|]. split; [apply Q.le_min_r|]. split.
  - set (acc := scoreEMA _ _).
    destruct (Js.ltb (bearishScore acc) (bullishScore acc) && Js.ltb 0.3 _)
      eqn:E1.
    + intros _. apply andb_prop in E1. apply JsProps.ltb_lt, E1.
    + destruct (Js.ltb (bullishScore acc) (bearishScore acc) && Js.ltb 0.3 _)
        eqn:E2.
      * intros _. apply andb_prop in E2. apply JsProps.ltb_lt, E2.
      * intros H. exfalso. apply H. reflexivity.
  - intros Hn Hc. unfold timeFrameDirections in Hn. simpl in Hn.
    injection Hn as Hs Hm Hl.
    unfold weighted. cbn [foldl].
    rewrite !scoreFrame_neutral by assumption.
    eapply Qle_trans; [apply Q.le_min_l|].
    unfold scoreEMA.
    destruct (EmaPosition.direction emaAnalysis); simpl; lra.
Qed.

(** What each tier of [determineTrendRecommendation] takes. *)
Lemma determineTrendRecommendation_tiers (overallTrend : Overall.t)
    (timeFrames : Frames.t) (emaAnalysis : EmaPosition.t) :
  let r := determineTrendRecommendation overallTrend timeFrames emaAnalysis in
  let d := Overall.direction overallTrend in
  let n := consistentDirections timeFrames d in
  let c := Overall.confidence overallTrend in
  (r = StrongBuy -> d = Bullish /\ 60 <= c /\ n = 3%nat)
  /\ (r = StrongSell -> d <> Bullish /\ 60 <= c /\ n = 3%nat)
  /\ (r = ModerateBuy -> d = Bullish /\ 40 <= c /\ (2 <= n)%nat)
  /\ (r = ModerateSell -> d <> Bullish /\ 40 <= c /\ (2 <= n)%nat)
  /\ (r = WeakBuy -> d = Bullish /\ 30 <= c /\ (1 <= n)%nat)
  /\ (r = WeakSell -> d <> Bullish /\ 30 <= c /\ (1 <= n)%nat).
Proof.
  cbv zeta. unfold determineTrendRecommendation. cbv zeta.
  change (length (timeFrameDirections timeFrames)) with 3%nat.
  pose proof (consistentDirections_le timeFrames
                (Overall.direction overallTrend)) as Hn.
  set (d := Overall.direction overallTrend) in *.
  set (c := Overall.confidence overallTrend) in *.
  assert (Hd : directionEqb d Bullish = true -> d = Bullish)
    by (destruct d; simpl; congruence).
  assert (Hd' : directionEqb d Bullish = false -> d <> Bullish)
    by (destruct d; simpl; congruence).
  destruct (Js.ltb c 30) eqn:E30; [repeat split; discriminate|].
  destruct (Js.ltb (Overall.strength overallTrend) 0.3);
    [repeat split; discriminate|].
  destruct (consistentDirections timeFrames d) as [|[|[|[|n]]]]; [| | | |lia].
  - change (Js.leb 0.7 (inject_Z (Z.of_nat 0) / inject_Z (Z.of_nat 3)))
      with false.
    change (Js.leb 0.5 (inject_Z (Z.of_nat 0) / inject_Z (Z.of_nat 3)))
      with false.
    change (Js.leb 0.3 (inject_Z (Z.of_nat 0) / inject_Z (Z.of_nat 3)))
      with false.
    cbn [andb]. repeat split; discriminate.
  - change (Js.leb 0.7 (inject_Z (Z.of_nat 1) / inject_Z (Z.of_nat 3)))
      with false.
    change (Js.leb 0.5 (inject_Z (Z.of_nat 1) / inject_Z (Z.of_nat 3)))
      with false.
    change (Js.leb 0.3 (inject_Z (Z.of_nat 1) / inject_Z (Z.of_nat 3)))
      with true.
    cbn [andb].
    destruct (Js.leb 30 c) eqn:E; [|repeat split; discriminate].
    apply JsProps.leb_le in E.
    destruct (directionEqb d Bullish) eqn:Eb;
      repeat split; try discriminate; try lia; auto.
  - change (Js.leb 0.7 (inject_Z (Z.of_nat 2) / inject_Z (Z.of_nat 3)))
      with false.
    change (Js.leb 0.5 (inject_Z (Z.of_nat 2) / inject_Z (Z.of_nat 3)))
      with true.
    change (Js.leb 0.3 (inject_Z (Z.of_nat 2) / inject_Z (Z.of_nat 3)))
      with true.
    cbn [andb].
    destruct (Js.leb 40 c) eqn:E40.
    + apply JsProps.leb_le in E40.
      destruct (directionEqb d Bullish) eqn:Eb;
        repeat split; try discriminate; try lia; auto.
    + destruct (Js.leb 30 c) eqn:E; [|repeat split; discriminate].
      apply JsProps.leb_le in E.
      destruct (directionEqb d Bullish) eqn:Eb;
        repeat split; try discriminate; try lia; auto.
  - change (Js.leb 0.7 (inject_Z (Z.of_nat 3) / inject_Z (Z.of_nat 3)))
      with true.
    change (Js.leb 0.5 (inject_Z (Z.of_nat 3) / inject_Z (Z.of_nat 3)))
      with true.
    change (Js.leb 0.3 (inject_Z (Z.of_nat 3) / inject_Z (Z.of_nat 3)))
      with true.
    cbn [andb].
    destruct (Js.leb 60 c) eqn:E60.
    + apply JsProps.leb_le in E60.
      destruct (directionEqb d Bullish) eqn:Eb;
        repeat split; try discriminate; try lia; auto.
    + destruct (Js.leb 40 c) eqn:E40.
      * apply JsProps.leb_le in E40.
        destruct (directionEqb d Bullish) eqn:Eb;
          repeat split; try discriminate; try lia; auto.
      * destruct (Js.leb 30 c) eqn:E; [|repeat split; discriminate].
        apply JsProps.leb_le in E.
        destruct (directionEqb d Bullish) eqn:Eb;
          repeat split; try discriminate; try lia; auto.
Qed.

(** X15: with positive trend periods [analyzeLongTermTrend] returns a result,
    whatever the averages of the package are.  Its strength is not
    negative and its confidence is at most 100; on a history shorter than
    the required data it is the neutral result with the recommendation
    [insufficient_data]; a direction other than neutral takes a strength
    above 0.3.  A [strong_buy] is given only for a bullish direction with a
    confidence of at least 60 and all three time frames bullish, and a
    [strong_sell] only for a bearish direction with all three bearish.  A
    [moderate_buy] or [weak_buy] is given only for a bullish direction with
    a bullish time frame; a [moderate_sell] or [weak_sell] is never given
    for a bullish direction. *)
Theorem analyzeLongTermTrend_recommendation
    (EMA_calculate : list Q -> nat -> list Q) (trendConfig : TrendConfig.t)
    (ta : t) (symbol : string) :
  (0 < TrendPeriods.short (TrendConfig.trendPeriods trendConfig))%nat ->
  (0 < TrendPeriods.medium (TrendConfig.trendPeriods trendConfig))%nat ->
  (0 < TrendPeriods.long (TrendConfig.trendPeriods trendConfig))%nat ->
  exists r,
    analyzeLongTermTrend EMA_calculate trendConfig ta symbol = Some r
    /\ 0 <= LongTerm.strength r
    /\ LongTerm.confidence r <= 100
    /\ ((length (getPriceHistory ta symbol) < minRequiredData trendConfig)%nat
        -> r = insufficientData)
    /\ (LongTerm.direction r <> Neutral -> 0.3 < LongTerm.strength r)
    /\ (LongTerm.recommendation r = StrongBuy ->
        LongTerm.direction r = Bullish /\ 60 <= LongTerm.confidence r
        /\ timeFrameDirections <$> LongTerm.timeFrames r
           = Some [Bullish; Bullish; Bullish])
    /\ (LongTerm.recommendation r = StrongSell ->
        LongTerm.direction r = Bearish /\ 60 <= LongTerm.confidence r
        /\ timeFrameDirections <$> LongTerm.timeFrames r
           = Some [Bearish; Bearish; Bearish])
    /\ (LongTerm.recommendation r = ModerateBuy
        \/ LongTerm.recommendation r = WeakBuy ->
        LongTerm.direction r = Bullish /\ 30 <= LongTerm.confidence r
        /\ exists tf, LongTerm.timeFrames r = Some tf
                      /\ In Bullish (timeFrameDirections tf))
    /\ (LongTerm.recommendation r = ModerateSell
        \/ LongTerm.recommendation r = WeakSell ->
        LongTerm.direction r <> Bullish /\ 30 <= LongTerm.confidence r).
Proof.
  intros Hs Hm Hl.
  assert (Hins : exists r, Some insufficientData = Some r
            /\ 0 <= LongTerm.strength r
            /\ LongTerm.confidence r <= 100
            /\ ((length (getPriceHistory ta symbol)
                 < minRequiredData trendConfig)%nat -> r = insufficientData)
            /\ (LongTerm.direction r <> Neutral -> 0.3 < LongTerm.strength r)
            /\ (LongTerm.recommendation r = StrongBuy ->
                LongTerm.direction r = Bullish /\ 60 <= LongTerm.confidence r
                /\ timeFrameDirections <$> LongTerm.timeFrames r
                   = Some [Bullish; Bullish; Bullish])
            /\ (LongTerm.recommendation r = StrongSell ->
                LongTerm.direction r = Bearish /\ 60 <= LongTerm.confidence r
                /\ timeFrameDirections <$> LongTerm.timeFrames r
                   = Some [Bearish; Bearish; Bearish])
            /\ (LongTerm.recommendation r = ModerateBuy
                \/ LongTerm.recommendation r = WeakBuy ->
                LongTerm.direction r = Bullish /\ 30 <= LongTerm.confidence r
                /\ exists tf, LongTerm.timeFrames r = Some tf
                              /\ In Bullish (timeFrameDirections tf))
            /\ (LongTerm.recommendation r = ModerateSell
                \/ LongTerm.recommendation r = WeakSell ->
                LongTerm.direction r <> Bullish
                /\ 30 <= LongTerm.confidence r)).
  { exists insufficientData. simpl.
    split; [reflexivity|]. split; [lra|]. split; [lra|].
    split; [reflexivity|]. split; [intros H; exfalso; apply H; reflexivity|].
    split; [discriminate|]. split; [discriminate|].
    split; intros [H|H]; discriminate H. }
  unfold analyzeLongTermTrend.
  destruct (Nat.ltb_spec (length (getPriceHistory ta symbol))
              (minRequiredData trendConfig)) as [Hshort|Hlong];
    [exact Hins|].
  cbv zeta.
  destruct (last (EMA_calculate _ (LongTermEMA.fast _))) as [e50|];
    [|exact Hins].
  destruct (last (EMA_calculate _ (LongTermEMA.medium _))) as [e100|];
    [|exact Hins].
  destruct (last (EMA_calculate _ (LongTermEMA.slow _))) as [e200|];
    [|exact Hins].
  clear Hins.
  destruct (analyzeTimeFrameTrend_returns (getPriceHistory ta symbol)
              (TrendPeriods.short (TrendConfig.trendPeriods trendConfig))
              (getCurrentPrice ta symbol) e50 symbol Hs) as [short Es].
  destruct (analyzeTimeFrameTrend_returns (getPriceHistory ta symbol)
              (TrendPeriods.medium (TrendConfig.trendPeriods trendConfig))
              (getCurrentPrice ta symbol) e100 symbol Hm) as [medium Em].
  destruct (analyzeTimeFrameTrend_returns (getPriceHistory ta symbol)
              (TrendPeriods.long (TrendConfig.trendPeriods trendConfig))
              (getCurrentPrice ta symbol) e200 symbol Hl) as [long El].
  rewrite Es, Em, El. cbn [mbind option_bind].
  set (tf := {| Frames.short := short; Frames.medium := medium;
                Frames.long := long |}).
  set (ema := analyzeEMAPosition (getCurrentPrice ta symbol) e50 e100 e200).
  assert (Hema : EmaPosition.confidence ema <= 50) by apply Q.le_min_r.
  destruct (calculateOverallTrend_facts tf ema trendConfig)
    as [H0 [H100 [Hdir Hneutral]]].
  pose proof (determineTrendRecommendation_tiers
                (calculateOverallTrend tf ema trendConfig) tf ema) as Htiers.
  cbv zeta in Htiers.
  destruct Htiers as [Tsb [Tss [Tmb [Tms [Twb Tws]]]]].
  set (o := calculateOverallTrend tf ema trendConfig) in *.
  eexists. split; [reflexivity|].
  cbn [LongTerm.strength LongTerm.confidence LongTerm.direction
       LongTerm.recommendation LongTerm.timeFrames fmap option_fmap
       option_map].
  split; [exact H0|]. split; [exact H100|].
  split; [intros Hlt; lia|]. split; [exact Hdir|].
  split; [|split; [|split]].
  - intros Hr. destruct (Tsb Hr) as [Hd [Hc Hn]].
    split; [exact Hd|]. split; [exact Hc|].
    rewrite Hd in Hn. rewrite (consistentDirections_all tf Bullish Hn).
    reflexivity.
  - intros Hr. destruct (Tss Hr) as [Hd [Hc Hn]].
    destruct (Overall.direction o) eqn:Ed; [congruence| |].
    + split; [reflexivity|]. split; [exact Hc|].
      rewrite (consistentDirections_all tf Bearish Hn). reflexivity.
    + exfalso.
      pose proof (Hneutral (consistentDirections_all tf Neutral Hn) Hema).
      lra.
  - intros [Hr|Hr].
    + destruct (Tmb Hr) as [Hd [Hc Hn]].
      split; [exact Hd|]. split; [lra|].
      exists tf. split; [reflexivity|].
      apply consistentDirections_some. rewrite Hd in Hn. lia.
    + destruct (Twb Hr) as [Hd [Hc Hn]].
      split; [exact Hd|]. split; [lra|].
      exists tf. split; [reflexivity|].
      apply consistentDirections_some. rewrite Hd in Hn. lia.
  - intros [Hr|Hr].
    + destruct (Tms Hr) as [Hd [Hc _]]. split; [exact Hd|lra].
    + destruct (Tws Hr) as [Hd [Hc _]]. split; [exact Hd|lra].
Qed.

(** The rising sample under the sample configuration: all three frames
    are bullish and the recommendation is [strong_buy]. *)
Lemma analyzeLongTermTrend_recommendation_witness :
  exists r,
    analyzeLongTermTrend TrendSamples.meanOfLast TrendSamples.trendConfig
      TrendSamples.risingTA "BTCUSDT" = Some r
    /\ LongTerm.recommendation r = StrongBuy
    /\ LongTerm.direction r = Bullish.
Proof.
  assert (Hs : (0 < TrendPeriods.short
                      (TrendConfig.trendPeriods TrendSamples.trendConfig))%nat)
    by (simpl; lia).
  assert (Hm : (0 < TrendPeriods.medium
                      (TrendConfig.trendPeriods TrendSamples.trendConfig))%nat)
    by (simpl; lia).
  assert (Hl : (0 < TrendPeriods.long
                      (TrendConfig.trendPeriods TrendSamples.trendConfig))%nat)
    by (simpl; lia).
  destruct (analyzeLongTermTrend_recommendation TrendSamples.meanOfLast
              TrendSamples.trendConfig TrendSamples.risingTA "BTCUSDT"
              Hs Hm Hl) as [r [Hr [_ [_ [_ [_ [Hsb _]]]]]]].
  assert (Hrec : LongTerm.recommendation
                   <$> analyzeLongTermTrend TrendSamples.meanOfLast
                         TrendSamples.trendConfig TrendSamples.risingTA
                         "BTCUSDT" = Some StrongBuy)
    by (vm_compute; reflexivity).
  rewrite Hr in Hrec. apply (inj Some) in Hrec.
  exists r. split; [exact Hr|]. split; [exact Hrec|].
  exact (proj1 (Hsb Hrec)).
Defined.

(** X16: the strength of [analyzeTrend] is 0, 1/2 or 1: four votes are cast, and
    the trend is neutral exactly when they are tied, which is when the
    strength is 0.  With fewer than 50 candles the trend is neutral,
    whatever the averages of the package are. *)
Theorem analyzeTrend_four_votes (EMA_calculate SMA_calculate : list Q -> nat -> list Q)
    (ta : t) (sym : string) :
  let r := analyzeTrend EMA_calculate SMA_calculate ta sym in
  (Trend.strength r == 0 \/ Trend.strength r == 1 # 2 \/ Trend.strength r == 1)
  /\ (Trend.trend r = Neutral <-> Trend.strength r == 0)
  /\ ((length (getPriceHistory ta sym) < 50)%nat -> Trend.trend r = Neutral).
Proof.
  cbv zeta. unfold analyzeTrend. cbv zeta.
  assert (Hv : forall c1 c2 c3 c4 : bool,
            let acc := tally c4 (tally c3 (tally c2
                         (tally c1 (0%nat, 0%nat)))) in
            let bullishSignals := inject_Z (Z.of_nat acc.1) in
            let bearishSignals := inject_Z (Z.of_nat acc.2) in
            let strength :=
              Qabs (bullishSignals - bearishSignals)
              / (bullishSignals + bearishSignals) in
            let trend :=
              if Js.ltb bearishSignals bullishSignals then Bullish
              else if Js.ltb bullishSignals bearishSignals then Bearish
              else Neutral in
            (strength == 0 \/ strength == 1 # 2 \/ strength == 1)
            /\ (trend = Neutral <-> strength == 0)).
  { intros [] [] [] []; vm_compute;
      (split; [first [left; reflexivity | right; left; reflexivity
                     | right; right; reflexivity]|]);
      split; first [discriminate | intros _; reflexivity]. }
  match goal with
  | |- ?A /\ ?B /\ _ =>
      assert (Hab : A /\ B);
      [|split; [exact (proj1 Hab)|split; [exact (proj2 Hab)|]]]
  end.
  - destruct (negb _ || _ || _ || _).
    + split; [left; reflexivity|split; reflexivity].
    + cbn [Trend.strength Trend.trend]. apply Hv.
  - intros Hlen. unfold movingAverages at 3.
    destruct (Nat.leb_spec 50 (length (getPriceHistory ta sym))) as [H|_];
      [lia|].
    cbn [fst present negb]. rewrite !orb_true_r. reflexivity.
Qed.

(** Ten candles are fewer than fifty: the trend is neutral. *)
Lemma analyzeTrend_four_votes_witness :
  Trend.trend (analyzeTrend TrendSamples.meanOfLast TrendSamples.meanOfLast
                 Samples.tenCandles "BTCUSDT") = Neutral.
Proof.
  assert (Hlen : (length (getPriceHistory Samples.tenCandles "BTCUSDT")
                  < 50)%nat)
    by (vm_compute; lia).
  pose proof (analyzeTrend_four_votes TrendSamples.meanOfLast
                TrendSamples.meanOfLast Samples.tenCandles "BTCUSDT") as H.
  cbv zeta in H. destruct H as [_ [_ H]].
  exact (H Hlen).
Defined.

End TrendAnalysisProps.

(** ** The advanced indicator analyses *)

Module IndicatorAnalysisProps.

Import TechnicalAnalysis IndicatorAnalysis.

Ltac conditions :=
  repeat match goal with
         | |- context [if ?c then _ else _] => destruct c eqn:?
         end.

Ltac facts :=
  repeat match goal with
         | H : _ && _ = true |- _ => apply andb_prop in H; destruct H
         | H : Js.ltb _ _ = true |- _ => apply JsProps.ltb_lt in H
         | H : Js.ltb _ _ = false |- _ => apply JsProps.ltb_ge in H
         | H : Js.leb _ _ = true |- _ => apply JsProps.leb_le in H
         end.

Lemma boundedVote_neutral : boundedVote neutral.
Proof. unfold boundedVote, neutral. simpl. split; reflexivity. Qed.



(** On numbers, [calculateTrendRead] is [calculateTrend]. *)
Lemma calculateTrendRead_numbers (values : list Q) :
  calculateTrendRead (map Number values) = Number (calculateTrend values).
Proof.
  unfold calculateTrendRead, calculateTrend. rewrite length_map.
  destruct (Nat.ltb_spec (length values) 2) as [H|H]; [reflexivity|].
  destruct values as [|first rest]; [simpl in H; lia|].
  cbn [map head].
  change (Number first :: map Number rest) with (map Number (first :: rest)).
  assert (Hlast : forall l, last (map Number l) = Number <$> last l).
  { induction l as [|x [|y l] IH]; [reflexivity|reflexivity|exact IH]. }
  rewrite Hlast.
  destruct (last (first :: rest)) as [lastValue|] eqn:E; [reflexivity|].
  apply last_None in E. discriminate E.
Qed.

(** The trend of the values that [analyzeMACDAdvanced] reads of the MACD
    history compares neither above nor below [0]. *)
Lemma macdTrend_compares_false (recent : list MacdEntry.t) :
  (10 <= length recent)%nat ->
  readLtb (Number 0) (calculateTrendRead (map MacdEntry.macd recent)) = false
  /\ readLtb (calculateTrendRead (map MacdEntry.macd recent)) (Number 0)
     = false.
Proof.
  intros Hlen. unfold calculateTrendRead. rewrite length_map.
  destruct (Nat.ltb_spec (length recent) 2) as [H|H]; [lia|].
  destruct recent as [|m rest]; [simpl in Hlen; lia|].
  split; reflexivity.
Qed.

(** X18: the verdict of [analyzeMACDAdvanced] is the one of the crossing of
    the MACD and its signal line alone: bullish exactly when, on at least
    30 candles, the MACD is above the signal line and the histogram is
    positive, bearish exactly in the mirrored case, with a strength of at
    most 1.3 and a confidence of at most 30.  The divergence of price and
    MACD, for which the function would raise the strength to 1.4 and add 25
    to the confidence, is never reported, because the trend of the MACD is
    taken over a property that the elements of the MACD history do not
    have.  The verdicts of [analyzeMACDAdvanced] and of
    [analyzeBollingerBandsAdvanced] are bounded votes, and the bands give a
    direction only when they are wider than 2% of the middle band or
    narrower than 1.5% of it. *)
Theorem indicator_votes_bounded
    (MACD_calculate : list Q -> Z -> Z -> Z -> list MacdEntry.t) (ta : t)
    (sym : string) (macd : Macd.t) (currentPrice : Q) (bb : Bands.t) :
  let a := analyzeMACDAdvanced MACD_calculate ta sym macd in
  let b := analyzeBollingerBandsAdvanced currentPrice bb in
  (Analysis.signal a = Bullish
   <-> (30 <= length (getPriceHistory ta sym))%nat
       /\ Macd.signal macd < Macd.macd macd /\ 0 < Macd.histogram macd)
  /\ (Analysis.signal a = Bearish
      <-> (30 <= length (getPriceHistory ta sym))%nat
          /\ Macd.macd macd < Macd.signal macd /\ Macd.histogram macd < 0)
  /\ Analysis.strength a <= 1.3 /\ Analysis.confidence a <= 30
  /\ boundedVote a
  /\ boundedVote (BandsAnalysis.analysis b)
  /\ (Analysis.signal (BandsAnalysis.analysis b) <> Neutral ->
      0.02 < BandsAnalysis.bbWidth b \/ BandsAnalysis.bbWidth b < 0.015).
Proof.
  cbv zeta.
  assert (Hmacd :
    let a := analyzeMACDAdvanced MACD_calculate ta sym macd in
    (Analysis.signal a = Bullish
     <-> (30 <= length (getPriceHistory ta sym))%nat
         /\ Macd.signal macd < Macd.macd macd /\ 0 < Macd.histogram macd)
    /\ (Analysis.signal a = Bearish
        <-> (30 <= length (getPriceHistory ta sym))%nat
            /\ Macd.macd macd < Macd.signal macd
            /\ Macd.histogram macd < 0)
    /\ Analysis.strength a <= 1.3 /\ Analysis.confidence a <= 30
    /\ boundedVote a).
  { cbv zeta. unfold analyzeMACDAdvanced. cbv zeta.
    destruct (Nat.ltb_spec (length (getPriceHistory ta sym)) 30) as [H30|H30].
    { split; [split; [discriminate|intros [H _]; lia]|].
      split; [split; [discriminate|intros [H _]; lia]|].
      split; [discriminate|]. split; [discriminate|].
      apply boundedVote_neutral. }
    set (crossing :=
           if Js.ltb (Macd.signal macd) (Macd.macd macd)
              && Js.ltb 0 (Macd.histogram macd)
           then if Js.ltb 0.001 (Macd.histogram macd)
                then (Bullish, 1.3, 20 + 10) else (Bullish, 1.0, 20)
           else if Js.ltb (Macd.macd macd) (Macd.signal macd)
                   && Js.ltb (Macd.histogram macd) 0
           then if Js.ltb (Macd.histogram macd) (- 0.001)
                then (Bearish, 1.3, 20 + 10) else (Bearish, 1.0, 20)
           else (Neutral, 0, 0)).
    assert (Hsame :
      forall verdict : Direction * Q * Q,
        (let '(signal, strength, confidence) := verdict in
         match calculateMACDHistory MACD_calculate ta sym 20 with
         | Some recentMACD =>
             if (10 <=? length recentMACD)%nat then
               if Js.ltb (calculateTrend
                            (map Candle.close
                               (sliceLast 20 (getPriceHistory ta sym)))) 0
                  && readLtb (Number 0)
                       (calculateTrendRead (map MacdEntry.macd recentMACD))
               then {| Analysis.signal := Bullish;
                       Analysis.strength := Qmax strength 1.4;
                       Analysis.confidence := confidence + 25 |}
               else if Js.ltb 0 (calculateTrend
                                   (map Candle.close
                                      (sliceLast 20
                                         (getPriceHistory ta sym))))
                       && readLtb
                            (calculateTrendRead
                               (map MacdEntry.macd recentMACD)) (Number 0)
               then {| Analysis.signal := Bearish;
                       Analysis.strength := Qmax strength 1.4;
                       Analysis.confidence := confidence + 25 |}
               else {| Analysis.signal := signal;
                       Analysis.strength := strength;
                       Analysis.confidence := confidence |}
             else {| Analysis.signal := signal;
                     Analysis.strength := strength;
                     Analysis.confidence := confidence |}
         | None => {| Analysis.signal := signal;
                      Analysis.strength := strength;
                      Analysis.confidence := confidence |}
         end)
        = {| Analysis.signal := verdict.1.1;
             Analysis.strength := verdict.1.2;
             Analysis.confidence := verdict.2 |}).
    { intros [[signal strength] confidence]. cbn [fst snd].
      destruct (calculateMACDHistory MACD_calculate ta sym 20)
        as [recent|]; [|reflexivity].
      destruct (Nat.leb_spec 10 (length recent)) as [H10|H10];
        [|reflexivity].
      destruct (macdTrend_compares_false recent H10) as [Hup Hdown].
      rewrite Hup, Hdown, !andb_false_r. reflexivity. }
    fold crossing. rewrite (Hsame crossing). clear Hsame.
    unfold crossing. clear crossing. unfold boundedVote.
    destruct (Js.ltb (Macd.signal macd) (Macd.macd macd)
              && Js.ltb 0 (Macd.histogram macd)) eqn:Eup;
      [destruct (Js.ltb 0.001 (Macd.histogram macd))
      |destruct (Js.ltb (Macd.macd macd) (Macd.signal macd)
                 && Js.ltb (Macd.histogram macd) 0) eqn:Edown;
       [destruct (Js.ltb (Macd.histogram macd) (- 0.001))|]];
      cbn [fst snd Analysis.signal Analysis.strength Analysis.confidence];
      facts.
    all: split; [split; [first [discriminate | intros _; repeat split;
                                                 first [lia | assumption]]
                        |first [reflexivity | intros [_ [? ?]]; exfalso]]|].
    all: try lra.
    all: try (apply andb_false_iff in Eup; destruct Eup; facts; lra).
    all: split; [split; [first [discriminate | intros _; repeat split;
                                                 first [lia | assumption]]
                        |first [reflexivity | intros [_ [? ?]]; exfalso]]|].
    all: try lra.
    all: try (apply andb_false_iff in Edown; destruct Edown; facts; lra).
    all: split; [first [lra | vm_compute; discriminate]|].
    all: split; [first [lra | vm_compute; discriminate]|].
    all: first [split; reflexivity
               |split; split; first [lra | vm_compute; discriminate]]. }
  cbv zeta in Hmacd.
  destruct Hmacd as [H1 [H2 [H3 [H4 H5]]]].
  split; [exact H1|]. split; [exact H2|]. split; [exact H3|].
  split; [exact H4|]. split; [exact H5|]. split.
  - unfold analyzeBollingerBandsAdvanced. cbv zeta.
    conditions; unfold boundedVote;
      cbn [BandsAnalysis.analysis Analysis.signal Analysis.strength
           Analysis.confidence];
      first [split; reflexivity|split; split; lra].
  - unfold analyzeBollingerBandsAdvanced. cbv zeta.
    set (w := (Bands.upper bb - Bands.lower bb) / Bands.middle bb).
    destruct (Js.leb currentPrice _ && Js.ltb 0.02 w) eqn:E1;
      [|destruct (Js.leb _ currentPrice && Js.ltb 0.02 w) eqn:E2;
        [|destruct (Js.ltb _ currentPrice && Js.ltb w 0.015) eqn:E3;
          [|destruct (Js.ltb currentPrice _ && Js.ltb w 0.015) eqn:E4]]];
      cbn [BandsAnalysis.analysis BandsAnalysis.bbWidth Analysis.signal];
      facts; intros Hn;
      first [left; assumption | right; assumption
            | exfalso; apply Hn; reflexivity].
Qed.

(** Fifty falling closes against a rising MACD of the package, seen with a
    MACD above its signal line and a histogram of 0.0005: the verdict is
    the bullish one of the crossing, with a strength below the 1.4 of a
    divergence. *)
Lemma indicator_votes_bounded_witness :
  let a := analyzeMACDAdvanced TrendSamples.risingMACD TrendSamples.fallingTA
             "BTCUSDT" {| Macd.macd := 2; Macd.signal := 1;
                          Macd.histogram := 0.0005 |} in
  calculateTrend
    (map Candle.close
       (sliceLast 20 (getPriceHistory TrendSamples.fallingTA "BTCUSDT"))) < 0
  /\ Analysis.signal a = Bullish /\ Analysis.strength a <= 1.3.
Proof.
  cbv zeta. split; [vm_compute; reflexivity|].
  assert (Hlen : (30 <= length (getPriceHistory TrendSamples.fallingTA
                                  "BTCUSDT"))%nat)
    by (vm_compute; lia).
  assert (Hup : 1 < 2) by lra.
  assert (Hhist : 0 < 0.0005) by lra.
  pose proof (indicator_votes_bounded TrendSamples.risingMACD
                TrendSamples.fallingTA "BTCUSDT"
                {| Macd.macd := 2; Macd.signal := 1;
                   Macd.histogram := 0.0005 |}
                90 TrendSamples.wideBands) as H.
  cbv zeta in H. destruct H as [H1 [_ [H3 _]]].
  split; [apply H1; split; [exact Hlen|split; [exact Hup|exact Hhist]]|].
  exact H3.
Defined.

End IndicatorAnalysisProps.

(** ** The thresholds of the fused signal *)

Module SignalProps.

Import TechnicalAnalysis.

Lemma finalSignalOf_keeps_or_drops (lt : LongTermTrend.t) (sig : TradeSignal) :
  finalSignalOf lt sig = sig \/ finalSignalOf lt sig = NoSignal.
Proof.
  unfold finalSignalOf.
  destruct (LongTermTrend.direction lt), sig,
    (Js.ltb 50 (LongTermTrend.confidence lt)); simpl; auto.
Qed.

Lemma baseSignalOf_thresholds (a : Counters) :
  baseSignalOf a <> NoSignal ->
  0.4 < signalStrengthOf a /\ 30 < finalConfidenceOf a.
Proof.
  unfold baseSignalOf. cbv zeta.
  destruct (Js.ltb (bearishSignals a) (bullishSignals a)
            && Js.ltb 0.4 (signalStrengthOf a)
            && Js.ltb 30 (finalConfidenceOf a)) eqn:E1.
  - intros _. apply andb_prop in E1. destruct E1 as [E1 E3].
    apply andb_prop in E1. destruct E1 as [_ E2].
    split; apply JsProps.ltb_lt; assumption.
  - destruct (Js.ltb (bullishSignals a) (bearishSignals a)
              && Js.ltb 0.4 (signalStrengthOf a)
              && Js.ltb 30 (finalConfidenceOf a)) eqn:E2.
    + intros _. apply andb_prop in E2. destruct E2 as [E2 E3].
      apply andb_prop in E2. destruct E2 as [_ E2].
      split; apply JsProps.ltb_lt; assumption.
    + intros H. exfalso. apply H. reflexivity.
Qed.

Lemma signalStrengthOf_nonneg (a : Counters) : 0 <= signalStrengthOf a.
Proof.
  unfold signalStrengthOf.
  destruct (Js.ltb 0 (totalSignals a)) eqn:E; [|lra].
  apply JsProps.ltb_lt in E.
  apply Qle_shift_div_l; [exact E|].
  pose proof (Qabs_nonneg (bullishSignals a - bearishSignals a)). lra.
Qed.

Section Thresholds.

Variable RSI_calculate : list Q -> Z -> list Q.
Variable MACD_calculate : list Q -> Z -> Z -> Z -> list Macd.t.
Variable ATR_calculate : list Q -> list Q -> list Q -> Z -> list Q.
Variable sqrt : Q -> Q.
Variable analyzeTrend : t -> string -> Trend.t.
Variable analyzeLongTermTrend : t -> string -> LongTermTrend.t.
Variable calculateBollingerBands : t -> string -> option Bands.t.
Variable analyzeVolume : t -> string -> option Volume.t.
Variable analyzeRSIAdvanced : t -> string -> Q -> Analysis.t.
Variable analyzeMACDAdvanced : t -> string -> Macd.t -> Analysis.t.
Variable analyzeBollingerBandsAdvanced : Q -> Bands.t -> Analysis.t.

Local Abbreviation analyze :=
  (analyzeSignal RSI_calculate MACD_calculate ATR_calculate sqrt analyzeTrend
     analyzeLongTermTrend calculateBollingerBands analyzeVolume
     analyzeRSIAdvanced analyzeMACDAdvanced analyzeBollingerBandsAdvanced).

Lemma indicatorsOf_history (ta : t) (sym : string) (x : Q * Macd.t * Q) :
  indicatorsOf RSI_calculate MACD_calculate ta sym = Some x ->
  (35 <= length (getPriceHistory ta sym))%nat.
Proof.
  unfold indicatorsOf, calculateMACD. cbv zeta.
  destruct (calculateRSI RSI_calculate ta sym 14); [|discriminate].
  destruct (Z.ltb_spec (Z.of_nat (length (getPriceHistory ta sym)))
              (26 + 9)) as [Hlt|Hge]; [discriminate|].
  intros _. lia.
Qed.

(** X19: whatever the indicators and the sub-analyses return, the strength that
    [analyzeSignal] reports is not negative and its confidence is at most
    100.  It gives a buy or a sell only with a strength above 0.4 and a
    confidence above 30, on a history of at least 35 candles and with the
    RSI in its details; on a shorter history the signal is neutral with
    strength and confidence 0. *)
Theorem analyzeSignal_thresholds (ta : t) (sym : string) :
  let s := analyze ta sym in
  0 <= Signal.strength s
  /\ Signal.confidence s <= 100
  /\ (Signal.signal s <> NoSignal ->
      0.4 < Signal.strength s /\ 30 < Signal.confidence s
      /\ (35 <= length (getPriceHistory ta sym))%nat
      /\ is_Some (Signal.rsi_value (Signal.details s)))
  /\ ((length (getPriceHistory ta sym) < 35)%nat ->
      Signal.signal s = NoSignal /\ Signal.strength s = 0
      /\ Signal.confidence s = 0).
Proof.
  cbv zeta. unfold analyzeSignal.
  destruct (indicatorsOf RSI_calculate MACD_calculate ta sym)
    as [[[rsi macd] currentPrice]|] eqn:E.
  - apply indicatorsOf_history in E. cbv zeta.
    cbn [Signal.strength Signal.confidence Signal.signal Signal.details
         Signal.rsi_value].
    split; [apply signalStrengthOf_nonneg|].
    split; [apply Q.le_min_r|]. split; [|intros Hlt; lia].
    intros Hs.
    match type of Hs with
    | finalSignalOf ?lt (baseSignalOf ?a) <> _ =>
        destruct (finalSignalOf_keeps_or_drops lt (baseSignalOf a))
          as [Hk|Hk]; [rewrite Hk in Hs|congruence];
        destruct (baseSignalOf_thresholds a Hs) as [H1 H2]
    end.
    split; [exact H1|]. split; [exact H2|]. split; [exact E|].
    eexists; reflexivity.
  - simpl. split; [lra|]. split; [lra|].
    split; [intros H; exfalso; apply H; reflexivity|].
    intros _. split; [reflexivity|]. split; reflexivity.
Qed.

End Thresholds.

(** Ten candles are fewer than 35: the signal is neutral. *)
Lemma analyzeSignal_thresholds_witness :
  Signal.signal
    (analyzeSignal Samples.constRSI Samples.constMACD Samples.constATR
       Samples.idSqrt Samples.neutralTrend Samples.bullishLongTerm
       Samples.noBands Samples.noVolume Samples.bearishRSI
       Samples.bearishMACD Samples.neutralBands Samples.tenCandles
       "BTCUSDT") = NoSignal.
Proof.
  assert (Hlen : (length (getPriceHistory Samples.tenCandles "BTCUSDT")
                  < 35)%nat)
    by (vm_compute; lia).
  pose proof (analyzeSignal_thresholds Samples.constRSI Samples.constMACD
                Samples.constATR Samples.idSqrt Samples.neutralTrend
                Samples.bullishLongTerm Samples.noBands Samples.noVolume
                Samples.bearishRSI Samples.bearishMACD Samples.neutralBands
                Samples.tenCandles "BTCUSDT") as H.
  cbv zeta in H. destruct H as [_ [_ [_ H]]].
  exact (proj1 (H Hlen)).
Defined.

End SignalProps.

(** ** Properties of the rounding to doubles *)

Module DoubleProps.

Import Double.

Lemma two_pow_pos (z : Z) : 0 < 2 ^ z.
Proof. apply Qpower_0_lt. reflexivity. Qed.

Lemma two_pow_le (n m : Z) : (n <= m)%Z -> 2 ^ n <= 2 ^ m.
Proof. intros H. apply Qpower_le_compat_l; [exact H|discriminate]. Qed.

Lemma two_pow_lt (n m : Z) : (n < m)%Z -> 2 ^ n < 2 ^ m.
Proof. intros H. apply Qpower_lt_compat_l; [exact H|reflexivity]. Qed.

Lemma two_pow_plus (n m : Z) : 2 ^ (n + m) == 2 ^ n * 2 ^ m.
Proof. apply Qpower_plus. discriminate. Qed.

Lemma two_pow_Z (n : Z) : (0 <= n)%Z -> inject_Z (2 ^ n) == 2 ^ n.
Proof. intros H. rewrite Zpower_Qpower by exact H. reflexivity. Qed.

(** [exponent a] is the power of two at or below a positive [a]. *)
Lemma exponent_spec (a : Q) :
  0 < a -> 2 ^ exponent a <= a /\ a < 2 ^ (exponent a + 1).
Proof.
  intros Ha. unfold exponent. cbv zeta.
  destruct a as [n d]. cbn [Qnum Qden].
  assert (Hn : (0 < n)%Z) by (unfold Qlt in Ha; simpl in Ha; lia).
  destruct (Z.log2_spec n Hn) as [Hn1 Hn2].
  destruct (Z.log2_spec (Z.pos d) (Pos2Z.is_pos d)) as [Hd1 Hd2].
  set (ln := Z.log2 n) in *. set (ld := Z.log2 (Z.pos d)) in *.
  assert (Hln : (0 <= ln)%Z) by apply Z.log2_nonneg.
  assert (Hld : (0 <= ld)%Z) by apply Z.log2_nonneg.
  assert (Hq : n # d == inject_Z n / inject_Z (Z.pos d))
    by (rewrite Qmake_Qdiv; reflexivity).
  assert (Hdpos : 0 < inject_Z (Z.pos d)) by reflexivity.
  assert (Hlow : 2 ^ (ln - ld - 1) < n # d).
  { rewrite Hq. apply Qlt_shift_div_l; [exact Hdpos|].
    assert (E : 2 ^ ln == 2 ^ (ln - ld - 1) * 2 ^ (ld + 1)).
    { rewrite <- two_pow_plus. replace (ln - ld - 1 + (ld + 1))%Z with ln by lia.
      reflexivity. }
    apply Qlt_le_trans with (2 ^ (ln - ld - 1) * 2 ^ (ld + 1)).
    - apply Qmult_lt_l; [apply two_pow_pos|].
      rewrite <- two_pow_Z by lia. rewrite <- Zlt_Qlt.
      replace (ld + 1)%Z with (Z.succ ld) by lia. exact Hd2.
    - rewrite <- E, <- two_pow_Z by lia. rewrite <- Zle_Qle. exact Hn1. }
  assert (Hhigh : n # d < 2 ^ (ln - ld + 1)).
  { rewrite Hq. apply Qlt_shift_div_r; [exact Hdpos|].
    assert (E : 2 ^ (ln + 1) == 2 ^ (ln - ld + 1) * 2 ^ ld).
    { rewrite <- two_pow_plus. replace (ln - ld + 1 + ld)%Z with (ln + 1)%Z by lia.
      reflexivity. }
    apply Qlt_le_trans with (2 ^ (ln + 1)).
    - rewrite <- two_pow_Z by lia. rewrite <- Zlt_Qlt.
      replace (ln + 1)%Z with (Z.succ ln) by lia. exact Hn2.
    - rewrite E. apply Qmult_le_l; [apply two_pow_pos|].
      rewrite <- two_pow_Z by lia. rewrite <- Zle_Qle. exact Hd1. }
  destruct (Qle_bool (2 ^ (ln - ld)) (n # d)) eqn:E.
  - apply Qle_bool_iff in E. split; [exact E|exact Hhigh].
  - split; [apply Qlt_le_weak, Hlow|].
    replace (ln - ld - 1 + 1)%Z with (ln - ld)%Z by lia.
    apply Qnot_le_lt. intros H. apply Qle_bool_iff in H. congruence.
Qed.

Lemma exponent_mono (a b : Q) :
  0 < a -> a <= b -> (exponent a <= exponent b)%Z.
Proof.
  intros Ha Hab.
  assert (Hb : 0 < b) by (eapply Qlt_le_trans; eassumption).
  destruct (exponent_spec a Ha) as [Ha1 _].
  destruct (exponent_spec b Hb) as [_ Hb2].
  destruct (Z_le_gt_dec (exponent a) (exponent b)) as [H|H]; [exact H|].
  exfalso.
  assert (H2 : 2 ^ (exponent b + 1) <= 2 ^ exponent a)
    by (apply two_pow_le; lia).
  lra.
Qed.

Lemma nearestEven_bounds (x : Q) :
  (Qfloor x <= nearestEven x <= Qfloor x + 1)%Z.
Proof.
  unfold nearestEven. cbv zeta.
  destruct (Qcompare _ _); [destruct (Z.even _)| |]; lia.
Qed.

Lemma nearestEven_mono (x y : Q) :
  x <= y -> (nearestEven x <= nearestEven y)%Z.
Proof.
  intros Hxy.
  pose proof (Qfloor_resp_le x y Hxy) as Hf.
  destruct (Z.eq_dec (Qfloor x) (Qfloor y)) as [E|E].
  - unfold nearestEven. cbv zeta. rewrite E.
    destruct (Qcompare_spec (x - inject_Z (Qfloor y)) (1 # 2)) as [H1|H1|H1];
      destruct (Qcompare_spec (y - inject_Z (Qfloor y)) (1 # 2))
        as [H2|H2|H2];
      try destruct (Z.even (Qfloor y)); try lia; exfalso; lra.
  - pose proof (nearestEven_bounds x). pose proof (nearestEven_bounds y).
    lia.
Qed.

Lemma nearestEven_Z (z : Z) : nearestEven (inject_Z z) = z.
Proof.
  unfold nearestEven. cbv zeta. rewrite Qfloor_Z.
  destruct (Qcompare_spec (inject_Z z - inject_Z z) (1 # 2)) as [H|H|H];
    [exfalso; lra|reflexivity|exfalso; lra].
Qed.

Lemma magnitude_eq (a : Q) :
  magnitude a
  == inject_Z (nearestEven (a / 2 ^ Z.max (exponent a - 52) (-1074)))
     * 2 ^ Z.max (exponent a - 52) (-1074).
Proof. unfold magnitude. cbv zeta. apply Qred_correct. Qed.

Lemma magnitude_nonneg (a : Q) : 0 <= a -> 0 <= magnitude a.
Proof.
  intros Ha. rewrite magnitude_eq.
  set (s := Z.max _ _).
  apply Qmult_le_0_compat; [|apply Qlt_le_weak, two_pow_pos].
  change 0 with (inject_Z 0). rewrite <- Zle_Qle.
  rewrite <- (nearestEven_Z 0). apply nearestEven_mono.
  apply Qle_shift_div_l; [apply two_pow_pos|].
  change (inject_Z 0) with 0. rewrite Qmult_0_l. exact Ha.
Qed.

Lemma magnitude_mono (a b : Q) :
  0 < a -> a <= b -> magnitude a <= magnitude b.
Proof.
  intros Ha Hab.
  assert (Hb : 0 < b) by (eapply Qlt_le_trans; eassumption).
  pose proof (exponent_mono a b Ha Hab) as He.
  rewrite !magnitude_eq.
  set (sa := Z.max (exponent a - 52) (-1074)).
  set (sb := Z.max (exponent b - 52) (-1074)).
  pose proof (two_pow_pos sa) as Hsa. pose proof (two_pow_pos sb) as Hsb.
  destruct (Z.eq_dec sa sb) as [E|E].
  - rewrite E. apply Qmult_le_compat_r; [|lra].
    rewrite <- Zle_Qle. apply nearestEven_mono.
    unfold Qdiv. apply Qmult_le_compat_r; [exact Hab|].
    apply Qinv_le_0_compat. lra.
  - assert (Hlt : (sa < sb)%Z) by lia.
    assert (Hsb' : sb = (exponent b - 52)%Z) by lia.
    assert (Hab' : (exponent a < exponent b)%Z) by lia.
    destruct (exponent_spec a Ha) as [_ Ha2].
    destruct (exponent_spec b Hb) as [Hb1 _].
    apply Qle_trans with (2 ^ exponent b).
    + (* the rounded a is at most the next power of two *)
      apply Qle_trans with (2 ^ (exponent a + 1)); [|apply two_pow_le; lia].
      destruct (Z_le_gt_dec sa (exponent a + 1)) as [Hs|Hs].
      * assert (Hn : a / 2 ^ sa <= inject_Z (2 ^ (exponent a + 1 - sa))).
        { rewrite two_pow_Z by lia.
          apply Qle_shift_div_r; [exact Hsa|].
          rewrite <- two_pow_plus.
          replace (exponent a + 1 - sa + sa)%Z with (exponent a + 1)%Z by lia.
          lra. }
        apply nearestEven_mono in Hn. rewrite nearestEven_Z in Hn.
        rewrite Zle_Qle in Hn. rewrite two_pow_Z in Hn by lia.
        assert (E2 : 2 ^ (exponent a + 1)
                     == 2 ^ (exponent a + 1 - sa) * 2 ^ sa).
        { rewrite <- two_pow_plus.
          replace (exponent a + 1 - sa + sa)%Z with (exponent a + 1)%Z by lia.
          reflexivity. }
        rewrite E2. apply Qmult_le_compat_r; [exact Hn|lra].
      * assert (Hn : a / 2 ^ sa <= 1 # 2).
        { apply Qle_shift_div_r; [exact Hsa|].
          assert (E2 : 2 ^ sa == 2 * 2 ^ (sa - 1)).
          { change 2 with (2 ^ 1) at 2. rewrite <- two_pow_plus.
            replace (1 + (sa - 1))%Z with sa by lia. reflexivity. }
          assert (H2 : 2 ^ (exponent a + 1) <= 2 ^ (sa - 1))
            by (apply two_pow_le; lia).
          rewrite E2. lra. }
        apply nearestEven_mono in Hn.
        change (nearestEven (1 # 2)) with 0%Z in Hn.
        rewrite Zle_Qle in Hn.
        apply Qle_trans with 0; [|apply Qlt_le_weak, two_pow_pos].
        rewrite <- (Qmult_0_l (2 ^ sa)).
        apply Qmult_le_compat_r; [exact Hn|lra].
    + assert (Hn : inject_Z (2 ^ 52) <= b / 2 ^ sb).
      { rewrite two_pow_Z by lia.
        apply Qle_shift_div_l; [exact Hsb|].
        rewrite <- two_pow_plus. rewrite Hsb'.
        replace (52 + (exponent b - 52))%Z with (exponent b) by lia.
        exact Hb1. }
      apply nearestEven_mono in Hn. rewrite nearestEven_Z in Hn.
      rewrite Zle_Qle in Hn. rewrite two_pow_Z in Hn by lia.
      assert (E2 : 2 ^ exponent b == 2 ^ 52 * 2 ^ sb).
      { rewrite <- two_pow_plus. rewrite Hsb'.
        replace (52 + (exponent b - 52))%Z with (exponent b) by lia.
        reflexivity. }
      rewrite E2. apply Qmult_le_compat_r; [exact Hn|lra].
Qed.

(** Rounding keeps the order: the nearest double of the smaller number is
    not above the nearest double of the larger one. *)
Lemma round_le (x y : Q) : x <= y -> round x <= round y.
Proof.
  intros Hxy. unfold round.
  destruct (Qeq_bool x 0) eqn:Ex0; [apply Qeq_bool_eq in Ex0|
                                    apply Qeq_bool_neq in Ex0];
    (destruct (Qeq_bool y 0) eqn:Ey0; [apply Qeq_bool_eq in Ey0|
                                       apply Qeq_bool_neq in Ey0]);
    destruct (Qle_bool 0 x) eqn:Ex; destruct (Qle_bool 0 y) eqn:Ey;
    try (apply Qle_bool_iff in Ex); try (apply Qle_bool_iff in Ey);
    try (assert (Hx : x < 0)
           by (apply Qnot_le_lt; intros H; apply Qle_bool_iff in H;
               congruence));
    try (assert (Hy : y < 0)
           by (apply Qnot_le_lt; intros H; apply Qle_bool_iff in H;
               congruence));
    try apply Qle_refl; try (exfalso; lra);
    pose proof (magnitude_nonneg (Qabs x) (Qabs_nonneg x));
    pose proof (magnitude_nonneg (Qabs y) (Qabs_nonneg y));
    first [ lra
          | apply magnitude_mono; rewrite !Qabs_pos by lra; lra
          | apply Qopp_le_compat, magnitude_mono;
            rewrite !Qabs_neg by lra; lra ].
Qed.

Lemma round_comp (x y : Q) : x == y -> round x == round y.
Proof.
  intros H. apply Qle_antisym; apply round_le; rewrite H; apply Qle_refl.
Qed.

Lemma round_nonneg (x : Q) : 0 <= x -> 0 <= round x.
Proof. intros H. apply (round_le 0 x H). Qed.

Lemma round_nonpos (x : Q) : x <= 0 -> round x <= 0.
Proof. intros H. apply (round_le x 0 H). Qed.

End DoubleProps.

(** ** Properties of the decisions of the bot *)

Module DecisionsProps.

Import TechnicalAnalysis Decisions.

Ltac facts :=
  repeat match goal with
         | H : _ && _ = true |- _ => apply andb_prop in H; destruct H
         | H : _ || _ = true |- _ => apply orb_prop in H
         | H : negb _ = true |- _ => apply negb_true_iff in H
         | H : Js.ltb _ _ = true |- _ => apply JsProps.ltb_lt in H
         | H : Js.ltb _ _ = false |- _ => apply JsProps.ltb_ge in H
         | H : Js.leb _ _ = true |- _ => apply JsProps.leb_le in H
         end.

Lemma directionEqb_eq (d d' : Direction) :
  directionEqb d d' = true <-> d = d'.
Proof. destruct d, d'; simpl; split; congruence. Qed.

Lemma tradeSignalEqb_eq (s s' : TradeSignal) :
  tradeSignalEqb s s' = true <-> s = s'.
Proof. destruct s, s'; simpl; split; congruence. Qed.

(** X20: the bot's [analyzeTrend] defers to a long-term trend that has a
    direction and a confidence above 50: on at least 50 candles its final
    direction is then the long-term direction, with the long-term
    recommendation, unless the short-term direction is the opposite one, in
    which case the final direction is neutral, of low quality, with the
    recommendation [mixed_signals]; it never is the opposite of the
    long-term direction.  Without such a long-term trend the final
    direction is the short-term one and the recommendation is [hold].  On
    fewer than 50 candles the result is neutral with [insufficient_data]. *)
Theorem analyzeTrend_defers_to_long_term
    (analyzeLongTermTrend : TechnicalAnalysis.t -> string -> LongTermTrend.t)
    (ta : TechnicalAnalysis.t) (symbol : string) :
  let lt := analyzeLongTermTrend ta (symbol +:+ "_DAILY")%string in
  let r := analyzeTrend analyzeLongTermTrend ta symbol in
  BotTrend.longTermTrend r = lt
  /\ ((length (getPriceHistory ta symbol) < 50)%nat ->
      BotTrend.direction r = Neutral /\ BotTrend.strength r = 0
      /\ BotTrend.recommendation r = Advised InsufficientData)
  /\ ((50 <= length (getPriceHistory ta symbol))%nat ->
      exists short,
        BotTrend.shortTermDirection r = Some short
        /\ (LongTermTrend.direction lt <> Neutral ->
            50 < LongTermTrend.confidence lt ->
            (BotTrend.direction r = LongTermTrend.direction lt
             /\ BotTrend.recommendation r
                = Advised (LongTermTrend.recommendation lt)
             /\ (short = Neutral \/ short = LongTermTrend.direction lt))
            \/ (BotTrend.direction r = Neutral
                /\ BotTrend.quality r = Quality.low
                /\ BotTrend.recommendation r = Advised MixedSignals
                /\ short <> Neutral
                /\ short <> LongTermTrend.direction lt))
        /\ (LongTermTrend.direction lt = Neutral
            \/ LongTermTrend.confidence lt <= 50 ->
            BotTrend.direction r = short
            /\ BotTrend.recommendation r = Hold)).
Proof.
  cbv zeta. unfold analyzeTrend. cbv zeta.
  set (lt := analyzeLongTermTrend ta (symbol +:+ "_DAILY")%string).
  destruct (Nat.ltb_spec (length (getPriceHistory ta symbol)) 50)
    as [Hshort|Hlong].
  { split; [reflexivity|]. split; [|intros H; lia].
    intros _. split; [reflexivity|]. split; reflexivity. }
  destruct (TrendAnalysisProps.head_last_nonempty
              (map Candle.close (sliceLast 20 (getPriceHistory ta symbol))))
    as [f [x [Hf Hx]]].
  { rewrite length_map, TrendAnalysisProps.length_sliceLast; lia. }
  rewrite Hf, Hx.
  destruct (highsAndLows _) as [hh ll].
  set (change := (x - f) / f).
  set (short := if Js.ltb 0.02 change && (ll <? hh)%nat then Bullish
                else if Js.ltb change (- 0.02) && (hh <? ll)%nat then Bearish
                else Neutral).
  destruct (negb (directionEqb (LongTermTrend.direction lt) Neutral)
            && Js.ltb 50 (LongTermTrend.confidence lt)) eqn:Econf.
  - apply andb_prop in Econf. destruct Econf as [Edir Econf].
    apply JsProps.ltb_lt in Econf.
    destruct (directionEqb (LongTermTrend.direction lt) short) eqn:Esame.
    + apply directionEqb_eq in Esame.
      cbn [BotTrend.longTermTrend BotTrend.direction BotTrend.strength
           BotTrend.recommendation BotTrend.shortTermDirection
           BotTrend.quality].
      split; [reflexivity|]. split; [intros H; lia|]. intros _.
      exists short. split; [reflexivity|]. split.
      * intros _ _. left. split; [reflexivity|]. split; [reflexivity|].
        right. congruence.
      * intros [Hn|Hc]; [|lra].
        rewrite Hn in Edir. discriminate Edir.
    + cbn [negb andb].
      destruct (directionEqb short Neutral) eqn:Eneutral; cbn [negb];
        cbn [BotTrend.longTermTrend BotTrend.direction BotTrend.strength
             BotTrend.recommendation BotTrend.shortTermDirection
             BotTrend.quality];
        (split; [reflexivity|]); (split; [intros H; lia|]); intros _;
        exists short; (split; [reflexivity|]); split.
      * intros _ _. left. split; [reflexivity|]. split; [reflexivity|].
        left. apply directionEqb_eq, Eneutral.
      * intros [Hn|Hc]; [|lra].
        rewrite Hn in Edir. discriminate Edir.
      * intros _ _. right. split; [reflexivity|]. split; [reflexivity|].
        split; [reflexivity|]. split.
        -- intros Hn. rewrite Hn in Eneutral. discriminate Eneutral.
        -- intros Hn. rewrite Hn in Esame.
           destruct (LongTermTrend.direction lt); discriminate Esame.
      * intros [Hn|Hc]; [|lra].
        rewrite Hn in Edir. discriminate Edir.
  - cbn [BotTrend.longTermTrend BotTrend.direction BotTrend.strength
         BotTrend.recommendation BotTrend.shortTermDirection
         BotTrend.quality].
    split; [reflexivity|]. split; [intros H; lia|]. intros _.
    exists short. split; [reflexivity|]. split.
    + intros Hdir Hc. exfalso.
      apply andb_false_iff in Econf. destruct Econf as [E|E].
      * apply negb_false_iff, directionEqb_eq in E. contradiction.
      * apply JsProps.ltb_ge in E. lra.
    + intros _. split; reflexivity.
Qed.

(** Fifty flat candles under a bullish long-term trend of confidence 80:
    the final direction is the long-term one. *)
Lemma analyzeTrend_defers_to_long_term_witness :
  BotTrend.direction
    (analyzeTrend Samples.bullishLongTerm DecisionSamples.fiftyCandles
       "BTCUSDT") = Bullish.
Proof.
  assert (Hlen : (50 <= length (getPriceHistory DecisionSamples.fiftyCandles
                                  "BTCUSDT"))%nat)
    by (vm_compute; lia).
  assert (Hdir : LongTermTrend.direction
                   (Samples.bullishLongTerm DecisionSamples.fiftyCandles
                      ("BTCUSDT" +:+ "_DAILY")%string) <> Neutral)
    by (vm_compute; discriminate).
  assert (Hconf : 50 < LongTermTrend.confidence
                         (Samples.bullishLongTerm DecisionSamples.fiftyCandles
                            ("BTCUSDT" +:+ "_DAILY")%string))
    by (vm_compute; reflexivity).
  assert (Hshort : BotTrend.shortTermDirection
                     (analyzeTrend Samples.bullishLongTerm
                        DecisionSamples.fiftyCandles "BTCUSDT")
                   = Some Neutral)
    by (vm_compute; reflexivity).
  pose proof (analyzeTrend_defers_to_long_term Samples.bullishLongTerm
                DecisionSamples.fiftyCandles "BTCUSDT") as H.
  cbv zeta in H. destruct H as [_ [_ H]].
  destruct (H Hlen) as [short [Hs [Hlt _]]].
  rewrite Hs in Hshort. apply (inj Some) in Hshort. subst short.
  destruct (Hlt Hdir Hconf) as [[Hd _]|[_ [_ [_ [Hn _]]]]].
  - rewrite Hd. vm_compute. reflexivity.
  - exfalso. apply Hn. reflexivity.
Defined.

(** What [analyzeExistingPositions] answers, by the fraction that it
    computes, for either side. *)
Lemma exit_by_fraction (cfg : BotConfig.t)
    (rm : RiskManager.t) (ta : TechnicalAnalysis.t) (symbol : string)
    (now : Z) (p : RiskManager.Position) (cp sl tp : Q) :
  RiskManager.positions rm !! symbol = Some p ->
  getCurrentPrice ta symbol = Some cp -> 0 < cp ->
  BotConfig.stopLoss cfg = Some sl -> BotConfig.takeProfit cfg = Some tp ->
  let r := analyzeExistingPositions cfg rm ta symbol now in
  let f := pnlFraction p cp in
  PositionAnalysis.exists_ r = true
  /\ (PositionAnalysis.reason r = Some "stop_loss"%string <-> f <= - sl)
  /\ (PositionAnalysis.reason r = Some "take_profit"%string
      <-> - sl < f /\ tp <= f)
  /\ (PositionAnalysis.action r = PositionAnalysis.close
      <-> f <= - sl \/ tp <= f
          \/ maxHoldTime < inject_Z (now - RiskManager.timestamp p)).
Proof.
  intros Hp Hcp Hpos Hsl Htp. cbv zeta.
  unfold analyzeExistingPositions. rewrite Hp, Hcp, Hsl, Htp.
  assert (Htruthy : Js.truthy cp = true).
  { unfold Js.truthy. apply negb_true_iff.
    destruct (Qeq_bool cp 0) eqn:E; [|reflexivity].
    apply Qeq_bool_eq in E. lra. }
  rewrite Htruthy. cbn [negb]. cbv zeta.
  set (f := pnlFraction p cp).
  destruct (Js.leb f (- sl)) eqn:E1.
  - apply JsProps.leb_le in E1.
    cbn [PositionAnalysis.exists_ PositionAnalysis.reason
         PositionAnalysis.action].
    split; [reflexivity|]. split; [split; [intros _; exact E1|reflexivity]|].
    split; [split; [discriminate|intros [H _]; exfalso; lra]|].
    split; [intros _; left; exact E1|reflexivity].
  - assert (Hno : - sl < f).
    { apply Qnot_le_lt. intros H. apply JsProps.leb_le in H. congruence. }
    destruct (Js.leb tp f) eqn:E2.
    + apply JsProps.leb_le in E2.
      cbn [PositionAnalysis.exists_ PositionAnalysis.reason
           PositionAnalysis.action].
      split; [reflexivity|].
      split; [split; [discriminate|intros H; exfalso; lra]|].
      split; [split; [intros _; split; [exact Hno|exact E2]|reflexivity]|].
      split; [intros _; right; left; exact E2|reflexivity].
    + assert (Hno' : f < tp).
      { apply Qnot_le_lt. intros H. apply JsProps.leb_le in H. congruence. }
      destruct (Js.ltb maxHoldTime _) eqn:E3;
        cbn [PositionAnalysis.exists_ PositionAnalysis.reason
             PositionAnalysis.action];
        (split; [reflexivity|]);
        (split; [split; [discriminate|intros H; exfalso; lra]|]);
        (split; [split; [discriminate|intros [_ H]; exfalso; lra]|]).
      * split; [intros _; right; right; apply JsProps.ltb_lt, E3
               |reflexivity].
      * split; [discriminate|].
        intros [H|[H|H]]; [exfalso; lra|exfalso; lra|].
        apply JsProps.ltb_lt in H. congruence.
Qed.

(** For a long position the fraction does not fall when the price rises:
    each of its three roundings keeps the order. *)
Lemma pnlFraction_long_mono (p : RiskManager.Position) (cp cp' : Q) :
  RiskManager.side p = "Buy"%string ->
  0 < RiskManager.size p ->
  0 < Double.mul (RiskManager.entryPrice p) (RiskManager.size p) ->
  cp <= cp' -> pnlFraction p cp <= pnlFraction p cp'.
Proof.
  intros Hside Hs Hd Hle. unfold pnlFraction, calculatePnL. rewrite Hside.
  change (String.eqb "Buy" "Buy") with true. cbv iota.
  unfold Double.div. apply DoubleProps.round_le.
  unfold Qdiv. apply Qmult_le_compat_r; [|apply Qinv_le_0_compat; lra].
  unfold Double.mul. apply DoubleProps.round_le.
  apply Qmult_le_compat_r; [|lra].
  unfold Double.sub. apply DoubleProps.round_le. lra.
Qed.

(** For a long position the fraction has the sign of the move of the price
    away from the entry price. *)
Lemma pnlFraction_long_sign (p : RiskManager.Position) (cp : Q) :
  RiskManager.side p = "Buy"%string ->
  0 < RiskManager.size p ->
  0 < Double.mul (RiskManager.entryPrice p) (RiskManager.size p) ->
  (RiskManager.entryPrice p <= cp -> 0 <= pnlFraction p cp)
  /\ (cp <= RiskManager.entryPrice p -> pnlFraction p cp <= 0).
Proof.
  intros Hside Hs Hd. unfold pnlFraction, calculatePnL. rewrite Hside.
  change (String.eqb "Buy" "Buy") with true. cbv iota.
  set (d := Double.mul (RiskManager.entryPrice p) (RiskManager.size p)) in *.
  split; intros Hcp.
  - apply DoubleProps.round_nonneg.
    apply Qle_shift_div_l; [exact Hd|]. rewrite Qmult_0_l.
    apply DoubleProps.round_nonneg.
    apply Qmult_le_0_compat; [|lra].
    apply DoubleProps.round_nonneg. lra.
  - apply DoubleProps.round_nonpos.
    apply Qle_shift_div_r; [exact Hd|]. rewrite Qmult_0_l.
    apply DoubleProps.round_nonpos.
    assert (Hx : Double.sub cp (RiskManager.entryPrice p) <= 0)
      by (apply DoubleProps.round_nonpos; lra).
    rewrite <- (Qmult_0_l (RiskManager.size p)).
    apply Qmult_le_compat_r; [exact Hx|lra].
Qed.

(** X21: [analyzeExistingPositions] decides by the profit of the position as
    a fraction of its value, both computed in doubles: it closes for
    [stop_loss] exactly when the fraction is at or below the negated stop
    of the configuration, for [take_profit] exactly when the fraction is
    above that and at or above the target, and it asks to close exactly
    when one of the two holds or the position was held for more than 24
    hours.  For a Buy position of positive size and value the exits are
    ordered by the price: a stop answered at a price is answered at every
    lower price, a target answered at a price is answered at every higher
    one, no stop is answered at or above the entry price and no target at
    or below it. *)
Theorem analyzeExistingPositions_exit_levels (cfg : BotConfig.t)
    (rm : RiskManager.t) (ta ta' : TechnicalAnalysis.t) (symbol : string)
    (now : Z) (p : RiskManager.Position) (cp cp' sl tp : Q) :
  RiskManager.positions rm !! symbol = Some p ->
  RiskManager.side p = "Buy"%string ->
  0 < RiskManager.size p ->
  0 < Double.mul (RiskManager.entryPrice p) (RiskManager.size p) ->
  getCurrentPrice ta symbol = Some cp ->
  getCurrentPrice ta' symbol = Some cp' ->
  0 < cp -> cp <= cp' ->
  BotConfig.stopLoss cfg = Some sl -> BotConfig.takeProfit cfg = Some tp ->
  0 < sl -> 0 < tp ->
  let r := analyzeExistingPositions cfg rm ta symbol now in
  let r' := analyzeExistingPositions cfg rm ta' symbol now in
  let f := pnlFraction p cp in
  (PositionAnalysis.reason r = Some "stop_loss"%string <-> f <= - sl)
  /\ (PositionAnalysis.reason r = Some "take_profit"%string
      <-> - sl < f /\ tp <= f)
  /\ (PositionAnalysis.action r = PositionAnalysis.close
      <-> f <= - sl \/ tp <= f
          \/ maxHoldTime < inject_Z (now - RiskManager.timestamp p))
  /\ (PositionAnalysis.reason r' = Some "stop_loss"%string ->
      PositionAnalysis.reason r = Some "stop_loss"%string)
  /\ (PositionAnalysis.reason r = Some "take_profit"%string ->
      PositionAnalysis.reason r' = Some "take_profit"%string)
  /\ (RiskManager.entryPrice p <= cp ->
      PositionAnalysis.reason r <> Some "stop_loss"%string)
  /\ (cp <= RiskManager.entryPrice p ->
      PositionAnalysis.reason r <> Some "take_profit"%string).
Proof.
  intros Hp Hside Hs Hd Hcp Hcp' Hpos Hle Hsl Htp Hsl0 Htp0. cbv zeta.
  assert (Hpos' : 0 < cp') by lra.
  destruct (exit_by_fraction cfg rm ta symbol now p cp sl tp Hp Hcp Hpos
              Hsl Htp) as [_ [Hstop [Htarget Hclose]]].
  destruct (exit_by_fraction cfg rm ta' symbol now p cp' sl tp Hp Hcp' Hpos'
              Hsl Htp) as [_ [Hstop' [Htarget' _]]].
  pose proof (pnlFraction_long_mono p cp cp' Hside Hs Hd Hle) as Hmono.
  destruct (pnlFraction_long_sign p cp Hside Hs Hd) as [Hup Hdown].
  cbv zeta in Hstop, Htarget, Hclose, Hstop', Htarget'.
  split; [exact Hstop|]. split; [exact Htarget|]. split; [exact Hclose|].
  split; [|split; [|split]].
  - intros H. apply Hstop. apply Hstop' in H. lra.
  - intros H. apply Htarget'. apply Htarget in H. destruct H as [H1 H2].
    split; lra.
  - intros He H. apply Hstop in H. specialize (Hup He). lra.
  - intros He H. apply Htarget in H. specialize (Hdown He). lra.
Qed.

(** The long position at 100 seen at 97 and at 100, with the stop at the
    double of 2%: closed for the stop at 97. *)
Lemma analyzeExistingPositions_exit_levels_witness :
  PositionAnalysis.reason
    (analyzeExistingPositions DecisionSamples.doubleConfig Samples.btcLong
       DecisionSamples.fallen "BTCUSDT" 0) = Some "stop_loss"%string.
Proof.
  set (p := (RiskManager.addPosition
               (RiskManager.new Samples.cfg Samples.monday)
               "BTCUSDT" "Buy" 1 100 (Some 98) (Some 104) None 0).2).
  assert (Hp : RiskManager.positions Samples.btcLong !! "BTCUSDT" = Some p)
    by apply RiskManagerProps.btcLong_lookup.
  assert (Hside : RiskManager.side p = "Buy"%string) by reflexivity.
  assert (Hs : 0 < RiskManager.size p) by (vm_compute; reflexivity).
  assert (Hd : 0 < Double.mul (RiskManager.entryPrice p)
                     (RiskManager.size p)) by (vm_compute; reflexivity).
  assert (Hcp : getCurrentPrice DecisionSamples.fallen "BTCUSDT" = Some 97)
    by (vm_compute; reflexivity).
  assert (Hcp' : getCurrentPrice DecisionSamples.fiftyCandles "BTCUSDT"
                 = Some 100) by (vm_compute; reflexivity).
  assert (Hpos : 0 < 97) by lra.
  assert (Hle : 97 <= 100) by lra.
  assert (Hsl : BotConfig.stopLoss DecisionSamples.doubleConfig
                = Some (Double.round 0.02)) by reflexivity.
  assert (Htp : BotConfig.takeProfit DecisionSamples.doubleConfig
                = Some (Double.round 0.04)) by reflexivity.
  assert (Hsl0 : 0 < Double.round 0.02) by (vm_compute; reflexivity).
  assert (Htp0 : 0 < Double.round 0.04) by (vm_compute; reflexivity).
  assert (Hf : pnlFraction p 97 <= - Double.round 0.02)
    by (vm_compute; discriminate).
  pose proof (analyzeExistingPositions_exit_levels
                DecisionSamples.doubleConfig Samples.btcLong
                DecisionSamples.fallen DecisionSamples.fiftyCandles
                "BTCUSDT" 0 p 97 100 (Double.round 0.02)
                (Double.round 0.04) Hp Hside Hs Hd Hcp Hcp' Hpos Hle Hsl
                Htp Hsl0 Htp0) as H.
  cbv zeta in H. destruct H as [H _].
  apply H. exact Hf.
Defined.

(** X22: the score of [calculateOverallScore] is a hundred times the sum of its
    five contributions, whose weights add up to 1.  When the technical
    strength times confidence over 100, the trend strength and the
    strength of the market structure each lie between 0 and 1, the score
    lies between 0 and 100; without a technical signal and without a trend
    direction it is then at most 35, which is below the 40 that
    [determineRecommendation] asks for. *)
Theorem calculateOverallScore_range (a : Report.t) :
  let techScore :=
    Signal.strength (Report.technical a)
    * Signal.confidence (Report.technical a) / 100 in
  0 <= techScore <= 1 ->
  0 <= BotTrend.strength (Report.trend a) <= 1 ->
  0 <= Report.patternStrength a <= 1 ->
  calculateOverallScore a
  == 100 * (technicalPart a + trendPart a + volatilityPart a
            + volumePart a + structurePart a)
  /\ 0 <= calculateOverallScore a <= 100
  /\ (Signal.signal (Report.technical a) = NoSignal ->
      BotTrend.direction (Report.trend a) = Neutral ->
      calculateOverallScore a <= 35).
Proof.
  cbv zeta. intros Ht Hr Hp.
  assert (Heq : calculateOverallScore a
                == 100 * (technicalPart a + trendPart a + volatilityPart a
                          + volumePart a + structurePart a)).
  { unfold calculateOverallScore. cbv zeta.
    change (Js.ltb 0 (0 + 0.4 + 0.25 + 0.15 + 0.1 + 0.1)) with true.
    cbv iota. field. }
  assert (H1 : 0 <= technicalPart a <= 0.4).
  { unfold technicalPart. destruct (negb _); cbv zeta; lra. }
  assert (H2 : 0 <= trendPart a <= 0.25).
  { unfold trendPart. destruct (negb _); cbv zeta; [|lra].
    destruct (BotTrend.quality (Report.trend a)); lra. }
  assert (H3 : 0 <= volatilityPart a <= 0.15).
  { unfold volatilityPart. destruct (Report.volatilityRecommendation a); lra. }
  assert (H4 : 0 <= volumePart a <= 0.1).
  { unfold volumePart. destruct (_ && _); [lra|].
    destruct (Js.ltb 1.5 _); lra. }
  assert (H5 : 0 <= structurePart a <= 0.1).
  { unfold structurePart. destruct (Report.pattern a); lra. }
  split; [exact Heq|]. split; [rewrite Heq; lra|].
  intros Hs Hd. rewrite Heq.
  assert (T0 : technicalPart a = 0).
  { unfold technicalPart. rewrite Hs. reflexivity. }
  assert (R0 : trendPart a = 0).
  { unfold trendPart. rewrite Hd. reflexivity. }
  rewrite T0, R0. lra.
Qed.

(** The sample report: its score lies between 0 and 100. *)
Lemma calculateOverallScore_range_witness :
  0 <= calculateOverallScore DecisionSamples.report <= 100.
Proof.
  assert (Ht : 0 <= Signal.strength (Report.technical DecisionSamples.report)
                    * Signal.confidence
                        (Report.technical DecisionSamples.report) / 100
               <= 1)
    by (split; vm_compute; discriminate).
  assert (Hr : 0 <= BotTrend.strength (Report.trend DecisionSamples.report)
               <= 1)
    by (split; vm_compute; discriminate).
  assert (Hp : 0 <= Report.patternStrength DecisionSamples.report <= 1)
    by (split; vm_compute; discriminate).
  pose proof (calculateOverallScore_range DecisionSamples.report) as H.
  cbv zeta in H.
  exact (proj1 (proj2 (H Ht Hr Hp))).
Defined.

(** [generateTestRecommendation] never returns: whatever the state and the
    analysis, the outcome is the [ReferenceError], after
    [lastTestSignalTime] was set to the current time. *)
Lemma generateTestRecommendation_throws (last : option Z) (now : Z)
    (analysis : Report.t) :
  generateTestRecommendation last now analysis = (Some now, ReferenceError).
Proof. reflexivity. Qed.

(** X23: [determineRecommendation] on a symbol with a position only asks to
    close or to hold it, in the test mode too.  Without a position, a test
    mode that forces signals makes the call throw.  Otherwise a buy is
    returned only when the technical signal is not a sell and the
    long-term trend is not a bearish one of confidence above 50, and then
    either the long-term trend is bullish with a confidence above 60 and a
    strong or moderate buy recommendation, or the technical signal is a
    buy and the score is at least 45; a sell is the mirror image. *)
Theorem determineRecommendation_guards (cfg : BotConfig.t)
    (last : option Z) (now : Z) (analysis : Report.t) :
  let out := (determineRecommendation cfg last now analysis).2 in
  let position := Report.position analysis in
  let signal := Signal.signal (Report.technical analysis) in
  let trend := Report.trend analysis in
  let lt := BotTrend.longTermTrend trend in
  let score := Report.overallScore analysis in
  (PositionAnalysis.exists_ position = true ->
   out = Returned (match PositionAnalysis.action position with
                   | PositionAnalysis.close => close_position
                   | _ => hold_position
                   end))
  /\ (PositionAnalysis.exists_ position = false ->
      BotConfig.testModeEnabled cfg = true ->
      BotConfig.forceSignals cfg = true ->
      out = ReferenceError)
  /\ (out = Returned buy ->
      PositionAnalysis.exists_ position = false
      /\ signal <> Sell
      /\ ~ (LongTermTrend.direction lt = Bearish
            /\ 50 < LongTermTrend.confidence lt)
      /\ ((LongTermTrend.direction lt = Bullish
           /\ 60 < LongTermTrend.confidence lt
           /\ (BotTrend.recommendation trend = Advised StrongBuy
               \/ BotTrend.recommendation trend = Advised ModerateBuy))
          \/ (signal = Buy /\ 45 <= score)))
  /\ (out = Returned sell ->
      PositionAnalysis.exists_ position = false
      /\ signal <> Buy
      /\ ~ (LongTermTrend.direction lt = Bullish
            /\ 50 < LongTermTrend.confidence lt)
      /\ ((LongTermTrend.direction lt = Bearish
           /\ 60 < LongTermTrend.confidence lt
           /\ (BotTrend.recommendation trend = Advised StrongSell
               \/ BotTrend.recommendation trend = Advised ModerateSell))
          \/ (signal = Sell /\ 45 <= score))).
Proof.
  cbv zeta. unfold determineRecommendation. cbv zeta.
  destruct (PositionAnalysis.exists_ (Report.position analysis)) eqn:Ex.
  { split.
    - intros _. destruct (PositionAnalysis.action _); reflexivity.
    - split; [discriminate|].
      split; destruct (PositionAnalysis.action _); discriminate. }
  split; [discriminate|].
  destruct (BotConfig.testModeEnabled cfg && BotConfig.forceSignals cfg)
    eqn:Etest.
  { rewrite generateTestRecommendation_throws. cbn [snd].
    split; [reflexivity|]. split; discriminate. }
  cbn [snd]. split.
  { intros _ H1 H2. rewrite H1, H2 in Etest. discriminate Etest. }
  unfold recommendByTrend. cbv zeta.
  set (lt := BotTrend.longTermTrend (Report.trend analysis)).
  set (advice := BotTrend.recommendation (Report.trend analysis)).
  set (signal := Signal.signal (Report.technical analysis)).
  set (score := Report.overallScore analysis).
  assert (Hadv : forall r, adviceIs advice r = true -> advice = Advised r).
  { intros r. destruct advice as [|[]], r; simpl; congruence. }
  destruct (Js.ltb 60 (LongTermTrend.confidence lt)) eqn:E60;
    destruct (Js.ltb 50 (LongTermTrend.confidence lt)) eqn:E50;
    destruct (LongTermTrend.direction lt) eqn:Ed;
    destruct signal eqn:Es;
    cbn [directionEqb tradeSignalEqb andb orb negb];
    rewrite ?andb_false_r, ?andb_true_r, ?orb_false_r;
    repeat match goal with
           | |- context [adviceIs advice ?r] =>
               let E := fresh "Ea" in
               pose proof (Hadv r) as E;
               destruct (adviceIs advice r)
           end;
    cbn [andb orb];
    destruct (Js.ltb score 40) eqn:E40;
    destruct (Js.leb 45 score) eqn:E45;
    cbn [andb orb];
    facts;
    (split; intros Hout; try discriminate Hout;
     (split; [reflexivity|]); (split; [discriminate|]);
     (split; [intros [Hx Hy]; first [discriminate Hx | lra]|]);
     first [left; split; [reflexivity|]; split; [assumption|]; solve [auto]
           | right; split; [reflexivity|assumption]]).
Qed.

(** The sample report with a position to hold, and without one under the
    forcing test mode. *)
Lemma determineRecommendation_guards_witness :
  (determineRecommendation DecisionSamples.botConfig None 0
     DecisionSamples.reportWithPosition).2 = Returned hold_position
  /\ (determineRecommendation DecisionSamples.testConfig None 0
        DecisionSamples.report).2 = ReferenceError.
Proof.
  assert (Hex : PositionAnalysis.exists_
                  (Report.position DecisionSamples.reportWithPosition)
                = true) by reflexivity.
  assert (Hno : PositionAnalysis.exists_
                  (Report.position DecisionSamples.report) = false)
    by reflexivity.
  assert (Ht : BotConfig.testModeEnabled DecisionSamples.testConfig = true)
    by reflexivity.
  assert (Hf : BotConfig.forceSignals DecisionSamples.testConfig = true)
    by reflexivity.
  pose proof (determineRecommendation_guards DecisionSamples.botConfig None 0
                DecisionSamples.reportWithPosition) as H1.
  pose proof (determineRecommendation_guards DecisionSamples.testConfig None 0
                DecisionSamples.report) as H2.
  cbv zeta in H1, H2.
  destruct H1 as [H1 _]. destruct H2 as [_ [H2 _]].
  split; [rewrite (H1 Hex); reflexivity|exact (H2 Hno Ht Hf)].
Defined.

Lemma sameString_directed (vote : Direction) (s : TradeSignal) :
  s <> NoSignal -> sameString vote s = false.
Proof. destruct vote, s; simpl; congruence. Qed.

Lemma reject_sticky (c : bool) (r : Rejection) (acc : bool * list Rejection) :
  acc.1 = false -> (reject c r acc).1 = false.
Proof. unfold reject. destruct c; simpl; auto. Qed.

Lemma reject_keeps (c : bool) (r r' : Rejection)
    (acc : bool * list Rejection) :
  In r' acc.2 -> In r' (reject c r acc).2.
Proof.
  unfold reject. destruct c; simpl; [|auto].
  intros H. apply in_or_app. left. exact H.
Qed.

Lemma reject_fires (r : Rejection) (acc : bool * list Rejection) :
  (reject true r acc).1 = false /\ In r (reject true r acc).2.
Proof.
  unfold reject. simpl. split; [reflexivity|].
  apply in_or_app. right. left. reflexivity.
Qed.

(** X24: for a buy or a sell signal the votes of the RSI, of the MACD and of
    the bands never count as confirming, because they are compared with
    the signal as strings: at most the trend and the volume confirm, so at
    most two indicators.  Hence filters that ask for more than two
    confirming indicators reject every buy and every sell signal, with too
    few confirmations among the grounds, and unless the test mode
    overrides the filters [makeTradingDecision] then never decides to buy
    or to sell on such a signal. *)
Theorem applyAdvancedFilters_confirmations (cfg : BotConfig.t)
    (filters : Filters.t) (symbol : string) (signal : Technical.t) :
  Technical.signal signal <> NoSignal ->
  let details := Technical.details signal in
  let f := applyAdvancedFilters cfg filters symbol signal in
  countConfirmingIndicators signal
  = bump (match SignalDetails.volume details with
          | Some v => directionEqb (Volume.obvTrend v)
                        (expected (Technical.signal signal))
          | None => false
          end)
      (bump (match SignalDetails.trend details with
             | Some t => directionEqb (Trend.trend t)
                           (expected (Technical.signal signal))
             | None => false
             end) 0%nat)
  /\ (countConfirmingIndicators signal <= 2)%nat
  /\ forall m, Filters.minConfirmingIndicators filters = Some m -> 2 < m ->
       Filtered.passed f = false
       /\ In TooFewConfirmations (Filtered.reasons f)
       /\ forall recommendation,
            BotConfig.testModeEnabled cfg && BotConfig.overrideFilters cfg
            = false ->
            makeTradingDecision cfg filters symbol recommendation signal
            <> buy
            /\ makeTradingDecision cfg filters symbol recommendation signal
               <> sell.
Proof.
  intros Hs. cbv zeta.
  assert (Hcount : countConfirmingIndicators signal
            = bump (match SignalDetails.volume (Technical.details signal) with
                    | Some v => directionEqb (Volume.obvTrend v)
                                  (expected (Technical.signal signal))
                    | None => false
                    end)
                (bump (match SignalDetails.trend (Technical.details signal)
                       with
                       | Some t => directionEqb (Trend.trend t)
                                     (expected (Technical.signal signal))
                       | None => false
                       end) 0%nat)).
  { unfold countConfirmingIndicators. cbv zeta.
    destruct (SignalDetails.rsi _) as [a|];
      destruct (SignalDetails.macd _) as [b|];
      destruct (SignalDetails.bb _) as [c|];
      rewrite ?(sameString_directed _ _ Hs); reflexivity. }
  assert (Hle : (countConfirmingIndicators signal <= 2)%nat).
  { rewrite Hcount. unfold bump.
    destruct (match SignalDetails.volume _ with Some _ => _ | None => _ end),
      (match SignalDetails.trend _ with Some _ => _ | None => _ end); lia. }
  split; [exact Hcount|]. split; [exact Hle|].
  intros m Hm H2.
  assert (Hfire : Js.truthy m
                  && Js.ltb (inject_Z (Z.of_nat
                                         (countConfirmingIndicators signal)))
                       m = true).
  { apply andb_true_intro. split.
    - unfold Js.truthy. apply negb_true_iff.
      destruct (Qeq_bool m 0) eqn:E; [|reflexivity].
      apply Qeq_bool_eq in E. lra.
    - apply JsProps.ltb_lt.
      assert (Hq : inject_Z (Z.of_nat (countConfirmingIndicators signal))
                   <= 2).
      { unfold Qle. simpl. lia. }
      lra. }
  assert (Hf : Filtered.passed (applyAdvancedFilters cfg filters symbol signal)
               = false
               /\ In TooFewConfirmations
                    (Filtered.reasons
                       (applyAdvancedFilters cfg filters symbol signal))).
  { unfold applyAdvancedFilters. cbv zeta.
    cbn [Filtered.passed Filtered.reasons].
    rewrite Hm, Hfire.
    match goal with
    | |- context [reject true TooFewConfirmations ?acc] =>
        destruct (reject_fires TooFewConfirmations acc) as [H1 H3]
    end.
    split.
    - do 4 apply reject_sticky. exact H1.
    - do 4 apply reject_keeps. exact H3. }
  destruct Hf as [Hpass Hin].
  split; [exact Hpass|]. split; [exact Hin|].
  intros recommendation Hover. unfold makeTradingDecision.
  rewrite Hover, Hpass. cbn [negb].
  destruct recommendation; split; discriminate.
Qed.

(** A buy signal whose RSI, MACD and trend are all bullish, under filters
    that ask for three confirmations: rejected. *)
Lemma applyAdvancedFilters_confirmations_witness :
  Filtered.passed
    (applyAdvancedFilters DecisionSamples.botConfig
       DecisionSamples.threeConfirmations "BTCUSDT"
       DecisionSamples.confirmedBuy) = false.
Proof.
  assert (Hs : Technical.signal DecisionSamples.confirmedBuy <> NoSignal)
    by discriminate.
  assert (Hm : Filters.minConfirmingIndicators
                 DecisionSamples.threeConfirmations = Some 3)
    by reflexivity.
  assert (H3 : 2 < 3) by lra.
  pose proof (applyAdvancedFilters_confirmations DecisionSamples.botConfig
                DecisionSamples.threeConfirmations "BTCUSDT"
                DecisionSamples.confirmedBuy Hs) as H.
  cbv zeta in H. destruct H as [_ [_ H]].
  exact (proj1 (H 3 Hm H3)).
Defined.

(** X25: the two exit checks of a long position that [executeTrade] opened
    test different quantities and can disagree.  The position stores the
    stop and the target that [executeTrade] computes from the entry price;
    the risk manager's [checkStopLossHit] compares the price with that
    stop, while [analyzeExistingPositions] compares the profit as a
    fraction of the value of the position with the negated stop of the
    configuration.  There are a size, an entry price and a later price at
    which [checkStopLossHit] holds and [analyzeExistingPositions] answers
    to hold the position for the reason [normal]: the stop price of a
    position of size 54 entered at 10 with a stop of 2%. *)
Theorem executeTrade_exit_checks_differ (cfg : BotConfig.t)
    (rm : RiskManager.t) (ta : TechnicalAnalysis.t) (symbol : string)
    (qty cp sl tp x : Q) (now now' : Z) :
  0 < Double.mul cp (Double.sub 1 sl) ->
  0 < Double.mul cp (Double.add 1 tp) ->
  BotConfig.stopLoss cfg = Some sl -> BotConfig.takeProfit cfg = Some tp ->
  getCurrentPrice ta symbol = Some x -> 0 < x ->
  let opened := recordTrade rm symbol Buy qty cp sl tp now in
  let r := analyzeExistingPositions cfg opened.1 ta symbol now' in
  RiskManager.stopLoss opened.2 = Double.mul cp (Double.sub 1 sl)
  /\ RiskManager.takeProfit opened.2 = Double.mul cp (Double.add 1 tp)
  /\ (RiskChecks.checkStopLossHit opened.2 x = true
      <-> x <= Double.mul cp (Double.sub 1 sl))
  /\ (PositionAnalysis.reason r = Some "stop_loss"%string
      <-> Double.div (Double.mul (Double.sub x cp) qty) (Double.mul cp qty)
          <= - sl)
  /\ exists qty0 cp0 x0 : Q,
       0 < qty0 /\ 0 < cp0 /\ 0 < x0
       /\ let opened0 :=
            recordTrade (RiskManager.new Samples.cfg Samples.monday)
              "BTCUSDT" Buy qty0 cp0 (Double.round 0.02) (Double.round 0.04)
              0 in
          let r0 :=
            analyzeExistingPositions DecisionSamples.doubleConfig opened0.1
              (DecisionSamples.priced x0) "BTCUSDT" 0 in
          RiskChecks.checkStopLossHit opened0.2 x0 = true
          /\ PositionAnalysis.action r0 = PositionAnalysis.hold
          /\ PositionAnalysis.reason r0 = Some "normal"%string.
Proof.
  intros Hstop Htarget Hcs Hct Hx Hxpos. cbv zeta.
  unfold recordTrade. cbn [tradeSide]. unfold RiskManager.addPosition.
  cbv zeta. cbn [fst snd].
  unfold tradeStopLoss, tradeTakeProfit.
  change (String.eqb "Buy" "Buy") with true. cbv iota.
  assert (Htruthy : forall q, 0 < q -> Js.truthy q = true).
  { intros q Hq. unfold Js.truthy. apply negb_true_iff.
    destruct (Qeq_bool q 0) eqn:E; [|reflexivity].
    apply Qeq_bool_eq in E. lra. }
  cbn [Js.orElse]. rewrite (Htruthy _ Hstop), (Htruthy _ Htarget).
  set (p := {| RiskManager.symbol := symbol; RiskManager.side := "Buy";
               RiskManager.size := qty; RiskManager.entryPrice := cp;
               RiskManager.stopLoss := Double.mul cp (Double.sub 1 sl);
               RiskManager.takeProfit := Double.mul cp (Double.add 1 tp);
               RiskManager.timestamp := now;
               RiskManager.status := "open";
               RiskManager.isTrailingStop := false;
               RiskManager.trailingStopDistance := None;
               RiskManager.highestPrice := _;
               RiskManager.lowestPrice := _;
               RiskManager.exitPrice := None; RiskManager.exitTime := None;
               RiskManager.reason := None; RiskManager.pnl := None |}).
  assert (Hp : RiskManager.positions
                 (RiskManager.withPositions rm
                    (<[symbol := p]> (RiskManager.positions rm)))
               !! symbol = Some p) by apply lookup_insert_eq.
  destruct (exit_by_fraction cfg _ ta symbol now' p x sl tp Hp Hx Hxpos Hcs
              Hct) as [_ [Hs _]].
  cbv zeta in Hs.
  split; [reflexivity|]. split; [reflexivity|].
  split; [|split; [exact Hs|]].
  - unfold RiskChecks.checkStopLossHit.
    cbn [RiskManager.stopLoss RiskManager.side p].
    rewrite (Htruthy _ Hstop). cbn [negb].
    change (String.eqb "Buy" "Buy") with true. cbv iota.
    apply JsProps.leb_le.
  - exists 54, 10, (Double.round 9.8).
    split; [reflexivity|]. split; [reflexivity|].
    split; [vm_compute; reflexivity|].
    vm_compute. repeat split.
Qed.

(** The position of size 54 entered at 10 with a stop of 2%, at the price
    of 9.8: the risk manager's check holds. *)
Lemma executeTrade_exit_checks_differ_witness :
  RiskChecks.checkStopLossHit
    (recordTrade (RiskManager.new Samples.cfg Samples.monday) "BTCUSDT" Buy
       54 10 (Double.round 0.02) (Double.round 0.04) 0).2 (Double.round 9.8)
  = true.
Proof.
  assert (Hstop : 0 < Double.mul 10 (Double.sub 1 (Double.round 0.02)))
    by (vm_compute; reflexivity).
  assert (Htarget : 0 < Double.mul 10 (Double.add 1 (Double.round 0.04)))
    by (vm_compute; reflexivity).
  assert (Hcs : BotConfig.stopLoss DecisionSamples.doubleConfig
                = Some (Double.round 0.02)) by reflexivity.
  assert (Hct : BotConfig.takeProfit DecisionSamples.doubleConfig
                = Some (Double.round 0.04)) by reflexivity.
  assert (Hx : getCurrentPrice (DecisionSamples.priced (Double.round 9.8))
                 "BTCUSDT" = Some (Double.round 9.8))
    by (vm_compute; reflexivity).
  assert (Hxpos : 0 < Double.round 9.8) by (vm_compute; reflexivity).
  assert (Hle : Double.round 9.8
                <= Double.mul 10 (Double.sub 1 (Double.round 0.02)))
    by (vm_compute; discriminate).
  pose proof (executeTrade_exit_checks_differ DecisionSamples.doubleConfig
                (RiskManager.new Samples.cfg Samples.monday)
                (DecisionSamples.priced (Double.round 9.8)) "BTCUSDT"
                54 10 (Double.round 0.02) (Double.round 0.04)
                (Double.round 9.8) 0 0 Hstop Htarget Hcs Hct Hx Hxpos) as H.
  cbv zeta in H. destruct H as [_ [_ [H _]]].
  apply H. exact Hle.
Defined.

Lemma swingStep_refines (recent : list Candle.t) (acc : Swings.t)
    (s : TrendAnalysis.Structure.t) (i : nat) :
  (Swings.higherHighs acc + Swings.higherLows acc
   = TrendAnalysis.Structure.bullishSignals s)%nat ->
  (Swings.lowerHighs acc + Swings.lowerLows acc
   = TrendAnalysis.Structure.bearishSignals s)%nat ->
  let acc' := swingStep recent acc i in
  let s' := TrendAnalysis.structureStep recent s i in
  (Swings.higherHighs acc' + Swings.higherLows acc'
   = TrendAnalysis.Structure.bullishSignals s')%nat
  /\ (Swings.lowerHighs acc' + Swings.lowerLows acc'
      = TrendAnalysis.Structure.bearishSignals s')%nat.
Proof.
  intros Hb Hs. cbv zeta.
  unfold swingStep, TrendAnalysis.structureStep.
  destruct (recent !! i) as [current|]; [|split; assumption].
  destruct (recent !! (i - 1)%nat) as [prev|]; [|split; assumption].
  destruct (recent !! (i + 1)%nat) as [next|]; [|split; assumption].
  destruct (recent !! (i - 2)%nat) as [before|]; [|split; assumption].
  cbv zeta.
  destruct (Js.ltb (Candle.high prev) (Candle.high current)
            && Js.ltb (Candle.high next) (Candle.high current));
    destruct (Js.ltb (Candle.low current) (Candle.low prev)
              && Js.ltb (Candle.low current) (Candle.low next));
    destruct (2 <? i)%nat; cbn [andb];
    try destruct (Js.ltb (Candle.high before) (Candle.high current));
    try destruct (Js.ltb (Candle.low before) (Candle.low current));
    unfold TrendAnalysis.bumpBullish, TrendAnalysis.bumpBearish;
    simpl; split; lia.
Qed.

Lemma swings_refine (recent : list Candle.t) :
  (Swings.higherHighs (swings recent) + Swings.higherLows (swings recent)
   = TrendAnalysis.Structure.bullishSignals
       (TrendAnalysis.analyzeTrendStructure recent))%nat
  /\ (Swings.lowerHighs (swings recent) + Swings.lowerLows (swings recent)
      = TrendAnalysis.Structure.bearishSignals
          (TrendAnalysis.analyzeTrendStructure recent))%nat.
Proof.
  unfold swings, TrendAnalysis.analyzeTrendStructure.
  generalize (seq 2 (length recent - 4)).
  assert (H : forall l acc s,
            (Swings.higherHighs acc + Swings.higherLows acc
             = TrendAnalysis.Structure.bullishSignals s)%nat ->
            (Swings.lowerHighs acc + Swings.lowerLows acc
             = TrendAnalysis.Structure.bearishSignals s)%nat ->
            (Swings.higherHighs (foldl (swingStep recent) acc l)
             + Swings.higherLows (foldl (swingStep recent) acc l)
             = TrendAnalysis.Structure.bullishSignals
                 (foldl (TrendAnalysis.structureStep recent) s l))%nat
            /\ (Swings.lowerHighs (foldl (swingStep recent) acc l)
                + Swings.lowerLows (foldl (swingStep recent) acc l)
                = TrendAnalysis.Structure.bearishSignals
                    (foldl (TrendAnalysis.structureStep recent) s l))%nat).
  { induction l as [|i l IH]; intros acc s Hb Hs; [split; assumption|].
    simpl. destruct (swingStep_refines recent acc s i Hb Hs) as [Hb' Hs'].
    apply IH; assumption. }
  intros l. apply H; reflexivity.
Qed.

(** X30: the four counters of the bot's [analyzeMarketStructure] refine the
    two of the trend structure of the technical analysis on the same thirty
    candles: higher highs and higher lows together are its bullish signals,
    lower highs and lower lows together its bearish signals.  An uptrend is
    reported only when the bullish signals outnumber the bearish ones, and
    its strength is then above 1/2 and at most 1; a downtrend is the mirror
    image; a sideways pattern has strength 0, and with fewer than thirty
    candles the pattern is unknown with strength 0. *)
Theorem analyzeMarketStructure_refines_trend_structure
    (ta : TechnicalAnalysis.t) (symbol : string) :
  let m := analyzeMarketStructure ta symbol in
  let recent := sliceLast 30 (getPriceHistory ta symbol) in
  let s := TrendAnalysis.analyzeTrendStructure recent in
  ((length (getPriceHistory ta symbol) < 30)%nat ->
   MarketStructure.pattern m = unknownPattern
   /\ MarketStructure.strength m = 0)
  /\ ((30 <= length (getPriceHistory ta symbol))%nat ->
      exists c, MarketStructure.counters m = Some c
        /\ (Swings.higherHighs c + Swings.higherLows c
            = TrendAnalysis.Structure.bullishSignals s)%nat
        /\ (Swings.lowerHighs c + Swings.lowerLows c
            = TrendAnalysis.Structure.bearishSignals s)%nat)
  /\ (MarketStructure.pattern m = uptrend ->
      (TrendAnalysis.Structure.bearishSignals s
       < TrendAnalysis.Structure.bullishSignals s)%nat
      /\ 1 # 2 < MarketStructure.strength m <= 1)
  /\ (MarketStructure.pattern m = downtrend ->
      (TrendAnalysis.Structure.bullishSignals s
       < TrendAnalysis.Structure.bearishSignals s)%nat
      /\ 1 # 2 < MarketStructure.strength m <= 1)
  /\ (MarketStructure.pattern m = sideways ->
      MarketStructure.strength m = 0).
Proof.
  cbv zeta. unfold analyzeMarketStructure. cbv zeta.
  destruct (Nat.ltb_spec (length (getPriceHistory ta symbol)) 30)
    as [Hshort|Hlong].
  { cbn [MarketStructure.pattern MarketStructure.strength
         MarketStructure.counters].
    split; [intros _; split; reflexivity|]. split; [intros H; lia|].
    split; [discriminate|]. split; discriminate. }
  destruct (swings_refine (sliceLast 30 (getPriceHistory ta symbol)))
    as [Hb Hs].
  set (c := swings (sliceLast 30 (getPriceHistory ta symbol))) in *.
  set (hh := Swings.higherHighs c) in *.
  set (lh := Swings.lowerHighs c) in *.
  set (hl := Swings.higherLows c) in *.
  set (ll := Swings.lowerLows c) in *.
  assert (Hratio : forall a b : nat, (b < a)%nat ->
            1 # 2 < number a / number (a + b)
            /\ number a / number (a + b) <= 1).
  { intros a b Hab.
    assert (Hpos : 0 < number (a + b)) by (unfold number, Qlt; simpl; lia).
    split.
    - apply Qlt_shift_div_l; [exact Hpos|].
      unfold number, Qlt. simpl. lia.
    - apply Qle_shift_div_r; [exact Hpos|].
      unfold number, Qle. simpl. lia. }
  destruct ((lh <? hh)%nat && (ll <? hl)%nat) eqn:Eup.
  - apply andb_prop in Eup. destruct Eup as [E1 E2].
    apply Nat.ltb_lt in E1. apply Nat.ltb_lt in E2.
    cbn [MarketStructure.pattern MarketStructure.strength
         MarketStructure.counters].
    split; [intros H; lia|].
    split; [intros _; exists c; split; [reflexivity|split; assumption]|].
    split; [|split; discriminate].
    intros _. split; [lia|].
    replace (hh + lh + hl + ll)%nat with ((hh + hl) + (lh + ll))%nat by lia.
    apply Hratio. lia.
  - destruct ((hh <? lh)%nat && (hl <? ll)%nat) eqn:Edown.
    + apply andb_prop in Edown. destruct Edown as [E1 E2].
      apply Nat.ltb_lt in E1. apply Nat.ltb_lt in E2.
      cbn [MarketStructure.pattern MarketStructure.strength
           MarketStructure.counters].
      split; [intros H; lia|].
      split; [intros _; exists c; split; [reflexivity|split; assumption]|].
      split; [discriminate|]. split; [|discriminate].
      intros _. split; [lia|].
      replace (hh + lh + hl + ll)%nat with ((lh + ll) + (hh + hl))%nat by lia.
      apply Hratio. lia.
    + cbn [MarketStructure.pattern MarketStructure.strength
           MarketStructure.counters].
      split; [intros H; lia|].
      split; [intros _; exists c; split; [reflexivity|split; assumption]|].
      split; [discriminate|]. split; [discriminate|].
      intros _. reflexivity.
Qed.

(** Ten candles are fewer than thirty: the pattern is unknown. *)
Lemma analyzeMarketStructure_refines_trend_structure_witness :
  MarketStructure.pattern (analyzeMarketStructure Samples.tenCandles "BTCUSDT")
  = unknownPattern.
Proof.
  assert (Hlen : (length (getPriceHistory Samples.tenCandles "BTCUSDT")
                  < 30)%nat)
    by (vm_compute; lia).
  pose proof (analyzeMarketStructure_refines_trend_structure
                Samples.tenCandles "BTCUSDT") as H.
  cbv zeta in H. destruct H as [H _].
  exact (proj1 (H Hlen)).
Defined.

End DecisionsProps.

(** ** Reversal detection on a position that nothing speaks against *)

Module EvidenceProps.

Import TechnicalAnalysis TradingBot Evidence.

Lemma ltb_false_of_le (x y : Q) : y <= x -> Js.ltb x y = false.
Proof. intros H. apply JsProps.ltb_ge, H. Qed.

Lemma aligned_votes (sd : string) (sig : Signal.t)
    (lt : option LongTermTrend.t) (st : option ShortTermTrend.t) :
  aligned sd sig lt st ->
  (technicalSignalVote sd sig).1 = 0
  /\ (longTermTrendVote sd lt).1 = 0
  /\ (shortTermTrendVote sd st).1 = 0
  /\ (rsiVote sd sig).1 = 0
  /\ (macdVote sd sig).1 = 0.
Proof.
  intros [[-> [Hs [Hl [Ht [Hr Hm]]]]]|[-> [Hs [Hl [Ht [Hr Hm]]]]]].
  - change (isBuy "Buy") with true. change (isSell "Buy") with false.
    split; [|split; [|split; [|split]]].
    + unfold technicalSignalVote.
      change (isBuy "Buy") with true. change (isSell "Buy") with false.
      destruct (Signal.signal sig); simpl; congruence.
    + unfold longTermTrendVote.
      change (isBuy "Buy") with true. change (isSell "Buy") with false.
      destruct lt as [l|]; [|reflexivity].
      specialize (Hl l eq_refl).
      destruct (LongTermTrend.direction l); simpl; try reflexivity.
      rewrite (ltb_false_of_le _ _ (Hl eq_refl)). reflexivity.
    + unfold shortTermTrendVote.
      change (isBuy "Buy") with true. change (isSell "Buy") with false.
      destruct st as [s|]; [|reflexivity].
      specialize (Ht s eq_refl).
      destruct (ShortTermTrend.direction s); simpl; congruence.
    + unfold rsiVote.
      change (isBuy "Buy") with true. change (isSell "Buy") with false.
      destruct (Signal.rsi_value (Signal.details sig)) as [r|];
        [|reflexivity].
      rewrite (ltb_false_of_le _ _ (Hr r eq_refl)).
      destruct (Js.truthy r); reflexivity.
    + unfold macdVote.
      change (isBuy "Buy") with true. change (isSell "Buy") with false.
      destruct (Signal.macd_value (Signal.details sig)) as [m|];
        [|reflexivity].
      destruct (Hm m eq_refl) as [H|H];
        rewrite (ltb_false_of_le _ _ H); simpl;
        rewrite ?andb_false_r; reflexivity.
  - split; [|split; [|split; [|split]]].
    + unfold technicalSignalVote.
      change (isBuy "Sell") with false. change (isSell "Sell") with true.
      destruct (Signal.signal sig); simpl; congruence.
    + unfold longTermTrendVote.
      change (isBuy "Sell") with false. change (isSell "Sell") with true.
      destruct lt as [l|]; [|reflexivity].
      specialize (Hl l eq_refl).
      destruct (LongTermTrend.direction l); simpl; try reflexivity.
      rewrite (ltb_false_of_le _ _ (Hl eq_refl)). reflexivity.
    + unfold shortTermTrendVote.
      change (isBuy "Sell") with false. change (isSell "Sell") with true.
      destruct st as [s|]; [|reflexivity].
      specialize (Ht s eq_refl).
      destruct (ShortTermTrend.direction s); simpl; congruence.
    + unfold rsiVote.
      change (isBuy "Sell") with false. change (isSell "Sell") with true.
      destruct (Signal.rsi_value (Signal.details sig)) as [r|];
        [|reflexivity].
      rewrite (ltb_false_of_le _ _ (Hr r eq_refl)).
      destruct (Js.truthy r); reflexivity.
    + unfold macdVote.
      change (isBuy "Sell") with false. change (isSell "Sell") with true.
      destruct (Signal.macd_value (Signal.details sig)) as [m|];
        [|reflexivity].
      destruct (Hm m eq_refl) as [H|H];
        rewrite (ltb_false_of_le _ _ H); simpl;
        rewrite ?andb_false_r; reflexivity.
Qed.

Lemma confidenceVote_cap (sig : Signal.t) :
  Signal.confidence sig <= 100 -> confidenceVote sig <= 0.025.
Proof.
  intros H. unfold confidenceVote.
  destruct (Js.ltb (Signal.confidence sig) 30); [lra|].
  assert (H1 : Signal.confidence sig / 100 <= 1)
    by (apply Qle_shift_div_r; lra).
  lra.
Qed.

(** X26: a position that no criterion speaks against is never closed for a
    reversal: its reversal strength is the weight of the signal's
    confidence alone, at most 0.025 for a confidence of at most 100, so
    with reversal thresholds of at least 0.025 [detectTrendReversal]
    answers not to close, whatever the profit or loss and whether or not
    the profit protection is configured. *)
Theorem detectTrendReversal_keeps_aligned_position
    (pp : option ProfitProtection.t) (position : RiskManager.Position)
    (sig : Signal.t) (lt : option LongTermTrend.t)
    (st : option ShortTermTrend.t) (pnlPercent : Q) :
  aligned (RiskManager.side position) sig lt st ->
  Signal.confidence sig <= 100 ->
  (forall p, pp = Some p -> thresholdsAtLeast 0.025 p) ->
  let r := detectTrendReversal pp position sig lt st pnlPercent in
  Reversal.strength r == confidenceVote sig
  /\ Reversal.strength r <= 0.025
  /\ Reversal.shouldClose r = false.
Proof.
  intros Hal Hconf Hthr. cbv zeta.
  destruct (aligned_votes _ _ _ _ Hal) as [V1 [V2 [V3 [V4 V5]]]].
  pose proof (confidenceVote_cap sig Hconf) as Hcap.
  assert (Hstr : Reversal.strength
                   (detectTrendReversal pp position sig lt st pnlPercent)
                 == confidenceVote sig).
  { rewrite TradingBotProps.strength_detectTrendReversal. unfold reversalStrength.
    cbn [Indicators.technicalSignal Indicators.longTermTrend
         Indicators.shortTermTrend Indicators.rsi Indicators.macd
         Indicators.confidence].
    rewrite V1, V2, V3, V4, V5. ring. }
  split; [exact Hstr|]. split; [rewrite Hstr; exact Hcap|].
  unfold detectTrendReversal.
  destruct (technicalSignalVote _ sig) as [i1 r1].
  destruct (longTermTrendVote _ lt) as [i2 r2].
  destruct (shortTermTrendVote _ st) as [i3 r3].
  destruct (rsiVote _ sig) as [i4 r4].
  destruct (macdVote _ sig) as [i5 r5].
  cbn [fst] in V1, V2, V3, V4, V5. subst i1 i2 i3 i4 i5.
  destruct pp as [p|]; [|reflexivity].
  destruct (ProfitProtection.enabled p); [|reflexivity].
  destruct (Hthr p eq_refl) as [T1 [T2 T3]].
  cbn [negb]. cbv iota.
  set (strength := reversalStrength _).
  assert (Hs : strength <= 0.025).
  { unfold strength, reversalStrength.
    cbn [Indicators.technicalSignal Indicators.longTermTrend
         Indicators.shortTermTrend Indicators.rsi Indicators.macd
         Indicators.confidence]. lra. }
  rewrite (ltb_false_of_le (ProfitProtection.trendReversalThreshold p)
             strength) by lra.
  rewrite (ltb_false_of_le (ProfitProtection.criticalReversalThreshold p)
             strength) by lra.
  rewrite (ltb_false_of_le (ProfitProtection.lossMinimizationThreshold p)
             strength) by lra.
  rewrite !andb_false_r. reflexivity.
Qed.

(** The short position under a quiet signal and no trends, with the sample
    protection: kept. *)
Lemma detectTrendReversal_keeps_aligned_position_witness :
  Reversal.shouldClose
    (detectTrendReversal (Some Samples.protection) Samples.ethShort
       Samples.quietSignal None None 5) = false.
Proof.
  assert (Hal : aligned (RiskManager.side Samples.ethShort)
                  Samples.quietSignal None None).
  { right. split; [reflexivity|]. split; [discriminate|].
    split; [discriminate|]. split; [discriminate|].
    split; discriminate. }
  assert (Hconf : Signal.confidence Samples.quietSignal <= 100)
    by (vm_compute; discriminate).
  assert (Hthr : forall p, Some Samples.protection = Some p ->
                   thresholdsAtLeast 0.025 p).
  { intros p Hp. apply (inj Some) in Hp. subst p.
    split; [|split]; vm_compute; discriminate. }
  pose proof (detectTrendReversal_keeps_aligned_position
                (Some Samples.protection) Samples.ethShort
                Samples.quietSignal None None 5 Hal Hconf Hthr) as H.
  cbv zeta in H. exact (proj2 (proj2 H)).
Defined.

End EvidenceProps.

(** ** The quantity of a position against the minimum of the REST client *)

Module BybitRestApiProps.

Import RiskManager.

Lemma getMinQty_covered (sym : string) :
  sym <> "BNBUSDT"%string ->
  BybitRestApi.getMinQty sym <= RiskManager.getMinQty sym.
Proof.
  intros Hne.
  unfold BybitRestApi.getMinQty, RiskManager.getMinQty,
    BybitRestApi.minQtyMap, RiskManager.minQtyMap.
  cbn [objGet].
  repeat match goal with
         | |- context [String.eqb sym ?k] =>
             destruct (String.eqb_spec sym k) as [->|?];
             [first [exfalso; apply Hne; reflexivity
                    | vm_compute; discriminate]|]
         end.
  vm_compute. discriminate.
Qed.

Lemma quantity_at_least_minimum (rm : t) (balance : Q) (sym : string)
    (signalStrength confidence currentPrice : Q) :
  0 < currentPrice ->
  RiskManager.getMinQty sym
  <= quantity (calculatePositionSize rm balance sym signalStrength confidence
                 (Some currentPrice)).
Proof.
  intros Hcp. unfold calculatePositionSize.
  assert (Ht : Js.truthy currentPrice && Js.ltb 0 currentPrice = true).
  { apply andb_true_intro. split.
    - unfold Js.truthy. apply negb_true_iff.
      destruct (Qeq_bool currentPrice 0) eqn:E; [|reflexivity].
      apply Qeq_bool_eq in E. lra.
    - apply JsProps.ltb_lt, Hcp. }
  rewrite Ht. cbn [quantity]. apply Q.le_max_r.
Qed.

(** X27: the quantity that [calculatePositionSize] gives for a positive price,
    which is the size of the position that [executeTrade] opens, passes
    the minimum check of the REST client's [placeMarketOrder], through
    which the position is closed, for every symbol but BNBUSDT: the
    client's minimum is at most the risk manager's for all other symbols.
    For BNBUSDT the client's minimum is 0.01 against the risk manager's
    0.001, and there is a sizing whose quantity the client rejects. *)
Theorem placeMarketOrder_accepts_sized_quantity (rm : t) (balance : Q)
    (sym : string) (signalStrength confidence currentPrice : Q) :
  0 < currentPrice ->
  let qty := quantity (calculatePositionSize rm balance sym signalStrength
                         confidence (Some currentPrice)) in
  (sym <> "BNBUSDT"%string ->
   BybitRestApi.getMinQty sym <= RiskManager.getMinQty sym
   /\ BybitRestApi.rejectsQuantity sym qty = false)
  /\ exists balance' price',
       0 < price'
       /\ BybitRestApi.rejectsQuantity "BNBUSDT"
            (quantity (calculatePositionSize
                         (RiskManager.new (config rm) ""%string) balance'
                         "BNBUSDT" 0 0 (Some price'))) = true.
Proof.
  intros Hcp. cbv zeta. split.
  - intros Hne. pose proof (getMinQty_covered sym Hne) as Hcov.
    split; [exact Hcov|].
    unfold BybitRestApi.rejectsQuantity. apply JsProps.ltb_ge.
    eapply Qle_trans; [exact Hcov|].
    apply quantity_at_least_minimum, Hcp.
  - exists 100, 5000. split; [lra|].
    unfold calculatePositionSize. cbv zeta.
    change (Js.truthy 5000 && Js.ltb 0 5000) with true. cbv iota.
    cbn [quantity config RiskManager.new].
    set (adjusted := 100 * Config.positionSize (config rm)
                     * Qmin (0 * 1.5) 1.5 * (0 / 100)).
    assert (Hadj : adjusted == 0).
    { unfold adjusted.
      assert (Hz : Qmin (0 * 1.5) 1.5 == 0) by (vm_compute; reflexivity).
      rewrite Hz. ring. }
    assert (Hsize : Qmax (Qmin adjusted (100 * 0.7)) 25 == 25).
    { apply Q.max_r. eapply Qle_trans; [apply Q.le_min_l|].
      rewrite Hadj. lra. }
    assert (Hfloor : Js.floor (Qmax (Qmin adjusted (100 * 0.7)) 25 / 5000
                               * Js.pow10 (getSymbolDecimals "BNBUSDT"))
                     = 5).
    { unfold Js.floor. f_equal.
      assert (Hq : Qmax (Qmin adjusted (100 * 0.7)) 25 / 5000
                   * Js.pow10 (getSymbolDecimals "BNBUSDT") == 5).
      { rewrite Hsize. vm_compute. reflexivity. }
      rewrite (Qfloor_comp _ _ Hq). reflexivity. }
    rewrite Hfloor.
    unfold BybitRestApi.rejectsQuantity. vm_compute. reflexivity.
Qed.

(** A Bitcoin position sized on a balance of 10000 at a price of 50000 can
    be closed through the client. *)
Lemma placeMarketOrder_accepts_sized_quantity_witness :
  BybitRestApi.rejectsQuantity "BTCUSDT"
    (quantity (calculatePositionSize
                 (RiskManager.new Samples.cfg Samples.monday) 10000
                 "BTCUSDT" 0.9 80 (Some 50000))) = false.
Proof.
  assert (Hcp : 0 < 50000) by lra.
  assert (Hne : "BTCUSDT"%string <> "BNBUSDT"%string) by discriminate.
  pose proof (placeMarketOrder_accepts_sized_quantity
                (RiskManager.new Samples.cfg Samples.monday) 10000
                "BTCUSDT" 0.9 80 50000 Hcp) as H.
  cbv zeta in H. destruct H as [H _].
  exact (proj2 (H Hne)).
Defined.

End BybitRestApiProps.

(** ** The bookkeeping of the performance monitor *)

Module PerformanceMonitorProps.

Import PerformanceMonitor.

Lemma isOpenFor_not_closed (symbol : string) (t : TradeRecord.t) :
  isOpenFor symbol t = true -> isClosed t = false.
Proof.
  unfold isOpenFor, isClosed. intros H.
  apply andb_prop in H. destruct H as [_ H].
  apply String.eqb_eq in H. rewrite H. reflexivity.
Qed.

(** What closing the first open record of a symbol does to the history. *)
Lemma closeFirst_spec (symbol : string) (exitPrice pnl : Q) (reason : string)
    (now : Z) (history history' : list TradeRecord.t) :
  closeFirst symbol exitPrice pnl reason now history = Some history' ->
  length history' = length history
  /\ closedCount history' = S (closedCount history)
  /\ length (List.filter isWinner history')
     = (length (List.filter isWinner history)
        + if Js.ltb 0 pnl then 1 else 0)%nat
  /\ forall P : TradeRecord.t -> Prop,
       Forall P history ->
       (forall t, isClosed t = false ->
                  P (closeRecord t exitPrice pnl reason now)) ->
       Forall P history'.
Proof.
  revert history'. induction history as [|t rest IH]; intros history' H.
  - discriminate H.
  - simpl in H. destruct (isOpenFor symbol t) eqn:E.
    + apply (inj Some) in H. subst history'.
      apply isOpenFor_not_closed in E.
      unfold closedCount, isWinner. simpl. rewrite E.
      change (isClosed (closeRecord t exitPrice pnl reason now)) with true.
      cbn [andb TradeRecord.pnl closeRecord Js.num].
      split; [reflexivity|]. split; [reflexivity|].
      split; [destruct (Js.ltb 0 pnl); simpl; lia|].
      intros P HP Hnew. apply Forall_cons in HP. destruct HP as [_ HP].
      apply Forall_cons. split; [apply Hnew, E|exact HP].
    + destruct (closeFirst symbol exitPrice pnl reason now rest) as [rest'|];
        [|discriminate H].
      simpl in H. apply (inj Some) in H. subst history'.
      destruct (IH rest' eq_refl) as [H1 [H2 [H3 H4]]].
      unfold closedCount in *. simpl.
      split; [congruence|].
      split; [destruct (isClosed t); simpl; congruence|].
      split; [destruct (isWinner t); simpl; lia|].
      intros P HP Hnew. apply Forall_cons in HP. destruct HP as [Ht HP].
      apply Forall_cons. split; [exact Ht|apply (H4 P HP Hnew)].
Qed.

Lemma consistent_new (now : Z) : consistent (new now).
Proof.
  unfold consistent. simpl.
  repeat split; first [lia | lra | reflexivity | apply Forall_nil_2].
Qed.

Lemma consistent_call (pm : t) (c : Call) :
  consistent pm -> consistent (call pm c).
Proof.
  unfold consistent. cbv zeta.
  intros [H1 [H2 [H3 [H4 [H5 [H6 H7]]]]]].
  destruct c; cbn [call].
  - unfold recordSignalAnalysis. cbv zeta.
    cbn [metrics signalHistory tradeHistory Metrics.tradesExecuted
         Metrics.signalsAnalyzed Metrics.signalsFiltered
         Metrics.tradesSuccessful Metrics.totalProfit Metrics.totalLoss].
    rewrite List.filter_app, !length_app. simpl.
    split; [exact H1|]. split; [lia|].
    split; [destruct filtered; simpl; lia|].
    split; [exact H4|]. split; [exact H5|]. split; [exact H6|exact H7].
  - unfold recordTrade. cbv zeta.
    cbn [metrics signalHistory tradeHistory Metrics.tradesExecuted
         Metrics.signalsAnalyzed Metrics.signalsFiltered
         Metrics.tradesSuccessful Metrics.totalProfit Metrics.totalLoss].
    rewrite List.filter_app, !length_app. simpl.
    split; [lia|]. split; [exact H2|]. split; [exact H3|].
    split; [lia|]. split; [exact H5|]. split; [exact H6|].
    apply Forall_app. split; [exact H7|].
    apply Forall_cons. split; [|apply Forall_nil_2].
    intros Hc. discriminate Hc.
  - unfold recordTradeClose.
    destruct (closeFirst symbol exitPrice pnl reason now (tradeHistory pm))
      as [history|] eqn:E.
    + destruct (closeFirst_spec _ _ _ _ _ _ _ E) as [L1 [_ [L3 L4]]].
      cbv zeta. cbn [metrics signalHistory tradeHistory].
      destruct (Js.ltb 0 pnl) eqn:Ep;
        cbn [Metrics.tradesExecuted Metrics.signalsAnalyzed
             Metrics.signalsFiltered Metrics.tradesSuccessful
             Metrics.totalProfit Metrics.totalLoss].
      * apply JsProps.ltb_lt in Ep.
        split; [congruence|]. split; [exact H2|]. split; [exact H3|].
        split; [lia|]. split; [lra|]. split; [exact H6|].
        apply L4.
        -- eapply Forall_impl; [exact H7|].
           intros t Ht Hc. destruct (Ht Hc) as [x [Hx [Hx1 Hx2]]].
           exists x. cbn [metrics Metrics.totalProfit Metrics.totalLoss].
           split; [exact Hx|].
           split; [intros H; specialize (Hx1 H); lra|exact Hx2].
        -- intros t _ _. exists pnl.
           cbn [metrics Metrics.totalProfit Metrics.totalLoss
                TradeRecord.pnl closeRecord].
           split; [reflexivity|]. split; [intros _; lra|intros H; lra].
      * apply JsProps.ltb_ge in Ep.
        pose proof (Qabs_neg pnl Ep) as Hn.
        split; [congruence|]. split; [exact H2|]. split; [exact H3|].
        split; [lia|]. split; [exact H5|]. split; [rewrite Hn; lra|].
        apply L4.
        -- eapply Forall_impl; [exact H7|].
           intros t Ht Hc. destruct (Ht Hc) as [x [Hx [Hx1 Hx2]]].
           exists x. cbn [metrics Metrics.totalProfit Metrics.totalLoss].
           split; [exact Hx|]. split; [exact Hx1|].
           intros H; specialize (Hx2 H). rewrite Hn. lra.
        -- intros t _ _. exists pnl.
           cbn [metrics Metrics.totalProfit Metrics.totalLoss
                TradeRecord.pnl closeRecord].
           split; [reflexivity|].
           split; [intros H; lra|intros _; rewrite Hn; lra].
    + split; [exact H1|]. split; [exact H2|]. split; [exact H3|].
      split; [exact H4|]. split; [exact H5|]. split; [exact H6|exact H7].
Qed.

Lemma consistent_calls (cs : list Call) (pm : t) :
  consistent pm -> consistent (calls pm cs).
Proof.
  revert pm. induction cs as [|c cs IH]; intros pm H; [exact H|].
  apply (IH (call pm c)), consistent_call, H.
Qed.

Lemma filter_length_le {A : Type} (f : A -> bool) (l : list A) :
  (length (List.filter f l) <= length l)%nat.
Proof.
  induction l as [|x l IH]; simpl; [lia|].
  destruct (f x); simpl; lia.
Qed.

Lemma winners_closed (history : list TradeRecord.t) :
  (length (List.filter isWinner history) <= closedCount history)%nat.
Proof.
  unfold closedCount, isWinner.
  induction history as [|t rest IH]; simpl; [lia|].
  destruct (isClosed t); simpl; [|exact IH].
  destruct (Js.ltb 0 (Js.num (TradeRecord.pnl t))); simpl; lia.
Qed.

(** X28: after any history of calls on a new monitor its counters account for
    its records: the trades executed are the trade records and the signals
    analysed the signal records, the filtered signals are the signal
    records marked as filtered, the successful trades are the records
    closed with a positive profit, the total profit and the total loss
    are not negative, and every closed record carries a profit that is at
    most the total profit when it is positive and whose negation is at
    most the total loss otherwise.  Hence the filtered signals are among
    the analysed ones, the successful trades among the closed records, and
    the win rate lies between 0 and 100. *)
Theorem monitor_counters_account_for_records (now : Z) (cs : list Call) :
  let pm := calls (new now) cs in
  consistent pm
  /\ (Metrics.signalsFiltered (metrics pm)
      <= Metrics.signalsAnalyzed (metrics pm))%nat
  /\ (Metrics.tradesSuccessful (metrics pm)
      <= closedCount (tradeHistory pm))%nat
  /\ (Metrics.tradesSuccessful (metrics pm)
      <= Metrics.tradesExecuted (metrics pm))%nat
  /\ 0 <= winRate pm <= 100.
Proof.
  cbv zeta.
  pose proof (consistent_calls cs (new now) (consistent_new now)) as H.
  split; [exact H|].
  destruct H as [H1 [H2 [H3 [H4 _]]]].
  pose proof (filter_length_le SignalRecord.filtered
                (signalHistory (calls (new now) cs))) as Hf.
  pose proof (winners_closed (tradeHistory (calls (new now) cs))) as Hw.
  pose proof (filter_length_le isWinner
                (tradeHistory (calls (new now) cs))) as Hc.
  split; [lia|]. split; [lia|].
  assert (Hle : (Metrics.tradesSuccessful (metrics (calls (new now) cs))
                 <= Metrics.tradesExecuted (metrics (calls (new now) cs)))%nat)
    by lia.
  split; [exact Hle|].
  unfold winRate. cbv zeta.
  set (s := Metrics.tradesSuccessful _) in *.
  set (e := Metrics.tradesExecuted _) in *.
  destruct (Nat.ltb_spec 0 e) as [He|He]; [|lra].
  assert (Hq : 0 < inject_Z (Z.of_nat e)) by (unfold Qlt; simpl; lia).
  assert (Hs : 0 <= inject_Z (Z.of_nat s)) by (unfold Qle; simpl; lia).
  assert (Hse : inject_Z (Z.of_nat s) <= inject_Z (Z.of_nat e))
    by (unfold Qle; simpl; lia).
  assert (H0 : 0 <= inject_Z (Z.of_nat s) / inject_Z (Z.of_nat e))
    by (apply Qle_shift_div_l; [exact Hq|lra]).
  assert (H1' : inject_Z (Z.of_nat s) / inject_Z (Z.of_nat e) <= 1)
    by (apply Qle_shift_div_r; [exact Hq|lra]).
  split; lra.
Qed.

End PerformanceMonitorProps.

(** ** The volatility rank on a short history *)

Module VolatilityProps.

Import TechnicalAnalysis.

Lemma volatilitySamples_count (sqrt : Q -> Q) (history : list Candle.t)
    (fuel i : nat) :
  (1 <= length (volatilitySamples sqrt fuel i history) ->
   i + 20 * (length (volatilitySamples sqrt fuel i history) - 1)
   < length history)%nat.
Proof.
  revert i. induction fuel as [|fuel IH]; intros i; simpl; [lia|].
  destruct (Nat.ltb_spec i (length history)) as [Hlt|Hge]; simpl; [|lia].
  intros _. specialize (IH (i + 20)%nat).
  destruct (length (volatilitySamples sqrt fuel (i + 20) history)) as [|n];
    [lia|].
  simpl in *. lia.
Qed.

Lemma findIndexFrom_range (f : Q -> bool) (l : list Q) (i : Z) :
  (findIndexFrom f i l = -1
   \/ i <= findIndexFrom f i l < i + Z.of_nat (length l))%Z.
Proof.
  revert i. induction l as [|x l IH]; intros i; simpl; [left; reflexivity|].
  destruct (f x); [right; lia|].
  destruct (IH (i + 1)%Z) as [H|H]; [left; exact H|right; lia].
Qed.

(** X29: on a history of at most 120 candles the volatility rank is never
    ['high']: below 100 candles it is ['medium'], and from 100 to 120
    candles the loop of [getVolatilityRank] takes at most five samples, so
    the index of the current volatility among them, over their number, is
    at most 0.8, which is not above the bound of 0.8 that ['high'] takes.
    The same holds of the rank in the result of [calculateVolatility]. *)
Theorem getVolatilityRank_never_high_below_121
    (ATR_calculate : list Q -> list Q -> list Q -> Z -> list Q)
    (sqrt : Q -> Q) (ta : t) (sym : string) (currentVolatility : Q)
    (period : nat) :
  (length (getPriceHistory ta sym) <= 120)%nat ->
  getVolatilityRank sqrt ta sym currentVolatility <> High
  /\ forall v, calculateVolatility ATR_calculate sqrt ta sym period = Some v ->
       Volatility.volatilityRank v <> High.
Proof.
  intros Hlen.
  assert (Hrank : forall x, getVolatilityRank sqrt ta sym x <> High).
  { intros x. unfold getVolatilityRank. cbv zeta.
    destruct (length (getPriceHistory ta sym) <? 100)%nat; [discriminate|].
    rewrite TechnicalAnalysisProps.length_sortAscending.
    set (samples := volatilitySamples sqrt _ 20 (getPriceHistory ta sym)).
    pose proof (volatilitySamples_count sqrt (getPriceHistory ta sym)
                  (length (getPriceHistory ta sym)) 20) as Hcount.
    fold samples in Hcount.
    assert (Hn : (length samples <= 5)%nat) by lia.
    unfold findIndex.
    destruct (findIndexFrom_range (fun v => Js.leb x v)
                (sortAscending samples) 0) as [Hidx|Hidx].
    - rewrite Hidx.
      assert (Hlow : Js.ltb (inject_Z (-1)
                             / inject_Z (Z.of_nat (length samples))) 0.2
                     = true).
      { apply JsProps.ltb_lt.
        destruct (length samples) as [|[|[|[|[|[|n]]]]]];
          [vm_compute; reflexivity..|lia]. }
      rewrite Hlow. discriminate.
    - rewrite TechnicalAnalysisProps.length_sortAscending in Hidx.
      set (idx := findIndexFrom _ 0 _) in *.
      destruct (Js.ltb (inject_Z idx / _) 0.2); [discriminate|].
      assert (Hnot : Js.ltb 0.8 (inject_Z idx
                                 / inject_Z (Z.of_nat (length samples)))
                     = false).
      { apply JsProps.ltb_ge.
        assert (Hpos : 0 < inject_Z (Z.of_nat (length samples)))
          by (unfold Qlt; simpl; lia).
        apply Qle_shift_div_r; [exact Hpos|].
        unfold Qle. simpl. lia. }
      rewrite Hnot. discriminate. }
  split; [apply Hrank|].
  intros v Hv. unfold calculateVolatility in Hv. cbv zeta in Hv.
  destruct (length (getPriceHistory ta sym) <? period)%nat;
    [discriminate Hv|].
  apply (inj Some) in Hv. subst v. cbn [Volatility.volatilityRank].
  apply Hrank.
Qed.

(** Forty candles: the rank is not ['high']. *)
Lemma getVolatilityRank_never_high_below_121_witness :
  getVolatilityRank Samples.idSqrt Samples.fortyCandles "BTCUSDT" 1 <> High.
Proof.
  assert (Hlen : (length (getPriceHistory Samples.fortyCandles "BTCUSDT")
                  <= 120)%nat)
    by (vm_compute; lia).
  exact (proj1 (getVolatilityRank_never_high_below_121 Samples.constATR
                  Samples.idSqrt Samples.fortyCandles "BTCUSDT" 1 20 Hlen)).
Defined.

End VolatilityProps.
